(* ===== verification/_CoqProject ===== *)
-Q . S2P
Prelude.v
States.v
Defaults.v
Logger.v
Datetime.v
TempHumidity.v
PyMath.v
Mq7.v
World.v
Fixtures.v
Config.v
Mq135.v
Mqtt.v
ServiceLed.v
Power.v
Watchdog.v
Wifi.v
ErrorHandler.v
System.v
BaseSensor.v
SensorManager.v
App.v
SensorTable.v
LedPrototype.v
