(* ===== verification/Prelude.v ===== *)
(** * generic-pico-sw: a verification development of the IoT node firmware

    The firmware (src/generic-pico-sw) runs on a Raspberry Pi Pico W.
    [main.py] builds an [Application] (src/app.py) from the JSON document
    of config.json.  The application makes the [STARTUP] transition,
    connects Wi-Fi and MQTT, creates the sensors, makes the [ACTIVE]
    transition and then loops: feed the watchdog, check Wi-Fi, deliver
    one pending MQTT message, run the sensor scheduler, sleep.  MQTT
    messages reach the [SensorManager] callbacks (per-sensor commands and
    configuration) and the [SystemManager] callbacks (device commands,
    power settings).  Every ordinary exception of the run ends in
    [ErrorHandler.handle_error], which follows the [error_handling]
    policy of the [system] section: it publishes the error only when
    [post_global_errors] is set (by default it does not) and resets the
    board unless [auto_restart_on_error] is off (by default it does).

    ** Files, in dependency order
    - [Prelude] (this file): the exceptions [exn]; the state and exception
      monad [PyM S A := S -> (exn + A) * S] with [let*], [;;], [ptry]
      ([try ... except Exception]) and [pfor] ([for] over a list); [json],
      the values [json.loads] produces, with Python truthiness; dict
      operations [dget]/[dset] on insertion-ordered association lists;
      the frame relations [respects] and [only_exc]; the hint databases
      [py] and [py_rw] and the tactics [py_unfold], [solve_respects],
      [solve_only_exc].
    - [States]: [DeviceState] and [SensorState] (device_state.py,
      sensor_state.py) as enumerations with their string constants.
    - [Defaults]: the constants of defaults.py that the code reads.
    - [Logger]: logger.py's level filter and its equivalence with an
      ordered enumeration of levels.
    - [Datetime]: datetime.py's [get_formatted_datetime], with Python's
      zero-padded integer formatting, and a reader of its layout.
    - [TempHumidity]: the DHT11 class's [read_values]: unit conversions,
      the returned dict, the re-raised driver error.
    - [PyMath]: MicroPython's numbers for the gas-sensor prototypes:
      floats as exact rationals with [inf], [-inf] and [nan] ([xfloat]),
      division by zero, the domain errors of [math.pow], [math.log] and
      [math.exp], and [time.ticks_ms]/[time.ticks_diff] at the 2^30
      period of the rp2 port.
    - [Mq135]: the MQ-135 class of my/tesssssssssssstttt.py (resistance,
      temperature and humidity correction, ppm and RZero, the script's
      [Config()], [Logger(config)] and loop), each method on the ADC
      reading of its call.
    - [Mq7]: the MQ-7 class of my/testtttt.py and its script as
      computations on the object and its board (ADC answers, uptime,
      printed lines): averaging, calibration, the carbon monoxide
      estimate, the heater cycle.
    - [World]: the object store: one record [World] holding the mutable
      fields of every object ([Config], [MQTTManager], the sensors and
      their timers, [Lifecycle], [StateManager], [ServiceLED]), the clock
      and the trace of outside effects (publishes, subscriptions, saves,
      pixel writes, sleeps, watchdog feeds).  [Env] holds what the outside
      world answers (broker, file system, clock format).
    - [Fixtures]: a concrete configuration and world used by witnesses.
    - [Config]: [load_config] and the getters on the decoded document,
      [save_config] and [reset_config] (utils/config.py).  The
      sensors and the system manager alias dicts of the boot document;
      after [reset_config] [self.data] is a new document, which the model
      keeps apart ([cfg_doc], [cfg_reset]).
    - [Mqtt]: [MQTTManager.publish], [subscribe], [check_messages] and the
      router of mqtt_manager.py.
    - [ServiceLed]: service_led.py: [indicate_state] and the [_animate_led]
      task as the list of its pixel writes and sleeps.
    - [Power]: bsp/power.py: [reboot], [shutdown], deep sleep.
    - [Watchdog]: bsp/watchdog.py: the timeout clamp and [feed].
    - [Wifi]: wifi_manager.py: every method; the radio calls as events
      of the trace, the station's answers as a parameter.
    - [ErrorHandler]: error_handler.py: the publish policy and restart.
    - [System]: state_manager.py, lifecycle.py, system_manager.py.
    - [BaseSensor]: base_sensor.py: state changes, publishes, commands,
      [update_parameter], factory reset; the abstract sensor state machine
      [sensor_step] and the refinement of [process_command] into it.
    - [SensorManager]: sensor_manager.py: construction of the sensors,
      the scheduler tick [update_sensors] and the MQTT callback [cb].
    - [App]: app.py and main.py: [__init__] (the constructors'
      configuration reads and its two exception paths, returning the
      partly built object [built]), [run] (start-up, the main loop and its
      error path), [_handle_critical_error], and [main()] running [run] on
      whatever [__init__] returned.
    - [LedPrototype]: the LED path of my/tt.py (ServiceLED, StateManager,
      Lifecycle, Application.run) and its animation compared with the
      firmware's [ServiceLED.animate_led].
    - [SensorTable]: the well-formedness of the sensor table
      ([table_wf]: each sensor keyed by its id, with its document entry
      and a timer), broken by a subscription failure during
      [initialize_sensors].

    ** What is proved
    - Scheduler (SensorManager): fault isolation of a failing sensor,
      rescheduling, no poll before the next due time, configuration
      messages and their timer reset, a bad interval's exception path,
      the sensor a failed subscription orphans, and the three
      configuration entries the dynamic import can construct.
    - Sensors (BaseSensor): [process_command] refines the abstract state
      machine; ERROR is sticky except for factory reset; parameter
      updates persist; factory reset restores defaults; the parameter
      lost after a failed [reset_config].
    - Error handling (ErrorHandler, App, System): the restart policy, a
      failed publish skipping the restart, the system callback's broken
      error path, a missing LED colour resetting the board at start-up,
      a constructor's configuration error ending in [sys.exit()].
    - Device settings (System): a [power_config] message stored where
      [Power] does not read it, and lost on reboot when the document has
      no [system] section.
    - Construction (App): [__init__] builds the application from the
      values its constructors read; with a broken [mqtt] section and a
      quiet error policy, [main()] returns after two handled errors
      without ever entering the main loop.
    - Timing (Wifi, App, Watchdog, ServiceLed): the reconnect loop's
      number of polls and sleeps and its termination, the watchdog feed
      gap of a loop iteration, the timeout clamp, the LED animation's
      repetitions.
    - Logging: the string-keyed filter equals the severity order.
    - Readings (Datetime, TempHumidity): the timestamp's layout and its
      round trip, the units a reading is published in.
    - Prototypes (Mq135, Mq7, LedPrototype): the three outcomes of the
      MQ-135's corrected ppm (sentinel, [ValueError] at full scale,
      a positive value unless [math.pow] overflows) and the script's loop
      ending at the first full-scale reading; a dead MQ-7 and a calibration with one zero
      sample both reading [0.0] ppm of carbon monoxide; the heater
      phases across the wrap-around of the tick counter; the prototype
      animation equal to the firmware's except at [times = 0], where the
      prototype's ACTIVE state never blinks.
    Frame lemmas ([respects], [only_exc]) show what each operation leaves
    alone; they are proved once per operation and used by [auto] through
    the [py] database.

    ** Bounds and fuel
    Loops over lists ([for] over the sensors, a configuration message's
    keys, the defaults) are structural ([pfor]).  The Wi-Fi retry loop
    is structural in [max_retries].  [str(n)]'s digit loop runs on a
    fuel of one step per bit of [n], which [str_digits_fuel] proves
    enough.  Two loops are unbounded in Python
    and get an explicit bound: [anim_loop] counts the tests of the
    animation's [while] loop, and a finite animation of [n] repetitions
    makes [n + 1] tests, so the repetition theorem holds for every bound
    above [n]; for [times = 0] the animation is [Running] for every
    bound, which is how its non-termination is stated.
    [Application.main_loop] counts iterations
    of [while True] (the theorems are per iteration).  The MQ-7's
    sampling loops are structural in their number of samples, its
    script's [while True] ([MQ7.main_loop]) counts iterations, and the
    MQ-135 script's loop is structural in the list of readings it is
    given.  [ticks_diff] is exact for differences below [2^29] ms, which
    [heater_cycle_switches] states together with what happens above.

    ** Not modelled
    - The drivers (machine, dht, network, umqtt) and the DHT11 class's
      pin setup: their answers are parameters ([Env], the driver's
      measure, the Wi-Fi station's polls, the MQTT link and inbound
      messages).  The scheduler takes a sensor's reading from [env_read];
      [TempHumidity] says what that reading is for the DHT11 class.
    - Prints other than the logger's: output only.  [time.localtime()]
      and [time.time()] are arguments of the formatting, and whether the
      log file can be appended to is an argument of [_write_log].
    - The file system under [Config.load_config]: [Application.__init__]
      takes what [open] and [ujson.load] give.  The [ErrorHandler]'s
      [error_handling] read keeps only a dict (a non-dict value, which
      the code keeps and fails on later, reads as [{}]).
    - src/sensors/sensor.py: [BaseSensor]'s base class, whose three
      placeholder methods [BaseSensor] all overrides, so that none of
      them runs.
    - Float durations and intervals: JSON numbers are integers ([JNum Z]).
      The floats of the DHT11 conversions and of the gas-sensor
      prototypes are exact rationals, without the rounding of binary
      floating point (single precision on the rp2 port).
    - asyncio: the code runs one task besides the LED animation, and the
      animation only writes the pixel; an iteration is modelled as one
      sequence of steps.
    - In my/, the experiments not imported by the firmware: mq135.py
      does not compile (the whole file is indented), testconf.py and
      testmq7.py fail at import (they import functions and a module that
      do not exist), and gas_test.py and test.py are further variants of
      the MQ-135 class.  In the modelled prototypes, the printed text
      (the MQ-7's prints are recorded as values), the asyncio
      scheduling of tt.py's [run] and its configuration literal (float
      durations; [run] takes the configuration as an argument).  The
      values of [math.pow], [math.log] and [math.exp] inside their
      domains are parameters; no theorem depends on them beyond facts
      of real powers (positive, and bounded for exponents in [[-3, 1]]);
      their overflow to [inf], which raises [ValueError], is modelled on
      the exact value. *)

From Stdlib Require Import ZArith String List.
From stdpp Require Import base list strings sets.
Import ListNotations.

Declare Scope py_scope.
Delimit Scope py_scope with py.

(** ** Python exceptions

    [PyExc] is an instance of a subclass of [Exception]: an
    [except Exception] clause catches it.  [SystemExit] ([sys.exit()]) is
    a [BaseException] that such a clause does not catch, and
    [MachineReset] stands for [machine.reset()], which never returns: no
    handler runs after it. *)

Inductive exn_kind :=
  | ValueError
  | TypeError
  | KeyError
  | AttributeError
  | OSError
  | NotImplementedError
  | RuntimeError
  | ImportError
  | ZeroDivisionError
  | DriverError.

Inductive exn :=
  | PyExc (k : exn_kind) (msg : string)
  | SystemExit
  | MachineReset.

#[export] Instance exn_kind_eq_dec : EqDecision exn_kind.
Proof. solve_decision. Defined.
#[export] Instance exn_eq_dec : EqDecision exn.
Proof. solve_decision. Defined.

(** ** The execution monad

    A computation reads and updates a state and ends in a value or an
    exception.  As in Python, updates made before a [raise] are kept:
    the state is returned on both outcomes. *)

Definition PyM (S A : Type) : Type := S -> (exn + A) * S.

Definition pret {S A} (a : A) : PyM S A := fun s => (inr a, s).

Definition pbind {S A B} (m : PyM S A) (k : A -> PyM S B) : PyM S B :=
  fun s => match m s with
           | (inl e, s') => (inl e, s')
           | (inr a, s') => k a s'
           end.

Definition praise {S A} (e : exn) : PyM S A := fun s => (inl e, s).

Definition pthrow {S A} (k : exn_kind) (msg : string) : PyM S A :=
  praise (PyExc k msg).

Definition pgets {S A} (f : S -> A) : PyM S A := fun s => (inr (f s), s).

Definition pmodify {S} (f : S -> S) : PyM S unit := fun s => (inr tt, f s).

Definition pskip {S} : PyM S unit := pret tt.

Definition of_sum {S A} (r : exn + A) : PyM S A := fun s => (r, s).

(** [try: c  except Exception as e: h(e)]. *)
Definition ptry {S A} (c : PyM S A) (h : exn_kind -> string -> PyM S A)
  : PyM S A :=
  fun s => match c s with
           | (inl (PyExc k m), s') => h k m s'
           | r => r
           end.

Notation "'let*' x ':=' c 'in' k" := (pbind c (fun x => k))
  (at level 10, x name, c at level 100, k at level 200) : py_scope.
Notation "c ;; k" := (pbind c (fun _ => k))
  (at level 100, k at level 200, right associativity) : py_scope.

(** Sequencing of computations without state: [exn + A]. *)
Definition sbind {A B} (m : exn + A) (k : A -> exn + B) : exn + B :=
  match m with inl e => inl e | inr a => k a end.

Notation "'let?' x ':=' c 'in' k" := (sbind c (fun x => k))
  (at level 10, x name, c at level 100, k at level 200) : py_scope.

Local Open Scope py_scope.

(** [for x in l: f(x)]: an exception stops the loop. *)
Fixpoint pfor {S A} (l : list A) (f : A -> PyM S unit) : PyM S unit :=
  match l with
  | [] => pskip
  | x :: l' => f x ;; pfor l' f
  end.

(** A collaborator's failure as a Python exception. *)
Definition lift_exc {A} (x : (exn_kind * string) + A) : exn + A :=
  match x with inl (k, m) => inl (PyExc k m) | inr a => inr a end.

(** ** JSON values *)

#[local] Set Warnings "-register-all".

Inductive json :=
  | JNull
  | JBool (b : bool)
  | JNum (n : Z)
  | JStr (s : string)
  | JArr (l : list json)
  | JObj (kvs : list (string * json)).

(** Python truthiness of a decoded JSON value. *)
Definition truthy (v : json) : bool :=
  match v with
  | JNull => false
  | JBool b => b
  | JNum n => negb (Z.eqb n 0)
  | JStr s => negb (String.eqb s "")
  | JArr l => match l with [] => false | _ => true end
  | JObj kvs => match kvs with [] => false | _ => true end
  end.

(** [t + v] for a number [t]: [bool] is a subclass of [int]; any other
    value raises [TypeError]. *)
Definition py_add_num (t : Z) (v : json) : exn + Z :=
  match v with
  | JNum n => inr (t + n)%Z
  | JBool b => inr (t + if b then 1 else 0)%Z
  | _ => inl (PyExc TypeError "unsupported operand type(s) for +")
  end.

(** [v.get(k)] on a decoded JSON value: a dict answers [None] for a
    missing key; any other value has no [get] attribute. *)
Definition py_get (v : json) (k : string) : exn + option json :=
  match v with
  | JObj kvs =>
      inr (let fix go (l : list (string * json)) : option json :=
             match l with
             | [] => None
             | (k', x) :: l' => if decide (k = k') then Some x else go l'
             end in go kvs)
  | _ => inl (PyExc AttributeError "object has no attribute 'get'")
  end.

(** [d.get(k, default)] on a decoded JSON value. *)
Definition py_get_default (v : json) (k : string) (dflt : json) : exn + json :=
  match py_get v k with
  | inr (Some x) => inr x
  | inr None => inr dflt
  | inl e => inl e
  end.

(** [v.get(k1, {}).get(k2, {}) ... .get(kn, dflt)] *)
Fixpoint py_get_path (v : json) (ks : list string) (dflt : json) : exn + json :=
  match ks with
  | [] => inr v
  | [k] => py_get_default v k dflt
  | k :: ks' =>
      match py_get_default v k (JObj []) with
      | inl e => inl e
      | inr v' => py_get_path v' ks' dflt
      end
  end.

(** Truthiness of [d.get(k)]: a missing key gives [None], which is falsy. *)
Definition truthy_opt (o : option json) : bool :=
  match o with Some v => truthy v | None => false end.

(** ** Python dicts

    A dict is an association list in insertion order.  [dset] is item
    assignment: an existing key keeps its position, a new key goes last. *)

Fixpoint dget {A} (k : string) (d : list (string * A)) : option A :=
  match d with
  | [] => None
  | (k', v) :: d' => if decide (k = k') then Some v else dget k d'
  end.

Fixpoint dset {A} (k : string) (v : A) (d : list (string * A))
  : list (string * A) :=
  match d with
  | [] => [(k, v)]
  | (k', v') :: d' =>
      if decide (k = k') then (k, v) :: d' else (k', v') :: dset k v d'
  end.

Definition dmem {A} (k : string) (d : list (string * A)) : bool :=
  match dget k d with Some _ => true | None => false end.

(** [d.get(k, default)]. *)
Definition dget_or {A} (k : string) (dflt : A) (d : list (string * A)) : A :=
  match dget k d with Some v => v | None => dflt end.

(** [v[k]] on a decoded value: a missing key raises [KeyError]; a value
    that is not a dict cannot be indexed by a string ([TypeError]). *)
Definition py_getitem (v : json) (k : string) : exn + json :=
  match v with
  | JObj kvs => match dget k kvs with Some x => inr x | None => inl (PyExc KeyError k) end
  | _ => inl (PyExc TypeError "indices must be integers")
  end.

(** [d[k] = f(d[k])] on a key that is present; nothing on an absent key. *)
Fixpoint dalter {A} (f : A -> A) (k : string) (d : list (string * A))
  : list (string * A) :=
  match d with
  | [] => []
  | (k', v) :: d' =>
      if decide (k = k') then (k', f v) :: d' else (k', v) :: dalter f k d'
  end.

(** [pat in s] on strings: [pat] occurs in [s]. *)
Fixpoint str_contains (pat s : string) : bool :=
  String.prefix pat s ||
  match s with
  | EmptyString => false
  | String _ s' => str_contains pat s'
  end.

(** ** Automation *)

Create HintDb py discriminated.
Create Rewrite HintDb py_rw.

Ltac py_unfold :=
  unfold pbind, pret, praise, pthrow, pgets, pmodify, pskip, of_sum, ptry in *.

(** ** Generic lemmas *)

Section DictLemmas.
Context {A : Type}.
Implicit Types (d : list (string * A)) (v : A).

Lemma dget_dset_eq k v d : dget k (dset k v d) = Some v.
Proof.
  induction d as [|[k' v'] d IH]; simpl; [by rewrite decide_True|].
  case_decide; simpl; [by rewrite decide_True|].
  by rewrite decide_False.
Qed.

Lemma dget_dset_ne k k' v d : k <> k' -> dget k' (dset k v d) = dget k' d.
Proof.
  intros Hne. induction d as [|[k0 v0] d IH]; simpl.
  - by rewrite decide_False.
  - case_decide; subst; simpl.
    + by rewrite !decide_False.
    + case_decide; [done|exact IH].
Qed.

Lemma dset_keys k v d :
  dmem k d = true -> map fst (dset k v d) = map fst d.
Proof.
  unfold dmem. induction d as [|[k' v'] d IH]; simpl; [discriminate|].
  case_decide; subst; simpl; [done|]. intros Hm. by rewrite IH.
Qed.

Lemma dset_id k v d : dget k d = Some v -> dset k v d = d.
Proof.
  induction d as [|[k' v'] d IH]; simpl; [discriminate|].
  case_decide; [intros [= ->]; by subst|]. intros Hg. by rewrite IH.
Qed.

Lemma dmem_dset k k' v d :
  dmem k' (dset k v d) = if decide (k' = k) then true else dmem k' d.
Proof.
  unfold dmem. case_decide; subst.
  - by rewrite dget_dset_eq.
  - by rewrite dget_dset_ne.
Qed.

Lemma dget_dalter_eq f k d : dget k (dalter f k d) = f <$> dget k d.
Proof.
  induction d as [|[k' v'] d IH]; simpl; [done|].
  case_decide as Hk; simpl; [by rewrite decide_True|].
  by rewrite decide_False.
Qed.

Lemma dget_dalter_ne f k k' d :
  k <> k' -> dget k' (dalter f k d) = dget k' d.
Proof.
  intros Hne. induction d as [|[k0 v0] d IH]; simpl; [done|].
  destruct (decide (k = k0)) as [->|Hk]; simpl.
  - destruct (decide (k' = k0)); [congruence|done].
  - destruct (decide (k' = k0)); [done|exact IH].
Qed.

Lemma dalter_keys f k d : map fst (dalter f k d) = map fst d.
Proof.
  induction d as [|[k' v'] d IH]; simpl; [done|].
  case_decide; simpl; by rewrite ?IH.
Qed.

Lemma dmem_keys k d : dmem k d = true <-> k ∈ map fst d.
Proof.
  unfold dmem. induction d as [|[k' v'] d IH]; simpl.
  - split; [discriminate|]. intros Hk. by apply elem_of_nil in Hk.
  - rewrite elem_of_cons. case_decide; subst; [tauto|].
    rewrite IH. naive_solver.
Qed.

Lemma dget_or_Some k dflt d v : dget k d = Some v -> dget_or k dflt d = v.
Proof. unfold dget_or. by intros ->. Qed.

Lemma dget_or_None k dflt d : dget k d = None -> dget_or k dflt d = dflt.
Proof. unfold dget_or. by intros ->. Qed.
End DictLemmas.

#[export] Hint Rewrite @dget_dset_eq @dget_dalter_eq @dalter_keys : py_rw.
#[export] Hint Rewrite @dget_dalter_ne using congruence : py_rw.
#[export] Hint Rewrite @dget_dset_ne using congruence : py_rw.
#[export] Hint Resolve dget_or_Some dget_or_None : py.

Section MonadLemmas.
Context {S : Type}.

Lemma pbind_inr {A B} (m : PyM S A) (k : A -> PyM S B) s a s' :
  m s = (inr a, s') -> pbind m k s = k a s'.
Proof. unfold pbind. by intros ->. Qed.

Lemma pbind_inl {A B} (m : PyM S A) (k : A -> PyM S B) s e s' :
  m s = (inl e, s') -> pbind m k s = (inl e, s').
Proof. unfold pbind. by intros ->. Qed.

Lemma pbind_pgets {A B} (f : S -> A) (k : A -> PyM S B) s :
  pbind (pgets f) k s = k (f s) s.
Proof. done. Qed.

Lemma pbind_pmodify {B} (f : S -> S) (k : unit -> PyM S B) s :
  pbind (pmodify f) k s = k tt (f s).
Proof. done. Qed.

Lemma pbind_pret {A B} (a : A) (k : A -> PyM S B) s : pbind (pret a) k s = k a s.
Proof. done. Qed.

Lemma pbind_of_sum_inr {A B} (a : A) (k : A -> PyM S B) s :
  pbind (of_sum (inr a)) k s = k a s.
Proof. done. Qed.

Lemma pbind_pthrow {A B} kd m (k : A -> PyM S B) s :
  pbind (pthrow kd m) k s = (inl (PyExc kd m), s).
Proof. done. Qed.

(** A [let*] whose bound computation is itself a [let*]. *)
Lemma pbind_assoc {A B C} (m : PyM S A) (f : A -> PyM S B) (g : B -> PyM S C) s :
  pbind (pbind m f) g s = pbind m (fun x => pbind (f x) g) s.
Proof. unfold pbind. by destruct (m s) as [[|] ?]. Qed.

Lemma ptry_inr {A} (c : PyM S A) h s a s' :
  c s = (inr a, s') -> ptry c h s = (inr a, s').
Proof. unfold ptry. by intros ->. Qed.

Lemma ptry_exc {A} (c : PyM S A) h s k m s' :
  c s = (inl (PyExc k m), s') -> ptry c h s = h k m s'.
Proof. unfold ptry. by intros ->. Qed.

(** [SystemExit] and [MachineReset] pass through [except Exception]. *)
Lemma ptry_uncaught {A} (c : PyM S A) h s e s' :
  (forall k m, e <> PyExc k m) -> c s = (inl e, s') -> ptry c h s = (inl e, s').
Proof.
  unfold ptry. intros He ->. destruct e; [|done|done]. by destruct (He k msg).
Qed.

(** A loop whose body succeeds on every element and keeps a state
    predicate keeps it to the end. *)
Lemma pfor_preserves {A} (P : S -> Prop) (l : list A) (f : A -> PyM S unit) :
  (forall x s, P s -> x ∈ l -> forall r s', f x s = (r, s') -> P s') ->
  forall s r s', P s -> pfor l f s = (r, s') -> P s'.
Proof.
  induction l as [|x l IH]; simpl; intros Hf s r s' Hs.
  - intros [= _ <-]. done.
  - unfold pbind. destruct (f x s) as [[e|[]] s1] eqn:E.
    + intros [= _ <-]. eapply Hf; eauto. set_solver.
    + apply IH; [|eapply Hf; eauto; set_solver].
      intros y s0 Hs0 Hy. apply Hf; [done|set_solver].
Qed.
End MonadLemmas.

#[export] Hint Rewrite @pbind_pgets @pbind_pmodify @pbind_pret @pbind_of_sum_inr
  @pbind_pthrow : py_rw.

(** ** Computations that stay within a relation

    [respects R c]: every run of [c] ends in a state related to the
    state it started in.  With [R] a preorder this is closed under the
    monad's operations, so frame properties ("this method only touches
    that sensor") are proved once per primitive and assembled by
    [solve_respects]. *)

Definition respects {S A} (R : relation S) (c : PyM S A) : Prop :=
  forall s r s', c s = (r, s') -> R s s'.

Section Respects.
Context {S : Type} (R : relation S) `{!PreOrder R}.

Lemma respects_pret {A} (a : A) : respects R (pret a).
Proof. intros s r s' [= _ <-]. reflexivity. Qed.

Lemma respects_praise {A} e : respects R (@praise S A e).
Proof. intros s r s' [= _ <-]. reflexivity. Qed.

Lemma respects_pthrow {A} k m : respects R (@pthrow S A k m).
Proof. apply respects_praise. Qed.

Lemma respects_pgets {A} (f : S -> A) : respects R (pgets f).
Proof. intros s r s' [= _ <-]. reflexivity. Qed.

Lemma respects_pskip : respects R pskip.
Proof. apply respects_pret. Qed.

Lemma respects_of_sum {A} (x : exn + A) : respects R (of_sum x).
Proof. intros s r s' [= _ <-]. reflexivity. Qed.

Lemma respects_pmodify f : (forall s, R s (f s)) -> respects R (pmodify f).
Proof. intros Hf s r s' [= _ <-]. apply Hf. Qed.

Lemma respects_pbind {A B} (m : PyM S A) (k : A -> PyM S B) :
  respects R m -> (forall a, respects R (k a)) -> respects R (pbind m k).
Proof.
  intros Hm Hk s r s'. unfold pbind.
  destruct (m s) as [[e|a] s1] eqn:E.
  - intros [= _ <-]. eapply Hm; eauto.
  - intros H. etrans; [eapply Hm; eauto|eapply Hk; eauto].
Qed.

Lemma respects_ptry {A} (c : PyM S A) h :
  respects R c -> (forall k m, respects R (h k m)) -> respects R (ptry c h).
Proof.
  intros Hc Hh s r s'. unfold ptry.
  destruct (c s) as [[[k m| |]|a] s1] eqn:E;
    try (intros [= _ <-]; eapply Hc; eauto).
  intros H. etrans; [eapply Hc; eauto|eapply Hh; eauto].
Qed.

Lemma respects_pfor {A} (l : list A) f :
  (forall x, respects R (f x)) -> respects R (pfor l f).
Proof.
  intros Hf. induction l as [|x l IH]; simpl.
  - apply respects_pskip.
  - apply respects_pbind; [apply Hf|intros _; apply IH].
Qed.
End Respects.

#[export] Hint Resolve respects_pret respects_praise respects_pthrow respects_pgets
  respects_pskip respects_of_sum : py.

(** Decompose a [respects] goal along the program's structure; the
    primitives of a component are added to [py] by its file. *)
Ltac solve_respects :=
  repeat (cbv beta iota zeta; match goal with
  | |- respects _ (pbind _ _) => refine (respects_pbind _ _ _ _ _); [|intros ?]
  | |- respects _ (ptry _ _) => refine (respects_ptry _ _ _ _ _); [|intros ? ?]
  | |- respects _ (pfor _ _) => refine (respects_pfor _ _ _ _); intros ?
  | |- respects _ (if ?b then _ else _) => destruct b
  | |- respects _ (match ?x with _ => _ end) => destruct x
  | |- respects _ (let '(_, _) := ?x in _) => destruct x
  | |- respects _ _ => solve [eauto with py typeclass_instances]
  end).

(** ** Computations that raise only ordinary exceptions

    [only_exc c]: [c] never ends in [SystemExit] or [MachineReset], so an
    [except Exception] around it catches every failure. *)

Definition only_exc {S A} (c : PyM S A) : Prop :=
  forall s e s', c s = (inl e, s') -> exists k m, e = PyExc k m.

Section OnlyExc.
Context {S : Type}.

Lemma only_exc_pret {A} (a : A) : @only_exc S A (pret a).
Proof. by intros s e s' [=]. Qed.

Lemma only_exc_pthrow {A} k m : @only_exc S A (pthrow k m).
Proof. intros s e s' [= <- _]. eauto. Qed.

Lemma only_exc_pgets {A} (f : S -> A) : only_exc (pgets f).
Proof. by intros s e s' [=]. Qed.

Lemma only_exc_pskip : @only_exc S unit pskip.
Proof. apply only_exc_pret. Qed.

Lemma only_exc_pmodify (f : S -> S) : only_exc (pmodify f).
Proof. by intros s e s' [=]. Qed.

Lemma only_exc_of_sum_exc {A} k m : @only_exc S A (of_sum (inl (PyExc k m))).
Proof. intros s e s' [= <- _]. eauto. Qed.

Lemma only_exc_of_sum_ok {A} (a : A) : @only_exc S A (of_sum (inr a)).
Proof. by intros s e s' [=]. Qed.

(** A collaborator's answer whose failures are ordinary exceptions. *)
Lemma only_exc_of_sum_lift {A} (x : (exn_kind * string) + A) :
  @only_exc S A (of_sum (lift_exc x)).
Proof. intros s e s'. destruct x as [[k m]|a]; intros [= <- _]; eauto. Qed.

Lemma only_exc_pbind {A B} (m : PyM S A) (k : A -> PyM S B) :
  only_exc m -> (forall a, only_exc (k a)) -> only_exc (pbind m k).
Proof.
  intros Hm Hk s e s'. unfold pbind.
  destruct (m s) as [[e1|a] s1] eqn:E.
  - intros [= <- _]. eapply Hm; eauto.
  - eapply Hk.
Qed.

Lemma only_exc_ptry {A} (c : PyM S A) h :
  only_exc c -> (forall k m, only_exc (h k m)) -> only_exc (ptry c h).
Proof.
  intros Hc Hh s e s'. unfold ptry.
  destruct (c s) as [[[k m| |]|a] s1] eqn:E.
  - apply Hh.
  - intros [= <- _]. by destruct (Hc _ _ _ E) as (? & ? & ?).
  - intros [= <- _]. by destruct (Hc _ _ _ E) as (? & ? & ?).
  - by intros [=].
Qed.

Lemma only_exc_pfor {A} (l : list A) (f : A -> PyM S unit) :
  (forall x, only_exc (f x)) -> only_exc (pfor l f).
Proof.
  intros Hf. induction l as [|x l IH]; simpl.
  - apply only_exc_pskip.
  - apply only_exc_pbind; [apply Hf|intros _; apply IH].
Qed.

(** A [try] whose handler cannot fail does not fail. *)
Lemma ptry_total {A} (c : PyM S A) h s :
  only_exc c -> (forall k m s, exists a s', h k m s = (inr a, s')) ->
  exists a s', ptry c h s = (inr a, s').
Proof.
  intros Hc Hh. unfold ptry.
  destruct (c s) as [[e|a] s1] eqn:E; [|eauto].
  destruct (Hc _ _ _ E) as (k & m & ->). apply Hh.
Qed.
End OnlyExc.

#[export] Hint Resolve only_exc_pret only_exc_pthrow only_exc_pgets only_exc_pskip
  only_exc_pmodify only_exc_of_sum_exc only_exc_of_sum_ok only_exc_of_sum_lift : py.

Ltac solve_only_exc :=
  repeat (cbv beta iota zeta; match goal with
  | |- only_exc (pbind _ _) => apply only_exc_pbind; [|intros ?]
  | |- only_exc (ptry _ _) => apply only_exc_ptry; [|intros ? ?]
  | |- only_exc (pfor _ _) => apply only_exc_pfor; intros ?
  | |- only_exc _ => solve [eauto with py]
  | |- only_exc (if ?b then _ else _) => destruct b
  | |- only_exc (match ?x with _ => _ end) => destruct x
  | |- only_exc (let '(_, _) := ?x in _) => destruct x
  end).

(** ** Loops and association lists *)

Section Loops.
Context {S A : Type}.

(** [for x in l: f(x)] runs to its end when each iteration does under
    an invariant that the iterations keep. *)
Lemma pfor_total (I : S -> Prop) (l : list A) (f : A -> PyM S unit) :
  (forall x s, x ∈ l -> I s -> exists s', f x s = (inr tt, s') /\ I s') ->
  forall s, I s -> exists s', pfor l f s = (inr tt, s') /\ I s'.
Proof.
  induction l as [|x l IH]; intros Hf s Hs; simpl.
  - by exists s.
  - destruct (Hf x s) as (s1 & E1 & Hs1); [set_solver|done|].
    destruct (IH (fun y s0 Hy => Hf y s0 (proj2 (elem_of_cons _ _ _) (or_intror Hy))) s1 Hs1)
      as (s2 & E2 & Hs2).
    exists s2. split; [|done]. by rewrite (pbind_inr _ _ _ _ _ E1).
Qed.

(** What the iteration for [x] establishes holds at the end, when the
    other iterations keep it (and keep what [x]'s iteration needs). *)
Lemma pfor_establish (l : list A) (f : A -> PyM S unit) (x : A) (Pre Post : S -> Prop) :
  NoDup l -> x ∈ l ->
  (forall y s r s', y ∈ l -> y <> x -> f y s = (r, s') ->
     (Pre s -> Pre s') /\ (Post s -> Post s')) ->
  (forall s s', Pre s -> f x s = (inr tt, s') -> Post s') ->
  forall s s', Pre s -> pfor l f s = (inr tt, s') -> Post s'.
Proof.
  induction l as [|y l IH]; intros Hnd Hx Hstab Hstep s s' Hpre Hrun;
    [by apply elem_of_nil in Hx|].
  apply NoDup_cons in Hnd as [Hy Hnd]. simpl in Hrun. unfold pbind in Hrun.
  destruct (f y s) as [[e|[]] s1] eqn:E1; [discriminate|].
  apply elem_of_cons in Hx as [->|Hx].
  - eapply (pfor_preserves Post l f); [|eapply Hstep; eauto|exact Hrun].
    intros z s0 Hs0 Hz r s2 Hf. eapply (Hstab z s0 r s2); [set_solver|set_solver|done|done].
  - assert (y <> x) as Hne by (intros ->; contradiction).
    eapply IH; [done|done| |done| |exact Hrun].
    + intros z s0 r s2 Hz. apply Hstab. set_solver.
    + eapply (Hstab y s); [set_solver|done|exact E1|done].
Qed.
End Loops.

Section AssocNoDup.
Context {A : Type}.

Lemma dget_elem_of (l : list (string * A)) k v :
  dget k l = Some v -> (k, v) ∈ l.
Proof.
  induction l as [|[k' v'] l IH]; simpl; [discriminate|].
  case_decide; [intros [= ->]; subst; set_solver|intros; set_solver].
Qed.

Lemma elem_of_dget (l : list (string * A)) k v :
  NoDup (map fst l) -> (k, v) ∈ l -> dget k l = Some v.
Proof.
  induction l as [|[k' v'] l IH]; simpl; [set_solver|].
  intros [Hk Hnd]%NoDup_cons Hin. apply elem_of_cons in Hin as [Heq|Hin].
  - injection Heq as -> ->. by rewrite decide_True.
  - rewrite decide_False; [by apply IH|].
    intros Heq. subst k. apply Hk. apply list_elem_of_In, in_map_iff.
    exists (k', v). split; [done|]. by apply list_elem_of_In.
Qed.

Lemma NoDup_fst_pairs (l : list (string * A)) :
  NoDup (map fst l) -> NoDup l.
Proof.
  induction l as [|[k v] l IH]; simpl; [constructor|].
  intros [Hk Hnd]%NoDup_cons. constructor; [|by apply IH].
  intros Hin. apply Hk. apply list_elem_of_In, in_map_iff.
  exists (k, v). split; [done|]. by apply list_elem_of_In.
Qed.

(** Two entries of a dict with distinct entries have distinct keys. *)
Lemma fst_ne_of_ne (l : list (string * A)) k v k' v' :
  NoDup (map fst l) -> (k, v) ∈ l -> (k', v') ∈ l -> (k', v') <> (k, v) -> k' <> k.
Proof.
  intros Hnd H1 H2 Hne ->. apply Hne.
  apply (elem_of_dget _ _ _ Hnd) in H1. apply (elem_of_dget _ _ _ Hnd) in H2.
  congruence.
Qed.
End AssocNoDup.

(** [d.get(k)] on a dict is the dict lookup. *)
Lemma py_get_obj kvs k : py_get (JObj kvs) k = inr (dget k kvs).
Proof. unfold py_get. f_equal. induction kvs as [|[k' v] kvs IH]; simpl; [done|]. by rewrite IH. Qed.

Lemma py_get_default_obj kvs k d : py_get_default (JObj kvs) k d = inr (dget_or k d kvs).
Proof. unfold py_get_default. rewrite py_get_obj. unfold dget_or. by destruct (dget k kvs). Qed.
