(* ===== verification/States.v ===== *)
(** The state vocabularies of the firmware: [DeviceState]
    (src/control/device_state.py) and [SensorState]
    (src/sensors/sensor_state.py).  Both are classes of string constants
    in the source; here they are enumerations with the string each
    constant holds, which is what goes into a published payload. *)

From Stdlib Require Import String.
From stdpp Require Import base strings.
From S2P Require Import Prelude.

Module DeviceState.
Inductive t :=
  | STARTUP
  | ACTIVE
  | INACTIVE
  | ERROR
  | SLEEPING
  | GLOBAL_ERROR.

#[global] Instance eq_dec : EqDecision t.
Proof. solve_decision. Defined.

Definition to_string (s : t) : string :=
  match s with
  | STARTUP => "STARTUP"
  | ACTIVE => "ACTIVE"
  | INACTIVE => "INACTIVE"
  | ERROR => "ERROR"
  | SLEEPING => "SLEEPING"
  | GLOBAL_ERROR => "GLOBAL_ERROR"
  end.

Definition all : list t :=
  [STARTUP; ACTIVE; INACTIVE; ERROR; SLEEPING; GLOBAL_ERROR].

(** Distinct constants hold distinct strings. *)
Lemma device_to_string_inj s1 s2 : to_string s1 = to_string s2 -> s1 = s2.
Proof. destruct s1, s2; simpl; congruence. Qed.
End DeviceState.

Module SensorState.
Inductive t :=
  | ACTIVE
  | DISABLED
  | ERROR.

#[global] Instance eq_dec : EqDecision t.
Proof. solve_decision. Defined.

Definition to_string (s : t) : string :=
  match s with
  | ACTIVE => "ACTIVE"
  | DISABLED => "DISABLED"
  | ERROR => "ERROR"
  end.

Lemma sensor_to_string_inj s1 s2 : to_string s1 = to_string s2 -> s1 = s2.
Proof. destruct s1, s2; simpl; congruence. Qed.
End SensorState.
