(* ===== verification/Defaults.v ===== *)
(** The constants of src/defaults.py that the modelled code reads. *)

From Stdlib Require Import ZArith String.
From S2P Require Import Prelude.

Module Defaults.
Definition DEFAULT_POST_GLOBAL_ERROR : bool := false.
Definition DEFAULT_AUTO_RESTART_ON_ERROR : bool := true.
Definition DEFAULT_ENABLE_FACTORY_RESET : bool := false.
Definition DEFAULT_UPDATE_SENSOR_INTERVAL : Z := 60%Z.
Definition DEFAULT_DEEP_SLEEP_INTERVAL : Z := 15%Z.
Definition DEFAULT_WAIT_TIME_AFTER_STARTUP : Z := 3%Z.
Definition DEFAULT_WAIT_TIME_AFTER_GLOBAL_ERROR : Z := 3%Z.
End Defaults.
