(* ===== verification/Logger.v ===== *)
(** The logger (src/utils/logger.py).

    [Logger.__init__] reads [logging.level] (default ["INFO"]), upper-
    cases it and looks its number up in [LEVEL_MAP] (default [20]);
    [log(level, message)] writes the line when [_should_log(level)], that
    is when [LEVEL_MAP.get(level.upper(), 50)] is at least that number.
    The console and the file are modelled by the lines they received
    ([sinks]); whether appending to the file succeeds is an argument, and
    the formatted value of [time.time()] is another.

    The reference [Level] is the ordered enumeration the level names
    stand for; [should_log_spec] compares severities. *)

From Stdlib Require Import ZArith String List Ascii.
From stdpp Require Import base list strings sets.
From S2P Require Import Prelude.
Import ListNotations.
Local Open Scope py_scope.

(** [str.upper()] on ASCII text. *)
Definition upper_char (c : ascii) : ascii :=
  let n := nat_of_ascii c in
  if (97 <=? n) && (n <=? 122) then ascii_of_nat (n - 32) else c.

Fixpoint upper (s : string) : string :=
  match s with
  | EmptyString => EmptyString
  | String c s' => String (upper_char c) (upper s')
  end.

Module Logger.

(** [Logger.LEVEL_MAP] *)
Definition LEVEL_MAP : list (string * Z) :=
  [("DEBUG", 10); ("INFO", 20); ("WARNING", 30); ("ERROR", 40); ("CRITICAL", 50)]%Z.

(** [self.min_level_num] from the [logging] section.  [.upper()] on a
    value that is not a string raises [AttributeError]. *)
Definition min_level (logging : list (string * json)) : exn + Z :=
  match dget_or "level" (JStr "INFO") logging with
  | JStr l => inr (dget_or (upper l) 20%Z LEVEL_MAP)
  | _ => inl (PyExc AttributeError "object has no attribute 'upper'")
  end.

(** The settings [Logger.__init__] keeps. *)
Record t := {
  level_num : Z;         (** [self.min_level_num] *)
  log_to_file : json;    (** [self.log_to_file] *)
  log_to_console : json; (** [self.log_to_console] *)
}.

(** [Logger.__init__] on [config.get_logging_config()]: [.get] on a
    value that is not a dict raises [AttributeError], as does [.upper()]
    on a level that is not a string. *)
Definition init (logging : json) : exn + t :=
  match logging with
  | JObj kvs =>
      match min_level kvs with
      | inl e => inl e
      | inr n => inr {| level_num := n;
                        log_to_file := dget_or "log_to_file" (JBool false) kvs;
                        log_to_console := dget_or "log_to_console" (JBool true) kvs |}
      end
  | _ => inl (PyExc AttributeError "object has no attribute 'get'")
  end.

(** [_should_log(level_str)] *)
Definition should_log (min_level_num : Z) (level_str : string) : bool :=
  (min_level_num <=? dget_or (upper level_str) 50 LEVEL_MAP)%Z.

(** What the console and the log file received, line by line. *)
Record sinks := {
  console : list string;
  file : list string;
}.

(** [_write_log(message)]: print when [log_to_console]; append to the
    file when [log_to_file], an error of the append ([file_ok = false])
    being swallowed. *)
Definition write_log (lg : t) (file_ok : bool) (message : string) (s : sinks) : sinks :=
  let s1 := if truthy (log_to_console lg)
            then {| console := console s ++ [message]; file := file s |} else s in
  if truthy (log_to_file lg) && file_ok
  then {| console := console s1; file := file s1 ++ [message] |} else s1.

(** The line [log] writes: [f"[{ts:.3f}] [{level}] {message}"], [ts]
    being the formatted value of [time.time()]. *)
Definition log_line (ts level message : string) : string :=
  ("[" ++ ts ++ "] [" ++ level ++ "] " ++ message)%string.

(** [log(level, message)] *)
Definition log (lg : t) (file_ok : bool) (ts level message : string) (s : sinks) : sinks :=
  if should_log (level_num lg) level then write_log lg file_ok (log_line ts level message) s
  else s.

(** [log_debug], ..., [log_critical] *)
Definition log_debug lg ok ts msg := log lg ok ts "DEBUG" msg.
Definition log_info lg ok ts msg := log lg ok ts "INFO" msg.
Definition log_warning lg ok ts msg := log lg ok ts "WARNING" msg.
Definition log_error lg ok ts msg := log lg ok ts "ERROR" msg.
Definition log_critical lg ok ts msg := log lg ok ts "CRITICAL" msg.
End Logger.

(** ** The reference: severities *)

Inductive Level := DEBUG | INFO | WARNING | ERROR | CRITICAL.

Definition severity (l : Level) : Z :=
  match l with DEBUG => 10 | INFO => 20 | WARNING => 30 | ERROR => 40 | CRITICAL => 50 end%Z.

Definition level_name (l : Level) : string :=
  match l with
  | DEBUG => "DEBUG" | INFO => "INFO" | WARNING => "WARNING"
  | ERROR => "ERROR" | CRITICAL => "CRITICAL"
  end.

(** A message of level [l] is shown under threshold [t] when it is at
    least as severe as [t]. *)
Definition should_log_spec (t l : Level) : bool := (severity t <=? severity l)%Z.

(** ** Properties *)

Lemma upper_level_name l : upper (level_name l) = level_name l.
Proof. by destruct l. Qed.

Lemma level_map_name l : dget_or (level_name l) 50%Z Logger.LEVEL_MAP = severity l.
Proof. by destruct l. Qed.

(** C28. The logger's filter agrees with the severity order: the
    configured level name [t] sets the threshold [severity t], and a
    message logged under any spelling [s] of level [l] (any letter case)
    is written exactly when [l] is at least as severe as [t]. *)
Theorem should_log_equiv t l s :
  upper s = level_name l ->
  Logger.min_level [("level", JStr (level_name t))] = inr (severity t) /\
  Logger.should_log (severity t) s = should_log_spec t l.
Proof.
  intros Hs. split.
  - by destruct t.
  - unfold Logger.should_log, should_log_spec. by rewrite Hs, level_map_name.
Qed.

Lemma should_log_equiv_witness :
  Logger.min_level [("level", JStr (level_name ERROR))] = inr (severity ERROR) /\
  Logger.should_log (severity ERROR) "warning" = should_log_spec ERROR WARNING.
Proof. apply should_log_equiv. reflexivity. Defined.

(** The threshold [__init__] computes is one of the map's levels or the
    default [20]. *)
Lemma dget_or_level_map k d :
  (10 <= d <= 50)%Z -> (10 <= dget_or k d Logger.LEVEL_MAP <= 50)%Z.
Proof. intros Hd. unfold dget_or, Logger.LEVEL_MAP. cbn [dget]. repeat case_decide; lia. Qed.

Lemma init_level_le logging lg :
  Logger.init logging = inr lg -> (Logger.level_num lg <= 50)%Z.
Proof.
  unfold Logger.init, Logger.min_level. destruct logging as [| | | | |kvs]; try discriminate.
  destruct (dget_or "level" (JStr "INFO") kvs); try discriminate.
  intros [= <-]. cbn. pose proof (dget_or_level_map (upper s) 20). lia.
Qed.

Lemma console_write_log lg ok m sk :
  Logger.console (Logger.write_log lg ok m sk) =
    if truthy (Logger.log_to_console lg) then Logger.console sk ++ [m] else Logger.console sk.
Proof.
  unfold Logger.write_log.
  destruct (truthy (Logger.log_to_console lg)), (truthy (Logger.log_to_file lg) && ok); done.
Qed.

(** An unknown level name is treated as [CRITICAL]: [_should_log]
    defaults it to [50], above every threshold [__init__] can set, so a
    message logged under it reaches the console whatever the configured
    level. *)
Theorem unknown_level_always_logged logging lg ok ts lv msg sk :
  Logger.init logging = inr lg ->
  truthy (Logger.log_to_console lg) = true ->
  (forall l, upper lv <> level_name l) ->
  Logger.console (Logger.log lg ok ts lv msg sk) =
    Logger.console sk ++ [Logger.log_line ts lv msg].
Proof.
  intros Hi Hc Hs. pose proof (init_level_le logging lg Hi) as Hle.
  unfold Logger.log, Logger.should_log.
  assert (dget_or (upper lv) 50%Z Logger.LEVEL_MAP = 50%Z) as ->.
  { unfold dget_or, Logger.LEVEL_MAP. cbn [dget].
    repeat (case_decide; [exfalso; match goal with E : upper lv = _ |- _ =>
      first [exact (Hs DEBUG E) | exact (Hs INFO E) | exact (Hs WARNING E)
            | exact (Hs ERROR E) | exact (Hs CRITICAL E)] end|]).
    reflexivity. }
  apply Z.leb_le in Hle. rewrite Hle, console_write_log, Hc. done.
Qed.

Lemma unknown_level_always_logged_witness :
  exists lg, Logger.init (JObj [("level", JStr "critical")]) = inr lg /\
    Logger.console (Logger.log lg true "1.000" "trace" "x" {| Logger.console := []; Logger.file := [] |}) =
      [] ++ [Logger.log_line "1.000" "trace" "x"].
Proof.
  eexists. split; [reflexivity|].
  apply (unknown_level_always_logged (JObj [("level", JStr "critical")])); [reflexivity|reflexivity|].
  intros l. destruct l; discriminate.
Defined.
