(* ===== verification/Datetime.v ===== *)
(** The timestamp format (src/utils/datetime.py).

    [get_formatted_datetime()] formats the first six fields of
    [time.localtime()] with ["{:04}-{:02}-{:02} {:02}:{:02}:{:02}"].
    [zero_pad w n] is Python's ["{:0w}".format(n)] on an [int]: the
    decimal digits of [|n|] ([str_digits]), after the sign, padded with
    zeros on the left to [w] characters in all; a number with more digits
    is written in full.  [str_digits] recurses on a fuel that
    [str_fuel n] makes large enough ([str_digits_fuel] proves it).

    The theorems show that the result has the layout the spec gives for
    the [timestamp] of error payloads, ["YYYY-MM-DD HH:MM:SS"] of 19
    characters, and that the reference reader [parse_datetime] of that
    layout gives back the fields, whenever each field fits its width. *)

From Stdlib Require Import ZArith String List Ascii Lia.
From stdpp Require Import base list.
Import ListNotations.
Local Open Scope bool_scope.
Local Open Scope Z_scope.

(** The localtime fields the format reads: year, month, day, hour,
    minute, second. *)
Record localtime := {
  lt_year : Z; lt_month : Z; lt_mday : Z;
  lt_hour : Z; lt_min : Z; lt_sec : Z;
}.

(** ** Formatting *)

(** The character of a decimal digit [0 <= d < 10]. *)
Definition digit_char (d : Z) : ascii := ascii_of_nat (48 + Z.to_nat d).

(** [str(n)] for [n >= 0], on at most [fuel] digits: the digits of
    [n / 10] followed by the last digit. *)
Fixpoint str_digits (fuel : nat) (n : Z) : list ascii :=
  match fuel with
  | O => []
  | S f => (if n <? 10 then [] else str_digits f (n / 10)) ++ [digit_char (n mod 10)]
  end.

(** A fuel of one digit per bit is enough. *)
Definition str_fuel (n : Z) : nat := S (Z.to_nat (Z.log2 n)).

Definition zeros (k : nat) : list ascii := repeat "0"%char k.

(** ["{:0w}".format(n)] *)
Definition zero_pad (w : nat) (n : Z) : list ascii :=
  let sign := if n <? 0 then ["-"%char] else [] in
  let ds := str_digits (str_fuel (Z.abs n)) (Z.abs n) in
  sign ++ zeros (w - length sign - length ds) ++ ds.

(** [get_formatted_datetime()] on the value of [time.localtime()]. *)
Definition get_formatted_datetime (t : localtime) : string :=
  string_of_list_ascii
    (zero_pad 4 (lt_year t) ++ ["-"%char] ++ zero_pad 2 (lt_month t) ++ ["-"%char] ++
     zero_pad 2 (lt_mday t) ++ [" "%char] ++ zero_pad 2 (lt_hour t) ++ [":"%char] ++
     zero_pad 2 (lt_min t) ++ [":"%char] ++ zero_pad 2 (lt_sec t)).

(** ** The reference reader of ["YYYY-MM-DD HH:MM:SS"] *)

Definition digit_val (c : ascii) : option Z :=
  let n := nat_of_ascii c in
  if (48 <=? n)%nat && (n <=? 57)%nat then Some (Z.of_nat n - 48) else None.

Fixpoint parse_digits (acc : Z) (l : list ascii) : option Z :=
  match l with
  | [] => Some acc
  | c :: l' => match digit_val c with
               | Some d => parse_digits (acc * 10 + d) l'
               | None => None
               end
  end.

Definition parse_datetime (s : string) : option localtime :=
  match list_ascii_of_string s with
  | [y1; y2; y3; y4; a; m1; m2; b; d1; d2; c; h1; h2; e; i1; i2; f; s1; s2] =>
      if Ascii.eqb a "-" && Ascii.eqb b "-" && Ascii.eqb c " " &&
         Ascii.eqb e ":" && Ascii.eqb f ":" then
        match parse_digits 0 [y1; y2; y3; y4], parse_digits 0 [m1; m2],
              parse_digits 0 [d1; d2], parse_digits 0 [h1; h2],
              parse_digits 0 [i1; i2], parse_digits 0 [s1; s2] with
        | Some y, Some mo, Some d, Some h, Some mi, Some se =>
            Some {| lt_year := y; lt_month := mo; lt_mday := d;
                    lt_hour := h; lt_min := mi; lt_sec := se |}
        | _, _, _, _, _, _ => None
        end
      else None
  | _ => None
  end.

(** The last [k] digits of [n], zeros included. *)
Fixpoint digits_fixed (k : nat) (n : Z) : list ascii :=
  match k with
  | O => []
  | S k' => digits_fixed k' (n / 10) ++ [digit_char (n mod 10)]
  end.

(** ** Digits *)

Lemma digit_val_char d : 0 <= d < 10 -> digit_val (digit_char d) = Some d.
Proof.
  intros Hd. assert (d = 0 \/ d = 1 \/ d = 2 \/ d = 3 \/ d = 4 \/ d = 5 \/ d = 6 \/
                     d = 7 \/ d = 8 \/ d = 9) as H by lia.
  repeat destruct H as [->|H]; [..|subst]; reflexivity.
Qed.

Lemma parse_digits_snoc acc l c :
  parse_digits acc (l ++ [c]) =
    match parse_digits acc l, digit_val c with
    | Some a, Some d => Some (a * 10 + d)
    | _, _ => None
    end.
Proof.
  revert acc. induction l as [|c' l IH]; intros acc; cbn [parse_digits app].
  - by destruct (digit_val c).
  - destruct (digit_val c'); [apply IH|by destruct (digit_val c)].
Qed.

(** Dividing by ten takes a digit off the bound. *)
Lemma div10_bound n k : 0 <= n < 10 ^ Z.of_nat (S k) -> 0 <= n / 10 < 10 ^ Z.of_nat k.
Proof.
  rewrite Nat2Z.inj_succ, Z.pow_succ_r by lia. intros Hn.
  split; [apply Z.div_pos; lia|]. apply Z.div_lt_upper_bound; lia.
Qed.

(** Appending the last digit to the digits of [n / 10]. *)
Lemma snoc_digit acc n p :
  0 <= p -> 0 <= n -> (acc * 10 ^ p + n / 10) * 10 + n mod 10 = acc * 10 ^ (p + 1) + n.
Proof.
  intros Hp Hn. rewrite Z.pow_add_r, Z.pow_1_r, Z.mul_assoc by lia.
  pose proof (Z.div_mod n 10 ltac:(lia)). lia.
Qed.

Lemma pow10_pos k : 0 < 10 ^ Z.of_nat k.
Proof. apply Z.pow_pos_nonneg; lia. Qed.

Lemma digits_fixed_length k n : length (digits_fixed k n) = k.
Proof.
  revert n. induction k as [|k IH]; intros n; [done|].
  cbn [digits_fixed]. rewrite length_app, IH. simpl. lia.
Qed.

Lemma zeros_snoc k : zeros k ++ ["0"%char] = zeros (S k).
Proof.
  unfold zeros. induction k as [|k IH]; [done|]. cbn [repeat app]. by rewrite IH.
Qed.

Lemma digits_fixed_zero k : digits_fixed k 0 = zeros k.
Proof.
  induction k as [|k IH]; [done|]. cbn [digits_fixed].
  rewrite Z.div_0_l, Z.mod_0_l by lia. rewrite IH. apply zeros_snoc.
Qed.

Lemma parse_digits_fixed acc k n :
  0 <= n < 10 ^ Z.of_nat k ->
  parse_digits acc (digits_fixed k n) = Some (acc * 10 ^ Z.of_nat k + n).
Proof.
  revert n. induction k as [|k IH]; intros n Hn.
  - simpl in *. f_equal. lia.
  - cbn [digits_fixed]. rewrite parse_digits_snoc, (IH (n / 10)) by (apply div10_bound; lia).
    rewrite digit_val_char by (apply Z.mod_pos_bound; lia).
    f_equal. rewrite Nat2Z.inj_succ, <- Z.add_1_r. apply snoc_digit; lia.
Qed.

(** ** [str(n)] and its fuel *)

Lemma str_digits_fixed k f n :
  (1 <= k)%nat -> 0 <= n < 10 ^ Z.of_nat k -> n < 10 ^ Z.of_nat f ->
  zeros (k - length (str_digits f n)) ++ str_digits f n = digits_fixed k n.
Proof.
  revert f n. induction k as [|k IH]; intros f n Hk Hn Hf; [lia|].
  destruct f as [|f].
  - assert (n = 0) as -> by (simpl in Hf; lia).
    rewrite digits_fixed_zero. simpl. by rewrite app_nil_r.
  - cbn [str_digits digits_fixed]. destruct (Z.ltb_spec n 10) as [Hlt|Hge].
    + rewrite Z.div_small by lia. rewrite digits_fixed_zero. simpl.
      by rewrite Nat.sub_0_r.
    + destruct k as [|k]; [simpl in Hn; lia|].
      assert (n / 10 < 10 ^ Z.of_nat f).
      { apply Z.div_lt_upper_bound; [lia|].
        rewrite Nat2Z.inj_succ, Z.pow_succ_r in Hf; lia. }
      rewrite <- (IH f (n / 10)) by (try apply div10_bound; lia).
      rewrite length_app, app_assoc. simpl. do 3 f_equal. lia.
Qed.

Lemma str_fuel_enough n : 0 <= n -> n < 10 ^ Z.of_nat (str_fuel n).
Proof.
  intros Hn. unfold str_fuel. rewrite Nat2Z.inj_succ, Z2Nat.id by apply Z.log2_nonneg.
  apply Z.lt_le_trans with (2 ^ Z.succ (Z.log2 n)).
  - destruct (Z.eq_dec n 0) as [->|Hne]; [reflexivity|].
    apply Z.log2_spec. lia.
  - apply Z.pow_le_mono_l. lia.
Qed.

Lemma str_digits_succ f n :
  (1 <= f)%nat -> 0 <= n < 10 ^ Z.of_nat f -> str_digits (S f) n = str_digits f n.
Proof.
  revert n. induction f as [|f IH]; intros n Hf Hn; [lia|].
  change (str_digits (S (S f)) n) with
    ((if n <? 10 then [] else str_digits (S f) (n / 10)) ++ [digit_char (n mod 10)]).
  change (str_digits (S f) n) with
    ((if n <? 10 then [] else str_digits f (n / 10)) ++ [digit_char (n mod 10)]).
  destruct (Z.ltb_spec n 10); [done|]. f_equal.
  destruct f as [|f]; [simpl in Hn; lia|].
  apply IH; [lia|]. apply div10_bound. lia.
Qed.

Lemma parse_str_digits acc f n :
  0 <= n < 10 ^ Z.of_nat f ->
  parse_digits acc (str_digits f n) = Some (acc * 10 ^ Z.of_nat (length (str_digits f n)) + n).
Proof.
  revert acc n. induction f as [|f IH]; intros acc n Hn.
  - simpl in *. f_equal. lia.
  - cbn [str_digits]. rewrite parse_digits_snoc, length_app.
    rewrite digit_val_char by (apply Z.mod_pos_bound; lia).
    destruct (Z.ltb_spec n 10).
    + simpl. f_equal. rewrite Z.mod_small by lia. lia.
    + rewrite IH by (apply div10_bound; lia). f_equal.
      rewrite Nat2Z.inj_add. apply snoc_digit; lia.
Qed.

Lemma zero_pad_fixed w n :
  (1 <= w)%nat -> 0 <= n < 10 ^ Z.of_nat w -> zero_pad w n = digits_fixed w n.
Proof.
  intros Hw Hn. unfold zero_pad.
  destruct (Z.ltb_spec n 0); [lia|]. rewrite Z.abs_eq by lia. cbn [app length].
  rewrite Nat.sub_0_r. apply str_digits_fixed; [done|done|]. apply str_fuel_enough. lia.
Qed.

Lemma length_string_of_list_ascii l : String.length (string_of_list_ascii l) = length l.
Proof. induction l as [|c l IH]; simpl; by rewrite ?IH. Qed.

Lemma pow10_mono k k' : (k <= k')%nat -> 10 ^ Z.of_nat k <= 10 ^ Z.of_nat k'.
Proof. intros H. apply Z.pow_le_mono_r; lia. Qed.

(** ** Properties *)

(** The fields of a [localtime] fit their widths in the format. *)
Definition fits (t : localtime) : Prop :=
  0 <= lt_year t < 10000 /\ 0 <= lt_month t < 100 /\ 0 <= lt_mday t < 100 /\
  0 <= lt_hour t < 100 /\ 0 <= lt_min t < 100 /\ 0 <= lt_sec t < 100.

(** The fuel of [str_digits] is enough: run with [str_fuel n] steps or
    more the digit loop gives the same digits, which read back as [n],
    for every [n >= 0]. *)
Lemma str_digits_fuel n f :
  0 <= n -> (str_fuel n <= f)%nat ->
  str_digits f n = str_digits (str_fuel n) n /\
  parse_digits 0 (str_digits (str_fuel n) n) = Some n.
Proof.
  intros Hn Hf. pose proof (str_fuel_enough n Hn) as He. split.
  - induction Hf as [|m Hm IH]; [done|].
    assert (n < 10 ^ Z.of_nat m) by (eapply Z.lt_le_trans; [exact He|]; by apply pow10_mono).
    rewrite str_digits_succ by (unfold str_fuel in Hm; lia). done.
  - by rewrite parse_str_digits by lia.
Qed.

(** The layout of the formatted time, for the sensors' readings and the
    error payloads. *)
Lemma datetime_layout t :
  fits t ->
  parse_datetime (get_formatted_datetime t) = Some t /\
  String.length (get_formatted_datetime t) = 19%nat.
Proof.
  destruct t as [y mo d h mi se]. unfold fits; cbn [lt_year lt_month lt_mday lt_hour lt_min lt_sec].
  intros (Hy & Hmo & Hd & Hh & Hmi & Hse). unfold get_formatted_datetime, parse_datetime.
  cbn [lt_year lt_month lt_mday lt_hour lt_min lt_sec].
  rewrite !zero_pad_fixed by (simpl; lia).
  pose proof (parse_digits_fixed 0 4 y ltac:(simpl; lia)) as Py.
  pose proof (parse_digits_fixed 0 2 mo ltac:(simpl; lia)) as Pmo.
  pose proof (parse_digits_fixed 0 2 d ltac:(simpl; lia)) as Pd.
  pose proof (parse_digits_fixed 0 2 h ltac:(simpl; lia)) as Ph.
  pose proof (parse_digits_fixed 0 2 mi ltac:(simpl; lia)) as Pmi.
  pose proof (parse_digits_fixed 0 2 se ltac:(simpl; lia)) as Pse.
  cbn [digits_fixed app] in *. rewrite length_string_of_list_ascii, list_ascii_of_string_of_list_ascii.
  split; [|reflexivity]. cbn beta iota.
  rewrite Py, Pmo, Pd, Ph, Pmi, Pse. rewrite !Z.mul_0_l, !Z.add_0_l. reflexivity.
Qed.

(** C29. The timestamp has the spec's layout ["YYYY-MM-DD HH:MM:SS"]:
    whenever every field fits its width (a year of at most four digits,
    the other fields of at most two), the string has 19 characters and
    the reader of that layout gives back the six fields. *)
Theorem formatted_datetime_roundtrip t :
  fits t ->
  parse_datetime (get_formatted_datetime t) = Some t /\
  String.length (get_formatted_datetime t) = 19%nat.
Proof. apply datetime_layout. Qed.

Lemma formatted_datetime_roundtrip_witness :
  fits {| lt_year := 2026; lt_month := 11; lt_mday := 9; lt_hour := 7; lt_min := 5; lt_sec := 0 |} /\
  parse_datetime (get_formatted_datetime
    {| lt_year := 2026; lt_month := 11; lt_mday := 9; lt_hour := 7; lt_min := 5; lt_sec := 0 |}) =
    Some {| lt_year := 2026; lt_month := 11; lt_mday := 9; lt_hour := 7; lt_min := 5; lt_sec := 0 |}.
Proof.
  assert (H : fits {| lt_year := 2026; lt_month := 11; lt_mday := 9; lt_hour := 7;
                      lt_min := 5; lt_sec := 0 |}) by (unfold fits; simpl; lia).
  split; [exact H|]. apply (formatted_datetime_roundtrip _ H).
Defined.
