(* ===== verification/TempHumidity.v ===== *)
(** The DHT11 sensor class (src/sensors/temperature_humidity_sensor.py).

    [TemperatureHumiditySensor.read_values()] asks the driver for a
    measure, converts the temperature and the humidity to the units of
    the sensor's editable parameters and stamps the reading with the
    formatted local time.  The driver's answer ([measure()],
    [temperature()], [humidity()]: two integers, or the exception it
    raises), the sensor's [parameters] and the value of
    [time.localtime()] are arguments; [parameters["editable"]] raises
    [KeyError] when the key is absent.

    The DHT11 gives integers; the conversions to Fahrenheit, Kelvin and
    fraction divide, so they give Python floats.  A float is modelled by
    the exact rational ([PFloat]); the rounding of binary floating point
    is not modelled, and no theorem here depends on a float's value.
    [BaseSensor.read_values] takes the reading a sensor publishes from
    [env_read]; this file says what that reading is for this class. *)

From Stdlib Require Import ZArith String List QArith_base.
From stdpp Require Import base list strings.
From S2P Require Import Prelude Datetime.
Import ListNotations.
Local Open Scope Z_scope.
Local Open Scope py_scope.

(** A Python number of the reading. *)
Inductive pynum :=
  | PInt (z : Z)
  | PFloat (q : Q).

(** [unit == "<name>"]: a value that is not a string is unequal. *)
Definition unit_is (name : string) (u : json) : bool :=
  match u with JStr s => bool_decide (s = name) | _ => false end.

(** The temperature branch of [read_values]. *)
Definition convert_temperature (temp_unit : json) (temp_celsius : Z) : pynum :=
  if unit_is "Fahrenheit" temp_unit then
    PFloat (Qplus (Qdiv (inject_Z (temp_celsius * 9)) (inject_Z 5)) (inject_Z 32))
  else if unit_is "Kelvin" temp_unit then
    PFloat (Qplus (inject_Z temp_celsius) (Qmake 27315 100))
  else PInt temp_celsius.

(** The humidity branch of [read_values]. *)
Definition convert_humidity (hum_unit : json) (hum_percentage : Z) : pynum :=
  if unit_is "fraction" hum_unit then PFloat (Qdiv (inject_Z hum_percentage) (inject_Z 100))
  else if unit_is "per_mille" hum_unit then PInt (hum_percentage * 10)
  else PInt hum_percentage.

(** The dict [read_values] returns. *)
Record reading := {
  r_temperature : pynum;
  r_humidity : pynum;
  r_unit_temperature : json;
  r_unit_humidity : json;
  r_datetime : string;
}.

Module TemperatureHumiditySensor.

(** [read_values()]: [dht] is the driver's answer, [parameters] the
    sensor's [self.parameters], [now] the value of [time.localtime()].
    The units are read after the measure with
    [self.parameters["editable"].get(...)]; every exception of the
    [try] (the driver's, a missing [editable] key, a non-dict value) is
    logged and raised again unchanged. *)
Definition read_values (dht : exn + (Z * Z)) (parameters : json)
    (now : localtime) : exn + reading :=
  let? m := dht in
  let '(temp_celsius, hum_percentage) := m in
  let? editable := py_getitem parameters "editable" in
  let? temp_unit := py_get_default editable "unit_temperature" (JStr "Celsius") in
  let? editable := py_getitem parameters "editable" in
  let? hum_unit := py_get_default editable "unit_humidity" (JStr "percentage") in
  inr {| r_temperature := convert_temperature temp_unit temp_celsius;
         r_humidity := convert_humidity hum_unit hum_percentage;
         r_unit_temperature := temp_unit;
         r_unit_humidity := hum_unit;
         r_datetime := get_formatted_datetime now |}.
End TemperatureHumiditySensor.

(** ** Properties *)

Lemma unit_is_false name u : u <> JStr name -> unit_is name u = false.
Proof. intros H. destruct u; try done. cbn. case_bool_decide; congruence. Qed.

Lemma unit_is_default name dflt : dflt <> name -> unit_is name (JStr dflt) = false.
Proof. intros H. apply unit_is_false. congruence. Qed.

(** With an [editable] dict, a measure gives the reading in the units
    it names, the defaults standing in for absent keys. *)
Lemma read_values_units tc hp ps ed now :
  dget "editable" ps = Some (JObj ed) ->
  TemperatureHumiditySensor.read_values (inr (tc, hp)) (JObj ps) now =
    let temp_unit := dget_or "unit_temperature" (JStr "Celsius") ed in
    let hum_unit := dget_or "unit_humidity" (JStr "percentage") ed in
    inr {| r_temperature := convert_temperature temp_unit tc;
           r_humidity := convert_humidity hum_unit hp;
           r_unit_temperature := temp_unit; r_unit_humidity := hum_unit;
           r_datetime := get_formatted_datetime now |}.
Proof.
  intros He. unfold TemperatureHumiditySensor.read_values. cbn [sbind py_getitem].
  rewrite He. cbn [sbind]. by rewrite !py_get_default_obj.
Qed.

(** C30. With the default units (no [unit_temperature] nor
    [unit_humidity] parameter) a reading publishes the driver's integers
    unchanged, labelled ["Celsius"] and ["percentage"], and stamped with
    a 19-character ["YYYY-MM-DD HH:MM:SS"] time that reads back as the
    local time. *)
Theorem read_values_default_units tc hp ps ed now :
  dget "editable" ps = Some (JObj ed) ->
  dget "unit_temperature" ed = None -> dget "unit_humidity" ed = None -> fits now ->
  exists r, TemperatureHumiditySensor.read_values (inr (tc, hp)) (JObj ps) now = inr r /\
    r_temperature r = PInt tc /\ r_humidity r = PInt hp /\
    r_unit_temperature r = JStr "Celsius" /\ r_unit_humidity r = JStr "percentage" /\
    parse_datetime (r_datetime r) = Some now /\ String.length (r_datetime r) = 19%nat.
Proof.
  intros He Ht Hh Hf. rewrite (read_values_units _ _ _ _ _ He).
  unfold dget_or. rewrite Ht, Hh. eexists. split; [reflexivity|]. cbn [r_temperature r_humidity
    r_unit_temperature r_unit_humidity r_datetime].
  unfold convert_temperature, convert_humidity.
  rewrite !unit_is_default by done. repeat split; try done; apply datetime_layout, Hf.
Qed.

Lemma read_values_default_units_witness :
  exists r, TemperatureHumiditySensor.read_values (inr (21, 40))
    (JObj [("editable", JObj [("report_interval", JNum 5)])])
    {| lt_year := 2026; lt_month := 11; lt_mday := 9; lt_hour := 7; lt_min := 5; lt_sec := 0 |} = inr r /\
    r_temperature r = PInt 21 /\ r_humidity r = PInt 40 /\
    r_unit_temperature r = JStr "Celsius" /\ r_unit_humidity r = JStr "percentage" /\
    parse_datetime (r_datetime r) =
      Some {| lt_year := 2026; lt_month := 11; lt_mday := 9; lt_hour := 7; lt_min := 5; lt_sec := 0 |} /\
    String.length (r_datetime r) = 19%nat.
Proof.
  eapply read_values_default_units; [reflexivity|reflexivity|reflexivity|unfold fits; simpl; lia].
Defined.

(** A temperature unit other than ["Fahrenheit"] and ["Kelvin"]
    (["celsius"], ["kelvin"], a misspelling, a number) gives the Celsius
    value, published under the configured unit name. *)
Theorem read_values_unknown_unit tc hp ps ed now u :
  dget "editable" ps = Some (JObj ed) -> dget "unit_temperature" ed = Some u ->
  u <> JStr "Fahrenheit" -> u <> JStr "Kelvin" ->
  exists r, TemperatureHumiditySensor.read_values (inr (tc, hp)) (JObj ps) now = inr r /\
    r_temperature r = PInt tc /\ r_unit_temperature r = u.
Proof.
  intros He Hu HF HK. rewrite (read_values_units _ _ _ _ _ He).
  unfold dget_or. rewrite Hu.
  eexists. split; [reflexivity|]. cbn [r_temperature r_unit_temperature].
  unfold convert_temperature. by rewrite !unit_is_false.
Qed.

Lemma read_values_unknown_unit_witness :
  exists r, TemperatureHumiditySensor.read_values (inr (21, 40))
    (JObj [("editable", JObj [("unit_temperature", JStr "fahrenheit")])])
    {| lt_year := 2026; lt_month := 11; lt_mday := 9; lt_hour := 7; lt_min := 5; lt_sec := 0 |} = inr r /\
    r_temperature r = PInt 21 /\ r_unit_temperature r = JStr "fahrenheit".
Proof. eapply read_values_unknown_unit; [reflexivity|reflexivity|discriminate|discriminate]. Defined.

(** Parameters without an [editable] dict: a measure that succeeds
    still ends in [KeyError], raised again by the [except] clause. *)
Lemma read_values_no_editable tc hp ps now :
  dget "editable" ps = None ->
  TemperatureHumiditySensor.read_values (inr (tc, hp)) (JObj ps) now =
    inl (PyExc KeyError "editable").
Proof. intros He. unfold TemperatureHumiditySensor.read_values. cbn [sbind py_getitem]. by rewrite He. Qed.
