(* ===== verification/PyMath.v ===== *)
(** MicroPython's numbers as the gas-sensor scripts of my/ use them.

    - Floats are exact rationals [Q], every result reduced with [Qred]
      (so equal floats are equal terms); the rounding of binary floating
      point is not modelled.  Division raises [ZeroDivisionError] on a
      zero divisor, as Python does for floats ([py_div]).
    - [xfloat] adds the IEEE values [inf], [-inf] and [nan] that the MQ-7
      class produces with [float('inf')]: total addition, division and
      comparisons with IEEE's rules ([xadd], [xdiv], [xle]), in the
      manner of extended reals.
    - [math.log], [math.exp] and [math.pow] raise [ValueError] ("math
      domain error") where MicroPython's [math] module does: outside
      their domain, and when finite arguments give a result that is not
      finite ([math_generic_1], [math_generic_2]), an exact value that
      rounds beyond the largest single-precision float ([overflows]).
      Their values at finite arguments inside the domain (a logarithm, an
      exponential, a power at a non-integer exponent) are not rational
      and are parameters of the sections that use them.
    - [time.ticks_ms] and [time.ticks_diff] at the width of the rp2 port:
      the millisecond counter is masked to [TICKS_PERIOD = 2^30] and
      [ticks_diff] folds a difference into [-2^29, 2^29), written as the C
      code computes it with a mask. *)

From Stdlib Require Import ZArith QArith Qabs String Lia Lqa.
From stdpp Require Import base tactics.
From S2P Require Import Prelude.

(** * Finite floats *)

Local Open Scope Q_scope.

(** Python's [a < b] on floats. *)
Definition qlt (a b : Q) : bool := negb (Qle_bool b a).

Definition zero_division : exn := PyExc ZeroDivisionError "divide by zero".
Definition math_domain_error : exn := PyExc ValueError "math domain error".

(** [a / b] on floats. *)
Definition py_div (a b : Q) : exn + Q :=
  if Qeq_bool b 0 then inl zero_division else inr (Qred (a / b)).

(** The largest finite single-precision float, [(2^24 - 1) * 2^104]. *)
Definition FLT_MAX : Q := inject_Z ((2 ^ 24 - 1) * 2 ^ 104).

(** An exact result rounds to [inf] or [-inf] (round to nearest, ties to
    even) from half an ulp above [FLT_MAX] on. *)
Definition overflows (r : Q) : bool :=
  Qle_bool (FLT_MAX + inject_Z (2 ^ 103)) (Qabs r).

(** The check of [math_generic]: an infinite result of finite
    arguments raises. *)
Definition math_result (r : Q) : exn + Q :=
  if overflows r then inl math_domain_error else inr r.

(** An integral float ([y == int(y)]). *)
Definition is_integral (y : Q) : bool := Pos.eqb (Qden (Qred y)) 1.

Section Pow.
(** The value of [math.pow(x, y)] for [x > 0]. *)
Context (pow_pos : Q -> Q -> Q).

(** [math.pow(x, y)]: a negative base needs an integral exponent and
    [0] has no negative power. *)
Definition math_pow (x y : Q) : exn + Q :=
  if qlt 0 x then math_result (pow_pos x y)
  else if Qeq_bool x 0 then
    (if qlt y 0 then inl math_domain_error
     else if Qeq_bool y 0 then inr 1 else inr 0)
  else if is_integral y then math_result (Qred (Qpower x (Qnum (Qred y))))
  else inl math_domain_error.
End Pow.

(** * Floats with infinities and NaN *)

Inductive xfloat :=
  | Fin (q : Q)
  | PInf
  | NInf
  | NaN.

Definition xneg (a : xfloat) : xfloat :=
  match a with Fin x => Fin (Qred (- x)) | PInf => NInf | NInf => PInf | NaN => NaN end.

Definition xadd (a b : xfloat) : xfloat :=
  match a, b with
  | NaN, _ | _, NaN => NaN
  | PInf, NInf | NInf, PInf => NaN
  | PInf, _ | _, PInf => PInf
  | NInf, _ | _, NInf => NInf
  | Fin x, Fin y => Fin (Qred (x + y))
  end.

Definition xsub (a b : xfloat) : xfloat := xadd a (xneg b).

(** [a / b]: a zero divisor raises before IEEE's rules apply. *)
Definition xdiv (a b : xfloat) : exn + xfloat :=
  match b with
  | Fin y =>
      if Qeq_bool y 0 then inl zero_division else
      inr match a with
          | Fin x => Fin (Qred (x / y))
          | PInf => if qlt 0 y then PInf else NInf
          | NInf => if qlt 0 y then NInf else PInf
          | NaN => NaN
          end
  | PInf | NInf => inr match a with Fin _ => Fin 0 | _ => NaN end
  | NaN => inr NaN
  end.

(** [a <= b]: false whenever [nan] is compared. *)
Definition xle (a b : xfloat) : bool :=
  match a, b with
  | NaN, _ | _, NaN => false
  | NInf, _ | _, PInf => true
  | PInf, _ | _, NInf => false
  | Fin x, Fin y => Qle_bool x y
  end.

Section Transcendental.
(** The values of [math.log] at a positive finite float and of
    [math.exp] at a finite float. *)
Context (ln ex : Q -> Q).

Definition math_log (x : xfloat) : exn + xfloat :=
  match x with
  | Fin q => if qlt 0 q then inr (Fin (ln q)) else inl math_domain_error
  | PInf => inr PInf
  | NInf => inl math_domain_error
  | NaN => inr NaN
  end.

Definition math_exp (x : xfloat) : exn + xfloat :=
  match x with
  | Fin q => sbind (math_result (ex q)) (fun r => inr (Fin r))
  | PInf => inr PInf
  | NInf => inr (Fin 0)
  | NaN => inr NaN
  end.
End Transcendental.

(** * The millisecond tick counter *)

Local Open Scope Z_scope.

Definition TICKS_PERIOD : Z := 2 ^ 30.

(** [time.ticks_ms()] when the board has been up [ms] milliseconds. *)
Definition ticks_ms (ms : Z) : Z := Z.land ms (TICKS_PERIOD - 1).

(** [time.ticks_diff(end, start)]. *)
Definition ticks_diff (end_ start : Z) : Z :=
  Z.land (end_ - start + TICKS_PERIOD / 2) (TICKS_PERIOD - 1) - TICKS_PERIOD / 2.

(** * Lemmas *)

Ltac ticks_num :=
  change (TICKS_PERIOD / 2) with 536870912 in *; change TICKS_PERIOD with 1073741824 in *.

Lemma ticks_mask x : Z.land x (TICKS_PERIOD - 1) = x mod TICKS_PERIOD.
Proof.
  change (TICKS_PERIOD - 1) with (Z.ones 30). rewrite Z.land_ones by lia. reflexivity.
Qed.

Lemma ticks_ms_range ms : 0 <= ticks_ms ms < TICKS_PERIOD.
Proof. unfold ticks_ms. rewrite ticks_mask. apply Z.mod_pos_bound. reflexivity. Qed.

(** [ticks_diff] of two counter readings is the true difference folded
    into [-2^29, 2^29). *)
Lemma ticks_diff_fold a b :
  ticks_diff (ticks_ms a) (ticks_ms b) =
  (a - b + TICKS_PERIOD / 2) mod TICKS_PERIOD - TICKS_PERIOD / 2.
Proof.
  unfold ticks_diff, ticks_ms. rewrite !ticks_mask. f_equal.
  rewrite <- Zplus_mod_idemp_l, Zminus_mod, !Zmod_mod, <- Zminus_mod,
    Zplus_mod_idemp_l. reflexivity.
Qed.

Lemma ticks_diff_range a b : - (TICKS_PERIOD / 2) <= ticks_diff a b < TICKS_PERIOD / 2.
Proof.
  unfold ticks_diff. rewrite ticks_mask.
  pose proof (Z.mod_pos_bound (a - b + TICKS_PERIOD / 2) TICKS_PERIOD ltac:(reflexivity)).
  ticks_num. lia.
Qed.

Lemma ticks_diff_exact a b :
  - (TICKS_PERIOD / 2) <= a - b < TICKS_PERIOD / 2 ->
  ticks_diff (ticks_ms a) (ticks_ms b) = a - b.
Proof.
  intros H. rewrite ticks_diff_fold, Z.mod_small; [lia|].
  ticks_num. lia.
Qed.

Lemma ticks_diff_wraps a b :
  TICKS_PERIOD / 2 <= a - b < TICKS_PERIOD + TICKS_PERIOD / 2 ->
  ticks_diff (ticks_ms a) (ticks_ms b) = a - b - TICKS_PERIOD.
Proof.
  intros H. rewrite ticks_diff_fold.
  rewrite <- (Z_mod_plus_full _ (-1)), Z.mod_small; [lia|].
  ticks_num. lia.
Qed.

Lemma qlt_spec a b : qlt a b = true <-> (a < b)%Q.
Proof.
  unfold qlt. rewrite negb_true_iff. split; intros H.
  - apply Qnot_le_lt. intros Hle. apply Qle_bool_iff in Hle. congruence.
  - destruct (Qle_bool b a) eqn:E; [|done]. apply Qle_bool_iff in E.
    exfalso. apply (Qlt_not_le _ _ H E).
Qed.

Lemma xdiv_fin a y : Qeq_bool y 0 = false -> xdiv (Fin a) (Fin y) = inr (Fin (Qred (a / y))).
Proof. intros H. cbn. by rewrite H. Qed.

Lemma xdiv_pinf_pos y : qlt 0 y = true -> xdiv PInf (Fin y) = inr PInf.
Proof.
  intros H. cbn. rewrite H. destruct (Qeq_bool y 0) eqn:E; [|done].
  apply qlt_spec in H. apply Qeq_bool_eq in E. rewrite E in H. discriminate.
Qed.

Lemma xdiv_fin_inf a : xdiv (Fin a) PInf = inr (Fin 0).
Proof. reflexivity. Qed.

Lemma qlt_false a b : qlt a b = false <-> (b <= a)%Q.
Proof.
  unfold qlt. rewrite negb_false_iff. split; intros H; [by apply Qle_bool_iff|].
  by apply Qle_bool_iff.
Qed.

Lemma Qle_bool_false a b : Qle_bool a b = false <-> (b < a)%Q.
Proof.
  split; intros H.
  - apply Qnot_le_lt. intros Hle. apply Qle_bool_iff in Hle. congruence.
  - destruct (Qle_bool a b) eqn:E; [|done]. apply Qle_bool_iff in E.
    exfalso. apply (Qlt_not_le _ _ H E).
Qed.

Lemma Qeq_bool_false a b : ~ (a == b)%Q -> Qeq_bool a b = false.
Proof. intros H. destruct (Qeq_bool a b) eqn:E; [|done]. by apply Qeq_bool_eq in E. Qed.

(** The sign of [a / v * b] for positive [v] and [b]. *)
Lemma qfrac_sign a v b : (0 < v)%Q -> (0 < b)%Q ->
  ((0 < a)%Q -> (0 < a / v * b)%Q) /\ ((a < 0)%Q -> (a / v * b < 0)%Q) /\
  ((a == 0)%Q -> (a / v * b == 0)%Q).
Proof.
  intros Hv Hb. pose proof (Qinv_lt_0_compat _ Hv). unfold Qdiv.
  split; [|split]; intros Ha.
  - apply Qmult_lt_0_compat; [apply Qmult_lt_0_compat|]; done.
  - assert (0 < - a * / v * b)%Q by
      (apply Qmult_lt_0_compat; [apply Qmult_lt_0_compat|]; [lra|done|done]).
    lra.
  - rewrite Ha. ring.
Qed.

(** Python's [a < b] and [a <= b] as propositions. *)
Ltac qbool :=
  repeat match goal with
  | H : qlt _ _ = true |- _ => apply qlt_spec in H
  | H : qlt _ _ = false |- _ => apply qlt_false in H
  | H : Qle_bool _ _ = true |- _ => apply Qle_bool_iff in H
  | H : Qle_bool _ _ = false |- _ => apply Qle_bool_false in H
  | H : Qeq_bool _ _ = true |- _ => apply Qeq_bool_eq in H
  | H : Qeq_bool _ _ = false |- _ => apply Qeq_bool_neq in H
  end.

(** The sign of a quotient by a positive float. *)
Lemma qdiv_sign a c : (0 < c)%Q ->
  ((0 < a)%Q -> (0 < a / c)%Q) /\ ((a < 0)%Q -> (a / c < 0)%Q) /\ ((a == 0)%Q -> (a / c == 0)%Q).
Proof.
  intros Hc. destruct (qfrac_sign a c 1 Hc ltac:(reflexivity)) as (P & N & Z0).
  assert (E : (a / c * 1 == a / c)%Q) by ring.
  split; [|split]; intros Ha; rewrite <- E; auto.
Qed.

Lemma Qred_idem q : Qred (Qred q) = Qred q.
Proof. apply Qred_complete, Qred_correct. Qed.

(** A result below [2^127] in magnitude is a finite float. *)
Lemma math_result_small r : (Qabs r <= inject_Z (2 ^ 127))%Q -> math_result r = inr r.
Proof.
  intros H. unfold math_result, overflows. rewrite (proj2 (Qle_bool_false _ _)); [done|].
  eapply Qle_lt_trans; [exact H|]. unfold FLT_MAX.
  rewrite <- inject_Z_plus, <- Zlt_Qlt. reflexivity.
Qed.
