(* ===== verification/Mq7.v ===== *)
(** The MQ-7 carbon monoxide sensor class of my/testtttt.py.

    The class averages 16-bit ADC samples, converts the average to the
    sensor's resistance ([float('inf')] when the output voltage is not
    positive), calibrates [self.ro] in clean air, estimates the carbon
    monoxide concentration with an exponential curve, and alternates the
    heater between a 60 s heating and a 90 s cooling phase with
    [utime.ticks_ms] and [utime.ticks_diff].

    The state [st] holds the object ([MQ7.t]) and the board ([hw]): the
    ADC's successive answers ([adc], indexed by the number of reads so
    far), the milliseconds since boot, and the lines printed.  The
    operations are computations of [PyM st]; floats are [xfloat], with
    the infinity and NaN the code produces.  The values of [math.log]
    and [math.exp] at finite arguments are the section parameters [ln]
    and [ex]; no theorem depends on them.

    my/testmq7.py imports this class as [my.mq7], a module that does not
    exist, with keyword arguments and methods ([pinData],
    [readCarbonMonoxide], [_ro]) the class does not have; it is not
    modelled. *)

From Stdlib Require Import ZArith QArith String List Lia Lqa.
From stdpp Require Import base tactics.
From S2P Require Import Prelude PyMath.
Import ListNotations.
Local Open Scope Q_scope.
Local Open Scope py_scope.

Module MQ7.

Definition DEFAULT_RO_BASE : Q := 27.0.
Definition HEATING_PERIOD_MS : Z := 60000.
Definition COOLING_PERIOD_MS : Z := 90000.
Definition SAMPLE_TIMES : Z := 5.
Definition SAMPLE_INTERVAL_MS : Z := 500.
Definition CO_CURVE_A : Q := -0.77.
Definition CO_CURVE_B : Q := 3.38.

(** The object's attributes ([self.pin_data] is the driver). *)
Record t := {
  board_resistance : Q;
  base_voltage : Q;
  divider_ratio : Q;
  ro : xfloat;
  last_measurement_time : Z;
  heater_on : bool;
}.

(** What the script prints: a fixed line, or a line that formats a value. *)
Inductive output :=
  | Line (s : string)
  | Calibrated (ro : xfloat)
  | Resistance (r : xfloat)
  | CarbonMonoxide (ppm : xfloat)
  | Error (e : exn).

Record hw := {
  adc : nat -> Z;
  reads : nat;
  uptime_ms : Z;
  printed : list output;
}.

Record st := {
  dev : t;
  board : hw;
}.

Definition set_dev (d : t) (s : st) : st := {| dev := d; board := board s |}.

Definition set_ro (r : xfloat) (d : t) : t :=
  {| board_resistance := board_resistance d; base_voltage := base_voltage d;
     divider_ratio := divider_ratio d; ro := r;
     last_measurement_time := last_measurement_time d; heater_on := heater_on d |}.

Definition set_heater (on : bool) (time : Z) (d : t) : t :=
  {| board_resistance := board_resistance d; base_voltage := base_voltage d;
     divider_ratio := divider_ratio d; ro := ro d;
     last_measurement_time := time; heater_on := on |}.

Definition set_hw (h : hw) (s : st) : st := {| dev := dev s; board := h |}.

(** [self.pin_data.read_u16()]. *)
Definition read_u16 : PyM st Z := fun s =>
  let h := board s in
  (inr (adc h (reads h)),
   set_hw {| adc := adc h; reads := S (reads h); uptime_ms := uptime_ms h;
             printed := printed h |} s).

(** [utime.sleep_ms(d)]. *)
Definition sleep_ms (d : Z) : PyM st unit := pmodify (fun s =>
  let h := board s in
  set_hw {| adc := adc h; reads := reads h; uptime_ms := (uptime_ms h + d)%Z;
            printed := printed h |} s).

(** [print(...)]. *)
Definition print (o : output) : PyM st unit := pmodify (fun s =>
  let h := board s in
  set_hw {| adc := adc h; reads := reads h; uptime_ms := uptime_ms h;
            printed := printed h ++ [o] |} s).

(** [utime.ticks_ms()]. *)
Definition read_ticks : PyM st Z := pgets (fun s => ticks_ms (uptime_ms (board s))).

(** [x or default] for an optional number argument. *)
Definition or_default {A} (eqz : A -> bool) (x : option A) (dflt : A) : A :=
  match x with Some v => if eqz v then dflt else v | None => dflt end.

(** [MQ7(pin_data, board_resistance, base_voltage, divider_ratio,
    ro_base)] on a board that has been up [now] milliseconds. *)
Definition init (board_resistance base_voltage divider_ratio : Q) (ro_base : option Q)
    (now : Z) : t :=
  {| board_resistance := board_resistance; base_voltage := base_voltage;
     divider_ratio := divider_ratio;
     ro := Fin (or_default (fun q => Qeq_bool q 0) ro_base DEFAULT_RO_BASE);
     last_measurement_time := ticks_ms now; heater_on := false |}.

(** [_calculate_resistance(raw_adc)]. *)
Definition calculate_resistance (d : t) (raw_adc : Q) : exn + xfloat :=
  let? v_out := py_div (Qred (raw_adc * Qred (base_voltage d / 65535))) (divider_ratio d) in
  if Qle_bool v_out 0 then inr PInf
  else inr (Fin (Qred ((base_voltage d - v_out) / v_out * board_resistance d))).

(** The loop of [_average_adc]: [total += read_u16(); sleep_ms(delay)]. *)
Fixpoint adc_sum (k : nat) (delay : Z) (total : Q) : PyM st Q :=
  match k with
  | O => pret total
  | S k' =>
      let* x := read_u16 in
      sleep_ms delay ;;
      adc_sum k' delay (Qred (total + inject_Z x))
  end.

(** [_average_adc(samples, delay)]. *)
Definition average_adc (samples delay : option Z) : PyM st Q :=
  let n := or_default (Z.eqb 0) samples SAMPLE_TIMES in
  let dl := or_default (Z.eqb 0) delay SAMPLE_INTERVAL_MS in
  let* total := adc_sum (Z.to_nat n) dl 0 in
  of_sum (py_div total (inject_Z n)).

(** The loop of [calibrate]:
    [avg_resistance += self._calculate_resistance(read_u16())]. *)
Fixpoint calib_sum (k : nat) (avg : xfloat) : PyM st xfloat :=
  match k with
  | O => pret avg
  | S k' =>
      let* x := read_u16 in
      let* d := pgets dev in
      let* r := of_sum (calculate_resistance d (inject_Z x)) in
      sleep_ms SAMPLE_INTERVAL_MS ;;
      calib_sum k' (xadd avg r)
  end.

(** [calibrate()]. *)
Definition calibrate : PyM st unit :=
  print (Line "Calibrating MQ-7 sensor in clean air...") ;;
  let* avg := calib_sum (Z.to_nat SAMPLE_TIMES) (Fin 0) in
  let* avg := of_sum (xdiv avg (Fin (inject_Z SAMPLE_TIMES))) in
  let* r := of_sum (xdiv avg (Fin DEFAULT_RO_BASE)) in
  pmodify (fun s => set_dev (set_ro r (dev s)) s) ;;
  print (Calibrated r).

(** [read_resistance()]. *)
Definition read_resistance : PyM st xfloat :=
  let* raw_adc := average_adc None None in
  let* d := pgets dev in
  of_sum (calculate_resistance d raw_adc).

(** [read_ratio()]. *)
Definition read_ratio : PyM st xfloat :=
  let* rs := read_resistance in
  let* d := pgets dev in
  if xle (ro d) (Fin 0) || xle rs (Fin 0) then pret PInf
  else of_sum (xdiv rs (ro d)).

(** [heater_cycle()]. *)
Definition heater_cycle : PyM st unit :=
  let* current_time := read_ticks in
  let* d := pgets dev in
  let elapsed := ticks_diff current_time (last_measurement_time d) in
  if negb (heater_on d) && Z.leb COOLING_PERIOD_MS elapsed then
    print (Line "Starting heating phase...") ;;
    pmodify (fun s => set_dev (set_heater true current_time (dev s)) s)
  else if heater_on d && Z.leb HEATING_PERIOD_MS elapsed then
    print (Line "Starting cooling phase...") ;;
    pmodify (fun s => set_dev (set_heater false current_time (dev s)) s)
  else pskip.

Section WithMath.
Context (ln ex : Q -> Q).

(** [read_carbon_monoxide()]. *)
Definition read_carbon_monoxide : PyM st xfloat :=
  let* ratio := read_ratio in
  if xle ratio (Fin 0) then pret (Fin 0)
  else
    let* l := of_sum (math_log ln ratio) in
    let* q := of_sum (xdiv (xsub l (Fin CO_CURVE_B)) (Fin CO_CURVE_A)) in
    of_sum (math_exp ex q).

(** [read_sensor()]. *)
Definition read_sensor : PyM st unit :=
  heater_cycle ;;
  let* resistance := read_resistance in
  let* co_ppm := read_carbon_monoxide in
  print (Resistance resistance) ;;
  print (CarbonMonoxide co_ppm).

(** [while True: try: read_sensor(); sleep(2) except Exception as e:
    print(...); sleep(2)], for [n] iterations. *)
Fixpoint main_loop (n : nat) : PyM st unit :=
  match n with
  | O => pskip
  | S n' =>
      ptry (read_sensor ;; sleep_ms 2000)
        (fun k m => print (Error (PyExc k m)) ;; sleep_ms 2000) ;;
      main_loop n'
  end.

(** The [__main__] block on a board [h], with [n] iterations of the loop. *)
Definition script (n : nat) (h : hw) : (exn + unit) * st :=
  let mq7 := init 10.0 3.3 (1.0 / 3.0) None (uptime_ms h) in
  (print (Line "Warming up the MQ-7 sensor...") ;;
   sleep_ms 10000 ;;
   calibrate ;;
   main_loop n) {| dev := mq7; board := h |}.
End WithMath.

End MQ7.

(** * Properties *)

Import MQ7.

(** The sum of [k] successive ADC answers from the [start]-th. *)
Fixpoint sample_sum (f : nat -> Z) (start k : nat) : Z :=
  match k with O => 0 | S k' => f start + sample_sum f (S start) k' end.

(** The board after [k] reads each followed by a sleep of [dl] ms. *)
Definition advance (k : nat) (dl : Z) (s : st) : st :=
  let h := board s in
  set_hw {| adc := adc h; reads := (reads h + k)%nat; uptime_ms := (uptime_ms h + Z.of_nat k * dl)%Z;
            printed := printed h |} s.

Lemma set_hw_twice h h' s : set_hw h (set_hw h' s) = set_hw h s.
Proof. by destruct s. Qed.

Lemma advance_0 dl s : advance 0 dl s = s.
Proof.
  destruct s as [d [f r u p]]. unfold advance, set_hw. cbn. do 2 f_equal; lia.
Qed.

Lemma advance_S k dl s :
  advance k dl (set_hw {| adc := adc (board s); reads := S (reads (board s));
      uptime_ms := (uptime_ms (board s) + dl)%Z; printed := printed (board s) |} s) =
  advance (S k) dl s.
Proof.
  destruct s as [d [f r u p]]. unfold advance, set_hw. cbn [board adc reads uptime_ms printed].
  do 2 f_equal; lia.
Qed.

Lemma adc_sum_run k dl total s : Qred total = total ->
  adc_sum k dl total s =
  (inr (Qred (total + inject_Z (sample_sum (adc (board s)) (reads (board s)) k))), advance k dl s).
Proof.
  revert total s. induction k as [|k IH]; intros total s Ht.
  - rewrite advance_0. cbn [adc_sum sample_sum]. unfold pret. rewrite <- Ht at 1.
    do 2 f_equal. apply Qred_complete. ring.
  - cbn [adc_sum]. unfold pbind, read_u16, sleep_ms, pmodify. cbn.
    rewrite IH by apply Qred_idem. cbn. rewrite set_hw_twice, advance_S. f_equal. f_equal.
    apply Qred_complete. rewrite Qred_correct, inject_Z_plus. ring.
Qed.

(** The average of the five samples [read_resistance] takes. *)
Definition avg5 (s : st) : Q :=
  Qred (Qred (0 + inject_Z (sample_sum (adc (board s)) (reads (board s)) 5)) / inject_Z 5).

Lemma read_resistance_run s :
  read_resistance s = (calculate_resistance (dev s) (avg5 s), advance 5 500 s).
Proof.
  unfold read_resistance, average_adc, or_default, SAMPLE_TIMES, SAMPLE_INTERVAL_MS.
  change (Z.eqb 0 5) with false. change (Z.eqb 0 500) with false.
  change (Z.to_nat 5) with 5%nat. cbv iota.
  unfold pbind at 1. rewrite (pbind_inr _ _ _ _ _ (adc_sum_run 5 500 0 s eq_refl)).
  reflexivity.
Qed.

Lemma calculate_resistance_zero d raw : ~ divider_ratio d == 0 -> raw == 0 ->
  calculate_resistance d raw = inr PInf.
Proof.
  intros Hd Hr. unfold calculate_resistance, py_div. rewrite Qeq_bool_false by done.
  cbn [sbind]. rewrite (proj2 (Qle_bool_iff _ _)); [done|].
  rewrite !Qred_correct, Hr. unfold Qdiv. rewrite !Qmult_0_l. apply Qle_refl.
Qed.

Lemma calculate_resistance_pos d raw :
  0 < base_voltage d -> 0 < divider_ratio d -> 0 < raw ->
  exists q, calculate_resistance d raw = inr (Fin q).
Proof.
  intros Hb Hd Hr. unfold calculate_resistance, py_div. rewrite Qeq_bool_false by lra.
  cbn [sbind]. rewrite (proj2 (Qle_bool_false _ _)); [by eexists|].
  rewrite !Qred_correct. apply Qlt_shift_div_l; [done|].
  rewrite Qmult_0_l. apply Qmult_lt_0_compat; [done|].
  apply Qlt_shift_div_l; [reflexivity|lra].
Qed.

Lemma calculate_resistance_fin_or_inf d raw : ~ divider_ratio d == 0 ->
  exists r, calculate_resistance d raw = inr r /\ (r = PInf \/ exists q, r = Fin q).
Proof.
  intros Hd. unfold calculate_resistance, py_div. rewrite Qeq_bool_false by done.
  cbn [sbind]. destruct (Qle_bool _ 0); eauto.
Qed.

Lemma read_ratio_run s rs s1 : read_resistance s = (inr rs, s1) -> dev s1 = dev s ->
  read_ratio s =
  (if xle (ro (dev s)) (Fin 0) || xle rs (Fin 0) then inr PInf else xdiv rs (ro (dev s)), s1).
Proof.
  intros H Hd. unfold read_ratio. rewrite (pbind_inr _ _ _ _ _ H).
  unfold pbind, pgets. rewrite Hd. by destruct (_ || _).
Qed.

Lemma sample_sum_zero f start k :
  (forall i, (i < k)%nat -> f (start + i)%nat = 0%Z) -> sample_sum f start k = 0%Z.
Proof.
  revert start. induction k as [|k IH]; intros start H; [done|]. cbn.
  rewrite IH; [|intros i Hi; replace (S start + i)%nat with (start + S i)%nat by lia;
    apply H; lia].
  specialize (H 0%nat ltac:(lia)). rewrite Nat.add_0_r in H. lia.
Qed.

(** Five zero samples give an infinite resistance. *)
Lemma read_resistance_dead s : ~ divider_ratio (dev s) == 0 ->
  (forall i, (i < 5)%nat -> adc (board s) (reads (board s) + i) = 0%Z) ->
  read_resistance s = (inr PInf, advance 5 500 s).
Proof.
  intros Hd Hz. rewrite read_resistance_run, calculate_resistance_zero; [done|done|].
  unfold avg5. rewrite sample_sum_zero by done. reflexivity.
Qed.

(** What [heater_cycle] changes: the heater fields and the printed lines. *)
Definition keeps_params (d d' : t) : Prop :=
  ro d' = ro d /\ board_resistance d' = board_resistance d /\
  base_voltage d' = base_voltage d /\ divider_ratio d' = divider_ratio d.

Lemma heater_cycle_frame s : exists d' lines,
  heater_cycle s = (inr tt, {| dev := d'; board := {| adc := adc (board s);
     reads := reads (board s); uptime_ms := uptime_ms (board s);
     printed := printed (board s) ++ lines |} |}) /\ keeps_params (dev s) d'.
Proof.
  destruct s as [d [f r u p]]. unfold heater_cycle, pbind, read_ticks, pgets. cbn.
  destruct (negb (heater_on d) && _); [|destruct (heater_on d && _)];
    [eexists _, _; split; [reflexivity|done]..|].
  exists d, []. rewrite app_nil_r. done.
Qed.

(** A resistance [_calculate_resistance] returns: finite or [inf]. *)
Definition fin_or_inf (x : xfloat) : Prop := x = PInf \/ exists q, x = Fin q.

Lemma xadd_fin_or_inf a b : fin_or_inf a -> fin_or_inf b -> fin_or_inf (xadd a b).
Proof. intros [->|[x ->]] [->|[y ->]]; cbn; unfold fin_or_inf; eauto. Qed.

Lemma xadd_pinf_r a : fin_or_inf a -> xadd a PInf = PInf.
Proof. by intros [->|[x ->]]. Qed.

Lemma xadd_pinf_l a : fin_or_inf a -> xadd PInf a = PInf.
Proof. by intros [->|[x ->]]. Qed.

Lemma calculate_resistance_ok d raw : ~ divider_ratio d == 0 ->
  exists r, calculate_resistance d raw = inr r /\ fin_or_inf r /\ (raw == 0 -> r = PInf).
Proof.
  intros Hd. destruct (calculate_resistance_fin_or_inf d raw Hd) as (r & Hr & Hfi).
  exists r. split; [done|]. split; [done|]. intros Hz.
  rewrite calculate_resistance_zero in Hr by done. congruence.
Qed.

(** The calibration loop: its sum is [inf] as soon as one sample is [0]. *)
Lemma calib_sum_run k avg s : ~ divider_ratio (dev s) == 0 -> fin_or_inf avg ->
  exists r, calib_sum k avg s = (inr r, advance k 500 s) /\ fin_or_inf r /\
    (avg = PInf \/ (exists i, (i < k)%nat /\ adc (board s) (reads (board s) + i) = 0%Z) ->
     r = PInf).
Proof.
  revert avg s. induction k as [|k IH]; intros avg s Hd Havg.
  - exists avg. rewrite advance_0. split; [done|]. split; [done|].
    intros [->|(i & Hi & _)]; [done|lia].
  - destruct (calculate_resistance_ok (dev s) (inject_Z (adc (board s) (reads (board s)))) Hd)
      as (r0 & Hr0 & Hfi0 & Hz0).
    set (s1 := set_hw {| adc := adc (board s); reads := S (reads (board s));
      uptime_ms := (uptime_ms (board s) + 500)%Z; printed := printed (board s) |} s).
    destruct (IH (xadd avg r0) s1) as (r & Hr & Hfi & Hinf); [done|by apply xadd_fin_or_inf|].
    exists r. split.
    { cbn [calib_sum]. unfold pbind at 1, read_u16. cbn [board].
      unfold pbind at 1, pgets. cbn [dev set_hw]. rewrite Hr0.
      unfold pbind, of_sum, sleep_ms, pmodify.
      cbn [board set_hw adc reads uptime_ms printed]. unfold SAMPLE_INTERVAL_MS.
      rewrite set_hw_twice. fold s1. rewrite Hr. unfold s1. by rewrite advance_S. }
    split; [done|]. intros Hc. apply Hinf.
    destruct Hc as [->|([|i] & Hi & Hz)]; [left; by apply xadd_pinf_l| |
      right; exists i; split; [lia|]; unfold s1; cbn; rewrite <- Hz; f_equal; lia].
    left. rewrite Nat.add_0_r in Hz. rewrite Hz0; [by apply xadd_pinf_r|]. by rewrite Hz.
Qed.

Lemma sample_sum_nonneg f start k :
  (forall i, (i < k)%nat -> 0 <= f (start + i)%nat)%Z -> (0 <= sample_sum f start k)%Z.
Proof.
  revert start. induction k as [|k IH]; intros start Hnn; cbn; [lia|].
  specialize (IH (S start)) as IH'.
  enough (0 <= f start /\ 0 <= sample_sum f (S start) k)%Z by lia. split.
  - specialize (Hnn 0%nat ltac:(lia)). by rewrite Nat.add_0_r in Hnn.
  - apply IH'. intros i Hi. replace (S start + i)%nat with (start + S i)%nat by lia.
    apply Hnn. lia.
Qed.

Lemma sample_sum_pos f start k :
  (forall i, (i < k)%nat -> 0 <= f (start + i)%nat)%Z ->
  (exists i, (i < k)%nat /\ 0 < f (start + i)%nat)%Z -> (0 < sample_sum f start k)%Z.
Proof.
  revert start. induction k as [|k IH]; intros start Hnn (i & Hi & Hp); [lia|]. cbn.
  assert (Hshift : forall i, (i < k)%nat -> (0 <= f (S start + i)%nat)%Z).
  { intros i' Hi'. replace (S start + i')%nat with (start + S i')%nat by lia. apply Hnn. lia. }
  pose proof (sample_sum_nonneg f (S start) k Hshift) as Hrest.
  assert (H0 : (0 <= f start)%Z) by (specialize (Hnn 0%nat ltac:(lia)); by rewrite Nat.add_0_r in Hnn).
  destruct i as [|i]; [rewrite Nat.add_0_r in Hp; lia|].
  enough (0 < sample_sum f (S start) k)%Z by lia. apply IH; [done|].
  exists i. split; [lia|]. by replace (S start + i)%nat with (start + S i)%nat by lia.
Qed.

(** [calibrate] with a [0] among its five samples sets [ro] to [inf]. *)
Lemma calibrate_zero_sample s j : ~ divider_ratio (dev s) == 0 -> (j < 5)%nat ->
  adc (board s) (reads (board s) + j) = 0%Z ->
  exists s', calibrate s = (inr tt, s') /\ ro (dev s') = PInf /\
    divider_ratio (dev s') = divider_ratio (dev s) /\ base_voltage (dev s') = base_voltage (dev s) /\
    adc (board s') = adc (board s) /\ reads (board s') = (reads (board s) + 5)%nat.
Proof.
  intros Hd Hj Hz. unfold calibrate. change (Z.to_nat SAMPLE_TIMES) with 5%nat.
  set (s0 := set_hw {| adc := adc (board s); reads := reads (board s); uptime_ms := uptime_ms (board s);
    printed := printed (board s) ++ [Line "Calibrating MQ-7 sensor in clean air..."] |} s).
  assert (Hp : print (Line "Calibrating MQ-7 sensor in clean air...") s = (inr tt, s0)) by reflexivity.
  rewrite (pbind_inr _ _ _ _ _ Hp).
  destruct (calib_sum_run 5 (Fin 0) s0) as (r & Hr & _ & Hinf); [done|right; eauto|].
  rewrite Hinf in Hr by (right; exists j; split; [done|by unfold s0]).
  rewrite (pbind_inr _ _ _ _ _ Hr).
  change (xdiv PInf (Fin (inject_Z SAMPLE_TIMES))) with (inr PInf : exn + xfloat).
  rewrite pbind_of_sum_inr.
  change (xdiv PInf (Fin DEFAULT_RO_BASE)) with (inr PInf : exn + xfloat).
  rewrite pbind_of_sum_inr. eexists. split; [reflexivity|]. cbn. repeat split; lia.
Qed.

Section Readings.
Context (ln ex : Q -> Q).

(** An infinite ratio, or a ratio at or below zero, reads as [0.0] ppm. *)
Lemma read_carbon_monoxide_zero s ratio s1 : read_ratio s = (inr ratio, s1) ->
  (ratio = PInf \/ exists q, ratio = Fin q /\ q <= 0) ->
  read_carbon_monoxide ln ex s = (inr (Fin 0), s1).
Proof.
  intros H Hr. unfold read_carbon_monoxide. rewrite (pbind_inr _ _ _ _ _ H).
  destruct Hr as [->|(q & -> & Hq)]; [reflexivity|].
  cbn [xle]. by rewrite (proj2 (Qle_bool_iff _ _) Hq).
Qed.
(** C31. A disconnected MQ-7 reads as clean air: when the ten ADC samples
    of a [read_sensor] are all [0] (no output voltage), with a finite
    positive [ro], the resistance is [inf] and the carbon monoxide
    estimate is [0.0] ppm, the value of air without carbon monoxide:
    [log(inf) = inf], divided by the negative [CO_CURVE_A], gives
    [-inf], and [exp(-inf) = 0.0].  The script prints both values and
    no error. *)
Theorem dead_sensor_reads_clean_air s q :
  ro (dev s) = Fin q -> 0 < q -> ~ divider_ratio (dev s) == 0 ->
  (forall i, (i < 10)%nat -> adc (board s) (reads (board s) + i) = 0%Z) ->
  exists s' lines, read_sensor ln ex s = (inr tt, s') /\
    printed (board s') = printed (board s) ++ lines ++ [Resistance PInf; CarbonMonoxide (Fin 0)].
Proof.
  intros Hro Hq Hd Hz. destruct (heater_cycle_frame s) as (d1 & lines & Hh & (Hro1 & _ & _ & Hd1)).
  unfold read_sensor. rewrite (pbind_inr _ _ _ _ _ Hh).
  set (s1 := {| dev := d1; board := _ |}).
  assert (Hr1 : read_resistance s1 = (inr PInf, advance 5 500 s1)).
  { apply read_resistance_dead; [cbn; congruence|]. intros i Hi. apply Hz. lia. }
  rewrite (pbind_inr _ _ _ _ _ Hr1).
  set (s2 := advance 5 500 s1).
  assert (Hr2 : read_resistance s2 = (inr PInf, advance 5 500 s2)).
  { apply read_resistance_dead; [cbn; congruence|]. intros i Hi. cbn.
    rewrite <- Nat.add_assoc. apply Hz. lia. }
  assert (Hq' : qlt 0 q = true) by by apply qlt_spec.
  assert (Hratio : read_ratio s2 = (inr PInf, advance 5 500 s2)).
  { rewrite (read_ratio_run _ _ _ Hr2 eq_refl). unfold s2, s1, advance, set_hw. cbn [dev board].
    rewrite Hro1, Hro. cbn [xle]. rewrite (proj2 (Qle_bool_false _ _) Hq). cbn [orb].
    by rewrite xdiv_pinf_pos. }
  rewrite (pbind_inr _ _ _ _ _ (read_carbon_monoxide_zero _ _ _ Hratio (or_introl eq_refl))).
  eexists _, lines. split; [reflexivity|]. unfold s2, s1.
  cbn [board printed set_hw advance]. by rewrite <- !app_assoc.
Qed.
(** C32. One zero sample during calibration silences the sensor: when
    one of the five samples [calibrate] takes is [0], [self.ro] becomes
    [inf] ([inf] summed with finite resistances, then divided), and the
    next [read_carbon_monoxide] estimates [0.0] ppm whatever gas is
    present, as long as its own samples are not all [0]: a positive
    resistance divided by [inf] is [0.0], which the guard [ratio <= 0]
    turns into [0.0], and a resistance at or below zero gives an
    infinite ratio and [exp(-inf)]. *)
Theorem calibration_zero_sample_silences s j :
  0 < base_voltage (dev s) -> 0 < divider_ratio (dev s) ->
  (j < 5)%nat -> adc (board s) (reads (board s) + j) = 0%Z ->
  (forall i, (i < 5)%nat -> 0 <= adc (board s) (reads (board s) + 5 + i))%Z ->
  (exists i, (i < 5)%nat /\ 0 < adc (board s) (reads (board s) + 5 + i))%Z ->
  exists s', (calibrate ;; read_carbon_monoxide ln ex) s = (inr (Fin 0), s') /\ ro (dev s') = PInf.
Proof.
  intros Hb Hd Hj Hz Hnn Hpos.
  destruct (calibrate_zero_sample s j) as (s1 & Hc & Hro & Hd1 & Hb1 & Hadc & Hreads);
    [lra|done|done|].
  rewrite (pbind_inr _ _ _ _ _ Hc).
  assert (Havg : 0 < avg5 s1).
  { unfold avg5. rewrite !Qred_correct, Hadc, Hreads. apply Qlt_shift_div_l; [reflexivity|].
    rewrite Qmult_0_l, Qplus_0_l. change 0 with (inject_Z 0). rewrite <- Zlt_Qlt.
    apply sample_sum_pos; [intros i Hi; auto|].
    destruct Hpos as (i & Hi & Hp). by exists i. }
  destruct (calculate_resistance_pos (dev s1) (avg5 s1)) as (rs & Hrs); [congruence|congruence|done|].
  assert (Hr : read_resistance s1 = (inr (Fin rs), advance 5 500 s1)) by
    by rewrite read_resistance_run, Hrs.
  pose proof (read_ratio_run _ _ _ Hr eq_refl) as Hratio. rewrite Hro in Hratio. cbn [xle orb] in Hratio.
  destruct (Qle_bool rs 0) eqn:E.
  - rewrite (read_carbon_monoxide_zero _ _ _ Hratio (or_introl eq_refl)). by eexists.
  - rewrite xdiv_fin_inf in Hratio.
    rewrite (read_carbon_monoxide_zero _ _ _ Hratio); [by eexists|].
    right. exists 0. split; [done|apply Qle_refl].
Qed.
End Readings.

(** [heater_cycle] when the last switch happened at uptime [t0] and
    [ticks_diff] sees the elapsed time [e]. *)
Lemma heater_cycle_elapsed s t0 :
  last_measurement_time (dev s) = ticks_ms t0 ->
  heater_cycle s =
  (let e := ticks_diff (ticks_ms (uptime_ms (board s))) (ticks_ms t0) in
   if negb (heater_on (dev s)) && Z.leb COOLING_PERIOD_MS e then
     (print (Line "Starting heating phase...") ;;
      pmodify (fun s => set_dev (set_heater true (ticks_ms (uptime_ms (board s))) (dev s)) s)) s
   else if heater_on (dev s) && Z.leb HEATING_PERIOD_MS e then
     (print (Line "Starting cooling phase...") ;;
      pmodify (fun s => set_dev (set_heater false (ticks_ms (uptime_ms (board s))) (dev s)) s)) s
   else (inr tt, s)).
Proof.
  intros Hl. unfold heater_cycle, pbind at 1, read_ticks, pgets, pbind at 1. rewrite Hl.
  cbv zeta. destruct (negb _ && _); [reflexivity|]. destruct (_ && _); reflexivity.
Qed.

(** C35. The heater's phases survive the wrap-around of the millisecond
    counter: with the last switch at uptime [t0] (its [ticks_ms] stored
    in [last_measurement_time]) and the current uptime [u], the heater
    switches, printing the phase and storing [ticks_ms(u)], exactly when
    [u - t0] reaches the phase's length (90 s off, 60 s on) and is below
    [2^29] ms, whatever the values of the counter; from [2^29] to [2^30]
    ms after the switch [ticks_diff] is negative and the heater keeps its
    phase. *)
Theorem heater_cycle_switches s t0 :
  last_measurement_time (dev s) = ticks_ms t0 ->
  let u := uptime_ms (board s) in
  let period := if heater_on (dev s) then HEATING_PERIOD_MS else COOLING_PERIOD_MS in
  ((period <= u - t0 < TICKS_PERIOD / 2)%Z ->
     exists s', heater_cycle s = (inr tt, s') /\ heater_on (dev s') = negb (heater_on (dev s)) /\
       last_measurement_time (dev s') = ticks_ms u /\ ro (dev s') = ro (dev s) /\
       exists line, printed (board s') = printed (board s) ++ [Line line]) /\
  ((0 <= u - t0 < period \/ TICKS_PERIOD / 2 <= u - t0 < TICKS_PERIOD)%Z ->
     heater_cycle s = (inr tt, s)).
Proof.
  intros Hl u period. rewrite (heater_cycle_elapsed s t0 Hl). fold u.
  unfold period, HEATING_PERIOD_MS, COOLING_PERIOD_MS. clear period.
  destruct (heater_on (dev s)) eqn:Hon; cbn [negb andb]; split.
  - intros Hr. rewrite ticks_diff_exact by (ticks_num; lia).
    rewrite (proj2 (Z.leb_le _ _)) by lia. eexists; split; [reflexivity|]. cbn. eauto.
  - intros [Hr|Hr]; [rewrite ticks_diff_exact by (ticks_num; lia)|
      rewrite ticks_diff_wraps by (ticks_num; lia)];
      rewrite (proj2 (Z.leb_gt _ _)) by (ticks_num; lia); reflexivity.
  - intros Hr. rewrite ticks_diff_exact by (ticks_num; lia).
    rewrite (proj2 (Z.leb_le _ _)) by lia. eexists; split; [reflexivity|]. cbn. eauto.
  - intros [Hr|Hr]; [rewrite ticks_diff_exact by (ticks_num; lia)|
      rewrite ticks_diff_wraps by (ticks_num; lia)];
      rewrite (proj2 (Z.leb_gt _ _)) by (ticks_num; lia); reflexivity.
Qed.

(** * Witnesses *)

(** The script's sensor on a board up for [now] ms whose ADC answers
    [f n] at the [n]-th read. *)
Definition script_state (f : nat -> Z) (now : Z) : st :=
  {| dev := init 10.0 3.3 (1.0 / 3.0) None now;
     board := {| adc := f; reads := 0; uptime_ms := now; printed := [] |} |}.

Lemma dead_sensor_reads_clean_air_witness :
  exists s' lines, read_sensor (fun q => q) (fun q => q) (script_state (fun _ => 0%Z) 0) = (inr tt, s') /\
    printed (board (script_state (fun _ => 0%Z) 0)) ++ lines ++ [Resistance PInf; CarbonMonoxide (Fin 0)] =
    printed (board s').
Proof.
  destruct (dead_sensor_reads_clean_air (fun q => q) (fun q => q) (script_state (fun _ => 0%Z) 0) DEFAULT_RO_BASE)
    as (s' & lines & H1 & H2); [reflexivity|reflexivity|vm_compute; discriminate|intros; reflexivity|].
  exists s', lines. by split.
Defined.

Lemma calibration_zero_sample_silences_witness :
  exists s', (calibrate ;; read_carbon_monoxide (fun q => q) (fun q => q))
    (script_state (fun n => Z.of_nat (n * n)) 0) = (inr (Fin 0), s') /\ ro (dev s') = PInf.
Proof.
  apply (calibration_zero_sample_silences _ _ _ 0);
    [reflexivity|reflexivity|lia|reflexivity|intros; cbn; lia|].
  exists 0%nat. split; [lia|reflexivity].
Defined.

(** The sensor created 1 s before the counter wraps, the heater cycle
    run 96 s later. *)
Definition wrap_state : st :=
  {| dev := init 10.0 3.3 (1.0 / 3.0) None (TICKS_PERIOD - 1000);
     board := {| adc := fun _ => 0%Z; reads := 0; uptime_ms := TICKS_PERIOD + 95000; printed := [] |} |}.

Lemma heater_cycle_switches_witness : exists s',
  heater_cycle wrap_state = (inr tt, s') /\ heater_on (dev s') = true /\
  last_measurement_time (dev s') = ticks_ms (TICKS_PERIOD + 95000).
Proof.
  destruct (proj1 (heater_cycle_switches wrap_state (TICKS_PERIOD - 1000) eq_refl))
    as (s' & Hc & Hon & Hl & _); [cbn; unfold COOLING_PERIOD_MS; ticks_num; lia|].
  exists s'. auto.
Defined.
