(* ===== verification/World.v ===== *)
(** The object store of the running firmware.

    Every Python object the core creates lives for the whole run and is
    reached from [Application]; [World] gathers their mutable fields:
    - [w_cfg]: the [Config] object (src/utils/config.py): the in-memory
      boot document [cfg_doc], the document [reset_config] loaded
      in its place ([cfg_reset]) and the file content [cfg_disk];
    - [w_mqtt]: the [MQTTManager] (src/communication/mqtt_manager.py):
      [connected] and the [callbacks] dict;
    - [w_sensors], [w_next]: [SensorManager.sensors] and
      [SensorManager._next_update_times] (src/sensors/sensor_manager.py);
    - [w_lifecycle], [w_sm_state]: [Lifecycle.current_state] and
      [StateManager.current_state];
    - [w_led]: the [ServiceLED] pixel and its current animation task;
    - [w_trace]: what the device did to the outside world, in order
      (MQTT publishes and subscriptions, configuration writes, pixel
      writes, watchdog feeds).

    A sensor's parameters are the dict inside the configuration document
    (BaseSensor.__init__ keeps [s_config["parameters"]], an alias): the
    sensor object holds the position [s_idx] of its entry in the
    document's sensor list, and every read or write of its editable
    parameters goes through the document.

    [Env] is what the external collaborators answer: whether the MQTT
    client raises on a publish or subscribe, whether the configuration
    file can be written, the factory-default document, the sensor
    drivers' readings, the clock's formatting. *)

From Stdlib Require Import ZArith String List.
From stdpp Require Import base list strings sets.
From S2P Require Import Prelude States.
Import ListNotations.

(** ** The configuration document *)

(** One entry of [config["sensors"]]. *)
Record SensorCfg := {
  sc_id : string;
  sc_module : string;
  sc_class : string;
  sc_publish : list (string * string);    (** mqtt.publish topics *)
  sc_subscribe : list (string * string);  (** mqtt.subscribe topics *)
  sc_editable : list (string * json);     (** parameters.editable *)
  sc_read_only : list (string * json);    (** parameters.read_only *)
  sc_defaults : list (string * json);     (** parameters.defaults *)
  sc_control : list string;               (** capabilities.control *)
}.

Definition empty_sensor_cfg : SensorCfg :=
  {| sc_id := ""; sc_module := ""; sc_class := ""; sc_publish := [];
     sc_subscribe := []; sc_editable := []; sc_read_only := [];
     sc_defaults := []; sc_control := [] |}.

Definition with_editable (ed : list (string * json)) (c : SensorCfg) : SensorCfg :=
  {| sc_id := sc_id c; sc_module := sc_module c; sc_class := sc_class c;
     sc_publish := sc_publish c; sc_subscribe := sc_subscribe c;
     sc_editable := ed; sc_read_only := sc_read_only c;
     sc_defaults := sc_defaults c; sc_control := sc_control c |}.

(** The parts of [Config.data] that the core reads or writes:
    [data["system"]] as a dict and [data["sensors"]]. *)
Record ConfigData := {
  cd_system : list (string * json);
  cd_sensors : list SensorCfg;
}.

(** The [Config] object.  [Config.data] is the document loaded at boot
    ([cfg_doc]) until [reset_config] replaces it by the factory document
    ([cfg_reset]); the objects built at boot keep aliases into the boot
    document (a sensor's [parameters], [SystemManager.system_config]), so
    their writes go to [cfg_doc] whatever [Config.data] is.  [cfg_disk]
    is what the file holds.  When the boot document has no [system]
    section, [get_system_config()] returns a fresh [{}] that
    [SystemManager] keeps as its own dict: [cfg_detached] is [Some] of
    that dict, which no save writes, and [None] when [system_config] is
    an alias of the document's section. *)
Record Config := {
  cfg_doc : ConfigData;
  cfg_reset : option ConfigData;
  cfg_disk : ConfigData;
  cfg_detached : option (list (string * json));
}.

(** [Config.data] *)
Definition cfg_data (c : Config) : ConfigData :=
  match cfg_reset c with Some d => d | None => cfg_doc c end.

(** ** Objects *)

Inductive sensor_class :=
  | BaseSensorClass
  | TemperatureHumiditySensorClass.

(** A [BaseSensor] instance. *)
Record Sensor := {
  s_id : string;
  s_idx : nat;                (** its entry in [cd_sensors] *)
  s_state : SensorState.t;    (** [_state] *)
  s_class : sensor_class;
}.

(** Which object's method an MQTT callback is. *)
Inductive callback :=
  | CbSensor (sid : string)   (** the closure [SensorManager._make_cb(sid)] *)
  | CbSystem.                 (** [SystemManager._make_cb] *)

Record Mqtt := {
  mq_connected : bool;
  mq_callbacks : list (string * callback);
}.

(** A pixel value: the items of [tuple(state_config.get("color"))]. *)
Definition color : Type := list json.

(** [self.off_color = (0, 0, 0)] *)
Definition off_color : color := [JNum 0; JNum 0; JNum 0].

(** The arguments of the running [_animate_led] task. *)
Record Anim := {
  an_color : color;
  an_pattern : json;
  an_times : option json;
}.

Record Led := {
  led_pixel : color;
  led_task : option Anim;
}.

Inductive event :=
  | EvPublish (topic : string) (payload : json)
  | EvSubscribe (topic : string)
  | EvSave (snapshot : ConfigData)
  | EvLed (c : color)
  | EvFeed
  | EvSleep (d : json)
  | EvWlanActive (on : bool)                (** [station.active(on)] *)
  | EvWlanConnect (ssid password : json)    (** [station.connect(ssid, pwd)] *)
  | EvWlanDisconnect.                       (** [station.disconnect()] *)

Record World := {
  w_now : Z;
  w_cfg : Config;
  w_mqtt : Mqtt;
  w_sensors : list (string * Sensor);
  w_next : list (string * Z);
  w_lifecycle : DeviceState.t;
  w_sm_state : DeviceState.t;
  w_led : Led;
  w_trace : list event;
}.

(** ** Field updates *)

Definition with_state_of (st : SensorState.t) (s : Sensor) : Sensor :=
  {| s_id := s_id s; s_idx := s_idx s; s_state := st; s_class := s_class s |}.


Definition set_cfg (c : Config) (w : World) : World :=
  {| w_now := w_now w; w_cfg := c; w_mqtt := w_mqtt w;
     w_sensors := w_sensors w; w_next := w_next w;
     w_lifecycle := w_lifecycle w; w_sm_state := w_sm_state w;
     w_led := w_led w; w_trace := w_trace w |}.

Definition set_mqtt (m : Mqtt) (w : World) : World :=
  {| w_now := w_now w; w_cfg := w_cfg w; w_mqtt := m;
     w_sensors := w_sensors w; w_next := w_next w;
     w_lifecycle := w_lifecycle w; w_sm_state := w_sm_state w;
     w_led := w_led w; w_trace := w_trace w |}.

Definition set_sensors (ss : list (string * Sensor)) (w : World) : World :=
  {| w_now := w_now w; w_cfg := w_cfg w; w_mqtt := w_mqtt w;
     w_sensors := ss; w_next := w_next w;
     w_lifecycle := w_lifecycle w; w_sm_state := w_sm_state w;
     w_led := w_led w; w_trace := w_trace w |}.

Definition set_next (n : list (string * Z)) (w : World) : World :=
  {| w_now := w_now w; w_cfg := w_cfg w; w_mqtt := w_mqtt w;
     w_sensors := w_sensors w; w_next := n;
     w_lifecycle := w_lifecycle w; w_sm_state := w_sm_state w;
     w_led := w_led w; w_trace := w_trace w |}.

Definition set_lifecycle (d : DeviceState.t) (w : World) : World :=
  {| w_now := w_now w; w_cfg := w_cfg w; w_mqtt := w_mqtt w;
     w_sensors := w_sensors w; w_next := w_next w;
     w_lifecycle := d; w_sm_state := w_sm_state w;
     w_led := w_led w; w_trace := w_trace w |}.

Definition set_sm_state (d : DeviceState.t) (w : World) : World :=
  {| w_now := w_now w; w_cfg := w_cfg w; w_mqtt := w_mqtt w;
     w_sensors := w_sensors w; w_next := w_next w;
     w_lifecycle := w_lifecycle w; w_sm_state := d;
     w_led := w_led w; w_trace := w_trace w |}.

Definition set_led (l : Led) (w : World) : World :=
  {| w_now := w_now w; w_cfg := w_cfg w; w_mqtt := w_mqtt w;
     w_sensors := w_sensors w; w_next := w_next w;
     w_lifecycle := w_lifecycle w; w_sm_state := w_sm_state w;
     w_led := l; w_trace := w_trace w |}.

Definition emit (e : event) (w : World) : World :=
  {| w_now := w_now w; w_cfg := w_cfg w; w_mqtt := w_mqtt w;
     w_sensors := w_sensors w; w_next := w_next w;
     w_lifecycle := w_lifecycle w; w_sm_state := w_sm_state w;
     w_led := w_led w; w_trace := w_trace w ++ [e] |}.

Definition set_now (t : Z) (w : World) : World :=
  {| w_now := t; w_cfg := w_cfg w; w_mqtt := w_mqtt w;
     w_sensors := w_sensors w; w_next := w_next w;
     w_lifecycle := w_lifecycle w; w_sm_state := w_sm_state w;
     w_led := w_led w; w_trace := w_trace w |}.

(** [time.sleep(d)] and [await asyncio.sleep(d)]: the clock moves on by
    [d] seconds; a duration that is not a number raises [TypeError].  A
    negative duration returns at once: [time.sleep] computes
    [mp_hal_delay_ms((mp_uint_t)(1000 * d))] on a single-precision float,
    and the rp2 port's float-to-unsigned conversion (the SDK's
    [float2uint]) clamps negative values to [0]; [asyncio.sleep] schedules
    the task at a time already passed. *)
Definition sleep (d : json) : PyM World unit :=
  match d with
  | JNum n => pmodify (fun w => emit (EvSleep d) (set_now (w_now w + Z.max 0 n) w))
  | JBool b => pmodify (fun w => emit (EvSleep d) (set_now (w_now w + if b then 1 else 0) w))
  | _ => pthrow TypeError "unsupported type for sleep"
  end.

(** ** The external collaborators *)

Record Env := {
  env_connect_ok : bool;             (** [client.connect()] returns *)
  env_publish_ok : string -> bool;   (** [client.publish(topic, _)] returns *)
  env_subscribe_ok : string -> bool; (** [client.subscribe(topic)] returns *)
  env_save_ok : bool;                (** the configuration file is writable *)
  env_factory : option ConfigData;   (** config_default.json, if readable *)
  env_init_ok : string -> bool;      (** the driver of sensor [sid] initialises *)
  env_read : string -> Z -> (exn_kind * string) + list (string * json);
                                     (** the driver's reading of [sid] at a time *)
  env_fmt_time : Z -> string;        (** [get_formatted_datetime()] *)
}.

(** ** Readers *)

Definition sensor_cfg (w : World) (s : Sensor) : SensorCfg :=
  default empty_sensor_cfg (cd_sensors (cfg_doc (w_cfg w)) !! s_idx s).

(** [sensor.parameters.get("editable", {})] *)
Definition editable (w : World) (s : Sensor) : list (string * json) :=
  sc_editable (sensor_cfg w s).

(** The MQTT payloads the device published, in order. *)
Definition published (tr : list event) : list (string * json) :=
  omap (fun e => match e with EvPublish t p => Some (t, p) | _ => None end) tr.

(** The number of configuration writes. *)
Fixpoint saves (tr : list event) : nat :=
  match tr with
  | [] => 0
  | EvSave _ :: tr' => S (saves tr')
  | _ :: tr' => saves tr'
  end.

Lemma published_app tr1 tr2 :
  published (tr1 ++ tr2) = published tr1 ++ published tr2.
Proof. apply omap_app. Qed.

Lemma saves_app tr1 tr2 : saves (tr1 ++ tr2) = saves tr1 + saves tr2.
Proof. induction tr1 as [|[] tr1 IH]; simpl; by rewrite ?IH. Qed.

#[export] Hint Rewrite published_app saves_app : py_rw.

(** ** Frame relations

    Preorders on worlds that the operations stay within; each file proves
    them for its primitives and [solve_respects] assembles the rest. *)

(** The trace only grows. *)
Definition trace_grows (w w' : World) : Prop := w_trace w `prefix_of` w_trace w'.

(** The sensors other than [sid] keep their object and their timer. *)
Definition others_kept (sid : string) (w w' : World) : Prop :=
  forall sid', sid' <> sid ->
    dget sid' (w_sensors w') = dget sid' (w_sensors w) /\
    dget sid' (w_next w') = dget sid' (w_next w).

(** The registered sensors and their entries stay; only their [_state]
    may change; timers are not removed; the document keeps its sensor
    entries; the clock and the MQTT manager are untouched. *)
Definition shape_kept (w w' : World) : Prop :=
  map fst (w_sensors w') = map fst (w_sensors w) /\
  (forall sid s, dget sid (w_sensors w) = Some s ->
     exists st, dget sid (w_sensors w') = Some (with_state_of st s)) /\
  (forall k, dmem k (w_next w) = true -> dmem k (w_next w') = true) /\
  length (cd_sensors (cfg_doc (w_cfg w'))) = length (cd_sensors (cfg_doc (w_cfg w))) /\
  w_now w' = w_now w /\ w_mqtt w' = w_mqtt w.

(** The configuration object is untouched. *)
Definition cfg_kept (w w' : World) : Prop := w_cfg w' = w_cfg w.

#[export] Instance trace_grows_preorder : PreOrder trace_grows.
Proof. split; [intros w; unfold trace_grows; reflexivity|intros ??? ??; unfold trace_grows in *; by etrans]. Qed.

#[export] Instance others_kept_preorder sid : PreOrder (others_kept sid).
Proof.
  split; [by intros w sid' _|].
  intros w1 w2 w3 H12 H23 sid' Hne.
  destruct (H12 sid' Hne), (H23 sid' Hne). split; congruence.
Qed.

Lemma with_state_of_twice st1 st2 s : with_state_of st2 (with_state_of st1 s) = with_state_of st2 s.
Proof. done. Qed.

Lemma with_state_of_self s : with_state_of (s_state s) s = s.
Proof. by destruct s. Qed.

#[export] Instance shape_kept_preorder : PreOrder shape_kept.
Proof.
  split.
  - intros w. repeat split; auto. intros sid s ->. exists (s_state s).
    by rewrite with_state_of_self.
  - intros w1 w2 w3 (H1 & H2 & H3 & H4 & H5 & H6) (G1 & G2 & G3 & G4 & G5 & G6).
    repeat split; try congruence; auto.
    intros sid s Hs. destruct (H2 _ _ Hs) as (st & Hst).
    destruct (G2 _ _ Hst) as (st' & Hst'). exists st'. by rewrite Hst'.
Qed.

#[export] Instance cfg_kept_preorder : PreOrder cfg_kept.
Proof. split; [by intros w|intros ??? ??; unfold cfg_kept in *; congruence]. Qed.

(** [emit] is within every frame relation but [trace_grows] trivially. *)
Lemma emit_trace_grows e w : trace_grows w (emit e w).
Proof. unfold trace_grows. simpl. by eexists. Qed.
Lemma emit_others_kept sid e w : others_kept sid w (emit e w).
Proof. done. Qed.
Lemma shape_kept_same_objects w w' :
  w_sensors w' = w_sensors w -> (forall k, dmem k (w_next w) = true -> dmem k (w_next w') = true) ->
  length (cd_sensors (cfg_doc (w_cfg w'))) = length (cd_sensors (cfg_doc (w_cfg w))) ->
  w_now w' = w_now w -> w_mqtt w' = w_mqtt w -> shape_kept w w'.
Proof.
  intros Hs Hn Hl Ht Hm. unfold shape_kept. rewrite Hs. repeat split; auto.
  intros sid s ->. exists (s_state s). by rewrite with_state_of_self.
Qed.

Lemma emit_shape_kept e w : shape_kept w (emit e w).
Proof. by apply shape_kept_same_objects. Qed.
Lemma emit_cfg_kept e w : cfg_kept w (emit e w).
Proof. done. Qed.

#[export] Hint Resolve emit_trace_grows emit_others_kept emit_shape_kept emit_cfg_kept : py.

(** The frame of a method of sensor [sid]. *)
Definition sensor_frame (sid : string) (w w' : World) : Prop :=
  trace_grows w w' /\ others_kept sid w w' /\ shape_kept w w'.

#[export] Instance sensor_frame_preorder sid : PreOrder (sensor_frame sid).
Proof.
  split.
  - intros w. split; [reflexivity|split; reflexivity].
  - intros w1 w2 w3 (A1 & B1 & C1) (A2 & B2 & C2). split; [by etrans|split; by etrans].
Qed.

Lemma emit_sensor_frame sid e w : sensor_frame sid w (emit e w).
Proof. split; [apply emit_trace_grows|split; [apply emit_others_kept|apply emit_shape_kept]]. Qed.

#[export] Hint Resolve emit_sensor_frame : py.

(** Reduce field reads of field updates. *)
Ltac wsimpl :=
  cbn [w_now w_cfg w_mqtt w_sensors w_next w_lifecycle w_sm_state w_led w_trace
       set_cfg set_mqtt set_sensors set_next set_lifecycle set_sm_state set_led set_now emit] in *.

Lemma respects_sensor_frame_shape {A} sid (c : PyM World A) :
  respects (sensor_frame sid) c -> respects shape_kept c.
Proof. intros H w r w' E. apply (H w r w' E). Qed.

Lemma respects_sensor_frame_trace {A} sid (c : PyM World A) :
  respects (sensor_frame sid) c -> respects trace_grows c.
Proof. intros H w r w' E. apply (H w r w' E). Qed.

#[export] Hint Resolve respects_sensor_frame_shape respects_sensor_frame_trace : py.
