(* ===== verification/Fixtures.v ===== *)
(** Concrete inputs for the witnesses: a two-sensor configuration in the
    shape of the repository's config.json, an environment whose broker
    accepts every publish and where the DHT11 of sensor "th1" times out,
    and the world as [initialize_sensors] leaves it at time 100. *)

From Stdlib Require Import ZArith String List.
From stdpp Require Import base list strings sets.
From S2P Require Import Prelude States World.
Import ListNotations.
Local Open Scope string_scope.

Definition sc_th1 : SensorCfg :=
  {| sc_id := "th1"; sc_module := "temperature_humidity_sensor";
     sc_class := "TemperatureHumiditySensor";
     sc_publish := [("data", "node/th1/data"); ("errors", "node/th1/errors");
                    ("state", "node/th1/state"); ("info", "node/th1/info")];
     sc_subscribe := [("commands", "node/th1/commands"); ("config", "node/th1/config")];
     sc_editable := [("report_interval", JNum 5); ("unit_temperature", JStr "Celsius")];
     sc_read_only := [("model", JStr "DHT11")];
     sc_defaults := [("report_interval", JNum 30)];
     sc_control := ["enable"; "disable"; "self_test"; "factory_reset"] |}.

Definition sc_th2 : SensorCfg :=
  {| sc_id := "th2"; sc_module := "temperature_humidity_sensor";
     sc_class := "TemperatureHumiditySensor";
     sc_publish := [("data", "node/th2/data"); ("errors", "node/th2/errors");
                    ("state", "node/th2/state")];
     sc_subscribe := [("commands", "node/th2/commands"); ("config", "node/th2/config")];
     sc_editable := [("report_interval", JNum 60)];
     sc_read_only := [];
     sc_defaults := [("report_interval", JNum 60)];
     sc_control := ["enable"; "disable"] |}.

Definition cd_demo : ConfigData :=
  {| cd_system := [("enable_factory_reset", JBool true)]; cd_sensors := [sc_th1; sc_th2] |}.

Definition env_demo : Env :=
  {| env_connect_ok := true;
     env_publish_ok := fun _ => true;
     env_subscribe_ok := fun _ => true;
     env_save_ok := true;
     env_factory := Some cd_demo;
     env_init_ok := fun _ => true;
     env_read := fun sid _ =>
       if String.eqb sid "th1" then inl (DriverError, "ETIMEDOUT")
       else inr [("temperature", JNum 21); ("humidity", JNum 40)];
     env_fmt_time := fun _ => "2024-05-01 12:00:00" |}.

Definition s_th1 : Sensor :=
  {| s_id := "th1"; s_idx := 0; s_state := SensorState.ACTIVE;
     s_class := TemperatureHumiditySensorClass |}.

Definition s_th2 : Sensor :=
  {| s_id := "th2"; s_idx := 1; s_state := SensorState.ACTIVE;
     s_class := TemperatureHumiditySensorClass |}.

Definition w_demo : World :=
  {| w_now := 100;
     w_cfg := {| cfg_doc := cd_demo; cfg_reset := None; cfg_disk := cd_demo;
                cfg_detached := None |};
     w_mqtt := {| mq_connected := true;
                  mq_callbacks := [("node/th1/commands", CbSensor "th1");
                                   ("node/th1/config", CbSensor "th1");
                                   ("node/th2/commands", CbSensor "th2");
                                   ("node/th2/config", CbSensor "th2")] |};
     w_sensors := [("th1", s_th1); ("th2", s_th2)];
     w_next := [("th1", 100%Z); ("th2", 100%Z)];
     w_lifecycle := DeviceState.ACTIVE;
     w_sm_state := DeviceState.ACTIVE;
     w_led := {| led_pixel := off_color; led_task := None |};
     w_trace := [] |}.

(** The same world at another time. *)
Definition at_time (t : Z) (w : World) : World :=
  {| w_now := t; w_cfg := w_cfg w; w_mqtt := w_mqtt w; w_sensors := w_sensors w;
     w_next := w_next w; w_lifecycle := w_lifecycle w; w_sm_state := w_sm_state w;
     w_led := w_led w; w_trace := w_trace w |}.

(** A system section with an error policy and an error topic. *)
Definition system_demo (restart : bool) : list (string * json) :=
  [("error_handling", JObj [("post_global_errors", JBool true);
                            ("auto_restart_on_error", JBool restart)]);
   ("mqtt", JObj [("publish", JObj [("errors", JStr "node/errors")])])].

(** A broker that refuses every publish. *)
Definition env_broker_down : Env :=
  {| env_connect_ok := true;
     env_publish_ok := fun _ => false;
     env_subscribe_ok := fun _ => true;
     env_save_ok := true;
     env_factory := Some cd_demo;
     env_init_ok := fun _ => true;
     env_read := env_read env_demo;
     env_fmt_time := env_fmt_time env_demo |}.
