(* ===== verification/Config.v ===== *)
(** The [Config] object (src/utils/config.py): [save_config] dumps
    [self.data] to the file, [reset_config] loads the factory document
    into [self.data] and saves it.  The objects built at boot keep aliases
    into the boot document, so a write through an alias ([write_editable]
    for a sensor's parameters, [write_system] for
    [SystemManager.system_config]) changes [cfg_doc], and is persisted by
    the next save only while [self.data] is still the boot document.
    Without a [system] section, [write_system] goes to [SystemManager]'s
    own dict ([cfg_detached]), which no save writes. *)

From Stdlib Require Import ZArith String List.
From stdpp Require Import base list strings sets.
From S2P Require Import Prelude States World.
Import ListNotations.
Local Open Scope py_scope.

Module Config.
Section Ops.
Context (env : Env).

(** The file now holds [self.data]. *)
Definition saved (c : Config) : Config :=
{| cfg_doc := cfg_doc c; cfg_reset := cfg_reset c; cfg_disk := cfg_data c;
   cfg_detached := cfg_detached c |}.

(** [self.data = data] in [reset_config]: the boot document stays where
  the objects' aliases are. *)
Definition with_reset (d : ConfigData) (c : Config) : Config :=
{| cfg_doc := cfg_doc c; cfg_reset := Some d; cfg_disk := cfg_disk c;
   cfg_detached := cfg_detached c |}.

(** A write through an alias into the boot document. *)
Definition with_doc (d : ConfigData) (c : Config) : Config :=
{| cfg_doc := d; cfg_reset := cfg_reset c; cfg_disk := cfg_disk c;
   cfg_detached := cfg_detached c |}.

(** A write into [SystemManager]'s own dict. *)
Definition with_detached (d : list (string * json)) (c : Config) : Config :=
{| cfg_doc := cfg_doc c; cfg_reset := cfg_reset c; cfg_disk := cfg_disk c;
   cfg_detached := Some d |}.

(** [save_config]: [ujson.dump(self.data, f)]; an unwritable file
  raises [OSError] and leaves the file as it was. *)
Definition save_config : PyM World unit :=
if env_save_ok env then
  pmodify (fun w => emit (EvSave (cfg_data (w_cfg w))) (set_cfg (saved (w_cfg w)) w))
else pthrow OSError "Configuration file not found or inaccessible".

(** [reset_config]: load config_default.json, replace [self.data], save.
  [env_factory] is the factory document when it decodes to a dict;
  [None] raises [OSError], as an unreadable file does (a readable file
  that is not a dict raises [ValueError] in the code; its only caller,
  [SystemManager]'s callback, catches both in its [except Exception]
  clause and differs only in the text of the error message). *)
Definition reset_config : PyM World unit :=
match env_factory env with
| None => pthrow OSError "Configuration file not found or inaccessible"
| Some d =>
    pmodify (fun w => set_cfg (with_reset d (w_cfg w)) w) ;;
    save_config
end.

(** [editable[k] = v] on the parameters dict of sensor entry [idx] of
  the boot document. *)
Definition write_editable (idx : nat) (k : string) (v : json) (w : World)
: World :=
let c := w_cfg w in
let d := cfg_doc c in
set_cfg (with_doc
  {| cd_system := cd_system d;
     cd_sensors := alter (fun sc => with_editable (dset k v (sc_editable sc)) sc)
                     idx (cd_sensors d) |} c) w.

(** [system_config[k] = v]: through [SystemManager]'s alias of the boot
  document's [system] dict, or into its own dict when the document had
  none. *)
Definition write_system (k : string) (v : json) (w : World) : World :=
let c := w_cfg w in
match cfg_detached c with
| Some d => set_cfg (with_detached (dset k v d) c) w
| None =>
    let d := cfg_doc c in
    set_cfg (with_doc
      {| cd_system := dset k v (cd_system d); cd_sensors := cd_sensors d |} c) w
end.
End Ops.

(** ** Loading and the getters, on the decoded document *)

(** [load_config()]: [file] is what [open] and [ujson.load] give, the
  decoded value or their exception.  A value that is not a dict is
  refused; both error kinds are raised again with a new message. *)
Definition load_config (file : exn + json) : exn + list (string * json) :=
match file with
| inl (PyExc OSError _) =>
    inl (PyExc OSError "Configuration file not found or inaccessible")
| inl (PyExc ValueError m) => inl (PyExc ValueError ("Error parsing configuration file: " ++ m))
| inl e => inl e
| inr (JObj d) => inr d
| inr _ => inl (PyExc ValueError
    "Error parsing configuration file: Configuration file content is not a dictionary.")
end.

(** [get_wifi_config()], ...: [self.data.get(section, {})]; [self.data]
  is a dict, so these do not raise. *)
Definition get_wifi_config (data : list (string * json)) : json := dget_or "wifi" (JObj []) data.
Definition get_mqtt_config (data : list (string * json)) : json := dget_or "mqtt" (JObj []) data.
Definition get_system_config (data : list (string * json)) : json := dget_or "system" (JObj []) data.
Definition get_logging_config (data : list (string * json)) : json := dget_or "logging" (JObj []) data.
Definition get_sensors (data : list (string * json)) : json := dget_or "sensors" (JObj []) data.
Definition get_service_led (data : list (string * json)) : json := dget_or "service_led" (JObj []) data.
Definition get_watchdog_config (data : list (string * json)) : json := dget_or "watchdog" (JObj []) data.

(** [get_system_power_config()]: [self.data.get('system', {}).get('power', {})],
  which raises when [system] is not a dict. *)
Definition get_system_power_config (data : list (string * json)) : exn + json :=
py_get_default (get_system_config data) "power" (JObj []).

(** ** Lemmas *)

Lemma save_config_ok env w :
env_save_ok env = true ->
save_config env w =
  (inr tt, emit (EvSave (cfg_data (w_cfg w))) (set_cfg (saved (w_cfg w)) w)).
Proof. unfold save_config. by intros ->. Qed.

Lemma save_config_fail env w :
env_save_ok env = false ->
save_config env w = (inl (PyExc OSError "Configuration file not found or inaccessible"), w).
Proof. unfold save_config. by intros ->. Qed.

(** A factory reset with a readable factory file and a writable file. *)
Lemma reset_config_ok env d w :
env_factory env = Some d -> env_save_ok env = true ->
reset_config env w =
  (inr tt, let w1 := set_cfg (with_reset d (w_cfg w)) w in
           emit (EvSave (cfg_data (w_cfg w1))) (set_cfg (saved (w_cfg w1)) w1)).
Proof. intros Hf Hs. unfold reset_config. rewrite Hf, pbind_pmodify. by apply save_config_ok. Qed.

(** Writing parameter [k] of the entry [idx] leaves every other entry and
  the system section as they were. *)
Lemma write_editable_lookup idx k v w j :
cd_sensors (cfg_doc (w_cfg (write_editable idx k v w))) !! j =
if decide (j = idx) then
  (fun sc => with_editable (dset k v (sc_editable sc)) sc) <$>
    cd_sensors (cfg_doc (w_cfg w)) !! j
else cd_sensors (cfg_doc (w_cfg w)) !! j.
Proof.
unfold write_editable. simpl. rewrite list_lookup_alter.
by repeat case_decide; subst.
Qed.

Lemma write_editable_length idx k v w :
length (cd_sensors (cfg_doc (w_cfg (write_editable idx k v w)))) =
length (cd_sensors (cfg_doc (w_cfg w))).
Proof. apply length_alter. Qed.
End Config.

(** A write to [system_config] leaves the tables and the document's
    sensor list alone. *)
Lemma write_system_fields k v w :
  w_sensors (Config.write_system k v w) = w_sensors w /\
  w_next (Config.write_system k v w) = w_next w /\
  cd_sensors (cfg_doc (w_cfg (Config.write_system k v w))) = cd_sensors (cfg_doc (w_cfg w)).
Proof. unfold Config.write_system. by destruct (cfg_detached (w_cfg w)). Qed.

(** ** Frames *)

Section Frames.
Context (env : Env).

Lemma save_config_trace : respects trace_grows (Config.save_config env).
Proof.
  intros w r w'. unfold Config.save_config. destruct (env_save_ok env); py_unfold;
    intros [= _ <-]; [unfold trace_grows; simpl; by eexists|reflexivity].
Qed.

Lemma save_config_others sid : respects (others_kept sid) (Config.save_config env).
Proof.
  intros w r w'. unfold Config.save_config. destruct (env_save_ok env); py_unfold;
    intros [= _ <-]; done.
Qed.

Lemma save_config_shape : respects shape_kept (Config.save_config env).
Proof.
  intros w r w'. unfold Config.save_config. destruct (env_save_ok env); py_unfold;
    intros [= _ <-]; [by apply shape_kept_same_objects|reflexivity].
Qed.

Lemma write_editable_trace idx k v :
  respects trace_grows (pmodify (Config.write_editable idx k v)).
Proof. apply respects_pmodify. intros w. unfold trace_grows. reflexivity. Qed.

Lemma write_editable_others sid idx k v :
  respects (others_kept sid) (pmodify (Config.write_editable idx k v)).
Proof. apply respects_pmodify. by intros w. Qed.

Lemma write_editable_shape idx k v :
  respects shape_kept (pmodify (Config.write_editable idx k v)).
Proof.
  apply respects_pmodify. intros w.
  apply shape_kept_same_objects; try done. apply Config.write_editable_length.
Qed.
Lemma save_config_frame sid : respects (sensor_frame sid) (Config.save_config env).
Proof.
  intros w r w' H. split; [|split]; [eapply save_config_trace|eapply save_config_others|eapply save_config_shape]; eauto.
Qed.

Lemma write_editable_frame sid idx k v :
  respects (sensor_frame sid) (pmodify (Config.write_editable idx k v)).
Proof.
  intros w r w' H. split; [|split];
    [eapply write_editable_trace|eapply write_editable_others|eapply write_editable_shape]; eauto.
Qed.
End Frames.

#[export] Hint Resolve save_config_frame write_editable_frame : py.
#[export] Hint Resolve save_config_trace save_config_others save_config_shape
  write_editable_trace write_editable_others write_editable_shape : py.
