(* ===== verification/Mq135.v ===== *)
(** The MQ-135 gas sensor class of my/tesssssssssssstttt.py.

    The class turns a 16-bit ADC reading into the sensor's resistance
    through a load resistor and an optional voltage divider, corrects it
    for temperature and humidity, and converts it to a CO2 concentration
    with a power law.  An invalid reading is reported by the sentinel
    [-1].  [MQ135.t] holds the constructor's three numbers; the ADC's
    [read_u16()] at each call is an argument ([raw]), one per method
    call, as each method reads the ADC once.  The value of [math.pow] at
    a positive base is the section parameter [pow_pos]; the theorems
    assume of it only facts of real powers (positive; at most
    [max 1 ((1/x)^3)] for an exponent in [[-3, 0]]; at most [x] for
    [x >= 1] and an exponent in [[0, 1]]).  [math.pow] raises
    [ValueError] when its exact value overflows single precision; on
    the script's board the readings below full scale stay far below
    that ([script_resistance_lower]).  [script_loop] is the [__main__] loop over successive
    readings, and [script_main] the whole [__main__] block: the
    firmware's [Config()] and [Logger(config)] (Config.v, Logger.v),
    built and then unused, before the loop.

    my/mq135.py, an earlier version of this class, is indented as a
    whole and does not compile (IndentationError at its first line), so
    it is not modelled. *)

From Stdlib Require Import ZArith QArith Qminmax Qabs String List Lia Lqa.
From stdpp Require Import base tactics.
From S2P Require Import Prelude PyMath Logger Config.
Import ListNotations.
Local Open Scope Q_scope.
Local Open Scope py_scope.

Module MQ135.

Definition DEFAULT_RLOAD : Q := 10.0.
Definition RZERO : Q := 76.63.
Definition PARA : Q := 116.6020682.
Definition PARB : Q := 2.769034857.
Definition CORA : Q := 0.00035.
Definition CORB : Q := 0.02718.
Definition CORC : Q := 1.39538.
Definition CORD : Q := 0.0018.
Definition CORE : Q := -0.003333333.
Definition CORF : Q := -0.001923077.
Definition CORG : Q := 1.130128205.
Definition ATMOCO2 : Q := 397.13.
Definition MAX_ADC : Z := 65535.

(** The instance: [self.board_resistance], [self.base_voltage],
    [self.divider_ratio] ([self.adc] is the driver). *)
Record t := {
  board_resistance : Q;
  base_voltage : Q;
  divider_ratio : Q;
}.

(** [MQ135(pin)] with the default arguments. *)
Definition init_default : t :=
  {| board_resistance := DEFAULT_RLOAD; base_voltage := 3.3; divider_ratio := 1.0 |}.

(** [_read_voltage()]: [raw_adc] is [self.adc.read_u16()]. *)
Definition read_voltage (s : t) (raw_adc : Z) : exn + Q :=
  py_div (Qred (inject_Z raw_adc * Qred (base_voltage s / inject_Z MAX_ADC)))
    (divider_ratio s).

(** [get_resistance()]: [-1] when the output voltage is not positive. *)
Definition get_resistance (s : t) (raw_adc : Z) : exn + Q :=
  let? v_out := read_voltage s raw_adc in
  if Qle_bool v_out 0 then inr (-1)
  else inr (Qred ((base_voltage s - v_out) / v_out * board_resistance s)).

(** [get_correction_factor(temperature, humidity)]. *)
Definition get_correction_factor (temperature humidity : Q) : Q :=
  if qlt temperature 20 then
    Qred (CORA * temperature * temperature - CORB * temperature + CORC
          - (humidity - 33.0) * CORD)
  else Qred (CORE * temperature + CORF * humidity + CORG).

(** [get_corrected_resistance(temperature, humidity)]. *)
Definition get_corrected_resistance (s : t) (raw_adc : Z) (temperature humidity : Q)
    : exn + Q :=
  let? resistance := get_resistance s raw_adc in
  let correction_factor := get_correction_factor temperature humidity in
  if Qeq_bool correction_factor 0 then inr (-1)
  else py_div resistance correction_factor.

Section WithPow.
Context (pow_pos : Q -> Q -> Q).

(** [PARA * math.pow(r / RZERO, -PARB)], shared by [get_ppm] and
    [get_corrected_ppm]. *)
Definition ppm_of (r : Q) : exn + Q :=
  let? x := py_div r RZERO in
  let? p := math_pow pow_pos x (- PARB) in
  inr (Qred (PARA * p)).

(** [r * math.pow(ATMOCO2 / PARA, 1.0 / PARB)], shared by [get_rzero]
    and [get_corrected_rzero]. *)
Definition rzero_of (r : Q) : exn + Q :=
  let? x := py_div ATMOCO2 PARA in
  let? e := py_div 1.0 PARB in
  let? p := math_pow pow_pos x e in
  inr (Qred (r * p)).

(** [get_ppm()]. *)
Definition get_ppm (s : t) (raw_adc : Z) : exn + Q :=
  let? resistance := get_resistance s raw_adc in
  if qlt resistance 0 then inr (-1) else ppm_of resistance.

(** [get_corrected_ppm(temperature, humidity)]. *)
Definition get_corrected_ppm (s : t) (raw_adc : Z) (temperature humidity : Q) : exn + Q :=
  let? corrected_res := get_corrected_resistance s raw_adc temperature humidity in
  if qlt corrected_res 0 then inr (-1) else ppm_of corrected_res.

(** [get_rzero()]. *)
Definition get_rzero (s : t) (raw_adc : Z) : exn + Q :=
  let? resistance := get_resistance s raw_adc in
  if qlt resistance 0 then inr (-1) else rzero_of resistance.

(** [get_corrected_rzero(temperature, humidity)]. *)
Definition get_corrected_rzero (s : t) (raw_adc : Z) (temperature humidity : Q) : exn + Q :=
  let? corrected_res := get_corrected_resistance s raw_adc temperature humidity in
  if qlt corrected_res 0 then inr (-1) else rzero_of corrected_res.

(** One pass of the [__main__] loop: the corrected ppm and RZero at
    20 degrees and 65 %, each from its own ADC reading; the two values
    printed. *)
Definition script_iteration (s : t) (raw1 raw2 : Z) : exn + (Q * Q) :=
  let? co2_ppm := get_corrected_ppm s raw1 20 65 in
  let? rzero := get_corrected_rzero s raw2 20 65 in
  inr (co2_ppm, rzero).

(** [while True:] over the successive pairs of readings, with the
    script's constructor arguments; no [try]: the first exception ends
    the script.  The result is the printed pairs and how the loop
    stopped ([None] when the readings ran out). *)
Fixpoint script_loop (s : t) (raws : list (Z * Z)) : list (Q * Q) * option exn :=
  match raws with
  | [] => ([], None)
  | (r1, r2) :: rest =>
      match script_iteration s r1 r2 with
      | inl e => ([], Some e)
      | inr v => let '(vs, stop) := script_loop s rest in (v :: vs, stop)
      end
  end.
End WithPow.

(** The instance the script builds. *)
Definition script_sensor : t :=
  {| board_resistance := 10.0; base_voltage := 3.3; divider_ratio := 1.0 |}.

(** The [__main__] block on what [open] and [ujson.load] give for the
    configuration file: [Config()] and [Logger(config)] raise before the
    sensor is built. *)
Definition script_main (pow_pos : Q -> Q -> Q) (file : exn + json) (raws : list (Z * Z))
    : list (Q * Q) * option exn :=
  match Config.load_config file with
  | inl e => ([], Some e)
  | inr data =>
      match Logger.init (Config.get_logging_config data) with
      | inl e => ([], Some e)
      | inr _ => script_loop pow_pos script_sensor raws
      end
  end.

End MQ135.

(** * Properties *)

Import MQ135.

(** The reading at which the output voltage equals the supply: the top
    of the ADC's range seen through the divider. *)
Definition full_scale (s : t) : Q := inject_Z MAX_ADC * divider_ratio s.

(** A well-formed instance: positive supply, load and divider. *)
Definition board_ok (s : t) : Prop :=
  0 < base_voltage s /\ 0 < board_resistance s /\ 0 < divider_ratio s.

Lemma read_voltage_val s raw : ~ divider_ratio s == 0 ->
  exists v, read_voltage s raw = inr v /\ v * full_scale s == inject_Z raw * base_voltage s.
Proof.
  intros Hd. unfold read_voltage, py_div. rewrite Qeq_bool_false by done.
  eexists; split; [reflexivity|]. unfold full_scale, MAX_ADC. rewrite !Qred_correct.
  field. done.
Qed.

(** The sign of the resistance follows the reading's position between
    [0] and full scale; a reading of [0] or below gives the sentinel. *)
Lemma get_resistance_sign s raw : board_ok s ->
  exists r, get_resistance s raw = inr r /\
    (inject_Z raw <= 0 -> r = -1) /\
    (full_scale s < inject_Z raw -> r < 0) /\
    (inject_Z raw == full_scale s -> r == 0) /\
    (0 < inject_Z raw -> inject_Z raw < full_scale s -> 0 < r).
Proof.
  intros (HB & Hb & Hd).
  assert (HF : 0 < full_scale s) by (apply Qmult_lt_0_compat; [reflexivity|done]).
  destruct (read_voltage_val s raw) as (v & Hv & Heq); [lra|].
  unfold get_resistance. rewrite Hv. cbn [sbind].
  destruct (Qle_bool v 0) eqn:E; qbool; eexists; (split; [reflexivity|]).
  - split; [done|]. split; [intros; lra|]. split; intros; nra.
  - pose proof (qfrac_sign (base_voltage s - v) v _ E Hb) as (P & N & Z0).
    split; [intros; nra|]. split; [intros; rewrite Qred_correct; apply N; nra|].
    split; [intros; rewrite Qred_correct; apply Z0; nra|].
    intros; rewrite Qred_correct; apply P; nra.
Qed.

(** In the operating range of the sensor (-40 to 85 degrees, 0 to
    100 % humidity) the temperature and humidity correction factor of
    [get_correction_factor] lies between 0.65 and 3.11: in particular
    it is positive, so the correction keeps the sign of the resistance
    and the sentinel [-1] stays negative. *)
Theorem correction_factor_range temperature humidity :
  -40 <= temperature <= 85 -> 0 <= humidity <= 100 ->
  0.65 <= get_correction_factor temperature humidity <= 3.11.
Proof.
  intros Ht Hh. unfold get_correction_factor, CORA, CORB, CORC, CORD, CORE, CORF, CORG.
  destruct (qlt temperature 20) eqn:E; qbool; rewrite Qred_correct; nra.
Qed.

Lemma correction_factor_pos temperature humidity :
  -40 <= temperature <= 85 -> 0 <= humidity <= 100 ->
  0 < get_correction_factor temperature humidity.
Proof.
  intros Ht Hh. unfold get_correction_factor, CORA, CORB, CORC, CORD, CORE, CORF, CORG.
  destruct (qlt temperature 20) eqn:E; qbool; rewrite Qred_correct; nra.
Qed.

(** With a positive correction factor the corrected resistance has the
    sign of the resistance. *)
Lemma get_corrected_resistance_sign s raw temperature humidity : board_ok s ->
  0 < get_correction_factor temperature humidity ->
  exists r, get_corrected_resistance s raw temperature humidity = inr r /\
    (inject_Z raw <= 0 \/ full_scale s < inject_Z raw -> r < 0) /\
    (inject_Z raw == full_scale s -> r == 0) /\
    (0 < inject_Z raw -> inject_Z raw < full_scale s -> 0 < r).
Proof.
  intros Hs Hc. destruct (get_resistance_sign s raw Hs) as (r & Hr & Hneg1 & Hneg & Hz & Hpos).
  unfold get_corrected_resistance, py_div. rewrite Hr. cbn [sbind].
  rewrite !Qeq_bool_false by lra. eexists; split; [reflexivity|].
  destruct (qdiv_sign r _ Hc) as (P & N & Z0).
  split; [|split]; [intros [H|H]; rewrite Qred_correct; apply N|
    intros; rewrite Qred_correct; apply Z0, Hz|intros; rewrite Qred_correct; apply P, Hpos];
    auto. rewrite Hneg1 by done. reflexivity.
Qed.

Section Ppm.
Context (pow_pos : Q -> Q -> Q).
(** Facts of [x ** y] on the reals that the theorems use: a power of a
    positive base is positive, a negative exponent down to [-3] gives at
    most [max 1 ((1/x)^3)], and an exponent in [[0, 1]] of a base of at
    least [1] gives at most the base. *)
Hypothesis pow_pos_pos : forall x y, 0 < x -> 0 < pow_pos x y.
Hypothesis pow_pos_neg : forall x y, 0 < x -> -3 <= y <= 0 -> pow_pos x y <= Qmax 1 ((/ x) ^ 3).
Hypothesis pow_pos_frac : forall x y, 1 <= x -> 0 <= y <= 1 -> pow_pos x y <= x.

(** The guard [if r < 0: return -1] followed by the power law. *)
Lemma ppm_guard r :
  (r < 0 -> (if qlt r 0 then inr (-1) else ppm_of pow_pos r) = inr (-1)) /\
  (r == 0 -> (if qlt r 0 then inr (-1) else ppm_of pow_pos r) = inl math_domain_error) /\
  (0 < r -> (if qlt r 0 then inr (-1) else ppm_of pow_pos r) =
     (let? p := math_result (pow_pos (Qred (r / RZERO)) (- PARB)) in inr (Qred (PARA * p)))).
Proof.
  unfold ppm_of, py_div, math_pow. change (Qeq_bool RZERO 0) with false.
  change (qlt (- PARB) 0) with true. cbn [sbind].
  split; [|split]; intros Hr.
  - by rewrite (proj2 (qlt_spec r 0) Hr).
  - assert (Hx : Qred (r / RZERO) == 0) by (rewrite Qred_correct, Hr; reflexivity).
    rewrite (proj2 (qlt_false r 0)), (proj2 (qlt_false 0 _)), (proj2 (Qeq_bool_iff _ _) Hx);
      [done|lra|lra].
  - assert (Hx : 0 < Qred (r / RZERO)).
    { rewrite Qred_correct. apply Qlt_shift_div_l; [reflexivity|lra]. }
    by rewrite (proj2 (qlt_false r 0)), (proj2 (qlt_spec 0 _) Hx) by lra.
Qed.

(** The sentinel, the domain error, and otherwise the power law at a
    positive base: a positive concentration, unless [math.pow]'s result
    overflows. *)
Lemma ppm_outcome_of (c : exn + Q) s raw :
  (exists r, c = inr r /\
    (inject_Z raw <= 0 \/ full_scale s < inject_Z raw -> r < 0) /\
    (inject_Z raw == full_scale s -> r == 0) /\
    (0 < inject_Z raw -> inject_Z raw < full_scale s -> 0 < r)) ->
  let out := let? r := c in if qlt r 0 then inr (-1) else ppm_of pow_pos r in
  (inject_Z raw <= 0 \/ full_scale s < inject_Z raw -> out = inr (-1)) /\
  (inject_Z raw == full_scale s -> out = inl math_domain_error) /\
  (0 < inject_Z raw -> inject_Z raw < full_scale s ->
     exists x p, 0 < x /\ p = pow_pos x (- PARB) /\ 0 < PARA * p /\
       out = if overflows p then inl math_domain_error else inr (Qred (PARA * p))).
Proof.
  intros (r & -> & Hneg & Hz & Hpos). cbn [sbind].
  destruct (ppm_guard r) as (G1 & G2 & G3). split; [|split]; auto.
  intros H1 H2. pose proof (Hpos H1 H2) as Hr.
  assert (Hx : 0 < Qred (r / RZERO)).
  { rewrite Qred_correct. apply Qlt_shift_div_l; [reflexivity|lra]. }
  exists (Qred (r / RZERO)), (pow_pos (Qred (r / RZERO)) (- PARB)).
  split; [done|split; [done|split]].
  - apply Qmult_lt_0_compat; [reflexivity|auto].
  - rewrite G3 by done. unfold math_result. by destruct (overflows _).
Qed.

(** C33. In the operating range, [get_corrected_ppm] has three outcomes
    fixed by the ADC reading: the sentinel [-1] for a reading of [0]
    (no output voltage) or above full scale (more than the supply
    through the divider); a [ValueError] from [math.pow(0, -PARB)] for
    a reading exactly at full scale, where the resistance is [0] and
    passes the guard [corrected_res < 0]; otherwise [PARA] times
    [math.pow(x, -PARB)] at a positive [x], a positive concentration,
    which raises [ValueError] instead when the power overflows single
    precision. *)
Theorem get_corrected_ppm_outcome s raw temperature humidity : board_ok s ->
  -40 <= temperature <= 85 -> 0 <= humidity <= 100 ->
  (inject_Z raw <= 0 \/ full_scale s < inject_Z raw ->
     get_corrected_ppm pow_pos s raw temperature humidity = inr (-1)) /\
  (inject_Z raw == full_scale s ->
     get_corrected_ppm pow_pos s raw temperature humidity = inl math_domain_error) /\
  (0 < inject_Z raw -> inject_Z raw < full_scale s ->
     exists x p, 0 < x /\ p = pow_pos x (- PARB) /\ 0 < PARA * p /\
       get_corrected_ppm pow_pos s raw temperature humidity =
         if overflows p then inl math_domain_error else inr (Qred (PARA * p))).
Proof.
  intros Hs Ht Hh. apply (ppm_outcome_of _ s raw).
  apply get_corrected_resistance_sign; [done|]. by apply correction_factor_pos.
Qed.

(** The same three outcomes for the uncorrected [get_ppm]. *)
Lemma get_ppm_outcome s raw : board_ok s ->
  (inject_Z raw <= 0 \/ full_scale s < inject_Z raw -> get_ppm pow_pos s raw = inr (-1)) /\
  (inject_Z raw == full_scale s -> get_ppm pow_pos s raw = inl math_domain_error) /\
  (0 < inject_Z raw -> inject_Z raw < full_scale s ->
     exists x p, 0 < x /\ p = pow_pos x (- PARB) /\ 0 < PARA * p /\
       get_ppm pow_pos s raw = if overflows p then inl math_domain_error else inr (Qred (PARA * p))).
Proof.
  intros Hs. apply (ppm_outcome_of _ s raw).
  destruct (get_resistance_sign s raw Hs) as (r & Hr & Hneg1 & Hneg & Hz & Hpos).
  exists r. split; [done|]. split; [|done]. intros [H|H]; [|auto].
  rewrite Hneg1 by done. reflexivity.
Qed.

(** A positive value at most [2^127] is a finite float. *)
Lemma math_result_pos p : 0 < p -> p <= inject_Z (2 ^ 127) -> math_result p = inr p.
Proof. intros H1 H2. apply math_result_small. rewrite Qabs_pos; lra. Qed.

Lemma rzero_of_ok r : exists v, rzero_of pow_pos r = inr v.
Proof.
  unfold rzero_of, py_div, math_pow. change (Qeq_bool PARA 0) with false.
  change (Qeq_bool PARB 0) with false. cbn [sbind].
  change (qlt 0 (Qred (ATMOCO2 / PARA))) with true.
  assert (Hx : 1 <= Qred (ATMOCO2 / PARA)) by (vm_compute; discriminate).
  assert (Hy : 0 <= Qred (1.0 / PARB) <= 1) by (split; vm_compute; discriminate).
  pose proof (pow_pos_frac _ _ Hx Hy) as Hle.
  pose proof (pow_pos_pos (Qred (ATMOCO2 / PARA)) (Qred (1.0 / PARB)) ltac:(lra)).
  rewrite math_result_pos; [by eexists|done|].
  eapply Qle_trans; [exact Hle|]. vm_compute; discriminate.
Qed.

Lemma script_board_ok : board_ok script_sensor.
Proof. unfold board_ok; cbn; repeat split; reflexivity. Qed.

(** On the script's board a reading below full scale gives a corrected
    resistance of at least [1/10000] kOhm at 20 degrees and 65 %. *)
Lemma script_resistance_lower raw : (0 < raw < 65535)%Z ->
  exists r, get_corrected_resistance script_sensor raw 20 65 = inr r /\ 1 # 10000 <= r.
Proof.
  intros Hraw.
  assert (HQ : 1 <= inject_Z raw <= 65534).
  { split; [change 1 with (inject_Z 1)|change 65534 with (inject_Z 65534)];
      rewrite <- Zle_Qle; lia. }
  destruct (read_voltage_val script_sensor raw) as (v & Hv & Heq); [discriminate|].
  change (full_scale script_sensor) with (inject_Z 65535 * 1.0) in Heq.
  change (base_voltage script_sensor) with 3.3 in Heq.
  assert (Hvpos : 0 < v) by (change (inject_Z 65535) with 65535 in Heq; nra).
  unfold get_corrected_resistance, get_resistance, py_div. rewrite Hv. cbn [sbind].
  rewrite (proj2 (Qle_bool_false _ _) Hvpos).
  change (Qeq_bool (get_correction_factor 20 65) 0) with false. cbn [sbind].
  change (base_voltage script_sensor) with 3.3. change (board_resistance script_sensor) with 10.0.
  set (c := get_correction_factor 20 65).
  assert (Hc : 0.9 <= c <= 1) by (split; vm_compute; discriminate).
  eexists; split; [reflexivity|].
  rewrite !Qred_correct.
  set (q := (3.3 - v) / v). assert (Hq : q * v == 3.3 - v) by (unfold q; field; lra).
  set (r := q * 10.0 / c). assert (Hr : r * c == q * 10.0) by (unfold r; field; lra).
  change (inject_Z 65535) with 65535 in Heq.
  assert (Hq1 : 1 # 65535 <= q).
  { apply Qnot_lt_le. intros Hlt.
    pose proof (proj2 (Qmult_lt_r _ _ _ Hvpos) Hlt). lra. }
  apply Qnot_lt_le. intros Hlt.
  pose proof (proj2 (Qmult_lt_r _ _ c ltac:(lra)) Hlt). lra.
Qed.

Lemma script_iteration_ok r1 r2 : r1 <> 65535%Z ->
  exists v, script_iteration pow_pos script_sensor r1 r2 = inr v.
Proof.
  intros Hr. assert (Hrange : -40 <= 20 <= 85 /\ 0 <= 65 <= 100) by (split; split; discriminate).
  destruct Hrange as [Ht Hh].
  destruct (get_corrected_ppm_outcome script_sensor r1 20 65 script_board_ok Ht Hh)
    as (O1 & _ & _).
  assert (HF : full_scale script_sensor == inject_Z 65535) by reflexivity.
  rewrite HF in O1.
  assert (Hppm : exists p, get_corrected_ppm pow_pos script_sensor r1 20 65 = inr p).
  { destruct (Z.le_gt_cases r1 0) as [H|H];
      [exists (-1); apply O1; left; change (inject_Z r1 <= inject_Z 0); rewrite <- Zle_Qle; lia|].
    destruct (Z.lt_ge_cases r1 65535) as [H'|H'];
      [|exists (-1); apply O1; right; rewrite <- Zlt_Qlt; lia].
    destruct (script_resistance_lower r1) as (r & Hres & Hlow); [lia|].
    unfold get_corrected_ppm. rewrite Hres. cbn [sbind].
    destruct (ppm_guard r) as (_ & _ & G3). rewrite G3 by lra.
    set (x := Qred (r / RZERO)).
    assert (Hx : 1 # 1000000 <= x) by (unfold x; rewrite Qred_correct;
      apply Qle_shift_div_l; [reflexivity|]; unfold RZERO; lra).
    assert (Hxpos : 0 < x) by lra.
    assert (Hb : pow_pos x (- PARB) <= inject_Z (2 ^ 127)).
    { eapply Qle_trans; [apply pow_pos_neg; [done|split; discriminate]|].
      apply Q.max_lub; [discriminate|].
      assert (Hi0 : 0 < / x) by (apply Qinv_lt_0_compat; done).
      assert (Hi : / x <= 1000000).
      { assert (Hxx : / x * x == 1) by (field; lra).
        apply Qnot_lt_le. intros Hlt.
        pose proof (proj2 (Qmult_lt_r _ _ _ Hxpos) Hlt). lra. }
      assert (E3 : (/ x) ^ 3 == / x * / x * / x) by ring. rewrite E3.
      assert (/ x * / x <= 1000000 * 1000000) by nra.
      assert (H3 : / x * / x * / x <= 1000000 * 1000000 * 1000000) by nra.
      eapply Qle_trans; [exact H3|vm_compute; discriminate]. }
    rewrite math_result_pos; [cbn [sbind]; by eexists|auto|done]. }
  destruct Hppm as (p & Hp).
  destruct (get_corrected_resistance_sign script_sensor r2 20 65 script_board_ok)
    as (r & Hres & _); [by apply correction_factor_pos|].
  destruct (rzero_of_ok r) as (z & Hz).
  unfold script_iteration, get_corrected_rzero. rewrite Hp, Hres. cbn [sbind].
  destruct (qlt r 0); [by eexists|]. rewrite Hz. by eexists.
Qed.

Lemma script_iteration_full_scale r2 :
  script_iteration pow_pos script_sensor 65535 r2 = inl math_domain_error.
Proof.
  destruct (get_corrected_ppm_outcome script_sensor 65535 20 65 script_board_ok)
    as (_ & O2 & _); [split; discriminate|split; discriminate|].
  unfold script_iteration. by rewrite O2.
Qed.

(** The script's loop stops at the first full-scale reading. *)
Lemma script_loop_stops pre r2 post :
  (forall r1 r2', In (r1, r2') pre -> r1 <> 65535%Z) ->
  exists vs, script_loop pow_pos script_sensor (pre ++ (65535%Z, r2) :: post) =
    (vs, Some math_domain_error) /\ length vs = length pre.
Proof.
  induction pre as [|[r1 r2'] pre IH]; intros Hpre; cbn [app script_loop].
  - rewrite script_iteration_full_scale. by exists [].
  - destruct (script_iteration_ok r1 r2') as (v & Hv); [apply (Hpre r1 r2'); by left|].
    rewrite Hv. destruct IH as (vs & Hvs & Hlen); [intros; eapply Hpre; right; eauto|].
    rewrite Hvs. exists (v :: vs). split; [done|]. cbn. lia.
Qed.

(** C34. Once [Config()] and [Logger(config)] succeed, the script's
    [while True] loop prints one pair of values per reading until the
    first concentration reading at full scale (65535 with the script's
    divider ratio 1.0), where [ValueError] from [math.pow] ends the
    script, whatever readings follow. *)
Theorem script_stops_at_full_scale file data lg pre r2 post :
  Config.load_config file = inr data -> Logger.init (Config.get_logging_config data) = inr lg ->
  (forall r1 r2', In (r1, r2') pre -> r1 <> 65535%Z) ->
  exists vs, script_main pow_pos file (pre ++ (65535%Z, r2) :: post) =
    (vs, Some math_domain_error) /\ length vs = length pre.
Proof.
  intros Hc Hl Hpre. unfold script_main. rewrite Hc, Hl. by apply script_loop_stops.
Qed.
End Ppm.

(** * Witnesses

    [math.pow] is replaced by the constant [1], positive as the
    theorems require; the values do not depend on it. *)

Lemma correction_factor_range_witness :
  0.65 <= get_correction_factor 20 65 <= 3.11.
Proof. apply correction_factor_range; split; discriminate. Defined.

Lemma get_corrected_ppm_outcome_witness :
  get_corrected_ppm (fun _ _ => 1) script_sensor 65535 20 65 = inl math_domain_error.
Proof.
  refine (proj1 (proj2 (get_corrected_ppm_outcome (fun _ _ => 1) _ script_sensor 65535 20 65
    _ _ _)) _); [intros; reflexivity|unfold board_ok; cbn; repeat split; reflexivity
    |split; discriminate|split; discriminate|reflexivity].
Defined.

(** The constant [1] meets the facts the theorems assume of [math.pow]. *)
Lemma pow_one_neg x y : 0 < x -> -3 <= y <= 0 -> (fun _ _ => 1) x y <= Qmax 1 ((/ x) ^ 3).
Proof. intros _ _. apply Q.le_max_l. Qed.

Lemma pow_one_frac x y : 1 <= x -> 0 <= y <= 1 -> (fun _ _ => 1) x y <= x.
Proof. intros Hx _. exact Hx. Qed.

Lemma script_stops_at_full_scale_witness : exists vs,
  script_main (fun _ _ => 1) (inr (JObj [("logging"%string, JObj [("level"%string, JStr "debug")])]))
    ([(30000%Z, 30000%Z)] ++ (65535%Z, 100%Z) :: [(1%Z, 1%Z)]) =
    (vs, Some math_domain_error) /\ length vs = length [(30000%Z, 30000%Z)].
Proof.
  eapply (script_stops_at_full_scale (fun _ _ => 1));
    [intros; reflexivity|apply pow_one_neg|apply pow_one_frac|reflexivity|reflexivity|].
  intros r1 r2' [H|[]]. injection H as <- <-. discriminate.
Defined.
