(* ===== verification/Mqtt.v ===== *)
(** The [MQTTManager] (src/communication/mqtt_manager.py).

    The client [umqtt.simple.MQTTClient] is the external collaborator:
    [Env] says whether its [connect], [publish] and [subscribe] raise.
    [publish] and [subscribe] do nothing when the manager is not
    connected; [subscribe] records the callback before it asks the client
    to subscribe; [_message_router] calls the callback registered for the
    exact topic and swallows what it raises ([except Exception]).
    The callbacks themselves belong to other components: the router is
    parameterised by [dispatch], which [App] instantiates.  [init] is the
    constructor: it reads the client settings and starts disconnected
    with no callbacks. *)

From Stdlib Require Import ZArith String List.
From stdpp Require Import base list strings sets.
From S2P Require Import Prelude States World.
Import ListNotations.
Local Open Scope py_scope.

(** An inbound message: [None] is a payload that [msg.decode("utf-8")]
    or [json.loads] rejects with [ValueError]. *)
Definition payload := option json.

Module MQTTManager.
Section Ops.
Context (env : Env).

Definition with_connected (b : bool) (m : Mqtt) : Mqtt :=
{| mq_connected := b; mq_callbacks := mq_callbacks m |}.

Definition connected : PyM World bool :=
pgets (fun w => mq_connected (w_mqtt w)).

(** [connect] *)
Definition connect : PyM World unit :=
if env_connect_ok env then
  pmodify (fun w => set_mqtt (with_connected true (w_mqtt w)) w)
else pthrow OSError "MQTT connection error".

(** [publish(topic, message)] *)
Definition publish (topic : string) (message : json) : PyM World unit :=
let* c := connected in
if negb c then pskip
else if env_publish_ok env topic then pmodify (emit (EvPublish topic message))
else pthrow OSError "MQTT publish error".

(** [subscribe(topic, callback)] *)
Definition subscribe (topic : string) (cb : callback) : PyM World unit :=
let* c := connected in
if negb c then pskip
else
  pmodify (fun w => set_mqtt
    {| mq_connected := mq_connected (w_mqtt w);
       mq_callbacks := dset topic cb (mq_callbacks (w_mqtt w)) |} w) ;;
  if env_subscribe_ok env topic then pmodify (emit (EvSubscribe topic))
  else pthrow OSError "MQTT subscribe error".

Section Router.
Context (dispatch : callback -> string -> payload -> PyM World unit).

(** [_message_router(topic, msg)] *)
Definition message_router (topic : string) (msg : payload) : PyM World unit :=
let* cbs := pgets (fun w => mq_callbacks (w_mqtt w)) in
match dget topic cbs with
| Some cb => ptry (dispatch cb topic msg) (fun _ _ => pskip)
| None => pskip
end.

(** [check_messages()]: [client.check_msg()] delivers at most one
  pending message ([inbound]) to the router; [link_ok] is whether
  the socket read succeeds. *)
Definition check_messages (link_ok : bool) (inbound : option (string * payload))
: PyM World unit :=
let* c := connected in
if negb c then pskip
else
  ptry (if link_ok then
          match inbound with
          | Some (t, m) => message_router t m
          | None => pskip
          end
        else pthrow OSError "MQTT check_msg error")
       (fun k m =>
          pmodify (fun w => set_mqtt (with_connected false (w_mqtt w)) w) ;;
          praise (PyExc k m)).
End Router.
End Ops.

(** ** Lemmas *)

Lemma publish_disconnected env topic p w :
mq_connected (w_mqtt w) = false -> publish env topic p w = (inr tt, w).
Proof. unfold publish, connected. py_unfold. simpl. by intros ->. Qed.

Lemma publish_ok env topic p w :
mq_connected (w_mqtt w) = true -> env_publish_ok env topic = true ->
publish env topic p w = (inr tt, emit (EvPublish topic p) w).
Proof. unfold publish, connected. py_unfold. simpl. by intros -> ->. Qed.

Lemma publish_fail env topic p w :
mq_connected (w_mqtt w) = true -> env_publish_ok env topic = false ->
publish env topic p w = (inl (PyExc OSError "MQTT publish error"), w).
Proof. unfold publish, connected. py_unfold. simpl. by intros -> ->. Qed.

(** A routed callback never lets an ordinary exception out. *)
Lemma message_router_no_exc dispatch topic msg w k m w' :
message_router dispatch topic msg w <> (inl (PyExc k m), w').
Proof.
unfold message_router. py_unfold. simpl.
destruct (dget topic _) as [cb|]; [|by intros [=]].
destruct (dispatch cb topic msg w) as [[e|a] w0]; [destruct e|]; by intros [=].
Qed.

(** [MQTTManager.__init__] on [config.get_mqtt_config()]: the client is
    built from [mqtt_config.get("client_id")] and the other settings;
    the manager starts disconnected and without callbacks. *)
Definition init (mqtt_config : json) : PyM World unit :=
let* _ := of_sum (py_get mqtt_config "client_id") in
pmodify (set_mqtt {| mq_connected := false; mq_callbacks := [] |}).

Lemma init_mqtt_obj mq w :
  init (JObj mq) w = (inr tt, set_mqtt {| mq_connected := false; mq_callbacks := [] |} w).
Proof. unfold init. by rewrite py_get_obj. Qed.
End MQTTManager.

(** ** Frames *)

Section Frames.
Context (env : Env).

Lemma publish_frame (R : relation World) `{!PreOrder R} topic p :
  (forall e w, R w (emit e w)) -> respects R (MQTTManager.publish env topic p).
Proof.
  intros He w r w'. unfold MQTTManager.publish, MQTTManager.connected. py_unfold. simpl.
  destruct (mq_connected (w_mqtt w)); simpl; [|intros [= _ <-]; reflexivity].
  destruct (env_publish_ok env topic); intros [= _ <-]; [apply He|reflexivity].
Qed.

Lemma publish_trace topic p : respects trace_grows (MQTTManager.publish env topic p).
Proof. apply publish_frame; [apply _|apply emit_trace_grows]. Qed.
Lemma publish_others sid topic p : respects (others_kept sid) (MQTTManager.publish env topic p).
Proof. apply publish_frame; [apply _|intros; apply emit_others_kept]. Qed.
Lemma publish_shape topic p : respects shape_kept (MQTTManager.publish env topic p).
Proof. apply publish_frame; [apply _|apply emit_shape_kept]. Qed.
Lemma publish_cfg topic p : respects cfg_kept (MQTTManager.publish env topic p).
Proof. apply publish_frame; [apply _|apply emit_cfg_kept]. Qed.

Lemma publish_sensor_frame sid topic p : respects (sensor_frame sid) (MQTTManager.publish env topic p).
Proof. apply publish_frame; [apply _|apply emit_sensor_frame]. Qed.

Lemma publish_only_exc topic p : only_exc (MQTTManager.publish env topic p).
Proof.
  unfold MQTTManager.publish, MQTTManager.connected. solve_only_exc.
Qed.
End Frames.

#[export] Hint Resolve publish_trace publish_others publish_shape publish_cfg publish_sensor_frame
  publish_only_exc : py.

(** ** A broker that accepts every publish *)

Definition healthy (env : Env) : Prop := forall t, env_publish_ok env t = true.

(** The world after [publish(topic, p)] on a healthy broker. *)
Definition pub_effect (t : string) (p : json) (w : World) : World :=
  if mq_connected (w_mqtt w) then emit (EvPublish t p) w else w.

Lemma publish_healthy env t p w :
  healthy env -> MQTTManager.publish env t p w = (inr tt, pub_effect t p w).
Proof.
  intros Hh. unfold pub_effect. destruct (mq_connected (w_mqtt w)) eqn:Hc.
  - by apply MQTTManager.publish_ok.
  - by apply MQTTManager.publish_disconnected.
Qed.

Section PubEffect.
Context (t : string) (p : json) (w : World).
Lemma pub_effect_sensors : w_sensors (pub_effect t p w) = w_sensors w.
Proof. unfold pub_effect. by destruct (mq_connected _). Qed.
Lemma pub_effect_next : w_next (pub_effect t p w) = w_next w.
Proof. unfold pub_effect. by destruct (mq_connected _). Qed.
Lemma pub_effect_cfg : w_cfg (pub_effect t p w) = w_cfg w.
Proof. unfold pub_effect. by destruct (mq_connected _). Qed.
Lemma pub_effect_now : w_now (pub_effect t p w) = w_now w.
Proof. unfold pub_effect. by destruct (mq_connected _). Qed.
Lemma pub_effect_mqtt : w_mqtt (pub_effect t p w) = w_mqtt w.
Proof. unfold pub_effect. by destruct (mq_connected _). Qed.
Lemma pub_effect_trace :
  w_trace (pub_effect t p w) =
  w_trace w ++ (if mq_connected (w_mqtt w) then [EvPublish t p] else []).
Proof. unfold pub_effect. destruct (mq_connected _); simpl; by rewrite ?app_nil_r. Qed.
End PubEffect.

#[export] Hint Rewrite pub_effect_sensors pub_effect_next pub_effect_cfg pub_effect_now
  pub_effect_mqtt : py_rw.
