(* ===== verification/ServiceLed.v ===== *)
(** The status LED (src/utils/service_led.py).

    [init] is the constructor: it reads [pin] and [state_leds] and
    writes the pixel off.

    [indicate_state] looks the device state up in the [state_leds]
    section of the configuration, reads [blink_pattern], [color] and
    [times], and replaces the current animation task by a new
    [_animate_led] task.  The task's own run is modelled apart from the
    main loop, as the list of pixel writes and sleeps it performs
    ([animate_led]): the LED is written by nothing else while it runs,
    so the interleaving with the main loop does not change that list.
    The loop [while times == 0 or iteration < times] does not terminate
    for [times == 0]; [animate_led] takes a bound on the number of loop
    tests and reports whether the task finished, failed, or was still
    running when the bound ran out.  The [finally] clause writes the
    off colour on every exit path. *)

From Stdlib Require Import ZArith String List Ascii.
From stdpp Require Import base list strings sets.
From S2P Require Import Prelude States World Fixtures.
Import ListNotations.
Local Open Scope py_scope.

(** [for x in v] / [tuple(v)] on a decoded JSON value. *)
Definition py_iter (v : json) : exn + list json :=
  match v with
  | JArr l => inr l
  | JStr s => inr (map (fun c => JStr (String c EmptyString)) (list_ascii_of_string s))
  | JObj kvs => inr (map (fun '(k, _) => JStr k) kvs)
  | JNull => inl (PyExc TypeError "'NoneType' object is not iterable")
  | _ => inl (PyExc TypeError "object is not iterable")
  end.

(** [tuple(d.get(k))]: a missing key is [None]. *)
Definition py_tuple (v : option json) : exn + list json :=
  match v with
  | Some v => py_iter v
  | None => inl (PyExc TypeError "'NoneType' object is not iterable")
  end.

(** [times == 0]: [False == 0] holds in Python. *)
Definition py_eq_zero (v : option json) : bool :=
  match v with
  | Some (JNum 0) | Some (JBool false) => true
  | _ => false
  end.

(** [iteration < times] *)
Definition py_lt (i : Z) (v : option json) : exn + bool :=
  match v with
  | Some (JNum n) => inr (i <? n)%Z
  | Some (JBool b) => inr (i <? if b then 1 else 0)%Z
  | _ => inl (PyExc TypeError "'<' not supported")
  end.

(** One item of [buf[offset + ORDER[i]] = v[i]], the assignment of
    [neopixel]'s [__setitem__] into its [bytearray]. *)
Definition byte_like (v : json) : bool :=
  match v with
  | JNum n => (0 <=? n)%Z && (n <=? 255)%Z
  | JBool _ => true
  | _ => false
  end.

(** What [rgb_led[0] = color] accepts: [__setitem__] reads
    [v[0]], [v[1]], [v[2]] (three bytes per pixel) and ignores further
    items. *)
Definition valid_pixel (c : color) : bool :=
  (3 <=? length c)%nat && forallb byte_like (firstn 3 c).

(** What [asyncio.sleep(duration)] accepts: a number. *)
Definition valid_sleep (d : json) : bool :=
  match d with JNum _ | JBool _ => true | _ => false end.

(** The observable steps of the animation task. *)
Inductive led_step :=
  | LWrite (c : color)   (** [rgb_led[0] = c; rgb_led.write()] *)
  | LSleep (d : json).   (** [await asyncio.sleep(d)] *)

(** How the task's [try] ended. *)
Inductive anim_end :=
  | Finished   (** the [while] test failed *)
  | Failed     (** an exception, caught by [except Exception] *)
  | Running.   (** still looping when the bound ran out *)

Module ServiceLED.

(** One pass of [for duration in blink_pattern:]: on for [duration], off
    for [duration].  The boolean is [false] when a step raised. *)
Fixpoint blink_pass (c : color) (ds : list json) : list led_step * bool :=
match ds with
| [] => ([], true)
| d :: ds' =>
    if negb (valid_pixel c) then ([], false)
    else if negb (valid_sleep d) then ([LWrite c], false)
    else
      let '(st, ok) := blink_pass c ds' in
      ([LWrite c; LSleep d; LWrite off_color; LSleep d] ++ st, ok)
end.

(** The [while] loop from [iteration], for at most [fuel] tests of its
    condition. *)
Fixpoint anim_loop (c : color) (pattern : json) (times : option json) (iteration : Z)
  (fuel : nat) : list led_step * anim_end :=
match fuel with
| O => ([], Running)
| S fuel' =>
    let cond := if py_eq_zero times then inr true else py_lt iteration times in
    match cond with
    | inl _ => ([], Failed)
    | inr false => ([], Finished)
    | inr true =>
        match py_iter pattern with
        | inl _ => ([], Failed)
        | inr ds =>
            let '(st, ok) := blink_pass c ds in
            if ok then
              let '(st', e) := anim_loop c pattern times (iteration + 1) fuel' in
              (st ++ st', e)
            else (st, Failed)
        end
    end
end.

(** [_animate_led(color, blink_pattern, times)]: the loop, then the
    [finally] clause's off write once the [try] has been left. *)
Definition animate_led (c : color) (pattern : json) (times : option json) (fuel : nat)
  : list led_step * anim_end :=
let '(st, e) := anim_loop c pattern times 0 fuel in
match e with
| Running => (st, Running)
| _ => (st ++ [LWrite off_color], e)
end.

(** The task cancelled after its first [k] steps: [CancelledError] is
    raised at the pending [await], then the [finally] clause runs. *)
Definition cancelled_at (c : color) (pattern : json) (times : option json) (fuel k : nat)
  : list led_step :=
take k (fst (animate_led c pattern times fuel)) ++ [LWrite off_color].

Section Ops.
Context (state_leds : json).   (** [self.state_leds] *)

(** [indicate_state(state)] *)
Definition indicate_state (state : DeviceState.t) : PyM World unit :=
let* state_config := of_sum (py_get state_leds (DeviceState.to_string state)) in
match state_config with
| Some sc =>
    if negb (truthy sc) then pskip
    else
      let* blink_pattern := of_sum (py_get sc "blink_pattern") in
      let* color_v := of_sum (py_get sc "color") in
      let* c := of_sum (py_tuple color_v) in
      let* times := of_sum (py_get sc "times") in
      match blink_pattern with
      | Some p =>
          if negb (truthy p) || negb (truthy (JArr c)) then pskip
          else
            (* cancel the current task, start the new one *)
            pmodify (fun w => set_led {| led_pixel := led_pixel (w_led w);
                                         led_task := Some {| an_color := c; an_pattern := p;
                                                             an_times := times |} |} w)
      | None => pskip
      end
| None => pskip
end.
End Ops.

(** [turn_off()] *)
Definition turn_off : PyM World unit :=
pmodify (fun w => emit (EvLed off_color)
                    (set_led {| led_pixel := off_color; led_task := led_task (w_led w) |} w)).

(** [ServiceLED.__init__] on [config.get_service_led()]: it reads [pin]
    and [state_leds] with [.get], sets the pixel off and writes it, and
    has no animation task.  The result is [self.state_leds]. *)
Definition init (led_cfg : json) : PyM World json :=
let* _ := of_sum (py_get led_cfg "pin") in
let* state_leds := of_sum (py_get_default led_cfg "state_leds" JNull) in
pmodify (fun w => emit (EvLed off_color)
                    (set_led {| led_pixel := off_color; led_task := None |} w)) ;;
pret state_leds.

Lemma init_led_obj led w :
  init (JObj led) w =
    (inr (dget_or "state_leds" JNull led),
     emit (EvLed off_color) (set_led {| led_pixel := off_color; led_task := None |} w)).
Proof. unfold init. by rewrite py_get_obj, py_get_default_obj. Qed.

(** ** The animation *)

(** One pass over a well-formed pattern: on then off for each duration. *)
Definition blink_steps (c : color) (ds : list json) : list led_step :=
flat_map (fun d => [LWrite c; LSleep d; LWrite off_color; LSleep d]) ds.

Lemma blink_pass_valid c ds :
  valid_pixel c = true -> Forall (fun d => valid_sleep d = true) ds ->
  blink_pass c ds = (blink_steps c ds, true).
Proof.
  intros Hc Hds. induction Hds as [|d ds Hd _ IH]; [done|].
  cbn [blink_pass]. rewrite Hc, Hd. cbn [negb]. by rewrite IH.
Qed.

Section Loop.
Context (c : color) (ds : list json).
Hypothesis Hc : valid_pixel c = true.
Hypothesis Hds : Forall (fun d => valid_sleep d = true) ds.

(** From iteration [i] of [n], the loop makes the remaining [n - i]
    passes and stops, given one more test than passes. *)
Lemma anim_loop_finite n i fuel :
  (0 < n)%Z -> (0 <= i <= n)%Z -> (Z.to_nat (n - i) < fuel)%nat ->
  anim_loop c (JArr ds) (Some (JNum n)) i fuel =
    (concat (repeat (blink_steps c ds) (Z.to_nat (n - i))), Finished).
Proof.
  intros Hn. revert i. induction fuel as [|fuel IH]; intros i Hi Hf; [lia|].
  cbn [anim_loop]. assert (py_eq_zero (Some (JNum n)) = false) as ->
    by (destruct n; simpl; lia).
  cbn [py_lt]. destruct (Z.ltb_spec i n) as [Hlt|Hge].
  - cbn [py_iter]. rewrite blink_pass_valid by done.
    rewrite IH by lia.
    replace (Z.to_nat (n - i)) with (S (Z.to_nat (n - (i + 1)))) by lia. done.
  - replace (Z.to_nat (n - i)) with O by lia. done.
Qed.

(** With [times == 0] every test succeeds: the loop is still running
    whatever the bound, having made one pass per test. *)
Lemma anim_loop_forever i fuel :
  anim_loop c (JArr ds) (Some (JNum 0)) i fuel =
    (concat (repeat (blink_steps c ds) fuel), Running).
Proof.
  revert i. induction fuel as [|fuel IH]; intros i; [done|].
  cbn [anim_loop py_eq_zero py_iter]. rewrite blink_pass_valid by done.
  by rewrite IH.
Qed.
End Loop.

End ServiceLED.

(** ** Properties of the animation and of [indicate_state] *)

Definition red : color := [JNum 255; JNum 0; JNum 0].

(** C19. With [times = n > 0] and a well-formed pattern, [_animate_led]
    plays the whole pattern exactly [n] times, each duration as an on
    phase then an off phase of that same duration, then settles off and
    finishes (given one loop test more than passes). *)
Theorem animate_led_repeats c ds n fuel :
  valid_pixel c = true -> Forall (fun d => valid_sleep d = true) ds ->
  (0 < n)%Z -> (Z.to_nat n < fuel)%nat ->
  ServiceLED.animate_led c (JArr ds) (Some (JNum n)) fuel =
    (concat (repeat (ServiceLED.blink_steps c ds) (Z.to_nat n)) ++ [LWrite off_color], Finished).
Proof.
  intros Hc Hds Hn Hf. unfold ServiceLED.animate_led.
  rewrite ServiceLED.anim_loop_finite by (done || lia). by rewrite Z.sub_0_r.
Qed.

(** Spec example: pattern [[1, 2]] (seconds), [times = 2]: on 1 / off 1 /
    on 2 / off 2, twice, then off. *)
Lemma animate_led_repeats_witness :
  ServiceLED.animate_led red (JArr [JNum 1; JNum 2]) (Some (JNum 2)) 3 =
    ([LWrite red; LSleep (JNum 1); LWrite off_color; LSleep (JNum 1);
      LWrite red; LSleep (JNum 2); LWrite off_color; LSleep (JNum 2);
      LWrite red; LSleep (JNum 1); LWrite off_color; LSleep (JNum 1);
      LWrite red; LSleep (JNum 2); LWrite off_color; LSleep (JNum 2);
      LWrite off_color], Finished).
Proof.
  rewrite (animate_led_repeats red [JNum 1; JNum 2] 2 3);
    [reflexivity|reflexivity|repeat constructor|lia|simpl; lia].
Defined.

(** C20. With [times = 0] the animation never ends on its own: after any
    number of loop tests it is still running, having played the pattern
    once per test; only a cancellation ([cancelled_at]) stops it, and
    that path ends with the off write. *)
Theorem animate_led_forever c ds fuel k :
  valid_pixel c = true -> Forall (fun d => valid_sleep d = true) ds ->
  ServiceLED.animate_led c (JArr ds) (Some (JNum 0)) fuel =
    (concat (repeat (ServiceLED.blink_steps c ds) fuel), Running) /\
  last (ServiceLED.cancelled_at c (JArr ds) (Some (JNum 0)) fuel k) = Some (LWrite off_color).
Proof.
  intros Hc Hds. unfold ServiceLED.cancelled_at, ServiceLED.animate_led.
  rewrite ServiceLED.anim_loop_forever by done. split; [done|]. apply last_snoc.
Qed.

Lemma animate_led_forever_witness :
  ServiceLED.animate_led red (JArr [JNum 1]) (Some (JNum 0)) 2 =
    ([LWrite red; LSleep (JNum 1); LWrite off_color; LSleep (JNum 1);
      LWrite red; LSleep (JNum 1); LWrite off_color; LSleep (JNum 1)], Running) /\
  last (ServiceLED.cancelled_at red (JArr [JNum 1]) (Some (JNum 0)) 2 3) = Some (LWrite off_color).
Proof.
  apply (animate_led_forever red [JNum 1] 2 3); [reflexivity|repeat constructor].
Defined.

(** A state configuration without [times] shows nothing: the first
    test [times == 0 or iteration < times] compares with [None], raises
    [TypeError], and the task only writes the off colour. *)
Theorem animate_led_no_times c p fuel :
  (0 < fuel)%nat -> ServiceLED.animate_led c p None fuel = ([LWrite off_color], Failed).
Proof. intros Hf. destruct fuel; [lia|done]. Qed.

Lemma animate_led_no_times_witness :
  ServiceLED.animate_led red (JArr [JNum 1]) None 5 = ([LWrite off_color], Failed).
Proof. apply animate_led_no_times. lia. Defined.

(** [indicate_state] raises [TypeError] when the colour is missing. *)
Lemma indicate_state_no_color state_leds st kvs w :
  py_get state_leds (DeviceState.to_string st) = inr (Some (JObj kvs)) -> kvs <> [] ->
  dget "color" kvs = None ->
  ServiceLED.indicate_state state_leds st w =
    (inl (PyExc TypeError "'NoneType' object is not iterable"), w).
Proof.
  intros Hsc Hne Hcol. unfold ServiceLED.indicate_state.
  rewrite Hsc, pbind_of_sum_inr.
  assert (truthy (JObj kvs) = true) as -> by (destruct kvs; [done|reflexivity]).
  cbn [negb]. rewrite !py_get_obj, !pbind_of_sum_inr, Hcol. done.
Qed.

(** C23. [indicate_state] on a state whose configuration has a blink
    pattern but no [color] raises [TypeError] at [tuple(None)], before
    the check that would log the configuration as invalid and return;
    the running animation is left as it was. *)
Theorem indicate_state_missing_color state_leds st kvs w :
  py_get state_leds (DeviceState.to_string st) = inr (Some (JObj kvs)) -> kvs <> [] ->
  dget "color" kvs = None ->
  ServiceLED.indicate_state state_leds st w =
    (inl (PyExc TypeError "'NoneType' object is not iterable"), w).
Proof. apply indicate_state_no_color. Qed.

Definition leds_demo : json :=
  JObj [("ACTIVE", JObj [("blink_pattern", JArr [JNum 1]); ("times", JNum 0)])].

Lemma indicate_state_missing_color_witness :
  ServiceLED.indicate_state leds_demo DeviceState.ACTIVE w_demo =
    (inl (PyExc TypeError "'NoneType' object is not iterable"), w_demo).
Proof.
  apply (indicate_state_missing_color leds_demo DeviceState.ACTIVE
           [("blink_pattern", JArr [JNum 1]); ("times", JNum 0)]);
    [reflexivity|discriminate|reflexivity].
Defined.

(** [indicate_state] on a well-formed configuration (a truthy
    pattern, a non-empty colour) puts the new animation in the single
    [current_task] slot, which replaces (cancels) the previous one: there
    is never more than one animation task. *)
Theorem indicate_state_starts state_leds st kvs p c w :
  py_get state_leds (DeviceState.to_string st) = inr (Some (JObj kvs)) ->
  dget "blink_pattern" kvs = Some p -> truthy p = true ->
  dget "color" kvs = Some (JArr c) -> c <> [] ->
  ServiceLED.indicate_state state_leds st w =
    (inr tt, set_led {| led_pixel := led_pixel (w_led w);
                        led_task := Some {| an_color := c; an_pattern := p;
                                            an_times := dget "times" kvs |} |} w).
Proof.
  intros Hsc Hp Hpt Hcol Hc. unfold ServiceLED.indicate_state.
  rewrite Hsc, pbind_of_sum_inr.
  assert (truthy (JObj kvs) = true) as ->
    by (destruct kvs; [done|reflexivity]).
  cbn [negb]. rewrite !py_get_obj, !pbind_of_sum_inr, Hp, Hcol.
  cbn [py_tuple py_iter]. rewrite !pbind_of_sum_inr, Hpt.
  assert (truthy (JArr c) = true) as -> by (destruct c; [done|reflexivity]).
  done.
Qed.

Definition leds_full : json :=
  JObj [("ACTIVE", JObj [("color", JArr red); ("blink_pattern", JArr [JNum 1; JNum 2]);
                         ("times", JNum 2)])].

Lemma indicate_state_starts_witness :
  ServiceLED.indicate_state leds_full DeviceState.ACTIVE w_demo =
    (inr tt, set_led {| led_pixel := led_pixel (w_led w_demo);
                        led_task := Some {| an_color := red; an_pattern := JArr [JNum 1; JNum 2];
                                            an_times := Some (JNum 2) |} |} w_demo).
Proof.
  apply (indicate_state_starts leds_full DeviceState.ACTIVE
           [("color", JArr red); ("blink_pattern", JArr [JNum 1; JNum 2]); ("times", JNum 2)]);
    [reflexivity|reflexivity|reflexivity|reflexivity|discriminate].
Defined.

(** [indicate_state] changes nothing but the LED object. *)
Lemma indicate_state_led_only state_leds st w r w' :
  ServiceLED.indicate_state state_leds st w = (r, w') -> exists l, w' = set_led l w.
Proof.
  unfold ServiceLED.indicate_state. py_unfold.
  assert (exists l, w = set_led l w) as Hw by (exists (w_led w); by destruct w).
  repeat (case_match; simpl); intros [= _ <-]; eauto.
Qed.
