(* ===== verification/Power.v ===== *)
(** The [Power] manager (bsp/power.py).  [reboot] is [machine.reset()],
    which does not return; [shutdown] is [sys.exit()], which raises
    [SystemExit].  [deep_sleep] first calls [prepare_for_sleep], whose
    first statement is [self.logger.info(...)]: the [Logger] class
    (src/utils/logger.py) has [log_info] and no [info], so the call
    raises [AttributeError] before any component is disabled and before
    [picosleep.seconds] is reached. *)

From Stdlib Require Import ZArith String List.
From stdpp Require Import base list strings sets.
From S2P Require Import Prelude Defaults World.
Import ListNotations.
Local Open Scope py_scope.

(** The methods of [Logger] (src/utils/logger.py). *)
Definition logger_methods : list string :=
  ["log"; "log_debug"; "log_info"; "log_warning"; "log_error"; "log_critical"].

(** [self.logger.<name>(...)]: attribute lookup on the logger. *)
Definition logger_call {S} (name : string) : PyM S unit :=
  if bool_decide (name ∈ logger_methods) then pskip
  else pthrow AttributeError ("'Logger' object has no attribute '" ++ name ++ "'").

(** [Power.__init__]'s read of the sleep interval:
    [config.get_system_power_config().get("deep_sleep_interval_s", DEFAULT)],
    that is [data["system"].get("power", {}).get(...)]. *)
Definition power_interval (system : list (string * json)) : exn + json :=
  match dget "power" system with
  | None => inr (JNum Defaults.DEFAULT_DEEP_SLEEP_INTERVAL)
  | Some (JObj p) => inr (dget_or "deep_sleep_interval_s" (JNum Defaults.DEFAULT_DEEP_SLEEP_INTERVAL) p)
  | Some _ => inl (PyExc AttributeError "object has no attribute 'get'")
  end.

Module Power.
Section Ops.
Context {S : Type}.

(** [reboot()] *)
Definition reboot : PyM S unit := praise MachineReset.

(** [shutdown()] *)
Definition shutdown : PyM S unit := praise SystemExit.

(** [add_component(disable_handler)]: [self.components[name] = disable_handler],
    [name] being the handler's [__name__]; a handler of the same name is
    replaced in place. *)
Definition add_component (name : string) (disable_handler : PyM S unit)
  (components : list (string * PyM S unit)) : list (string * PyM S unit) :=
dset name disable_handler components.

(** [prepare_for_sleep()] over the registered disable handlers. *)
Definition prepare_for_sleep (components : list (string * PyM S unit)) : PyM S unit :=
logger_call "info" ;;
pfor components (fun '(name, disable_handler) =>
  ptry (disable_handler ;; logger_call "debug")
       (fun k m => logger_call "log_error" ;; praise (PyExc k m))).

(** [deep_sleep()]: [picosleep.seconds(...)] is the [sleep] argument. *)
Definition deep_sleep (components : list (string * PyM S unit)) (sleep : PyM S unit)
: PyM S unit :=
logger_call "log_info" ;;
prepare_for_sleep components ;;
sleep.
End Ops.

(** [Power.__init__] on [config.get_system_power_config()]:
    [self.deep_sleep_interval_s]. *)
Definition init (power_cfg : json) : exn + json :=
py_get_default power_cfg "deep_sleep_interval_s" (JNum Defaults.DEFAULT_DEEP_SLEEP_INTERVAL).
End Power.
