(* ===== verification/Watchdog.v ===== *)
(** The liveness timer (bsp/watchdog.py).

    [Watchdog.__init__] reads [system.watchdog_timeout] (default [0]),
    arms the hardware timer when the value is a positive number, after
    clamping it to [8388607], and [feed] restarts the timer when it is
    armed.  The constructor's result is the value of
    [self.watchdog_timeout] and whether [self._wdt] exists. *)

From Stdlib Require Import ZArith String List.
From stdpp Require Import base list strings sets.
From S2P Require Import Prelude World.
Import ListNotations.
Local Open Scope py_scope.

Module Watchdog.

(** The largest timeout the constructor passes to [machine.WDT]. *)
Definition WDT_MAX : Z := 8388607.

Record t := {
  wd_timeout : json;   (** [self.watchdog_timeout] *)
  wd_armed : bool;     (** [self._wdt] was created *)
}.

(** [self.watchdog_timeout is not None and self.watchdog_timeout > 0] *)
Definition positive (v : json) : exn + bool :=
  match v with
  | JNull => inr false
  | JNum n => inr (0 <? n)%Z
  | JBool b => inr b
  | _ => inl (PyExc TypeError "'>' not supported")
  end.

(** [Watchdog.__init__] on the system section. *)
Definition init (system : list (string * json)) : exn + t :=
  let v := dget_or "watchdog_timeout" (JNum 0) system in
  match positive v with
  | inl e => inl e
  | inr false => inr {| wd_timeout := v; wd_armed := false |}
  | inr true =>
      let v' := match v with
                | JNum n => if (WDT_MAX <? n)%Z then JNum WDT_MAX else v
                | _ => v
                end in
      inr {| wd_timeout := v'; wd_armed := true |}
  end.

(** [feed()] *)
Definition feed (wd : t) : PyM World unit :=
  if wd_armed wd then pmodify (emit EvFeed) else pskip.
End Watchdog.

(** ** Properties *)

(** C25. The timeout given to the hardware timer is the configured one
    clamped to [8388607]: a positive configured timeout [n] arms the
    timer with [min n 8388607], which lies in [1, 8388607]; zero, a
    negative number, [null] or an absent key leave it disarmed, and a
    string or a container makes the constructor raise [TypeError]. *)
Theorem watchdog_timeout_clamped system n :
  dget "watchdog_timeout" system = Some (JNum n) ->
  Watchdog.init system =
    (if (0 <? n)%Z then inr {| Watchdog.wd_timeout := JNum (Z.min n Watchdog.WDT_MAX);
                               Watchdog.wd_armed := true |}
     else inr {| Watchdog.wd_timeout := JNum n; Watchdog.wd_armed := false |}) /\
  ((0 < n)%Z -> (1 <= Z.min n Watchdog.WDT_MAX <= 8388607)%Z).
Proof.
  intros Hv. unfold Watchdog.init. rewrite (dget_or_Some _ _ _ _ Hv). cbn [Watchdog.positive].
  split; [|unfold Watchdog.WDT_MAX; lia].
  destruct (Z.ltb_spec 0 n); [|done].
  destruct (Z.ltb_spec Watchdog.WDT_MAX n); repeat f_equal; lia.
Qed.

Lemma watchdog_timeout_clamped_witness :
  Watchdog.init [("watchdog_timeout", JNum 10000000)] =
    inr {| Watchdog.wd_timeout := JNum (Z.min 10000000 Watchdog.WDT_MAX); Watchdog.wd_armed := true |} /\
  ((0 < 10000000)%Z -> (1 <= Z.min 10000000 Watchdog.WDT_MAX <= 8388607)%Z).
Proof.
  pose proof (watchdog_timeout_clamped [("watchdog_timeout", JNum 10000000)] 10000000 eq_refl) as H.
  exact H.
Defined.

(** An armed watchdog is fed by [feed]; a disarmed one never is. *)
Lemma feed_armed wd w :
  Watchdog.wd_armed wd = true -> Watchdog.feed wd w = (inr tt, emit EvFeed w).
Proof. unfold Watchdog.feed. by intros ->. Qed.

Lemma feed_disarmed wd w :
  Watchdog.wd_armed wd = false -> Watchdog.feed wd w = (inr tt, w).
Proof. unfold Watchdog.feed. by intros ->. Qed.
