(* ===== verification/Wifi.v ===== *)
(** The Wi-Fi station (src/communication/wifi_manager.py).

    The radio calls are events of the trace: [__init__] activates the
    station ([EvWlanActive]), [connect] asks it to associate
    ([EvWlanConnect]) and [disconnect] leaves ([EvWlanDisconnect]);
    [is_connected] returns the station's answer.  [connect] reads the credentials and the reconnect strategy from the
    [wifi] section, starts the association, then polls
    [station.isconnected()] at most [max_retries] times with a blocking
    [time.sleep(interval)] after each negative answer, and on exhaustion
    applies [failure_action].  The station's answers are the parameter
    [up]: [up k] is the answer to the [k]-th poll of this call.

    Two details of the code are kept as written: a bare [raise] outside
    an [except] block raises [RuntimeError], and the last sleep of the
    loop is not followed by a poll. *)

From Stdlib Require Import ZArith String List.
From stdpp Require Import base list strings sets.
From S2P Require Import Prelude World Fixtures.
Import ListNotations.
Local Open Scope py_scope.

(** [x < 0] *)
Definition py_neg (v : json) : exn + bool :=
  match v with
  | JNum n => inr (n <? 0)%Z
  | JBool _ => inr false
  | _ => inl (PyExc TypeError "'<' not supported")
  end.

(** [range(n)] as the number of its items. *)
Definition py_range_len (v : json) : exn + nat :=
  match v with
  | JNum n => inr (Z.to_nat n)
  | JBool b => inr (if b then 1 else 0)%nat
  | _ => inl (PyExc TypeError "object cannot be interpreted as an integer")
  end.

(** A bare [raise] with no exception being handled. *)
Definition bare_raise {A} : PyM World A :=
  pthrow RuntimeError "No active exception to reraise".

Module WiFiManager.

(** [__init__]: the manager keeps its section and activates the station
    interface. *)
Definition init : PyM World unit := pmodify (emit (EvWlanActive true)).

(** [is_connected()]: the station's answer [up]. *)
Definition is_connected (up : bool) : PyM World bool := pret up.

(** [disconnect()] *)
Definition disconnect : PyM World unit := pmodify (emit EvWlanDisconnect).

Section Ops.
Context (up : nat -> bool).

(** [for attempt in range(n)]: poll, return on success, else sleep.
    [k] counts the polls made so far. *)
Fixpoint attempts (interval : json) (k n : nat) : PyM World bool :=
match n with
| O => pret false
| S n' =>
    if up k then pret true
    else sleep interval ;; attempts interval (S k) n'
end.

(** What happens after the loop: [failure_action]. *)
Definition failure_action (action : json) : PyM World unit :=
match action with
| JStr "restart" => praise MachineReset
| JStr "shutdown" => praise SystemExit
| _ => pskip   (** ["continue"] and any other value *)
end.

(** [connect()] *)
Definition connect (cfg : json) : PyM World unit :=
let* ssid := of_sum (py_get cfg "ssid") in
let* pwd := of_sum (py_get cfg "password") in
if negb (truthy_opt ssid) || negb (truthy_opt pwd) then bare_raise
else
  pmodify (emit (EvWlanConnect (default JNull ssid) (default JNull pwd))) ;;
  let* rs := of_sum (py_get_default cfg "reconnect_strategy" (JObj [])) in
  let* max_retries := of_sum (py_get_default rs "max_retries" (JNum 10)) in
  let* interval := of_sum (py_get_default rs "interval_seconds" (JNum 5)) in
  let* bad :=
    (if negb (truthy max_retries) || negb (truthy interval) then
       let* m := of_sum (py_neg max_retries) in
       if m then pret true else of_sum (py_neg interval)
     else pret false) in
  if bad then bare_raise
  else
    let* n := of_sum (py_range_len max_retries) in
    let* ok := attempts interval 0 n in
    if ok then pskip
    else
      let* action := of_sum (py_get_default rs "failure_action" (JStr "restart")) in
      failure_action action.

(** [check_connection()]: the first poll is [up 0]; [connect] then polls
    afresh. *)
Definition check_connection (up_check : bool) (cfg : json) : PyM World unit :=
if up_check then pskip else connect cfg.
End Ops.
End WiFiManager.

(** ** Properties *)

(** The world after the association request. *)
Definition associating (ssid pwd : string) (w : World) : World :=
  emit (EvWlanConnect (JStr ssid) (JStr pwd)) w.

(** The world after [n] sleeps of [i] seconds. *)
Fixpoint slept (i : Z) (n : nat) (w : World) : World :=
match n with
| O => w
| S n' => slept i n' (emit (EvSleep (JNum i)) (set_now (w_now w + Z.max 0 i) w))
end.

Lemma slept_now i n w : w_now (slept i n w) = (w_now w + Z.of_nat n * Z.max 0 i)%Z.
Proof. revert w. induction n as [|n IH]; intros w; simpl; [lia|]. rewrite IH. simpl. lia. Qed.

Lemma slept_trace i n w : w_trace (slept i n w) = w_trace w ++ repeat (EvSleep (JNum i)) n.
Proof.
  revert w. induction n as [|n IH]; intros w; simpl; [by rewrite app_nil_r|].
  rewrite IH. simpl. by rewrite <-app_assoc.
Qed.

Section Attempts.
Context (up : nat -> bool) (i : Z).

(** No positive answer among the [n] polls: [n] sleeps. *)
Lemma attempts_none k n w :
  (forall j, (j < n)%nat -> up (k + j)%nat = false) ->
  WiFiManager.attempts up (JNum i) k n w = (inr false, slept i n w).
Proof.
  revert k w. induction n as [|n IH]; intros k w Hup; [done|].
  cbn [WiFiManager.attempts].
  assert (up k = false) as -> by (rewrite <-(Nat.add_0_r k); apply Hup; lia).
  cbn [sleep]. rewrite pbind_pmodify. apply IH.
  intros j Hj. rewrite <-(Hup (S j)) by lia. f_equal. lia.
Qed.

(** The first positive answer at poll [j]: [j] sleeps, then success. *)
Lemma attempts_found k n j w :
  (j < n)%nat -> up (k + j)%nat = true -> (forall j', (j' < j)%nat -> up (k + j')%nat = false) ->
  WiFiManager.attempts up (JNum i) k n w = (inr true, slept i j w).
Proof.
  revert k n w. induction j as [|j IH]; intros k n w Hj Hup Hbefore;
    (destruct n as [|n]; [lia|]); cbn [WiFiManager.attempts].
  - by rewrite <-(Nat.add_0_r k), Hup.
  - assert (up k = false) as -> by (rewrite <-(Nat.add_0_r k); apply Hbefore; lia).
    cbn [sleep]. rewrite pbind_pmodify.
    apply IH; [lia| |].
    + rewrite <-Hup. f_equal. lia.
    + intros j' Hj'. rewrite <-(Hbefore (S j')) by lia. f_equal. lia.
Qed.
End Attempts.

(** A well-formed [wifi] section up to the reconnect loop. *)
Section Connect.
Context (up : nat -> bool) (cfg rs : list (string * json)) (ssid pwd : string) (n i : Z).
Hypothesis Hssid : dget "ssid" cfg = Some (JStr ssid).
Hypothesis Hpwd : dget "password" cfg = Some (JStr pwd).
Hypothesis Hne : ssid <> "" /\ pwd <> "".
Hypothesis Hrs : dget "reconnect_strategy" cfg = Some (JObj rs).
Hypothesis Hmr : dget "max_retries" rs = Some (JNum n).
Hypothesis Hiv : dget "interval_seconds" rs = Some (JNum i).
Hypothesis Hpos : (0 < i)%Z /\ (0 <= n)%Z.

(** [connect] asks the station to associate, then runs its loop and
    failure action. *)
Lemma connect_loop w :
  WiFiManager.connect up (JObj cfg) w =
    (let* ok := WiFiManager.attempts up (JNum i) 0 (Z.to_nat n) in
     if ok then pskip
     else let* action := of_sum (py_get_default (JObj rs) "failure_action" (JStr "restart")) in
          WiFiManager.failure_action action) (associating ssid pwd w).
Proof.
  destruct Hne as [Hs Hp]. unfold WiFiManager.connect, py_get_default.
  rewrite py_get_obj, Hssid; cbv beta iota; rewrite pbind_of_sum_inr; cbv beta iota.
  rewrite py_get_obj, Hpwd; cbv beta iota; rewrite pbind_of_sum_inr; cbv beta iota.
  cbn [truthy_opt truthy]. rewrite (proj2 (String.eqb_neq _ _) Hs), (proj2 (String.eqb_neq _ _) Hp).
  cbn [negb orb]. rewrite pbind_pmodify.
  rewrite py_get_obj, Hrs; cbv beta iota; rewrite pbind_of_sum_inr; cbv beta iota.
  rewrite py_get_obj, Hmr; cbv beta iota; rewrite pbind_of_sum_inr; cbv beta iota.
  rewrite py_get_obj, Hiv; cbv beta iota; rewrite pbind_of_sum_inr; cbv beta iota.
  assert (truthy (JNum i) = true) as -> by (cbn; destruct (Z.eqb_spec i 0); [lia|done]).
  assert (py_neg (JNum n) = inr false /\ py_neg (JNum i) = inr false) as [Hn Hi]
    by (cbn; split; do 2 f_equal; lia).
  destruct (truthy (JNum n)); cbn [negb orb];
    [|rewrite pbind_assoc, Hn, pbind_of_sum_inr; cbv beta iota; rewrite Hi];
    rewrite ?pbind_pret, ?pbind_of_sum_inr; cbn [py_range_len]; rewrite ?pbind_of_sum_inr; done.
Qed.
End Connect.

(** C18. Bounded reconnect: with [max_retries = n >= 0] and
    [interval_seconds = i > 0], if none of the [n] polls finds the
    station connected, [connect] sleeps exactly [n] times, blocking the
    device for [n * i] seconds, and then applies the default failure
    action [restart]: a machine reset.  The answer of the station after
    the last sleep is never asked for, so with [max_retries = 0] the
    device resets without a single poll even when already connected. *)
Theorem wifi_connect_exhausted up cfg rs ssid pwd n i w :
  dget "ssid" cfg = Some (JStr ssid) -> dget "password" cfg = Some (JStr pwd) ->
  ssid <> "" /\ pwd <> "" -> dget "reconnect_strategy" cfg = Some (JObj rs) ->
  dget "max_retries" rs = Some (JNum n) -> dget "interval_seconds" rs = Some (JNum i) ->
  (0 < i)%Z /\ (0 <= n)%Z -> dget "failure_action" rs = None ->
  (forall j, (j < Z.to_nat n)%nat -> up j = false) ->
  WiFiManager.connect up (JObj cfg) w =
    (inl MachineReset, slept i (Z.to_nat n) (associating ssid pwd w)) /\
  w_now (slept i (Z.to_nat n) (associating ssid pwd w)) = (w_now w + n * i)%Z.
Proof.
  intros Hs Hp Hne Hr Hm Hi Hpos Hf Hup. split.
  - rewrite (connect_loop up cfg rs ssid pwd n i) by done.
    rewrite (pbind_inr _ _ _ _ _ (attempts_none up i 0 _ _ Hup)).
    unfold py_get_default. by rewrite py_get_obj, Hf.
  - rewrite slept_now. cbn [w_now associating emit]. rewrite Z.max_r by lia. lia.
Qed.

Definition wifi_demo : list (string * json) :=
  [("ssid", JStr "lab"); ("password", JStr "secret");
   ("reconnect_strategy", JObj [("max_retries", JNum 3); ("interval_seconds", JNum 5)])].

Lemma wifi_connect_exhausted_witness :
  WiFiManager.connect (fun j => Nat.eqb j 3) (JObj wifi_demo) w_demo =
    (inl MachineReset, slept 5 3 (associating "lab" "secret" w_demo)) /\
  w_now (slept 5 3 (associating "lab" "secret" w_demo)) = (w_now w_demo + 3 * 5)%Z.
Proof.
  apply (wifi_connect_exhausted _ wifi_demo
           [("max_retries", JNum 3); ("interval_seconds", JNum 5)] "lab" "secret" 3 5);
    try reflexivity; try (split; [discriminate|discriminate]); try lia.
  intros j Hj. apply Nat.eqb_neq. simpl in Hj. lia.
Defined.

(** When the [j]-th poll ([j < max_retries]) is the first to find
    the station connected, [connect] returns normally after exactly [j]
    sleeps. *)
Theorem wifi_connect_found up cfg rs ssid pwd n i j w :
  dget "ssid" cfg = Some (JStr ssid) -> dget "password" cfg = Some (JStr pwd) ->
  ssid <> "" /\ pwd <> "" -> dget "reconnect_strategy" cfg = Some (JObj rs) ->
  dget "max_retries" rs = Some (JNum n) -> dget "interval_seconds" rs = Some (JNum i) ->
  (0 < i)%Z /\ (0 <= n)%Z ->
  (j < Z.to_nat n)%nat -> up j = true -> (forall j', (j' < j)%nat -> up j' = false) ->
  WiFiManager.connect up (JObj cfg) w = (inr tt, slept i j (associating ssid pwd w)).
Proof.
  intros Hs Hp Hne Hr Hm Hi Hpos Hj Hup Hbefore.
  rewrite (connect_loop up cfg rs ssid pwd n i) by done.
  by rewrite (pbind_inr _ _ _ _ _ (attempts_found up i 0 _ j _ Hj Hup Hbefore)).
Qed.

Lemma wifi_connect_found_witness :
  WiFiManager.connect (fun j => Nat.eqb j 1) (JObj wifi_demo) w_demo =
    (inr tt, slept 5 1 (associating "lab" "secret" w_demo)).
Proof.
  apply (wifi_connect_found _ wifi_demo
           [("max_retries", JNum 3); ("interval_seconds", JNum 5)] "lab" "secret" 3 5 1);
    try reflexivity; try (split; [discriminate|discriminate]); try lia.
  intros j' Hj'. apply Nat.eqb_neq. lia.
Defined.

(** C26. Missing credentials: an absent or empty [ssid] or [password]
    makes [connect] execute a bare [raise], which raises [RuntimeError]
    before anything else is done. *)
Theorem wifi_connect_no_credentials up cfg w :
  truthy_opt (dget "ssid" cfg) = false \/ truthy_opt (dget "password" cfg) = false ->
  WiFiManager.connect up (JObj cfg) w =
    (inl (PyExc RuntimeError "No active exception to reraise"), w).
Proof.
  intros H. unfold WiFiManager.connect. rewrite !py_get_obj, !pbind_of_sum_inr.
  by destruct H as [-> | ->]; [|rewrite orb_true_r].
Qed.

Lemma wifi_connect_no_credentials_witness :
  WiFiManager.connect (fun _ => true) (JObj [("ssid", JStr "lab")]) w_demo =
    (inl (PyExc RuntimeError "No active exception to reraise"), w_demo).
Proof. apply wifi_connect_no_credentials. right. reflexivity. Defined.
