(* ===== verification/ErrorHandler.v ===== *)
(** The [ErrorHandler] (src/control/error_handler.py), the fault sink of
    the run loop and of sensor loading.

    Its configuration is read once by the constructor from the system
    section: [error_handling] and [mqtt.publish.errors]; [mqtt_manager]
    is [None] until [Application.__init__] attaches the MQTT manager.
    [handle_error] publishes [{"error", "timestamp"}] when the policy
    asks for it and a manager and a topic are there, then reboots when
    [auto_restart_on_error] is truthy (the default) and returns
    otherwise. *)

From Stdlib Require Import ZArith String List.
From stdpp Require Import base list strings sets.
From S2P Require Import Prelude States World Fixtures Mqtt Defaults Power.
Import ListNotations.
Local Open Scope py_scope.

Record ErrorHandlerCfg := {
  eh_error_handling : list (string * json);  (** [self.error_handling] *)
  eh_error_topic : json;                     (** [self.error_topic] *)
  eh_mqtt_attached : bool;                   (** [self.mqtt_manager is not None] *)
}.

(** [ErrorHandler.__init__(config=system_config, ...)] *)
Definition error_handler_cfg (system : list (string * json)) (attached : bool)
  : ErrorHandlerCfg :=
  let eh := match dget "error_handling" system with
            | Some (JObj kvs) => kvs | _ => [] end in
  let topic :=
    match dget "mqtt" system with
    | Some (JObj m) =>
        match dget "publish" m with
        | Some (JObj p) => dget_or "errors" (JObj []) p
        | _ => JObj []
        end
    | _ => JObj []
    end in
  {| eh_error_handling := eh; eh_error_topic := topic; eh_mqtt_attached := attached |}.

(** The constructor with its [.get] chains on [config] (the [system]
    section): a section, an [mqtt] or a [publish] entry that is not a
    dict raises [AttributeError].  The code keeps an [error_handling]
    value that is not a dict and fails on it at the first [.get] of
    [handle_error]; the model reads it as [{}]. *)
Definition error_handler_init (config : json) (attached : bool) : exn + ErrorHandlerCfg :=
  match py_get_default config "error_handling" (JObj []) with
  | inl e => inl e
  | inr eh =>
      match py_get_path config ["mqtt"; "publish"; "errors"] (JObj []) with
      | inl e => inl e
      | inr topic =>
          inr {| eh_error_handling := match eh with JObj kvs => kvs | _ => [] end;
                 eh_error_topic := topic; eh_mqtt_attached := attached |}
      end
  end.

(** [self.error_handler.mqtt_manager = self.mqtt_manager] *)
Definition attach_mqtt (c : ErrorHandlerCfg) : ErrorHandlerCfg :=
  {| eh_error_handling := eh_error_handling c; eh_error_topic := eh_error_topic c;
     eh_mqtt_attached := true |}.

Module ErrorHandler.
Section Ops.
Context (env : Env) (cfg : ErrorHandlerCfg).

Definition post_global_errors : bool :=
truthy (dget_or "post_global_errors" (JBool Defaults.DEFAULT_POST_GLOBAL_ERROR)
          (eh_error_handling cfg)).

Definition auto_restart_on_error : bool :=
truthy (dget_or "auto_restart_on_error" (JBool Defaults.DEFAULT_AUTO_RESTART_ON_ERROR)
          (eh_error_handling cfg)).

Definition error_payload (error_message : string) (now : Z) : json :=
JObj [("error", JStr error_message); ("timestamp", JStr (env_fmt_time env now))].

(** [self.mqtt_manager.publish(self.error_topic, payload)]:
  [MQTTManager.publish] returns before the client sees the topic when
  the manager is not connected; a connected client refuses a topic that
  is not a string. *)
Definition publish_error_topic (p : json) : PyM World unit :=
match eh_error_topic cfg with
| JStr t => MQTTManager.publish env t p
| _ =>
    let* c := MQTTManager.connected in
    if negb c then pskip else pthrow TypeError "topic must be a string"
end.

(** The first statement of [handle_error]: the publish policy. *)
Definition publish_policy (error_message : string) : PyM World unit :=
if post_global_errors && eh_mqtt_attached cfg then
  if truthy (eh_error_topic cfg) then
    let* now := pgets w_now in
    publish_error_topic (error_payload error_message now)
  else pskip
else pskip.

(** [handle_error(error_message)] *)
Definition handle_error (error_message : string) : PyM World unit :=
publish_policy error_message ;;
if auto_restart_on_error then Power.reboot else pskip.
End Ops.

(** The publish of [handle_error] cannot raise: the policy does not ask
  for it, or the topic is a string and the client is not connected or
  the broker accepts the message. *)
Definition error_publish_safe (env : Env) (cfg : ErrorHandlerCfg) (w : World) : Prop :=
post_global_errors cfg && eh_mqtt_attached cfg && truthy (eh_error_topic cfg) = false
\/ exists t, eh_error_topic cfg = JStr t /\
             (mq_connected (w_mqtt w) = false \/ env_publish_ok env t = true).

Lemma publish_policy_safe env cfg msg w :
error_publish_safe env cfg w ->
exists w', publish_policy env cfg msg w = (inr tt, w') /\ w_mqtt w' = w_mqtt w.
Proof.
unfold publish_policy, publish_error_topic.
intros [Hp|(t & Ht & Hc)].
- destruct (post_global_errors cfg && eh_mqtt_attached cfg),
    (truthy (eh_error_topic cfg)); simpl in Hp; try discriminate; by eexists.
- rewrite Ht. destruct (post_global_errors cfg && eh_mqtt_attached cfg);
    [|by eexists].
  destruct (truthy (JStr t)); [|by eexists]. py_unfold. simpl.
  destruct (mq_connected (w_mqtt w)) eqn:Hcon.
  + destruct Hc as [Hc|Hok]; [discriminate|].
    rewrite MQTTManager.publish_ok; [by eexists|done|done].
  + rewrite MQTTManager.publish_disconnected; [by eexists|done].
Qed.

(** A publish that the broker refuses raises out of the policy. *)
Lemma publish_policy_fail env cfg msg w t :
post_global_errors cfg = true -> eh_mqtt_attached cfg = true ->
eh_error_topic cfg = JStr t -> t <> "" ->
mq_connected (w_mqtt w) = true -> env_publish_ok env t = false ->
publish_policy env cfg msg w = (inl (PyExc OSError "MQTT publish error"), w).
Proof.
intros Hp Ha Ht Hne Hc Hok. unfold publish_policy, publish_error_topic.
rewrite Hp, Ha, Ht. simpl. destruct (String.eqb t "") eqn:E.
- apply String.eqb_eq in E. done.
- simpl. py_unfold. simpl. by apply MQTTManager.publish_fail.
Qed.
(** ** Behaviour of [handle_error] *)

(** With [auto_restart_on_error] falsy, [handle_error] returns to its
  caller (spec 8: "must return control to its caller"). *)
Lemma handle_error_returns env cfg msg w :
auto_restart_on_error cfg = false ->
error_publish_safe env cfg w ->
exists w', handle_error env cfg msg w = (inr tt, w') /\ w_mqtt w' = w_mqtt w.
Proof.
intros Hr Hs. destruct (publish_policy_safe env cfg msg w Hs) as (w1 & H1 & Hm).
unfold handle_error. rewrite (pbind_inr _ _ _ _ _ H1), Hr. by exists w1.
Qed.

(** C6. With the restart policy on (the default), [handle_error] ends in a
  hard reset once the publish policy has run. *)
Lemma handle_error_reboots env cfg msg w :
auto_restart_on_error cfg = true ->
error_publish_safe env cfg w ->
exists w', handle_error env cfg msg w = (inl MachineReset, w').
Proof.
intros Hr Hs. destruct (publish_policy_safe env cfg msg w Hs) as (w1 & H1 & _).
unfold handle_error. rewrite (pbind_inr _ _ _ _ _ H1), Hr. by exists w1.
Qed.

(** C21. A refused error publish raises out of [handle_error] before the
  restart policy is consulted: with [auto_restart_on_error] on, the
  device does not reboot and the exception goes to the caller. *)
Lemma handle_error_publish_failure_skips_reboot env cfg msg w t :
auto_restart_on_error cfg = true ->
post_global_errors cfg = true -> eh_mqtt_attached cfg = true ->
eh_error_topic cfg = JStr t -> t <> "" ->
mq_connected (w_mqtt w) = true -> env_publish_ok env t = false ->
handle_error env cfg msg w = (inl (PyExc OSError "MQTT publish error"), w).
Proof.
intros _ Hp Ha Ht Hne Hc Hok. unfold handle_error.
by erewrite pbind_inl; [|eapply publish_policy_fail; eauto].
Qed.

(** C22. When the policy asks for it and the broker accepts, the error goes
  out on the error topic with its [error] and [timestamp] keys. *)
Lemma handle_error_publishes env cfg msg w t :
post_global_errors cfg = true -> eh_mqtt_attached cfg = true ->
eh_error_topic cfg = JStr t -> t <> "" ->
mq_connected (w_mqtt w) = true -> env_publish_ok env t = true ->
exists r w', handle_error env cfg msg w = (r, w') /\
  w_trace w' = w_trace w ++ [EvPublish t (JObj [("error", JStr msg);
                                                ("timestamp", JStr (env_fmt_time env (w_now w)))])].
Proof.
intros Hp Ha Ht Hne Hc Hok.
assert (publish_policy env cfg msg w =
        (inr tt, emit (EvPublish t (error_payload env msg (w_now w))) w)) as H1.
{ unfold publish_policy, publish_error_topic. rewrite Hp, Ha, Ht. simpl.
  destruct (String.eqb t "") eqn:E; [by apply String.eqb_eq in E|].
  simpl. py_unfold. simpl. by apply MQTTManager.publish_ok. }
unfold handle_error. rewrite (pbind_inr _ _ _ _ _ H1).
destruct (auto_restart_on_error cfg); eexists _, _; split; reflexivity.
Qed.
End ErrorHandler.

(** When the constructor succeeds on a dict, it reads what
    [error_handler_cfg] describes. *)
Lemma error_handler_init_cfg sys attached c :
  error_handler_init (JObj sys) attached = inr c -> c = error_handler_cfg sys attached.
Proof.
  intros H. unfold error_handler_init in H. rewrite py_get_default_obj in H.
  cbn [py_get_path] in H. rewrite py_get_default_obj in H.
  unfold error_handler_cfg. unfold dget_or in *.
  destruct (dget "mqtt" sys) as [m|].
  - destruct m as [| | | | |m]; cbv beta iota in H; try discriminate H.
    rewrite py_get_default_obj in H. unfold dget_or in H.
    destruct (dget "publish" m) as [p|].
    + destruct p as [| | | | |p]; cbv beta iota in H; try discriminate H.
      rewrite py_get_default_obj in H. injection H as <-.
      by destruct (dget "error_handling" sys) as [[]|].
    + simpl in H. injection H as <-.
      by destruct (dget "error_handling" sys) as [[]|].
  - simpl in H. injection H as <-.
    by destruct (dget "error_handling" sys) as [[]|].
Qed.

Lemma attach_mqtt_cfg sys attached : attach_mqtt (error_handler_cfg sys attached) = error_handler_cfg sys true.
Proof. done. Qed.

(** [handle_error] with no publish and no restart returns at once. *)
Lemma handle_error_quiet env eh msg w :
  ErrorHandler.post_global_errors eh = false -> ErrorHandler.auto_restart_on_error eh = false ->
  ErrorHandler.handle_error env eh msg w = (inr tt, w).
Proof.
  intros Hp Ha. unfold ErrorHandler.handle_error, ErrorHandler.publish_policy.
  by rewrite Hp, Ha.
Qed.

Lemma handle_error_reboots_witness :
  exists w', ErrorHandler.handle_error env_demo (error_handler_cfg (system_demo true) true)
               "boom" w_demo = (inl MachineReset, w').
Proof.
  apply ErrorHandler.handle_error_reboots; [reflexivity|].
  right. exists "node/errors". split; [reflexivity|right; reflexivity].
Defined.

Lemma handle_error_publish_failure_skips_reboot_witness :
  ErrorHandler.handle_error env_broker_down (error_handler_cfg (system_demo true) true)
    "boom" w_demo = (inl (PyExc OSError "MQTT publish error"), w_demo).
Proof.
  apply (ErrorHandler.handle_error_publish_failure_skips_reboot _ _ _ _ "node/errors");
    [reflexivity|reflexivity|reflexivity|reflexivity|discriminate|reflexivity|reflexivity].
Defined.

Lemma handle_error_publishes_witness :
  exists r w', ErrorHandler.handle_error env_demo (error_handler_cfg (system_demo true) true)
                 "boom" w_demo = (r, w') /\
    w_trace w' = w_trace w_demo ++
      [EvPublish "node/errors" (JObj [("error", JStr "boom");
                                      ("timestamp", JStr (env_fmt_time env_demo (w_now w_demo)))])].
Proof.
  apply ErrorHandler.handle_error_publishes;
    [reflexivity|reflexivity|reflexivity|discriminate|reflexivity|reflexivity].
Defined.
