(* ===== verification/System.v ===== *)
(** The device-level control objects:
    - [StateManager] (src/control/state_manager.py): records the device
      state, shows it on the LED and publishes it;
    - [Lifecycle] (src/control/lifecycle.py): [transition_to] records the
      state and hands it to the [StateManager];
    - [SystemManager] (src/control/system_manager.py): subscribes to the
      system [commands] and [power_config] topics and handles their
      messages.

    The constructors' reads of the configuration are the section
    parameters: the state topic, the [state_leds] section and the
    subscribe topics are read once at boot.  [SystemManager.system_config]
    is an alias of the boot document's [system] dict, so the callback
    reads [enable_factory_reset] and writes the power settings through
    [cfg_doc]; when the document has no [system] section it is the
    manager's own dict ([cfg_detached]), which no save writes.  Each module's [init] is its class's constructor. *)

From Stdlib Require Import ZArith String List.
From stdpp Require Import base list strings sets.
From S2P Require Import Prelude States Defaults World Fixtures Config Mqtt ServiceLed Power.
Import ListNotations.
Local Open Scope py_scope.

(** [x is None] for the result of [d.get(k)]: JSON [null] decodes to
    [None] as well. *)
Definition is_none (o : option json) : bool :=
  match o with None | Some JNull => true | _ => false end.

(** [x == "s"] for a decoded JSON value. *)
Definition is_str (o : option json) (s : string) : bool :=
  match o with Some (JStr s') => String.eqb s' s | _ => false end.

(** [mqtt_manager.publish(topic, message)] with a topic read from the
    configuration: the client refuses a topic that is not a string. *)
Definition publish_json_topic (env : Env) (topic : json) (p : json) : PyM World unit :=
  match topic with
  | JStr t => MQTTManager.publish env t p
  | _ => pthrow TypeError "topic must be a string"
  end.

(** [{"state": new_state}] *)
Definition device_state_payload (st : DeviceState.t) : json :=
  JObj [("state", JStr (DeviceState.to_string st))].

Module StateManager.
Section Ops.
Context (env : Env) (state_leds : json) (publish_state_topic : json).

(** [handle_state_change(new_state)] *)
Definition handle_state_change (new_state : DeviceState.t) : PyM World unit :=
pmodify (set_sm_state new_state) ;;
ServiceLED.indicate_state state_leds new_state ;;
let* c := MQTTManager.connected in
if negb (is_none (Some publish_state_topic)) && c then
  publish_json_topic env publish_state_topic (device_state_payload new_state)
else pskip.
End Ops.

(** [StateManager.__init__]: [self.publish_state_topic] from
    [config.get_system_config().get("mqtt", {}).get("publish", {}).get("state", None)]
    and [self.current_state = DeviceState.INACTIVE]. *)
Definition init (system : json) : PyM World json :=
let* topic := of_sum (py_get_path system ["mqtt"; "publish"; "state"] JNull) in
pmodify (set_sm_state DeviceState.INACTIVE) ;;
pret topic.
End StateManager.

Module Lifecycle.
Section Ops.
Context (env : Env) (state_leds : json) (publish_state_topic : json).

(** [transition_to(new_state)] *)
Definition transition_to (new_state : DeviceState.t) : PyM World unit :=
pmodify (set_lifecycle new_state) ;;
StateManager.handle_state_change env state_leds publish_state_topic new_state.
End Ops.

(** [Lifecycle.__init__]: [self.current_state = DeviceState.INACTIVE]. *)
Definition init : PyM World unit := pmodify (set_lifecycle DeviceState.INACTIVE).
End Lifecycle.

(** A message handed to [SystemManager._make_cb]'s handler. *)
Definition loads (msg : payload) : exn + json :=
  match msg with
  | Some j => inr j
  | None => inl (PyExc ValueError "Invalid JSON")
  end.

Module SystemManager.
Section Ops.
Context (env : Env).
(** [self.subscribe_cfg]: [system.get("mqtt", {}).get("subscribe", {})]. *)
Context (subscribe_cfg : json).

(** [self.mqtt_manager.subscribe(topic, self._make_cb)] if [topic is not None]. *)
Definition subscribe_opt (topic : option json) : PyM World unit :=
if is_none topic then pskip
else match topic with
     | Some (JStr t) => MQTTManager.subscribe env t CbSystem
     | _ => pthrow TypeError "topic must be a string"
     end.

(** [initialize()] *)
Definition initialize : PyM World unit :=
let* cmds_topic := of_sum (py_get subscribe_cfg "commands") in
let* p_cfg_topic := of_sum (py_get subscribe_cfg "power_config") in
subscribe_opt cmds_topic ;;
subscribe_opt p_cfg_topic.

(** [self.system_config]: the boot document's [system] dict, or the
  manager's own dict when the document had none. *)
Definition system_config (w : World) : list (string * json) :=
match cfg_detached (w_cfg w) with
| Some d => d
| None => cd_system (cfg_doc (w_cfg w))
end.

(** The [commands] branch. *)
Definition handle_command (parsed : json) : PyM World unit :=
let* command := of_sum (py_get parsed "command") in
let* sys := pgets system_config in
if is_str command "factory_reset" &&
   truthy (dget_or "enable_factory_reset" (JBool Defaults.DEFAULT_ENABLE_FACTORY_RESET) sys)
then Config.reset_config env ;; Power.reboot
else if is_str command "shutdown" then Power.shutdown
else if is_str command "reboot" then Power.reboot
else pskip.

(** [if v is not None: self.system_config[k] = v; changed = True] *)
Definition write_if (k : string) (v : option json) : PyM World bool :=
match v with
| Some v' => if is_none v then pret false
             else pmodify (Config.write_system k v') ;; pret true
| None => pret false
end.

(** The [power_config] branch. *)
Definition handle_power_config (parsed : json) : PyM World unit :=
let* ds := of_sum (py_get parsed "deep_sleep_interval_s") in
let* wdt := of_sum (py_get parsed "watchdog_timeout") in
let* c1 := write_if "deep_sleep_interval_s" ds in
let* c2 := write_if "watchdog_timeout" wdt in
if c1 || c2 then Config.save_config env else pskip.

(** [_make_cb(topic, msg)].  Its handler calls [self.error_handler(...)],
    an [ErrorHandler] instance, which is not callable. *)
Definition make_cb (topic : string) (msg : payload) : PyM World unit :=
ptry (let* parsed := of_sum (loads msg) in
      if str_contains "commands" topic then handle_command parsed
      else if str_contains "power_config" topic then handle_power_config parsed
      else pskip)
     (fun _ _ => pthrow TypeError "'ErrorHandler' object is not callable").
End Ops.

(** [SystemManager.__init__] on [config.get_system_config()]:
    [self.subscribe_cfg], then [self.enable_factory_reset], read with the
    default [True] and never used (the command handler reads
    [system_config] again, with the default [False]). *)
Definition init (system : json) : exn + json :=
match py_get_path system ["mqtt"; "subscribe"] (JObj []) with
| inl e => inl e
| inr sub =>
    match py_get_default system "enable_factory_reset" (JBool true) with
    | inl e => inl e
    | inr _ => inr sub
    end
end.
End SystemManager.

(** ** Lifecycle *)

(** [transition_to(st)] records [st] in [Lifecycle] and
    [StateManager], lets the LED show it, and, with a string state topic
    and a connected client that accepts the message, publishes
    [{"state": st}] on that topic, as the only event. *)
Theorem transition_to_publishes env sl t st w w1 :
  mq_connected (w_mqtt w) = true -> env_publish_ok env t = true ->
  ServiceLED.indicate_state sl st (set_sm_state st (set_lifecycle st w)) = (inr tt, w1) ->
  exists w', Lifecycle.transition_to env sl (JStr t) st w = (inr tt, w') /\
    w_lifecycle w' = st /\ w_sm_state w' = st /\
    w_trace w' = w_trace w ++ [EvPublish t (device_state_payload st)].
Proof.
  intros Hc Hok Hled. destruct (indicate_state_led_only _ _ _ _ _ Hled) as [l ->].
  unfold Lifecycle.transition_to, StateManager.handle_state_change, MQTTManager.connected.
  rewrite !pbind_pmodify, (pbind_inr _ _ _ _ _ Hled), pbind_pgets. cbn [w_mqtt set_led set_sm_state set_lifecycle].
  rewrite Hc. cbn -[MQTTManager.publish]. rewrite MQTTManager.publish_ok by done.
  by eexists.
Qed.

Lemma transition_to_publishes_witness :
  exists w', Lifecycle.transition_to env_demo leds_full (JStr "node/state") DeviceState.ACTIVE w_demo
               = (inr tt, w') /\
    w_lifecycle w' = DeviceState.ACTIVE /\ w_sm_state w' = DeviceState.ACTIVE /\
    w_trace w' = w_trace w_demo ++ [EvPublish "node/state" (device_state_payload DeviceState.ACTIVE)].
Proof.
  eapply transition_to_publishes; [reflexivity|reflexivity|].
  reflexivity.
Defined.

(** [transition_to] stops at the LED indication when the state's colour is missing. *)
Lemma transition_to_no_color env sl tp st kvs w :
  py_get sl (DeviceState.to_string st) = inr (Some (JObj kvs)) -> kvs <> [] ->
  dget "color" kvs = None ->
  Lifecycle.transition_to env sl tp st w =
    (inl (PyExc TypeError "'NoneType' object is not iterable"),
     set_sm_state st (set_lifecycle st w)).
Proof.
  intros Hsc Hne Hcol. unfold Lifecycle.transition_to, StateManager.handle_state_change.
  rewrite !pbind_pmodify. apply pbind_inl. by apply (indicate_state_no_color _ _ kvs).
Qed.

(** A device state whose LED configuration has a pattern but no
    colour makes [transition_to] raise [TypeError] after recording the
    state and before the publish: the state change is never published. *)
Theorem transition_to_led_error env sl tp st kvs w :
  py_get sl (DeviceState.to_string st) = inr (Some (JObj kvs)) -> kvs <> [] ->
  dget "color" kvs = None ->
  Lifecycle.transition_to env sl tp st w =
    (inl (PyExc TypeError "'NoneType' object is not iterable"),
     set_sm_state st (set_lifecycle st w)).
Proof. apply transition_to_no_color. Qed.

Definition leds_no_color : json :=
  JObj [("STARTUP", JObj [("blink_pattern", JArr [JNum 1]); ("times", JNum 0)])].

Lemma transition_to_led_error_witness :
  Lifecycle.transition_to env_demo leds_no_color (JStr "node/state") DeviceState.STARTUP w_demo =
    (inl (PyExc TypeError "'NoneType' object is not iterable"),
     set_sm_state DeviceState.STARTUP (set_lifecycle DeviceState.STARTUP w_demo)).
Proof.
  apply (transition_to_led_error _ _ _ _ [("blink_pattern", JArr [JNum 1]); ("times", JNum 0)]);
    [reflexivity|discriminate|reflexivity].
Defined.

(** ** SystemManager *)

(** The [try] block of [_make_cb]. *)
Lemma make_cb_exc env topic msg w k m w' :
  (let* parsed := of_sum (loads msg) in
   if str_contains "commands" topic then SystemManager.handle_command env parsed
   else if str_contains "power_config" topic then SystemManager.handle_power_config env parsed
   else pskip) w = (inl (PyExc k m), w') ->
  SystemManager.make_cb env topic msg w =
    (inl (PyExc TypeError "'ErrorHandler' object is not callable"), w').
Proof. intros E. unfold SystemManager.make_cb. by rewrite (ptry_exc _ _ _ _ _ _ E). Qed.

(** C13. An error while handling a system message is never passed to the
    [ErrorHandler]: the handler calls the [ErrorHandler] object, which
    is not callable, so [_make_cb] raises [TypeError] (which
    [_message_router] then only logs).  This holds for a payload that is
    not JSON and for a JSON value that is not an object on the
    [commands] or [power_config] topic. *)
Theorem system_cb_error_not_handled env topic msg w :
  (msg = None \/ exists j, msg = Some j /\ (forall kvs, j <> JObj kvs) /\
     (str_contains "commands" topic || str_contains "power_config" topic) = true) ->
  SystemManager.make_cb env topic msg w =
    (inl (PyExc TypeError "'ErrorHandler' object is not callable"), w).
Proof.
  intros [->|(j & -> & Hj & Ht)]; [by apply (make_cb_exc _ _ _ _ ValueError "Invalid JSON")|].
  apply (make_cb_exc _ _ _ _ AttributeError "object has no attribute 'get'").
  cbn [loads]. rewrite pbind_of_sum_inr.
  assert (forall key, py_get j key = inl (PyExc AttributeError "object has no attribute 'get'"))
    as Hget by (intros key; destruct j as [| | | | |kvs]; try done; by destruct (Hj kvs)).
  unfold SystemManager.handle_command, SystemManager.handle_power_config.
  destruct (str_contains "commands" topic); [by rewrite Hget|].
  destruct (str_contains "power_config" topic); [by rewrite Hget|done].
Qed.

Lemma system_cb_error_not_handled_witness :
  SystemManager.make_cb env_demo "node/system/commands" (Some (JArr [])) w_demo =
    (inl (PyExc TypeError "'ErrorHandler' object is not callable"), w_demo).
Proof.
  apply system_cb_error_not_handled. right. exists (JArr []).
  split; [reflexivity|split; [discriminate|vm_compute; reflexivity]].
Defined.

(** The [power_config] branch on [{"deep_sleep_interval_s": n}]. *)
Lemma handle_power_config_ds env n w :
  env_save_ok env = true ->
  SystemManager.handle_power_config env (JObj [("deep_sleep_interval_s", JNum n)]) w =
    (inr tt, let w1 := Config.write_system "deep_sleep_interval_s" (JNum n) w in
             emit (EvSave (cfg_data (w_cfg w1))) (set_cfg (Config.saved (w_cfg w1)) w1)).
Proof.
  intros Hs. unfold SystemManager.handle_power_config. rewrite !py_get_obj.
  cbn -[Config.write_system Config.save_config]. by apply Config.save_config_ok.
Qed.

(** C24. A [power_config] message [{"deep_sleep_interval_s": n}] writes
    [n] under that key of the [system] dict and saves the document (the
    write is in it when the document has a [system] section),
    but [Power] reads the interval from [system["power"]]: the interval
    [Power] will use (at the next boot) is the one it used before. *)
Theorem power_config_not_seen_by_power env topic n w :
  env_save_ok env = true -> cfg_reset (w_cfg w) = None ->
  str_contains "commands" topic = false -> str_contains "power_config" topic = true ->
  exists w', SystemManager.make_cb env topic (Some (JObj [("deep_sleep_interval_s", JNum n)])) w
               = (inr tt, w') /\
    dget "deep_sleep_interval_s" (SystemManager.system_config w') = Some (JNum n) /\
    cfg_disk (w_cfg w') = cfg_doc (w_cfg w') /\
    power_interval (SystemManager.system_config w') = power_interval (SystemManager.system_config w).
Proof.
  intros Hs Hr Hc Hp. eexists. split.
  { unfold SystemManager.make_cb. apply ptry_inr. cbn [loads]. rewrite pbind_of_sum_inr, Hc, Hp.
    by apply handle_power_config_ds. }
  cbv zeta. unfold SystemManager.system_config, Config.write_system.
  destruct (cfg_detached (w_cfg w)) eqn:Ed;
    unfold Config.saved, Config.with_doc, Config.with_detached, cfg_data; wsimpl;
    cbn [cfg_doc cfg_reset cfg_disk cfg_detached cd_system]; rewrite ?Ed, Hr; unfold power_interval;
    by rewrite dget_dset_eq, dget_dset_ne.
Qed.

Definition sys_demo_power : list (string * json) :=
  [("enable_factory_reset", JBool true); ("power", JObj [("deep_sleep_interval_s", JNum 15)])].

Lemma power_config_not_seen_by_power_witness :
  let w := set_cfg {| cfg_doc := {| cd_system := sys_demo_power; cd_sensors := cd_sensors cd_demo |};
                      cfg_reset := None; cfg_disk := cd_demo; cfg_detached := None |} w_demo in
  exists w', SystemManager.make_cb env_demo "node/system/power_config"
               (Some (JObj [("deep_sleep_interval_s", JNum 300)])) w = (inr tt, w') /\
    dget "deep_sleep_interval_s" (SystemManager.system_config w') = Some (JNum 300) /\
    cfg_disk (w_cfg w') = cfg_doc (w_cfg w') /\
    power_interval (SystemManager.system_config w') = power_interval (SystemManager.system_config w).
Proof.
  intros w. apply power_config_not_seen_by_power;
    [reflexivity|reflexivity|vm_compute; reflexivity|vm_compute; reflexivity].
Defined.



(** [_make_cb] on a [commands] topic: the command handler's outcome. *)
Lemma make_cb_command env topic j w :
  str_contains "commands" topic = true ->
  (forall r w', SystemManager.handle_command env j w = (r, w') -> forall k m, r <> inl (PyExc k m)) ->
  SystemManager.make_cb env topic (Some j) w = SystemManager.handle_command env j w.
Proof.
  intros Hc Hno. unfold SystemManager.make_cb, ptry. cbn [loads]. rewrite pbind_of_sum_inr, Hc.
  destruct (SystemManager.handle_command env j w) as [[[k m| |]|] w'] eqn:E; try done.
  by destruct (Hno _ _ eq_refl k m).
Qed.

Definition cmd (c : string) : json := JObj [("command", JStr c)].

Section FactoryResetCommand.
Context (env : Env) (d : ConfigData) (w : World).
Hypothesis Hf : env_factory env = Some d.
Hypothesis Hs : env_save_ok env = true.

Definition factory_world : World :=
  let w1 := set_cfg (Config.with_reset d (w_cfg w)) w in
  emit (EvSave (cfg_data (w_cfg w1))) (set_cfg (Config.saved (w_cfg w1)) w1).

Lemma handle_command_reset_enabled :
  truthy (dget_or "enable_factory_reset" (JBool false) (SystemManager.system_config w)) = true ->
  SystemManager.handle_command env (cmd "factory_reset") w = (inl MachineReset, factory_world).
Proof.
  intros Hen. unfold SystemManager.handle_command, cmd, Defaults.DEFAULT_ENABLE_FACTORY_RESET.
  rewrite py_get_obj, pbind_of_sum_inr, pbind_pgets, Hen. cbn [dget]. rewrite decide_True by done.
  cbn -[Config.reset_config Power.reboot].
  by rewrite (pbind_inr _ _ _ _ _ (Config.reset_config_ok _ _ _ Hf Hs)).
Qed.

Lemma handle_command_reset_disabled :
  truthy (dget_or "enable_factory_reset" (JBool false) (SystemManager.system_config w)) = false ->
  SystemManager.handle_command env (cmd "factory_reset") w = (inr tt, w).
Proof.
  intros Hen. unfold SystemManager.handle_command, cmd, Defaults.DEFAULT_ENABLE_FACTORY_RESET.
  rewrite py_get_obj, pbind_of_sum_inr, pbind_pgets, Hen. cbn [dget]. by rewrite decide_True.
Qed.
End FactoryResetCommand.

(** C17. The system [factory_reset] command: when [enable_factory_reset]
    is truthy in the system config, the factory document replaces the
    configuration and is written to the file, then the device resets;
    when it is falsy or absent (the default is [False]) the command is
    ignored and nothing changes. *)
Theorem factory_reset_command env topic d w :
  str_contains "commands" topic = true -> env_factory env = Some d -> env_save_ok env = true ->
  (truthy (dget_or "enable_factory_reset" (JBool false) (SystemManager.system_config w)) = true ->
   exists w', SystemManager.make_cb env topic (Some (cmd "factory_reset")) w = (inl MachineReset, w') /\
     cfg_disk (w_cfg w') = d /\ cfg_data (w_cfg w') = d) /\
  (truthy (dget_or "enable_factory_reset" (JBool false) (SystemManager.system_config w)) = false ->
   SystemManager.make_cb env topic (Some (cmd "factory_reset")) w = (inr tt, w)).
Proof.
  intros Hc Hf Hs. split; intros Hen.
  - pose proof (handle_command_reset_enabled env d w Hf Hs Hen) as E.
    exists (factory_world d w). rewrite make_cb_command, E by first [done | rewrite E; intros ?? [= <- _] ?? [=]].
    done.
  - pose proof (handle_command_reset_disabled env w Hen) as E.
    rewrite make_cb_command, E by first [done | rewrite E; intros ?? [= <- _] ?? [=]]. done.
Qed.

Lemma factory_reset_command_witness :
  (truthy (dget_or "enable_factory_reset" (JBool false) (SystemManager.system_config w_demo)) = true ->
   exists w', SystemManager.make_cb env_demo "node/system/commands" (Some (cmd "factory_reset")) w_demo
                = (inl MachineReset, w') /\ cfg_disk (w_cfg w') = cd_demo /\ cfg_data (w_cfg w') = cd_demo) /\
  (truthy (dget_or "enable_factory_reset" (JBool false) (SystemManager.system_config w_demo)) = false ->
   SystemManager.make_cb env_demo "node/system/commands" (Some (cmd "factory_reset")) w_demo = (inr tt, w_demo)).
Proof.
  apply factory_reset_command; [vm_compute; reflexivity|reflexivity|reflexivity].
Defined.

(** The [shutdown] command raises [SystemExit] from [_handle_command]. *)
Lemma handle_command_shutdown env w :
  SystemManager.handle_command env (cmd "shutdown") w = (inl SystemExit, w).
Proof.
  unfold SystemManager.handle_command, cmd. rewrite py_get_obj, pbind_of_sum_inr, pbind_pgets.
  cbn [dget]. by rewrite decide_True.
Qed.

(** A [shutdown] command on the system [commands] topic ends the
    program: [sys.exit()] raises [SystemExit], which neither [_make_cb]
    nor [_message_router] (both [except Exception]) catch, so it leaves
    the MQTT dispatch with the world unchanged. *)
Theorem shutdown_leaves_router env dispatch topic w :
  (forall t m, dispatch CbSystem t m = SystemManager.make_cb env t m) ->
  dget topic (mq_callbacks (w_mqtt w)) = Some CbSystem -> str_contains "commands" topic = true ->
  MQTTManager.message_router dispatch topic (Some (cmd "shutdown")) w = (inl SystemExit, w).
Proof.
  intros Hd Hcb Hc. unfold MQTTManager.message_router. rewrite pbind_pgets, Hcb, Hd.
  apply ptry_uncaught; [done|].
  rewrite make_cb_command, handle_command_shutdown
    by first [done | rewrite handle_command_shutdown; intros ?? [= <- _] ?? [=]].
  done.
Qed.

Lemma shutdown_leaves_router_witness :
  let w := set_mqtt {| mq_connected := true;
                       mq_callbacks := [("node/system/commands", CbSystem)] |} w_demo in
  MQTTManager.message_router
    (fun cb t m => match cb with CbSystem => SystemManager.make_cb env_demo t m | CbSensor _ => pskip end)
    "node/system/commands" (Some (cmd "shutdown")) w = (inl SystemExit, w).
Proof.
  intros w. apply (shutdown_leaves_router env_demo); [done|reflexivity|vm_compute; reflexivity].
Defined.
