(* ===== verification/BaseSensor.v ===== *)
(** [BaseSensor] (src/sensors/base_sensor.py, with the contract of
    src/sensors/sensor.py): the per-sensor state machine
    ACTIVE/DISABLED/ERROR, its MQTT publications, its remote commands
    and its parameter updates.

    Each method is a computation on the object store, given the sensor's
    id: [self] is the object [SensorManager.sensors[sid]], read afresh
    at each step so that a method sees the writes of the methods it
    calls.  Parameter writes go to the configuration document (the
    parameters dict is shared with it) and are followed by
    [Config.save_config]. *)

From Stdlib Require Import ZArith String List.
From stdpp Require Import base list strings sets.
From S2P Require Import Prelude States World Fixtures Config Mqtt.
Import ListNotations.
Local Open Scope py_scope.



(** The names of [process_command]'s [command_map]. *)
Inductive command := CEnable | CDisable | CSelfTest | CFactoryReset.

Definition command_map (c : string) : option command :=
  if String.eqb c "enable" then Some CEnable
  else if String.eqb c "disable" then Some CDisable
  else if String.eqb c "self_test" then Some CSelfTest
  else if String.eqb c "factory_reset" then Some CFactoryReset
  else None.

(** The value of [topic] in [if topic and self.mqtt_manager:]. *)
Definition truthy_topic (t : option string) : option string :=
  match t with
  | Some t => if String.eqb t "" then None else Some t
  | None => None
  end.

Definition state_payload (st : SensorState.t) : json :=
  JObj [("state", JStr (SensorState.to_string st))].

Module BaseSensor.
Section Ops.
Context (env : Env).

(** [self]: the object registered under [sid]. *)
Definition self (sid : string) : PyM World Sensor :=
fun w => match dget sid (w_sensors w) with
     | Some s => (inr s, w)
     | None => (inl (PyExc KeyError sid), w)
     end.

Definition set_state (sid : string) (st : SensorState.t) : PyM World unit :=
pmodify (fun w => set_sensors (dalter (with_state_of st) sid (w_sensors w)) w).

(** [self.publish_topics.get(key)] followed by the publish guarded by
[if topic and self.mqtt_manager]. *)
Definition publish_on (s : Sensor) (key : string) (p : json) : PyM World unit :=
let* t := pgets (fun w => truthy_topic (dget key (sc_publish (sensor_cfg w s)))) in
match t with
| Some t => MQTTManager.publish env t p
| None => pskip
end.

(** [_can_publish(data)].  The first test is [if not self.enabled:];
[self.enabled] is the bound method, never called, and a method
object is truthy, so the test never fires. *)
Definition can_publish (s : Sensor) (data : list (string * json)) : bool :=
let enabled_attr_truthy := true in
if negb enabled_attr_truthy then false
else if negb (truthy (JObj data)) then false
else if decide (s_state s <> SensorState.ACTIVE) then false
else true.

(** [publish_data(data)] *)
Definition publish_data (sid : string) (data : list (string * json)) : PyM World unit :=
let* s := self sid in
if negb (can_publish s data) then pskip
else publish_on s "data" (JObj data).

(** [publish_error(data)] *)
Definition publish_error (sid : string) (data : list (string * json)) : PyM World unit :=
let* s := self sid in
if negb (can_publish s data) then pskip
else publish_on s "errors" (JObj data).

(** [publish_state()] *)
Definition publish_state (sid : string) : PyM World unit :=
let* s := self sid in
publish_on s "state" (state_payload (s_state s)).

(** [publish_info()], called by the constructor with its [s_config]. *)
Definition publish_info (sc : SensorCfg) : PyM World unit :=
match truthy_topic (dget "info" (sc_publish sc)) with
| Some t => MQTTManager.publish env t (JObj (sc_read_only sc))
| None => pskip
end.

(** [BaseSensor.__init__(s_config, config, mqtt_manager, logger)]: the
    attributes alias [s_config] ([SensorCfg]), the state starts ACTIVE,
    and the constructor ends with [publish_info()]. *)
Definition init (idx : nat) (sc : SensorCfg) (cls : sensor_class) : PyM World Sensor :=
publish_info sc ;;
pret {| s_id := sc_id sc; s_idx := idx; s_state := SensorState.ACTIVE; s_class := cls |}.

(** [initialize()]: the base hook, which no sensor class overrides. *)
Definition initialize : PyM World unit := pskip.

(** The rest of [TemperatureHumiditySensor.__init__] after
    [super().__init__]: the DHT11 pin set-up, whose success is the
    driver's answer [env_init_ok]. *)
Definition setup_driver (sc : SensorCfg) (cls : sensor_class) : PyM World unit :=
match cls with
| TemperatureHumiditySensorClass =>
    if env_init_ok env (sc_id sc) then pskip
    else pthrow DriverError "sensor hardware setup failed"
| BaseSensorClass => pskip
end.

(** [read_values()]: [BaseSensor] raises; [TemperatureHumiditySensor]
asks its DHT11 driver, whose answer is [env_read]. *)
Definition read_values (sid : string) : PyM World (list (string * json)) :=
let* s := self sid in
match s_class s with
| BaseSensorClass =>
pthrow NotImplementedError "Subclasses must implement 'read_values()'"
| TemperatureHumiditySensorClass =>
let* now := pgets w_now in
of_sum (lift_exc (env_read env sid now))
end.

(** [do_self_test()]: the base implementation, which no sensor class
overrides. *)
Definition do_self_test (sid : string) : PyM World bool := pret true.

(** [enable()] *)
Definition enable (sid : string) : PyM World unit :=
let* s := self sid in
if decide (s_state s = SensorState.DISABLED) then
set_state sid SensorState.ACTIVE ;; publish_state sid
else pskip.

(** [disable()] *)
Definition disable (sid : string) : PyM World unit :=
let* s := self sid in
if decide (s_state s = SensorState.ACTIVE) then
set_state sid SensorState.DISABLED ;; publish_state sid
else pskip.

(** [error()] *)
Definition error (sid : string) : PyM World unit :=
set_state sid SensorState.ERROR ;; publish_state sid.

(** [update_parameter(key, value)] *)
Definition update_parameter (sid : string) (key : string) (value : json)
: PyM World unit :=
let* s := self sid in
let* ed := pgets (fun w => editable w s) in
if dmem key ed then
pmodify (Config.write_editable (s_idx s) key value) ;;
Config.save_config env
else pskip.

(** One iteration of the loop of [_do_factory_reset]. *)
Definition reset_one (s : Sensor) (kv : string * json) : PyM World unit :=
let '(k, default_val) := kv in
let* ed := pgets (fun w => editable w s) in
if dmem k ed then
pmodify (Config.write_editable (s_idx s) k default_val) ;;
Config.save_config env
else pskip.

(** [_do_factory_reset()] *)
Definition do_factory_reset (sid : string) : PyM World unit :=
let* s := self sid in
let* fac_def := pgets (fun w => sc_defaults (sensor_cfg w s)) in
if negb (truthy (JObj fac_def)) then pskip
else
pfor fac_def (reset_one s) ;;
set_state sid SensorState.ACTIVE ;;
publish_state sid.

Definition run_command (sid : string) (c : command) : PyM World unit :=
match c with
| CEnable => enable sid
| CDisable => disable sid
| CSelfTest => do_self_test sid ;; pskip
| CFactoryReset => do_factory_reset sid
end.

(** [process_command(command)]: [command in capabilities["control"]
and command in command_map].  The control list holds strings, so a
command that is not a string is in neither. *)
Definition process_command (sid : string) (cmd : json) : PyM World unit :=
let* s := self sid in
let* ctl := pgets (fun w => sc_control (sensor_cfg w s)) in
match cmd with
| JStr c =>
match command_map c with
| Some k => if bool_decide (c ∈ ctl) then run_command sid k else pskip
| None => pskip
end
| _ => pskip
end.
End Ops.
End BaseSensor.

(** ** Frames: a method of sensor [sid] touches nothing but [sid]'s
    state, the document's parameter values and the trace. *)

Section Frames.
Context (env : Env).

Lemma self_respects (R : relation World) `{!Reflexive R} sid :
respects R (BaseSensor.self sid).
Proof.
intros w r w'. unfold BaseSensor.self.
destruct (dget sid (w_sensors w)); intros [= _ <-]; reflexivity.
Qed.

Lemma self_frame sid sid' : respects (sensor_frame sid') (BaseSensor.self sid).
Proof. apply self_respects, _. Qed.

Lemma self_cfg sid : respects cfg_kept (BaseSensor.self sid).
Proof. apply self_respects, _. Qed.

Lemma set_state_frame sid st : respects (sensor_frame sid) (BaseSensor.set_state sid st).
Proof.
apply respects_pmodify. intros w. split; [|split].
- unfold trace_grows. simpl. reflexivity.
- intros sid' Hne. simpl. split; [by rewrite dget_dalter_ne|done].
- unfold shape_kept; simpl. rewrite dalter_keys. repeat split; auto.
  intros sid' s Hs. destruct (decide (sid = sid')) as [<-|Hne].
  + rewrite dget_dalter_eq, Hs. by exists st.
  + rewrite dget_dalter_ne by done. exists (s_state s). by rewrite with_state_of_self.
Qed.

Lemma set_state_cfg sid st : respects cfg_kept (BaseSensor.set_state sid st).
Proof. apply respects_pmodify. by intros w. Qed.
End Frames.

#[export] Hint Resolve self_frame self_cfg set_state_frame set_state_cfg : py.

Section MethodFrames.
Context (env : Env) (sid : string).

Lemma publish_on_frame s key p : respects (sensor_frame sid) (BaseSensor.publish_on env s key p).
Proof. unfold BaseSensor.publish_on. solve_respects. Qed.
Lemma publish_on_cfg s key p : respects cfg_kept (BaseSensor.publish_on env s key p).
Proof. unfold BaseSensor.publish_on. solve_respects. Qed.

Lemma publish_state_frame : respects (sensor_frame sid) (BaseSensor.publish_state env sid).
Proof. unfold BaseSensor.publish_state. solve_respects. apply publish_on_frame. Qed.
Lemma publish_state_cfg : respects cfg_kept (BaseSensor.publish_state env sid).
Proof. unfold BaseSensor.publish_state. solve_respects. apply publish_on_cfg. Qed.
#[local] Hint Resolve publish_on_frame publish_on_cfg publish_state_frame publish_state_cfg : py.

Lemma publish_data_frame d : respects (sensor_frame sid) (BaseSensor.publish_data env sid d).
Proof. unfold BaseSensor.publish_data. solve_respects. Qed.
Lemma publish_error_frame d : respects (sensor_frame sid) (BaseSensor.publish_error env sid d).
Proof. unfold BaseSensor.publish_error. solve_respects. Qed.
Lemma read_values_frame : respects (sensor_frame sid) (BaseSensor.read_values env sid).
Proof. unfold BaseSensor.read_values. solve_respects. Qed.
Lemma error_frame : respects (sensor_frame sid) (BaseSensor.error env sid).
Proof. unfold BaseSensor.error. solve_respects. Qed.

Lemma publish_data_cfg d : respects cfg_kept (BaseSensor.publish_data env sid d).
Proof. unfold BaseSensor.publish_data. solve_respects. Qed.
Lemma publish_error_cfg d : respects cfg_kept (BaseSensor.publish_error env sid d).
Proof. unfold BaseSensor.publish_error. solve_respects. Qed.
Lemma read_values_cfg : respects cfg_kept (BaseSensor.read_values env sid).
Proof. unfold BaseSensor.read_values. solve_respects. Qed.
Lemma error_cfg : respects cfg_kept (BaseSensor.error env sid).
Proof. unfold BaseSensor.error. solve_respects. Qed.
End MethodFrames.

#[export] Hint Resolve publish_on_frame publish_on_cfg publish_state_frame publish_state_cfg
  publish_data_frame publish_error_frame read_values_frame error_frame
  publish_data_cfg publish_error_cfg read_values_cfg error_cfg : py.

Section CommandFrames.
Context (env : Env) (sid : string).

Lemma enable_frame : respects (sensor_frame sid) (BaseSensor.enable env sid).
Proof. unfold BaseSensor.enable. solve_respects. Qed.
Lemma disable_frame : respects (sensor_frame sid) (BaseSensor.disable env sid).
Proof. unfold BaseSensor.disable. solve_respects. Qed.
Lemma update_parameter_frame k v :
respects (sensor_frame sid) (BaseSensor.update_parameter env sid k v).
Proof. unfold BaseSensor.update_parameter. solve_respects. Qed.
Lemma reset_one_frame s kv : respects (sensor_frame sid) (BaseSensor.reset_one env s kv).
Proof. unfold BaseSensor.reset_one. solve_respects. Qed.
Lemma do_factory_reset_frame : respects (sensor_frame sid) (BaseSensor.do_factory_reset env sid).
Proof. unfold BaseSensor.do_factory_reset. solve_respects; apply reset_one_frame. Qed.
Lemma process_command_frame c : respects (sensor_frame sid) (BaseSensor.process_command env sid c).
Proof.
unfold BaseSensor.process_command, BaseSensor.run_command, BaseSensor.do_self_test.
solve_respects; auto using enable_frame, disable_frame, do_factory_reset_frame.
Qed.
End CommandFrames.

#[export] Hint Resolve enable_frame disable_frame update_parameter_frame reset_one_frame
  do_factory_reset_frame process_command_frame : py.

(** ** No method of a sensor raises anything but an ordinary exception *)

Section OnlyExc.
Context (env : Env) (sid : string).

Lemma self_only_exc : only_exc (BaseSensor.self sid).
Proof.
intros w e w'. unfold BaseSensor.self.
destruct (dget sid (w_sensors w)); intros [= <- _]; eauto.
Qed.
Hint Resolve self_only_exc : py.

Lemma save_config_only_exc : only_exc (Config.save_config env).
Proof. unfold Config.save_config. solve_only_exc. Qed.
Hint Resolve save_config_only_exc : py.

Lemma publish_on_only_exc s key p : only_exc (BaseSensor.publish_on env s key p).
Proof. unfold BaseSensor.publish_on. solve_only_exc. Qed.
Hint Resolve publish_on_only_exc : py.

Lemma publish_state_only_exc : only_exc (BaseSensor.publish_state env sid).
Proof. unfold BaseSensor.publish_state. solve_only_exc. Qed.
Lemma publish_data_only_exc d : only_exc (BaseSensor.publish_data env sid d).
Proof. unfold BaseSensor.publish_data. solve_only_exc. Qed.
Lemma publish_error_only_exc d : only_exc (BaseSensor.publish_error env sid d).
Proof. unfold BaseSensor.publish_error. solve_only_exc. Qed.
Lemma read_values_only_exc : only_exc (BaseSensor.read_values env sid).
Proof. unfold BaseSensor.read_values. solve_only_exc. Qed.
Lemma error_only_exc : only_exc (BaseSensor.error env sid).
Proof. unfold BaseSensor.error. solve_only_exc. apply publish_state_only_exc. Qed.
Hint Resolve publish_state_only_exc : py.

Lemma process_command_only_exc c : only_exc (BaseSensor.process_command env sid c).
Proof.
unfold BaseSensor.process_command, BaseSensor.run_command, BaseSensor.do_self_test,
  BaseSensor.enable, BaseSensor.disable, BaseSensor.do_factory_reset,
  BaseSensor.reset_one, BaseSensor.set_state.
solve_only_exc.
Qed.

Lemma update_parameter_only_exc k v : only_exc (BaseSensor.update_parameter env sid k v).
Proof. unfold BaseSensor.update_parameter. solve_only_exc. Qed.
End OnlyExc.

#[export] Hint Resolve self_only_exc save_config_only_exc publish_on_only_exc
  publish_state_only_exc publish_data_only_exc publish_error_only_exc read_values_only_exc
  error_only_exc process_command_only_exc update_parameter_only_exc : py.

(** ** Behaviour on a healthy broker *)

(** The world after [publish_on(s, key, p)] on a healthy broker. *)
Definition pub_on_effect (s : Sensor) (key : string) (p : json) (w : World) : World :=
  match truthy_topic (dget key (sc_publish (sensor_cfg w s))) with
  | Some t => pub_effect t p w
  | None => w
  end.

Section PubOnEffect.
Context (s : Sensor) (key : string) (p : json) (w : World).
Lemma pub_on_effect_sensors : w_sensors (pub_on_effect s key p w) = w_sensors w.
Proof. unfold pub_on_effect. destruct (truthy_topic _); by autorewrite with py_rw. Qed.
Lemma pub_on_effect_next : w_next (pub_on_effect s key p w) = w_next w.
Proof. unfold pub_on_effect. destruct (truthy_topic _); by autorewrite with py_rw. Qed.
Lemma pub_on_effect_cfg : w_cfg (pub_on_effect s key p w) = w_cfg w.
Proof. unfold pub_on_effect. destruct (truthy_topic _); by autorewrite with py_rw. Qed.
Lemma pub_on_effect_now : w_now (pub_on_effect s key p w) = w_now w.
Proof. unfold pub_on_effect. destruct (truthy_topic _); by autorewrite with py_rw. Qed.
Lemma pub_on_effect_mqtt : w_mqtt (pub_on_effect s key p w) = w_mqtt w.
Proof. unfold pub_on_effect. destruct (truthy_topic _); by autorewrite with py_rw. Qed.
Lemma pub_on_effect_prefix : w_trace w `prefix_of` w_trace (pub_on_effect s key p w).
Proof.
unfold pub_on_effect. destruct (truthy_topic _); [|done].
rewrite pub_effect_trace. by eexists.
Qed.
End PubOnEffect.

#[export] Hint Rewrite pub_on_effect_sensors pub_on_effect_next pub_on_effect_cfg
  pub_on_effect_now pub_on_effect_mqtt : py_rw.

Lemma sensor_cfg_same_cfg w w' s : w_cfg w' = w_cfg w -> sensor_cfg w' s = sensor_cfg w s.
Proof. unfold sensor_cfg. by intros ->. Qed.

(** The publication [publish_on] makes, seen in the trace. *)
Lemma pub_on_effect_trace s key p w t :
  truthy_topic (dget key (sc_publish (sensor_cfg w s))) = Some t ->
  mq_connected (w_mqtt w) = true ->
  EvPublish t p ∈ w_trace (pub_on_effect s key p w).
Proof.
  intros Ht Hc. unfold pub_on_effect. rewrite Ht, pub_effect_trace, Hc. set_solver.
Qed.

Section Healthy.
Context (env : Env) (Hh : healthy env).

Lemma self_ok sid s w :
dget sid (w_sensors w) = Some s -> BaseSensor.self sid w = (inr s, w).
Proof. unfold BaseSensor.self. by intros ->. Qed.

Lemma publish_on_healthy s key p w :
BaseSensor.publish_on env s key p w = (inr tt, pub_on_effect s key p w).
Proof.
unfold BaseSensor.publish_on, pub_on_effect.
rewrite pbind_pgets.
destruct (truthy_topic _); [by apply publish_healthy|done].
Qed.

Lemma publish_state_healthy sid s w :
dget sid (w_sensors w) = Some s ->
BaseSensor.publish_state env sid w =
  (inr tt, pub_on_effect s "state" (state_payload (s_state s)) w).
Proof.
intros Hs. unfold BaseSensor.publish_state.
rewrite (pbind_inr _ _ _ _ _ (self_ok _ _ _ Hs)). apply publish_on_healthy.
Qed.

Lemma publish_error_healthy sid s d w :
dget sid (w_sensors w) = Some s ->
BaseSensor.publish_error env sid d w =
  (inr tt, if BaseSensor.can_publish s d then pub_on_effect s "errors" (JObj d) w else w).
Proof.
intros Hs. unfold BaseSensor.publish_error.
rewrite (pbind_inr _ _ _ _ _ (self_ok _ _ _ Hs)). destruct (BaseSensor.can_publish s d); simpl; [|done].
apply publish_on_healthy.
Qed.

Lemma publish_data_healthy sid s d w :
dget sid (w_sensors w) = Some s ->
BaseSensor.publish_data env sid d w =
  (inr tt, if BaseSensor.can_publish s d then pub_on_effect s "data" (JObj d) w else w).
Proof.
intros Hs. unfold BaseSensor.publish_data.
rewrite (pbind_inr _ _ _ _ _ (self_ok _ _ _ Hs)). destruct (BaseSensor.can_publish s d); simpl; [|done].
apply publish_on_healthy.
Qed.

(** [error()]: the state is set, then published. *)
Lemma error_healthy sid s w :
dget sid (w_sensors w) = Some s ->
let w1 := set_sensors (dalter (with_state_of SensorState.ERROR) sid (w_sensors w)) w in
BaseSensor.error env sid w =
  (inr tt, pub_on_effect (with_state_of SensorState.ERROR s) "state"
             (state_payload SensorState.ERROR) w1).
Proof.
intros Hs w1. unfold BaseSensor.error, BaseSensor.set_state.
rewrite pbind_pmodify.
apply publish_state_healthy. simpl. by rewrite dget_dalter_eq, Hs.
Qed.
End Healthy.

Lemma read_values_th env sid s w :
  dget sid (w_sensors w) = Some s -> s_class s = TemperatureHumiditySensorClass ->
  BaseSensor.read_values env sid w = (lift_exc (env_read env sid (w_now w)), w).
Proof.
  intros Hs Hc. unfold BaseSensor.read_values.
  rewrite (pbind_inr _ _ _ _ _ (self_ok _ _ _ Hs)), Hc, pbind_pgets. done.
Qed.

(** [_can_publish] lets a non-empty payload of an ACTIVE sensor through. *)
Lemma can_publish_active s d :
  s_state s = SensorState.ACTIVE -> d <> [] -> BaseSensor.can_publish s d = true.
Proof.
  intros Hs Hd. unfold BaseSensor.can_publish. simpl.
  destruct d; [done|]. simpl. rewrite Hs. case_decide; [congruence|done].
Qed.

(** ** Parameter writes *)

Lemma editable_write_editable idx k v w s :
  s_idx s = idx -> idx < length (cd_sensors (cfg_doc (w_cfg w))) ->
  editable (Config.write_editable idx k v w) s = dset k v (editable w s).
Proof.
  intros <- Hlt. unfold editable, sensor_cfg.
  rewrite Config.write_editable_lookup, decide_True by done.
  destruct (lookup_lt_is_Some_2 _ _ Hlt) as [sc Hsc]. by rewrite Hsc.
Qed.

(** The world after [editable[k] = v; save_config()] on a writable file. *)
Definition write_and_save (idx : nat) (k : string) (v : json) (w : World) : World :=
  let w1 := Config.write_editable idx k v w in
  emit (EvSave (cfg_data (w_cfg w1))) (set_cfg (Config.saved (w_cfg w1)) w1).

Lemma write_save_run env idx k v w :
  env_save_ok env = true ->
  (pmodify (Config.write_editable idx k v) ;; Config.save_config env) w =
    (inr tt, write_and_save idx k v w).
Proof. intros Hs. rewrite pbind_pmodify. by apply Config.save_config_ok. Qed.

Section WriteAndSave.
Context (idx : nat) (k : string) (v : json) (w : World).
Lemma write_and_save_sensors : w_sensors (write_and_save idx k v w) = w_sensors w.
Proof. done. Qed.
Lemma write_and_save_disk :
  cfg_disk (w_cfg (write_and_save idx k v w)) = cfg_data (w_cfg (write_and_save idx k v w)).
Proof. done. Qed.
Lemma write_and_save_saves :
  saves (w_trace (write_and_save idx k v w)) = S (saves (w_trace w)).
Proof. unfold write_and_save. wsimpl. rewrite saves_app. simpl. lia. Qed.
Lemma write_and_save_length :
  length (cd_sensors (cfg_doc (w_cfg (write_and_save idx k v w)))) =
  length (cd_sensors (cfg_doc (w_cfg w))).
Proof. apply Config.write_editable_length. Qed.
Lemma write_and_save_editable s :
  s_idx s = idx -> idx < length (cd_sensors (cfg_doc (w_cfg w))) ->
  editable (write_and_save idx k v w) s = dset k v (editable w s).
Proof. intros. by apply editable_write_editable. Qed.
Lemma write_and_save_reset :
  cfg_reset (w_cfg (write_and_save idx k v w)) = cfg_reset (w_cfg w).
Proof. done. Qed.
End WriteAndSave.

(** While [Config.data] is the boot document, a file that holds
    [Config.data] holds the document the objects write to. *)
Lemma disk_doc c :
  cfg_reset c = None -> cfg_disk c = cfg_data c -> cfg_disk c = cfg_doc c.
Proof. unfold cfg_data. by intros ->. Qed.

(** [_do_factory_reset]'s loop on the editable dict: each default whose
    key is editable overwrites it. *)
Definition reset_editable (fac : list (string * json)) (ed : list (string * json))
  : list (string * json) :=
  fold_left (fun acc '(k, v) => if dmem k acc then dset k v acc else acc) fac ed.

Lemma reset_one_run env s k v w :
  env_save_ok env = true ->
  BaseSensor.reset_one env s (k, v) w =
    (inr tt, if dmem k (editable w s) then write_and_save (s_idx s) k v w else w).
Proof.
  intros Hs. unfold BaseSensor.reset_one. rewrite pbind_pgets.
  destruct (dmem k (editable w s)); [by apply write_save_run|done].
Qed.

(** Once the file holds the document, the rest of the loop keeps it so:
    every write it makes is followed by a save. *)
Lemma reset_loop_disk env s fac w w' :
  env_save_ok env = true -> cfg_disk (w_cfg w) = cfg_data (w_cfg w) ->
  pfor fac (BaseSensor.reset_one env s) w = (inr tt, w') ->
  cfg_disk (w_cfg w') = cfg_data (w_cfg w').
Proof.
  intros Hs. revert w. induction fac as [|[k v] fac IH]; intros w H0 E; simpl in E.
  - by injection E as <-.
  - rewrite (pbind_inr _ _ _ _ _ (reset_one_run env s k v w Hs)) in E.
    eapply IH; [|exact E]. destruct (dmem k _); [apply write_and_save_disk|done].
Qed.

Lemma reset_loop env s fac w :
  env_save_ok env = true -> s_idx s < length (cd_sensors (cfg_doc (w_cfg w))) ->
  exists w', pfor fac (BaseSensor.reset_one env s) w = (inr tt, w') /\
    editable w' s = reset_editable fac (editable w s) /\
    w_sensors w' = w_sensors w /\
    length (cd_sensors (cfg_doc (w_cfg w'))) = length (cd_sensors (cfg_doc (w_cfg w))) /\
    w_mqtt w' = w_mqtt w /\ cfg_reset (w_cfg w') = cfg_reset (w_cfg w) /\
    ((exists k v, (k, v) ∈ fac /\ dmem k (editable w s) = true) ->
     cfg_disk (w_cfg w') = cfg_data (w_cfg w')).
Proof.
  intros Hsave. revert w. induction fac as [|[k v] fac IH]; intros w Hlt; simpl.
  - exists w. repeat split. intros (k & v & Hin & _). by apply elem_of_nil in Hin.
  - rewrite (pbind_inr _ _ _ _ _ (reset_one_run env s k v w Hsave)).
    destruct (dmem k (editable w s)) eqn:Hk.
    + destruct (IH (write_and_save (s_idx s) k v w)) as (w' & E & Hed & Hsen & Hlen & Hmq & Hrs & _);
        [by rewrite write_and_save_length|].
      exists w'. split; [done|]. rewrite Hed, write_and_save_editable by done.
      repeat split; try done; [by rewrite Hlen, write_and_save_length|].
      intros _. eapply reset_loop_disk; [done| |exact E]. apply write_and_save_disk.
    + destruct (IH w Hlt) as (w' & E & Hed & Hsen & Hlen & Hmq & Hrs & Hdisk).
      exists w'. repeat split; try done. intros (k' & v' & Hin & Hk').
      apply Hdisk. exists k', v'. split; [|done].
      apply elem_of_cons in Hin as [[= -> ->]|Hin]; [congruence|done].
Qed.

Lemma editable_same_cfg w w' s : w_cfg w' = w_cfg w -> editable w' s = editable w s.
Proof. intros H. unfold editable. by rewrite (sensor_cfg_same_cfg w w' s H). Qed.

Lemma set_state_run sid st w :
  BaseSensor.set_state sid st w =
    (inr tt, set_sensors (dalter (with_state_of st) sid (w_sensors w)) w).
Proof. done. Qed.

(** ** Properties of the sensor's command and parameter handlers *)

(** [update_parameter(key, value)] with a key that is not among the
    sensor's editable parameters changes nothing: no configuration write,
    no save, no publish. *)
Theorem update_parameter_not_editable env sid s key value w :
  dget sid (w_sensors w) = Some s -> dmem key (editable w s) = false ->
  BaseSensor.update_parameter env sid key value w = (inr tt, w).
Proof.
  intros Hs Hk. unfold BaseSensor.update_parameter.
  rewrite (pbind_inr _ _ _ _ _ (self_ok _ _ _ Hs)), pbind_pgets, Hk. done.
Qed.

(** C8. [update_parameter(key, value)] with an editable key writes the
    value into the sensor's parameters inside the shared configuration
    document and saves the whole document: the parameter now reads
    [value], the file holds the document, exactly one save happened, and
    the sensor table is untouched. *)
Theorem update_parameter_persists env sid s key value w :
  env_save_ok env = true -> cfg_reset (w_cfg w) = None -> dget sid (w_sensors w) = Some s ->
  s_idx s < length (cd_sensors (cfg_doc (w_cfg w))) ->
  dmem key (editable w s) = true ->
  exists w', BaseSensor.update_parameter env sid key value w = (inr tt, w') /\
    editable w' s = dset key value (editable w s) /\
    dget key (editable w' s) = Some value /\
    cfg_disk (w_cfg w') = cfg_doc (w_cfg w') /\
    saves (w_trace w') = S (saves (w_trace w)) /\
    w_sensors w' = w_sensors w.
Proof.
  intros Hsave Hr Hs Hlt Hk. exists (write_and_save (s_idx s) key value w).
  unfold BaseSensor.update_parameter.
  rewrite (pbind_inr _ _ _ _ _ (self_ok _ _ _ Hs)), pbind_pgets, Hk.
  rewrite write_and_save_editable, dget_dset_eq by done.
  split; [by apply write_save_run|]. repeat split; [|apply write_and_save_saves].
  apply disk_doc; [by rewrite write_and_save_reset|apply write_and_save_disk].
Qed.

Lemma update_parameter_persists_witness :
  exists w', BaseSensor.update_parameter env_demo "th1" "report_interval" (JNum 10) w_demo = (inr tt, w') /\
    editable w' s_th1 = dset "report_interval" (JNum 10) (editable w_demo s_th1) /\
    dget "report_interval" (editable w' s_th1) = Some (JNum 10) /\
    cfg_disk (w_cfg w') = cfg_doc (w_cfg w') /\
    saves (w_trace w') = S (saves (w_trace w_demo)) /\
    w_sensors w' = w_sensors w_demo.
Proof.
  apply (update_parameter_persists env_demo "th1" s_th1);
    [reflexivity|reflexivity|reflexivity|simpl; lia|reflexivity].
Defined.

(** [_do_factory_reset()] with defaults, a writable file and a healthy broker. *)
Lemma do_factory_reset_run env sid s w :
  healthy env -> env_save_ok env = true -> cfg_reset (w_cfg w) = None ->
  dget sid (w_sensors w) = Some s ->
  s_idx s < length (cd_sensors (cfg_doc (w_cfg w))) ->
  sc_defaults (sensor_cfg w s) <> [] ->
  exists w', BaseSensor.do_factory_reset env sid w = (inr tt, w') /\
    editable w' s = reset_editable (sc_defaults (sensor_cfg w s)) (editable w s) /\
    dget sid (w_sensors w') = Some (with_state_of SensorState.ACTIVE s) /\
    ((exists k v, (k, v) ∈ sc_defaults (sensor_cfg w s) /\ dmem k (editable w s) = true) ->
     cfg_disk (w_cfg w') = cfg_doc (w_cfg w')).
Proof.
  intros Hh Hsave Hr Hs Hlt Hfac. unfold BaseSensor.do_factory_reset.
  rewrite (pbind_inr _ _ _ _ _ (self_ok _ _ _ Hs)), pbind_pgets.
  assert (truthy (JObj (sc_defaults (sensor_cfg w s))) = true) as ->
    by (destruct (sc_defaults _); [done|reflexivity]).
  destruct (reset_loop env s (sc_defaults (sensor_cfg w s)) w Hsave Hlt)
    as (w1 & E & Hed & Hsen & _ & _ & Hrs & Hdisk).
  cbn [negb]. rewrite (pbind_inr _ _ _ _ _ E), (pbind_inr _ _ _ _ _ (set_state_run _ _ _)).
  set (w2 := set_sensors _ w1).
  assert (dget sid (w_sensors w2) = Some (with_state_of SensorState.ACTIVE s)) as Hs2
    by (simpl; by rewrite dget_dalter_eq, Hsen, Hs).
  rewrite (publish_state_healthy env Hh sid _ w2 Hs2).
  eexists; split; [reflexivity|].
  rewrite pub_on_effect_sensors, (editable_same_cfg w1 _ s) by (by rewrite pub_on_effect_cfg).
  split; [done|]. split; [done|]. rewrite pub_on_effect_cfg. intros Hk.
  apply disk_doc; [cbn; by rewrite Hrs|exact (Hdisk Hk)].
Qed.


(** C9. [_do_factory_reset()] on a sensor whose configuration has
    factory defaults: every default whose key is editable overwrites the
    parameter (the others are skipped), the document is saved as soon as
    one parameter was written, and the sensor ends ACTIVE whatever state
    it was in, ERROR included. *)
Theorem do_factory_reset_restores env sid s w :
  healthy env -> env_save_ok env = true -> cfg_reset (w_cfg w) = None ->
  dget sid (w_sensors w) = Some s ->
  s_idx s < length (cd_sensors (cfg_doc (w_cfg w))) ->
  sc_defaults (sensor_cfg w s) <> [] ->
  exists w', BaseSensor.do_factory_reset env sid w = (inr tt, w') /\
    editable w' s = reset_editable (sc_defaults (sensor_cfg w s)) (editable w s) /\
    dget sid (w_sensors w') = Some (with_state_of SensorState.ACTIVE s) /\
    ((exists k v, (k, v) ∈ sc_defaults (sensor_cfg w s) /\ dmem k (editable w s) = true) ->
     cfg_disk (w_cfg w') = cfg_doc (w_cfg w')).
Proof. apply do_factory_reset_run. Qed.

Lemma do_factory_reset_restores_witness :
  exists w', BaseSensor.do_factory_reset env_demo "th1" w_demo = (inr tt, w') /\
    editable w' s_th1 = reset_editable (sc_defaults (sensor_cfg w_demo s_th1)) (editable w_demo s_th1) /\
    dget "th1" (w_sensors w') = Some (with_state_of SensorState.ACTIVE s_th1) /\
    ((exists k v, (k, v) ∈ sc_defaults (sensor_cfg w_demo s_th1) /\ dmem k (editable w_demo s_th1) = true) ->
     cfg_disk (w_cfg w') = cfg_doc (w_cfg w')).
Proof.
  apply do_factory_reset_restores;
    [intros t; reflexivity|reflexivity|reflexivity|reflexivity|simpl; lia|vm_compute; congruence].
Defined.

(** [factory_reset] is a command of every sensor. *)
Lemma command_map_factory_reset c :
  command_map c = Some CFactoryReset -> c = "factory_reset".
Proof.
  unfold command_map.
  repeat match goal with |- context [String.eqb ?a ?b] =>
    destruct (String.eqb_spec a b) end; congruence.
Qed.

(** C10. A sensor in the ERROR state ignores every command but
    [factory_reset]: [process_command] then returns without changing the
    world (no state change, no publish, no save).  [enable()] only acts on
    a DISABLED sensor and [disable()] on an ACTIVE one, so the ERROR state
    is left only through a factory reset. *)
Theorem process_command_error_sticky env sid s c w :
  dget sid (w_sensors w) = Some s -> s_state s = SensorState.ERROR ->
  c <> JStr "factory_reset" ->
  BaseSensor.process_command env sid c w = (inr tt, w).
Proof.
  intros Hs Herr Hc. unfold BaseSensor.process_command.
  rewrite (pbind_inr _ _ _ _ _ (self_ok _ _ _ Hs)), pbind_pgets.
  destruct c as [| | | c | |]; try done.
  destruct (command_map c) as [k|] eqn:Hk; [|done].
  case_bool_decide; [|done].
  destruct k; simpl.
  - unfold BaseSensor.enable. rewrite (pbind_inr _ _ _ _ _ (self_ok _ _ _ Hs)).
    by rewrite decide_False by congruence.
  - unfold BaseSensor.disable. rewrite (pbind_inr _ _ _ _ _ (self_ok _ _ _ Hs)).
    by rewrite decide_False by congruence.
  - done.
  - apply command_map_factory_reset in Hk. congruence.
Qed.

Lemma process_command_error_sticky_witness :
  let w := set_sensors (dalter (with_state_of SensorState.ERROR) "th1" (w_sensors w_demo)) w_demo in
  BaseSensor.process_command env_demo "th1" (JStr "enable") w = (inr tt, w).
Proof.
  intros w. apply (process_command_error_sticky env_demo "th1" (with_state_of SensorState.ERROR s_th1));
    [reflexivity|reflexivity|discriminate].
Defined.

(** ** Frames for any relation kept by publishing and by state changes

    A sensor's publish, read and [error()] methods only emit events and
    set [_state]; any preorder those two steps keep is kept by the
    methods. *)
Section GenericFrame.
Context (env : Env) (R : relation World) `{!PreOrder R}.
Hypothesis R_emit : forall e w, R w (emit e w).
Hypothesis R_state : forall sid st w,
R w (set_sensors (dalter (with_state_of st) sid (w_sensors w)) w).

Lemma publish_gen t p : respects R (MQTTManager.publish env t p).
Proof. by apply publish_frame. Qed.
Lemma self_gen sid : respects R (BaseSensor.self sid).
Proof. apply self_respects, _. Qed.
Lemma set_state_gen sid st : respects R (BaseSensor.set_state sid st).
Proof. apply respects_pmodify. apply R_state. Qed.
#[local] Hint Resolve publish_gen self_gen set_state_gen : py.

Lemma publish_on_gen s key p : respects R (BaseSensor.publish_on env s key p).
Proof. unfold BaseSensor.publish_on. solve_respects. Qed.
#[local] Hint Resolve publish_on_gen : py.
Lemma publish_state_gen sid : respects R (BaseSensor.publish_state env sid).
Proof. unfold BaseSensor.publish_state. solve_respects. Qed.
Lemma publish_data_gen sid d : respects R (BaseSensor.publish_data env sid d).
Proof. unfold BaseSensor.publish_data. solve_respects. Qed.
Lemma publish_error_gen sid d : respects R (BaseSensor.publish_error env sid d).
Proof. unfold BaseSensor.publish_error. solve_respects. Qed.
Lemma read_values_gen sid : respects R (BaseSensor.read_values env sid).
Proof. unfold BaseSensor.read_values. solve_respects. Qed.
#[local] Hint Resolve publish_state_gen : py.
Lemma error_gen sid : respects R (BaseSensor.error env sid).
Proof. unfold BaseSensor.error. solve_respects. Qed.
End GenericFrame.

(** The scheduler's timers. *)
Definition next_kept (w w' : World) : Prop := w_next w' = w_next w.

#[export] Instance next_kept_preorder : PreOrder next_kept.
Proof. split; [by intros w|intros ??? ??; unfold next_kept in *; congruence]. Qed.

Lemma next_kept_emit e w : next_kept w (emit e w).
Proof. done. Qed.
Lemma next_kept_state sid st w :
  next_kept w (set_sensors (dalter (with_state_of st) sid (w_sensors w)) w).
Proof. done. Qed.

(** [update_parameter] on a writable file, both branches. *)
Lemma update_parameter_run env sid s key value w :
  env_save_ok env = true -> dget sid (w_sensors w) = Some s ->
  BaseSensor.update_parameter env sid key value w =
    (inr tt, if dmem key (editable w s) then write_and_save (s_idx s) key value w else w).
Proof.
  intros Hsave Hs. unfold BaseSensor.update_parameter.
  rewrite (pbind_inr _ _ _ _ _ (self_ok _ _ _ Hs)), pbind_pgets.
  destruct (dmem key (editable w s)); [by apply write_save_run|done].
Qed.

(** C27. Aliasing across a failed [reset_config]: once [reset_config]
    has put the factory document in [Config.data] and its save failed,
    the sensor objects still hold their parameters in the boot document.
    A later [update_parameter] (with the file writable again) changes
    the parameter the sensor reads, but the save writes the factory
    document: the file does not receive the new value. *)
Theorem reset_failure_loses_parameter env1 env2 d sid s key value w :
  env_factory env1 = Some d -> env_save_ok env1 = false -> env_save_ok env2 = true ->
  dget sid (w_sensors w) = Some s -> s_idx s < length (cd_sensors (cfg_doc (w_cfg w))) ->
  dmem key (editable w s) = true ->
  exists w1 w2,
    Config.reset_config env1 w =
      (inl (PyExc OSError "Configuration file not found or inaccessible"), w1) /\
    BaseSensor.update_parameter env2 sid key value w1 = (inr tt, w2) /\
    dget key (editable w2 s) = Some value /\ cfg_disk (w_cfg w2) = d.
Proof.
  intros Hf Hs1 Hs2 Hs Hlt Hk.
  set (w1 := set_cfg (Config.with_reset d (w_cfg w)) w).
  assert (editable w1 s = editable w s) as Hed1 by done.
  exists w1, (write_and_save (s_idx s) key value w1). split.
  - unfold Config.reset_config. rewrite Hf, pbind_pmodify. by apply Config.save_config_fail.
  - rewrite (update_parameter_run env2 sid s key value w1 Hs2 Hs), Hed1, Hk.
    split; [done|]. split; [|done].
    by rewrite write_and_save_editable, Hed1, dget_dset_eq.
Qed.

Lemma reset_failure_loses_parameter_witness :
  let env_ro := {| env_connect_ok := true; env_publish_ok := fun _ => true;
                   env_subscribe_ok := fun _ => true; env_save_ok := false;
                   env_factory := Some cd_demo; env_init_ok := fun _ => true;
                   env_read := env_read env_demo; env_fmt_time := env_fmt_time env_demo |} in
  exists w1 w2,
    Config.reset_config env_ro w_demo =
      (inl (PyExc OSError "Configuration file not found or inaccessible"), w1) /\
    BaseSensor.update_parameter env_demo "th1" "report_interval" (JNum 10) w1 = (inr tt, w2) /\
    dget "report_interval" (editable w2 s_th1) = Some (JNum 10) /\ cfg_disk (w_cfg w2) = cd_demo.
Proof.
  intros env_ro. apply (reset_failure_loses_parameter env_ro env_demo cd_demo "th1" s_th1);
    [reflexivity|reflexivity|reflexivity|reflexivity|simpl; lia|reflexivity].
Defined.

(** ** Refinement of the sensor state machine *)

(** The command names of [command_map]. *)
Definition command_name (c : command) : string :=
  match c with
  | CEnable => "enable" | CDisable => "disable"
  | CSelfTest => "self_test" | CFactoryReset => "factory_reset"
  end.

(** The abstract sensor state machine: [Active ⇄ Disabled] by
    [enable]/[disable] (a command outside its source state does
    nothing), [self_test] keeps the state, [factory_reset] goes to
    [Active] from any state. *)
Inductive sensor_step : command -> SensorState.t -> SensorState.t -> Prop :=
  | step_enable : sensor_step CEnable SensorState.DISABLED SensorState.ACTIVE
  | step_enable_noop st : st <> SensorState.DISABLED -> sensor_step CEnable st st
  | step_disable : sensor_step CDisable SensorState.ACTIVE SensorState.DISABLED
  | step_disable_noop st : st <> SensorState.ACTIVE -> sensor_step CDisable st st
  | step_self_test st : sensor_step CSelfTest st st
  | step_reset st : sensor_step CFactoryReset st SensorState.ACTIVE.

#[local] Hint Constructors sensor_step : core.

(** [enable]/[disable] on a healthy broker: the guarded state change
    and its publish. *)
Lemma toggle_run env sid s w (src dst : SensorState.t) (op : PyM World unit) :
  healthy env -> dget sid (w_sensors w) = Some s ->
  op = (let* s0 := BaseSensor.self sid in
        if decide (s_state s0 = src) then BaseSensor.set_state sid dst ;; BaseSensor.publish_state env sid
        else pskip) ->
  exists w', op w = (inr tt, w') /\
    dget sid (w_sensors w') = Some (with_state_of (if decide (s_state s = src) then dst else s_state s) s).
Proof.
  intros Hh Hs ->. rewrite (pbind_inr _ _ _ _ _ (self_ok _ _ _ Hs)).
  case_decide.
  - rewrite (pbind_inr _ _ _ _ _ (set_state_run _ _ _)).
    rewrite (publish_state_healthy env Hh sid (with_state_of dst s)) by (cbn; by rewrite dget_dalter_eq, Hs).
    eexists; split; [reflexivity|]. rewrite pub_on_effect_sensors. cbn. by rewrite dget_dalter_eq, Hs.
  - eexists; split; [reflexivity|]. by rewrite Hs, with_state_of_self.
Qed.

(** C5. [process_command] refines the abstract state machine: for
    every command that the sensor's capabilities list, on a healthy
    broker with a writable file and a sensor that has factory defaults,
    the command completes and the sensor's new state is a
    [sensor_step] of that command from its old state. *)
Theorem process_command_refines env sid s c w :
  healthy env -> env_save_ok env = true -> cfg_reset (w_cfg w) = None ->
  dget sid (w_sensors w) = Some s ->
  s_idx s < length (cd_sensors (cfg_doc (w_cfg w))) -> sc_defaults (sensor_cfg w s) <> [] ->
  command_name c ∈ sc_control (sensor_cfg w s) ->
  exists w' st', BaseSensor.process_command env sid (JStr (command_name c)) w = (inr tt, w') /\
    dget sid (w_sensors w') = Some (with_state_of st' s) /\ sensor_step c (s_state s) st'.
Proof.
  intros Hh Hsave Hr Hs Hlt Hdef Hctl. unfold BaseSensor.process_command.
  rewrite (pbind_inr _ _ _ _ _ (self_ok _ _ _ Hs)), pbind_pgets.
  assert (command_map (command_name c) = Some c) as -> by (by destruct c).
  rewrite bool_decide_true by done. destruct c; cbn [BaseSensor.run_command].
  - edestruct (toggle_run env sid s w SensorState.DISABLED SensorState.ACTIVE) as (w' & E & Hw');
      [done|done|reflexivity|].
    exists w'; eexists. split; [exact E|split; [exact Hw'|]]. case_decide as Hd; [rewrite Hd|]; auto.
  - edestruct (toggle_run env sid s w SensorState.ACTIVE SensorState.DISABLED) as (w' & E & Hw');
      [done|done|reflexivity|].
    exists w'; eexists. split; [exact E|split; [exact Hw'|]]. case_decide as Hd; [rewrite Hd|]; auto.
  - exists w, (s_state s). split; [done|]. rewrite Hs, with_state_of_self. auto.
  - destruct (do_factory_reset_run env sid s w) as (w' & E & _ & Hw' & _); try done.
    exists w', SensorState.ACTIVE. auto.
Qed.

Lemma process_command_refines_witness :
  exists w' st', BaseSensor.process_command env_demo "th1" (JStr (command_name CDisable)) w_demo
                   = (inr tt, w') /\
    dget "th1" (w_sensors w') = Some (with_state_of st' s_th1) /\
    sensor_step CDisable (s_state s_th1) st'.
Proof.
  apply process_command_refines;
    [intros t; reflexivity|reflexivity|reflexivity|reflexivity|simpl; lia|vm_compute; congruence|].
  vm_compute. apply list_elem_of_In. simpl. auto.
Defined.
