(* ===== verification/SensorManager.v ===== *)
(** The [SensorManager] (src/sensors/sensor_manager.py): the scheduler of
    sensor polls, the per-sensor fault isolation and the MQTT callbacks
    of the sensors.

    - [update_sensors] is one scheduler tick: every sensor whose next
      update time has come is polled inside a [try]; a failure goes to
      [error_handler] ([_error_handler]), which publishes an error
      payload and puts the sensor in [ERROR]; the next update time is
      set to [now + report_interval] after the [try], read from the
      sensor's editable parameters.
    - [cb] is the closure [_make_cb(sensor_id)]: a message on a
      "commands" topic is a command for [process_command]; a message on
      a "config" topic is a dict of parameter updates.
    - [initialize_sensors] resolves each configured class, builds the
      sensor, registers it, subscribes its topics and seeds its timer;
      a failure goes to the global [ErrorHandler]. *)

From Stdlib Require Import ZArith String List.
From stdpp Require Import base list strings sets.
From S2P Require Import Prelude States Defaults World Fixtures Config Mqtt Power ErrorHandler BaseSensor.
Import ListNotations.
Local Open Scope py_scope.

(** The globals of the modules under src/sensors/: their imports and
    classes, with [Some] the sensor classes among them.  MicroPython adds
    [__name__] and [__file__] to a module loaded from a file. *)
Definition module_namespace (mod_name : string) : option (list (string * option sensor_class)) :=
  let dunder := [("__name__", None); ("__file__", None)] in
  if String.eqb mod_name "base_sensor" then
    Some ([("Sensor", None); ("SensorState", None); ("Logger", None); ("json", None);
           ("BaseSensor", Some BaseSensorClass)] ++ dunder)
  else if String.eqb mod_name "sensor" then Some ([("Sensor", None)] ++ dunder)
  else if String.eqb mod_name "sensor_manager" then
    Some ([("json", None); ("time", None); ("get_formatted_datetime", None);
           ("DEFAULT_UPDATE_SENSOR_INTERVAL", None); ("SensorManager", None)] ++ dunder)
  else if String.eqb mod_name "sensor_state" then Some ([("SensorState", None)] ++ dunder)
  else if String.eqb mod_name "temperature_humidity_sensor" then
    Some ([("machine", None); ("dht", None); ("time", None); ("BaseSensor", Some BaseSensorClass);
           ("TemperatureHumiditySensor", Some TemperatureHumiditySensorClass)] ++ dunder)
  else None.

(** [__import__(f"src.sensors.{mod_name}")], the [getattr] walk and
    [getattr(module, class_name)], up to the call
    [SensorClass(s_config=..., ...)]: an unknown module raises
    [ImportError], an unknown name [AttributeError], and a global that is
    not a sensor class (a module, a function, a number, a class with
    another constructor) [TypeError] when it is called. *)
Definition resolve_class (mod_name class_name : string) : exn + sensor_class :=
  match module_namespace mod_name with
  | None => inl (PyExc ImportError mod_name)
  | Some ns =>
      match dget class_name ns with
      | None => inl (PyExc AttributeError class_name)
      | Some None => inl (PyExc TypeError "object is not a sensor class")
      | Some (Some c) => inr c
      end
  end.

Module SensorManager.
Section Ops.
Context (env : Env) (eh : ErrorHandlerCfg).

(** [{"timestamp": get_formatted_datetime(), "error": error_msg}] *)
Definition error_data (now : Z) (error_msg : string) : list (string * json) :=
[("timestamp", JStr (env_fmt_time env now)); ("error", JStr error_msg)].

(** [_error_handler(sid, sensor, error_msg)] *)
Definition error_handler (sid : string) (error_msg : string) : PyM World unit :=
ptry (let* now := pgets w_now in
      BaseSensor.publish_error env sid (error_data now error_msg) ;;
      BaseSensor.error env sid)
     (fun _ _ => pskip).

(** The [try] block of [update_sensors]. *)
Definition poll (sid : string) : PyM World unit :=
BaseSensor.publish_state env sid ;;
let* data := BaseSensor.read_values env sid in
if truthy (JObj data) then BaseSensor.publish_data env sid data else pskip.

Definition interval_of (w : World) (sensor : Sensor) : json :=
dget_or "report_interval" (JNum Defaults.DEFAULT_UPDATE_SENSOR_INTERVAL)
  (editable w sensor).

(** One iteration of the loop of [update_sensors]. *)
Definition update_one (current_time : Z) (sid : string) (sensor : Sensor)
: PyM World unit :=
let* interval := pgets (fun w => interval_of w sensor) in
let* next := pgets (fun w => dget sid (w_next w)) in
match next with
| None => pthrow KeyError sid
| Some t =>
    if bool_decide (t <= current_time)%Z then
      ptry (poll sid)
           (fun _ m => error_handler sid ("Error during sensor update: " ++ m)) ;;
      let* n := of_sum (py_add_num current_time interval) in
      pmodify (fun w => set_next (dset sid n (w_next w)) w)
    else pskip
end.

(** [update_sensors()] *)
Definition update_sensors : PyM World unit :=
let* current_time := pgets w_now in
let* sensors := pgets w_sensors in
pfor sensors (fun '(sid, sensor) => update_one current_time sid sensor).

(** The body of [cb] after [json.loads]. *)
Definition handle_message (sensor_id topic : string) (parsed : json)
: PyM World unit :=
if str_contains "commands" topic then
  let* command := of_sum (py_get parsed "command") in
  match command with
  | Some c => if truthy c then BaseSensor.process_command env sensor_id c else pskip
  | None => pskip
  end
else if str_contains "config" topic then
  match parsed with
  | JObj kvs =>
      pfor kvs (fun '(key, value) => BaseSensor.update_parameter env sensor_id key value) ;;
      match dget "report_interval" kvs with
      | Some ri =>
          let* now := pgets w_now in
          let* n := of_sum (py_add_num now ri) in
          pmodify (fun w => set_next (dset sensor_id n (w_next w)) w)
      | None => pskip
      end
  | _ => pskip
  end
else pskip.

Definition loads (msg : payload) : exn + json :=
match msg with
| Some j => inr j
| None => inl (PyExc ValueError "Invalid JSON")
end.

(** [cb(topic, msg)], the closure of [_make_cb(sensor_id)]. *)
Definition cb (sensor_id topic : string) (msg : payload) : PyM World unit :=
let* sensor := pgets (fun w => dget sensor_id (w_sensors w)) in
match sensor with
| None => pskip
| Some _ =>
    ptry (let* parsed := of_sum (loads msg) in
          handle_message sensor_id topic parsed)
         (fun k m =>
            match k with
            | ValueError => pskip
            | _ => error_handler sensor_id ("Error processing message: " ++ m)
            end)
end.

(** [SensorClass(s_config=..., ...)]: [BaseSensor.__init__] publishes
  the read-only information; [TemperatureHumiditySensor.__init__]
  then sets up its pin and DHT11 driver. *)
Definition construct (idx : nat) (sc : SensorCfg) (cls : sensor_class)
: PyM World Sensor :=
let* inst := BaseSensor.init env idx sc cls in
BaseSensor.setup_driver env sc cls ;;
pret inst.

(** [_subscribe(topic, callback)] *)
Definition subscribe (topic : string) (callback : callback) : PyM World unit :=
MQTTManager.subscribe env topic callback.

(** [self._subscribe(sub_cfg.get(key), self._make_cb(sid))] when [key]
  is in [sub_cfg]. *)
Definition subscribe_if (sub : list (string * string)) (key sid : string)
: PyM World unit :=
match dget key sub with
| Some topic => subscribe topic (CbSensor sid)
| None => pskip
end.

(** One iteration of the loop of [initialize_sensors]. *)
Definition init_one (idx : nat) (sc : SensorCfg) : PyM World unit :=
let sid := sc_id sc in
ptry (let* cls := of_sum (resolve_class (sc_module sc) (sc_class sc)) in
      let* inst := construct idx sc cls in
      BaseSensor.initialize ;;
      pmodify (fun w => set_sensors (dset sid inst (w_sensors w)) w) ;;
      subscribe_if (sc_subscribe sc) "commands" sid ;;
      subscribe_if (sc_subscribe sc) "config" sid ;;
      let* now := pgets w_now in
      pmodify (fun w => set_next (dset sid now (w_next w)) w))
     (fun _ m => ErrorHandler.handle_error env eh ("Failed to load sensors: " ++ m)).

(** [initialize_sensors()] *)
Definition initialize_sensors : PyM World unit :=
let* cfgs := pgets (fun w => cd_sensors (cfg_data (w_cfg w))) in
pfor (imap pair cfgs) (fun '(i, sc) => init_one i sc).
End Ops.

(** [SensorManager.__init__]: [self.sensors = {}] and
  [self._next_update_times = {}]; the sensors' configuration is read
  from the document by [initialize_sensors]. *)
Definition init : PyM World unit := pmodify (fun w => set_sensors [] (set_next [] w)).

(** [get_sensor_ids()]: [list(self.sensors.keys())]. *)
Definition get_sensor_ids : PyM World (list string) := pgets (fun w => map fst (w_sensors w)).

(** [get_sensor_by_id(sid)]: [self.sensors.get(sid)]. *)
Definition get_sensor_by_id (sid : string) : PyM World (option Sensor) :=
  pgets (fun w => dget sid (w_sensors w)).

(** ** Frames and totality *)

Section Frames.
Context (env : Env).

Lemma set_next_frame sid n :
respects (sensor_frame sid) (pmodify (fun w => set_next (dset sid n (w_next w)) w)).
Proof.
apply respects_pmodify. intros w. split; [|split].
- unfold trace_grows. simpl. reflexivity.
- intros sid' Hne. simpl. split; [done|by rewrite dget_dset_ne].
- apply shape_kept_same_objects; try done. intros k Hk. simpl.
  rewrite dmem_dset. by case_decide.
Qed.

Lemma set_next_cfg sid n :
respects cfg_kept (pmodify (fun w => set_next (dset sid n (w_next w)) w)).
Proof. apply respects_pmodify. by intros w. Qed.

#[local] Hint Resolve set_next_frame set_next_cfg : py.

Lemma error_handler_frame sid msg : respects (sensor_frame sid) (error_handler env sid msg).
Proof. unfold error_handler. solve_respects. Qed.
Lemma error_handler_cfg sid msg : respects cfg_kept (error_handler env sid msg).
Proof. unfold error_handler. solve_respects. Qed.
Lemma poll_frame sid : respects (sensor_frame sid) (poll env sid).
Proof. unfold poll. solve_respects. Qed.
Lemma poll_cfg sid : respects cfg_kept (poll env sid).
Proof. unfold poll. solve_respects. Qed.

#[local] Hint Resolve error_handler_frame error_handler_cfg poll_frame poll_cfg : py.

Lemma update_one_frame now sid s : respects (sensor_frame sid) (update_one env now sid s).
Proof. unfold update_one. solve_respects. Qed.
Lemma update_one_cfg now sid s : respects cfg_kept (update_one env now sid s).
Proof. unfold update_one. solve_respects. Qed.

Lemma poll_only_exc sid : only_exc (poll env sid).
Proof. unfold poll. solve_only_exc. Qed.

(** [_error_handler] swallows every failure of its body. *)
Lemma error_handler_total sid msg w :
exists w', error_handler env sid msg w = (inr tt, w').
Proof.
unfold error_handler.
match goal with |- exists _, ptry ?c ?h w = _ =>
  destruct (ptry_total c h w) as ([] & w' & E); [solve_only_exc| |by eauto]
end.
intros k m s0. by exists tt, s0.
Qed.

(** The [try] around a poll always completes. *)
Lemma poll_guarded_total sid msg w :
exists w', ptry (poll env sid) (fun _ m => error_handler env sid (msg ++ m)) w = (inr tt, w').
Proof.
destruct (ptry_total (poll env sid) (fun _ m => error_handler env sid (msg ++ m)) w)
  as ([] & w' & E); [apply poll_only_exc| |by eauto].
intros k m s0. destruct (error_handler_total sid (msg ++ m) s0) as (w1 & E1).
by exists tt, w1.
Qed.
End Frames.

#[export] Hint Resolve set_next_frame set_next_cfg error_handler_frame error_handler_cfg
poll_frame poll_cfg update_one_frame update_one_cfg poll_only_exc : py.

(** A report interval that [now + interval] accepts. *)
Definition is_number (v : json) : bool :=
match v with JNum _ | JBool _ => true | _ => false end.

(** The seconds [now + interval] adds. *)
Definition interval_secs (v : json) : Z :=
  match v with JNum n => n | JBool b => if b then 1 else 0 | _ => 0 end.

Lemma py_add_num_secs t v :
  is_number v = true -> py_add_num t v = inr (t + interval_secs v)%Z.
Proof. destruct v; simpl; try discriminate; done. Qed.

Lemma py_add_num_number t v :
is_number v = true -> exists n, py_add_num t v = inr n.
Proof. destruct v; simpl; try discriminate; eauto. Qed.

(** One iteration of the tick completes when the sensor has a timer and
  a numeric report interval, whatever its poll does. *)
Lemma update_one_total env now sid s w :
is_Some (dget sid (w_next w)) -> is_number (interval_of w s) = true ->
exists w', update_one env now sid s w = (inr tt, w').
Proof.
intros [t Ht] Hnum. unfold update_one. rewrite !pbind_pgets, Ht.
destruct (bool_decide (t <= now)%Z); [|by eexists].
destruct (poll_guarded_total env sid "Error during sensor update: " w) as (w1 & E1).
rewrite (pbind_inr _ _ _ _ _ E1).
destruct (py_add_num_number now _ Hnum) as (n & En). rewrite En.
rewrite pbind_of_sum_inr. by eexists.
Qed.

(** ** One iteration on a healthy broker *)

Section Iteration.
Context (env : Env) (Hh : healthy env).

Lemma error_handler_healthy sid s msg w :
dget sid (w_sensors w) = Some s ->
let d := error_data env (w_now w) msg in
let w1 := if BaseSensor.can_publish s d then pub_on_effect s "errors" (JObj d) w else w in
error_handler env sid msg w =
  (inr tt, pub_on_effect (with_state_of SensorState.ERROR s) "state"
             (state_payload SensorState.ERROR)
             (set_sensors (dalter (with_state_of SensorState.ERROR) sid (w_sensors w1)) w1)).
Proof.
intros Hs d w1. unfold error_handler. apply ptry_inr. rewrite pbind_pgets.
rewrite (pbind_inr _ _ _ _ _ (publish_error_healthy env Hh sid s d w Hs)).
apply error_healthy; [done|]. subst w1.
destruct (BaseSensor.can_publish s d); by autorewrite with py_rw.
Qed.

Lemma poll_read_failure sid s w k m :
dget sid (w_sensors w) = Some s -> s_class s = TemperatureHumiditySensorClass ->
env_read env sid (w_now w) = inl (k, m) ->
poll env sid w = (inl (PyExc k m), pub_on_effect s "state" (state_payload (s_state s)) w).
Proof.
intros Hs Hc Hr. unfold poll.
rewrite (pbind_inr _ _ _ _ _ (publish_state_healthy env Hh sid s w Hs)).
erewrite pbind_inl; [done|]. rewrite (read_values_th env sid s); autorewrite with py_rw; try done.
by rewrite Hr.
Qed.

Lemma poll_read_ok sid s w d :
dget sid (w_sensors w) = Some s -> s_class s = TemperatureHumiditySensorClass ->
env_read env sid (w_now w) = inr d ->
let w1 := pub_on_effect s "state" (state_payload (s_state s)) w in
poll env sid w =
  (inr tt, if truthy (JObj d) then
             if BaseSensor.can_publish s d then pub_on_effect s "data" (JObj d) w1 else w1
           else w1).
Proof.
intros Hs Hc Hr w1. unfold poll.
rewrite (pbind_inr _ _ _ _ _ (publish_state_healthy env Hh sid s w Hs)). fold w1.
assert (dget sid (w_sensors w1) = Some s) as Hs1 by (unfold w1; by autorewrite with py_rw).
assert (env_read env sid (w_now w1) = inr d) as Hr1 by (unfold w1; by autorewrite with py_rw).
pose proof (read_values_th env sid s w1 Hs1 Hc) as Hrv. rewrite Hr1 in Hrv.
rewrite (pbind_inr _ _ _ _ _ Hrv).
destruct (truthy (JObj d)); [|done]. by apply publish_data_healthy.
Qed.
End Iteration.

Lemma update_one_due env now sid s w t n w1 :
dget sid (w_next w) = Some t -> (t <= now)%Z -> py_add_num now (interval_of w s) = inr n ->
ptry (poll env sid) (fun _ m => error_handler env sid ("Error during sensor update: " ++ m)) w
  = (inr tt, w1) ->
update_one env now sid s w = (inr tt, set_next (dset sid n (w_next w1)) w1).
Proof.
intros Ht Hle Hn E. unfold update_one. rewrite !pbind_pgets, Ht.
rewrite bool_decide_true by done. rewrite (pbind_inr _ _ _ _ _ E), Hn. done.
Qed.

(** ** Fault isolation in one iteration *)

Section IterationOutcome.
Context (env : Env) (Hh : healthy env).

(** A sensor whose driver raises ends the iteration in [ERROR], its
  timer rescheduled; an ACTIVE sensor with an error topic has
  published [{"timestamp", "error"}] on it. *)
Lemma update_one_read_failure sid s w k m t n :
dget sid (w_sensors w) = Some s -> s_class s = TemperatureHumiditySensorClass ->
env_read env sid (w_now w) = inl (k, m) ->
dget sid (w_next w) = Some t -> (t <= w_now w)%Z ->
py_add_num (w_now w) (interval_of w s) = inr n ->
exists w', update_one env (w_now w) sid s w = (inr tt, w') /\
  dget sid (w_sensors w') = Some (with_state_of SensorState.ERROR s) /\
  dget sid (w_next w') = Some n /\
  (forall et, s_state s = SensorState.ACTIVE -> mq_connected (w_mqtt w) = true ->
     truthy_topic (dget "errors" (sc_publish (sensor_cfg w s))) = Some et ->
     EvPublish et (JObj (error_data env (w_now w) ("Error during sensor update: " ++ m)))
       ∈ w_trace w').
Proof.
intros Hs Hc Hr Ht Hle Hn.
set (w1 := pub_on_effect s "state" (state_payload (s_state s)) w).
assert (dget sid (w_sensors w1) = Some s) as Hs1 by (unfold w1; by autorewrite with py_rw).
assert (w_now w1 = w_now w) as Hnow1 by (unfold w1; by autorewrite with py_rw).
assert (w_cfg w1 = w_cfg w) as Hcfg1 by (unfold w1; by autorewrite with py_rw).
assert (w_mqtt w1 = w_mqtt w) as Hmq1 by (unfold w1; by autorewrite with py_rw).
assert (w_sensors w1 = w_sensors w) as Hsen1 by (unfold w1; by autorewrite with py_rw).
set (msg := ("Error during sensor update: " ++ m)%string).
pose proof (error_handler_healthy env Hh sid s msg w1 Hs1) as Eh. cbv zeta in Eh.
rewrite Hnow1 in Eh.
set (d := error_data env (w_now w) msg) in Eh.
set (w2 := if BaseSensor.can_publish s d then pub_on_effect s "errors" (JObj d) w1 else w1) in Eh.
set (w3 := pub_on_effect _ _ _ _) in Eh.
assert (ptry (poll env sid) (fun _ m0 => error_handler env sid ("Error during sensor update: " ++ m0)) w
        = (inr tt, w3)) as E.
{ rewrite (ptry_exc _ _ _ _ _ _ (poll_read_failure env Hh sid s w k m Hs Hc Hr)). exact Eh. }
exists (set_next (dset sid n (w_next w3)) w3). split; [by eapply update_one_due|].
assert (w_sensors w2 = w_sensors w) as Hs2.
{ unfold w2. destruct (BaseSensor.can_publish s d); autorewrite with py_rw; exact Hsen1. }
split; [|split].
- wsimpl. unfold w3. autorewrite with py_rw. wsimpl. by rewrite Hs2, dget_dalter_eq, Hs.
- wsimpl. by rewrite dget_dset_eq.
- intros et Hact Hcon Het. wsimpl.
  assert (BaseSensor.can_publish s d = true) as Hcp by (apply can_publish_active; [done|discriminate]).
  assert (EvPublish et (JObj d) ∈ w_trace w2) as Hin.
  { unfold w2. rewrite Hcp. apply pub_on_effect_trace.
    - by rewrite (sensor_cfg_same_cfg w w1 s Hcfg1).
    - by rewrite Hmq1. }
  unfold w3. eapply elem_of_prefix; [exact Hin|].
  etrans; [|apply pub_on_effect_prefix]. by wsimpl.
Qed.

(** A sensor whose driver answers publishes its state, then its data
  when it is ACTIVE and the data is not empty; its timer is
  rescheduled and its state kept. *)
Lemma update_one_read_ok sid s w d t n :
dget sid (w_sensors w) = Some s -> s_class s = TemperatureHumiditySensorClass ->
env_read env sid (w_now w) = inr d ->
dget sid (w_next w) = Some t -> (t <= w_now w)%Z ->
py_add_num (w_now w) (interval_of w s) = inr n ->
exists w', update_one env (w_now w) sid s w = (inr tt, w') /\
  dget sid (w_sensors w') = Some s /\
  dget sid (w_next w') = Some n /\
  (forall dt, s_state s = SensorState.ACTIVE -> d <> [] -> mq_connected (w_mqtt w) = true ->
     truthy_topic (dget "data" (sc_publish (sensor_cfg w s))) = Some dt ->
     EvPublish dt (JObj d) ∈ w_trace w').
Proof.
intros Hs Hc Hr Ht Hle Hn.
pose proof (poll_read_ok env Hh sid s w d Hs Hc Hr) as Ep. cbv zeta in Ep.
set (w1 := pub_on_effect s "state" (state_payload (s_state s)) w) in Ep.
set (w2 := if truthy (JObj d) then _ else _) in Ep.
assert (w_sensors w1 = w_sensors w) as Hsen1 by (unfold w1; by autorewrite with py_rw).
assert (w_cfg w1 = w_cfg w) as Hcfg1 by (unfold w1; by autorewrite with py_rw).
assert (w_mqtt w1 = w_mqtt w) as Hmq1 by (unfold w1; by autorewrite with py_rw).
exists (set_next (dset sid n (w_next w2)) w2).
split; [eapply update_one_due; eauto; by apply ptry_inr|].
assert (w_sensors w2 = w_sensors w) as Hs2.
{ unfold w2. destruct (truthy _), (BaseSensor.can_publish s d);
    autorewrite with py_rw; exact Hsen1. }
split; [|split].
- wsimpl. by rewrite Hs2.
- wsimpl. by rewrite dget_dset_eq.
- intros dt Hact Hd Hcon Hdt. wsimpl. unfold w2.
  assert (truthy (JObj d) = true) as Htr by (destruct d; [done|reflexivity]).
  rewrite Htr, can_publish_active by done. apply pub_on_effect_trace.
  + by rewrite (sensor_cfg_same_cfg w w1 s Hcfg1).
  + by rewrite Hmq1.
Qed.
End IterationOutcome.

(** ** One tick *)

(** What a tick needs: distinct sensor ids, each sensor with a timer and
  a numeric report interval. *)
Definition tick_ready (w : World) : Prop :=
NoDup (map fst (w_sensors w)) /\
forall sid s, (sid, s) ∈ w_sensors w ->
  dmem sid (w_next w) = true /\ is_number (interval_of w s) = true.

(** [tick_ready], decided. *)
Definition tick_ready_b (w : World) : bool :=
  bool_decide (NoDup (map fst (w_sensors w))) &&
  forallb (fun '(sid, s) => dmem sid (w_next w) && is_number (interval_of w s)) (w_sensors w).

Lemma tick_ready_b_spec w : tick_ready_b w = true -> tick_ready w.
Proof.
  unfold tick_ready_b, tick_ready. intros [Hnd Hall]%andb_true_iff.
  split; [by apply bool_decide_eq_true in Hnd|].
  intros sid s Hin. rewrite forallb_forall in Hall.
  apply list_elem_of_In in Hin. specialize (Hall _ Hin). simpl in Hall.
  by apply andb_true_iff in Hall.
Qed.

Lemma interval_of_same_cfg w w' s : w_cfg w' = w_cfg w -> interval_of w' s = interval_of w s.
Proof. intros H. unfold interval_of, editable. by rewrite (sensor_cfg_same_cfg w w' s H). Qed.

Lemma dmem_is_Some {A} k (d : list (string * A)) : dmem k d = true -> is_Some (dget k d).
Proof. unfold dmem. destruct (dget k d); [eauto|discriminate]. Qed.

(** [sensor_frame sid'] and [cfg_kept] keep what another sensor's
  iteration relies on. *)
Definition agrees_on (sid : string) (w w1 : World) : Prop :=
w_cfg w1 = w_cfg w /\ w_now w1 = w_now w /\ w_mqtt w1 = w_mqtt w /\
dget sid (w_sensors w1) = dget sid (w_sensors w) /\
dget sid (w_next w1) = dget sid (w_next w).

Lemma agrees_on_step sid sid' w w1 w2 :
sid' <> sid -> sensor_frame sid' w1 w2 -> cfg_kept w1 w2 ->
agrees_on sid w w1 -> agrees_on sid w w2.
Proof.
intros Hne (_ & Hoth & Hsh) Hcfg (H1 & H2 & H3 & H4 & H5).
destruct (Hoth sid ltac:(congruence)) as [Hs Hn].
destruct Hsh as (_ & _ & _ & _ & Hnow & Hmq). unfold cfg_kept in Hcfg.
repeat split; congruence.
Qed.

(** The iteration of one sensor establishes [Post]; the other sensors'
  iterations keep it. *)
Lemma tick_establish env w sid s (Post : World -> Prop) :
tick_ready w -> (sid, s) ∈ w_sensors w ->
(forall sid' w1 w2, sid' <> sid -> sensor_frame sid' w1 w2 -> cfg_kept w1 w2 ->
   Post w1 -> Post w2) ->
(forall w1 w', agrees_on sid w w1 -> update_one env (w_now w) sid s w1 = (inr tt, w') ->
   Post w') ->
forall w', update_sensors env w = (inr tt, w') -> Post w'.
Proof.
intros [Hnd _] Hin Hstab Hstep w'. unfold update_sensors. rewrite !pbind_pgets.
apply (pfor_establish _ _ (sid, s) (agrees_on sid w) Post);
  [by apply NoDup_fst_pairs|done| |by intros w1 w2 HA E; apply (Hstep w1 w2 HA E)|].
- intros [sid' s'] w1 r w2 Hy Hne E.
  assert (sid' <> sid) as Hne' by (eapply fst_ne_of_ne; eauto).
  assert (sensor_frame sid' w1 w2) by (eapply update_one_frame; eauto).
  assert (cfg_kept w1 w2) by (eapply update_one_cfg; eauto).
  split; [intros HA; by apply (agrees_on_step sid sid' w w1 w2)|
          intros HP; by apply (Hstab sid' w1 w2)].
- repeat split.
Qed.

(** A tick runs over every sensor: no sensor's failure stops it. *)
Theorem update_sensors_total env w :
tick_ready w -> exists w', update_sensors env w = (inr tt, w').
Proof.
intros Hready. unfold update_sensors. rewrite !pbind_pgets.
set (I := fun w1 => w_cfg w1 = w_cfg w /\
            forall sid s, (sid, s) ∈ w_sensors w -> dmem sid (w_next w1) = true).
enough (forall x w1, x ∈ w_sensors w -> I w1 ->
          exists w2, (let '(sid, sensor) := x in update_one env (w_now w) sid sensor) w1
                     = (inr tt, w2) /\ I w2) as Hstep.
{ destruct (pfor_total I _ _ Hstep w) as (w' & E & _); [split; [done|apply Hready]|by eauto]. }
intros [sid s] w1 Hin [Hcfg Htim].
destruct (proj2 Hready sid s Hin) as [_ Hnum].
destruct (update_one_total env (w_now w) sid s w1) as (w2 & E2).
{ apply dmem_is_Some. by eapply Htim. }
{ by rewrite (interval_of_same_cfg w w1). }
exists w2. split; [done|split].
- rewrite <- Hcfg. apply (update_one_cfg env (w_now w) sid s w1 _ _ E2).
- intros sid' s' Hin'. destruct (update_one_frame env (w_now w) sid s w1 _ _ E2)
    as (_ & _ & _ & _ & Hk & _).
  apply Hk. by eapply Htim.
Qed.

(** Another sensor's iteration keeps a sensor's object and what the
  trace already holds. *)
Lemma frame_other_sensor sid sid' w1 w2 :
sid' <> sid -> sensor_frame sid' w1 w2 -> dget sid (w_sensors w2) = dget sid (w_sensors w1).
Proof. intros Hne (_ & Hoth & _). by destruct (Hoth sid ltac:(congruence)). Qed.

Lemma frame_trace sid' w1 w2 e :
sensor_frame sid' w1 w2 -> e ∈ w_trace w1 -> e ∈ w_trace w2.
Proof. intros (Htr & _ & _) He. by eapply elem_of_prefix. Qed.

Section Tick.
Context (env : Env) (Hh : healthy env) (w : World) (Hready : tick_ready w).
Context (sid : string) (s : Sensor) (t : Z) (Hin : (sid, s) ∈ w_sensors w)
(Hclass : s_class s = TemperatureHumiditySensorClass)
(Htimer : dget sid (w_next w) = Some t) (Hdue : (t <= w_now w)%Z).

Let Hs : dget sid (w_sensors w) = Some s.
Proof. apply elem_of_dget; [apply Hready|done]. Qed.

Let Hnum : exists n, py_add_num (w_now w) (interval_of w s) = inr n.
Proof. apply py_add_num_number, (proj2 Hready sid s Hin). Qed.

(** The step of [tick_establish], from what [agrees_on] transports. *)
Let step_facts w1 :
agrees_on sid w w1 ->
dget sid (w_sensors w1) = Some s /\ w_now w1 = w_now w /\
interval_of w1 s = interval_of w s /\ sensor_cfg w1 s = sensor_cfg w s /\
w_mqtt w1 = w_mqtt w /\ dget sid (w_next w1) = Some t.
Proof.
intros (Hcfg & Hnow & Hmq & Hs1 & Hn1). rewrite Hs in Hs1. rewrite Htimer in Hn1.
repeat split; try done; [apply interval_of_same_cfg|apply sensor_cfg_same_cfg]; done.
Qed.

Lemma tick_read_failure k m w' :
env_read env sid (w_now w) = inl (k, m) ->
update_sensors env w = (inr tt, w') ->
dget sid (w_sensors w') = Some (with_state_of SensorState.ERROR s) /\
(forall et, s_state s = SensorState.ACTIVE -> mq_connected (w_mqtt w) = true ->
   truthy_topic (dget "errors" (sc_publish (sensor_cfg w s))) = Some et ->
   EvPublish et (JObj (error_data env (w_now w) ("Error during sensor update: " ++ m)))
     ∈ w_trace w').
Proof.
intros Hr E. pattern w'. revert w' E. apply (tick_establish env w sid s); [done|done| |].
- intros sid' w1 w2 Hne Hfr _ [H1 H2].
  split; [by rewrite (frame_other_sensor sid sid' w1 w2)|].
  intros et Ha Hc He. eapply frame_trace; [exact Hfr|by apply H2].
- intros w1 w2 Hag E. destruct (step_facts w1 Hag) as (Hs1 & Hnow & Hint & Hsc & Hmq & Hn1).
  destruct Hnum as [n Hn]. rewrite <- Hint, <- Hnow in Hn.
  rewrite <- Hnow in Hr, Hdue.
  destruct (update_one_read_failure env Hh sid s w1 k m t n Hs1 Hclass Hr Hn1 Hdue Hn)
    as (w3 & E3 & Hst & _ & Htr).
  rewrite <- Hnow in E. rewrite E in E3. injection E3 as <-.
  split; [done|]. intros et Ha Hc He. rewrite <- Hnow. apply Htr; [done|congruence|congruence].
Qed.

Lemma tick_read_ok d w' :
env_read env sid (w_now w) = inr d ->
update_sensors env w = (inr tt, w') ->
dget sid (w_sensors w') = Some s /\
(forall dt, s_state s = SensorState.ACTIVE -> d <> [] -> mq_connected (w_mqtt w) = true ->
   truthy_topic (dget "data" (sc_publish (sensor_cfg w s))) = Some dt ->
   EvPublish dt (JObj d) ∈ w_trace w').
Proof.
intros Hr E. pattern w'. revert w' E. apply (tick_establish env w sid s); [done|done| |].
- intros sid' w1 w2 Hne Hfr _ [H1 H2].
  split; [by rewrite (frame_other_sensor sid sid' w1 w2)|].
  intros dt Ha Hd Hc He. eapply frame_trace; [exact Hfr|by apply H2].
- intros w1 w2 Hag E. destruct (step_facts w1 Hag) as (Hs1 & Hnow & Hint & Hsc & Hmq & Hn1).
  destruct Hnum as [n Hn]. rewrite <- Hint, <- Hnow in Hn.
  rewrite <- Hnow in Hr, Hdue.
  destruct (update_one_read_ok env Hh sid s w1 d t n Hs1 Hclass Hr Hn1 Hdue Hn)
    as (w3 & E3 & Hst & _ & Htr).
  rewrite <- Hnow in E. rewrite E in E3. injection E3 as <-.
  split; [done|]. intros dt Ha Hd Hc He. apply Htr; [done|done|congruence|congruence].
Qed.
End Tick.

(** The whole tick stays within the shape and configuration frames. *)
Lemma update_sensors_shape env : respects shape_kept (update_sensors env).
Proof. unfold update_sensors. solve_respects. Qed.

Lemma update_sensors_cfg env : respects cfg_kept (update_sensors env).
Proof. unfold update_sensors. solve_respects. Qed.

(** A tick keeps what the next tick needs. *)
Lemma update_sensors_keeps_ready env w r w' :
  tick_ready w -> update_sensors env w = (r, w') -> tick_ready w'.
Proof.
  intros [Hnd Hall] E.
  destruct (update_sensors_shape env w r w' E) as (Hk & Hobj & Htim & _).
  pose proof (update_sensors_cfg env w r w' E) as Hcfg. unfold cfg_kept in Hcfg.
  split; [by rewrite Hk|]. intros sid s' Hin'.
  assert (sid ∈ map fst (w_sensors w)) as Hk0.
  { rewrite <- Hk. apply list_elem_of_In, in_map_iff. exists (sid, s').
    split; [done|by apply list_elem_of_In]. }
  apply list_elem_of_In, in_map_iff in Hk0 as ([sid0 s] & Heq & Hin). simpl in Heq. subst sid0.
  apply list_elem_of_In in Hin. destruct (Hall sid s Hin) as [Ht Hn].
  destruct (Hobj sid s (elem_of_dget _ _ _ Hnd Hin)) as (st & Hst).
  assert (NoDup (map fst (w_sensors w'))) as Hnd' by (by rewrite Hk).
  rewrite (elem_of_dget _ _ _ Hnd' Hin') in Hst. injection Hst as ->.
  split; [by apply Htim|].
  unfold interval_of, editable, sensor_cfg in *. by rewrite Hcfg.
Qed.

Lemma update_one_not_due env now sid s w t :
  dget sid (w_next w) = Some t -> (now < t)%Z -> update_one env now sid s w = (inr tt, w).
Proof.
  intros Ht Hlt. unfold update_one. rewrite !pbind_pgets, Ht.
  by rewrite bool_decide_false by lia.
Qed.

(** The timer a tick leaves to one sensor. *)
Lemma tick_timer env w w' sid s t :
  tick_ready w -> dget sid (w_sensors w) = Some s -> dget sid (w_next w) = Some t ->
  update_sensors env w = (inr tt, w') ->
  dget sid (w_next w') =
    Some (if bool_decide (t <= w_now w)%Z then (w_now w + interval_secs (interval_of w s))%Z else t).
Proof.
  intros Hready Hs Ht E. pattern w'. revert w' E.
  apply (tick_establish env w sid s); [done|by apply dget_elem_of| |].
  - intros sid' w1 w2 Hne Hfr _ H1.
    destruct Hfr as (_ & Hoth & _). destruct (Hoth sid ltac:(congruence)) as [_ ->]. done.
  - intros w1 w2 (Hcfg & Hnow & _ & _ & Hn1) E. rewrite Ht in Hn1.
    destruct (bool_decide (t <= w_now w)%Z) eqn:Hle.
    + apply bool_decide_eq_true in Hle.
      destruct (proj2 Hready sid s (dget_elem_of _ _ _ Hs)) as [_ Hnum].
      destruct (poll_guarded_total env sid "Error during sensor update: " w1) as (w3 & E3).
      rewrite (update_one_due env (w_now w) sid s w1 t (w_now w + interval_secs (interval_of w s)) w3)
        in E; [|done|done| |done].
      * injection E as <-. wsimpl. by rewrite dget_dset_eq.
      * rewrite (interval_of_same_cfg w w1 s Hcfg). by apply py_add_num_secs.
    + apply bool_decide_eq_false in Hle.
      rewrite (update_one_not_due env (w_now w) sid s w1 t) in E; [|done|lia].
      by injection E as <-.
Qed.

(** C1. Fault isolation of a scheduler tick
    (src/sensors/sensor_manager.py, [update_sensors] and [_error_handler]).
    When every sensor has a timer and a numeric report interval, a tick
    runs to its end whatever the drivers do.  For a due
    temperature/humidity sensor: if its driver raises, the sensor ends
    the tick in [ERROR] and, if it was ACTIVE with an error topic, the
    payload [{"timestamp", "error"}] was published on that topic; if its
    driver answers with non-empty data, an ACTIVE sensor has published
    that data on its data topic, even when other sensors failed in the
    same tick. *)
Theorem update_sensors_fault_isolation env w sid s t :
  healthy env -> tick_ready_b w = true ->
  dget sid (w_sensors w) = Some s -> s_class s = TemperatureHumiditySensorClass ->
  dget sid (w_next w) = Some t -> (t <= w_now w)%Z ->
  exists w', update_sensors env w = (inr tt, w') /\
    (forall k m, env_read env sid (w_now w) = inl (k, m) ->
       dget sid (w_sensors w') = Some (with_state_of SensorState.ERROR s) /\
       (forall et, s_state s = SensorState.ACTIVE -> mq_connected (w_mqtt w) = true ->
          truthy_topic (dget "errors" (sc_publish (sensor_cfg w s))) = Some et ->
          EvPublish et (JObj (error_data env (w_now w) ("Error during sensor update: " ++ m)))
            ∈ w_trace w')) /\
    (forall d, env_read env sid (w_now w) = inr d ->
       dget sid (w_sensors w') = Some s /\
       (forall dt, s_state s = SensorState.ACTIVE -> d <> [] -> mq_connected (w_mqtt w) = true ->
          truthy_topic (dget "data" (sc_publish (sensor_cfg w s))) = Some dt ->
          EvPublish dt (JObj d) ∈ w_trace w')).
Proof.
  intros Hh Hb Hs Hc Ht Hle. pose proof (tick_ready_b_spec w Hb) as Hready.
  destruct (update_sensors_total env w Hready) as (w' & E).
  exists w'. split; [done|split].
  - intros k m Hr.
    exact (tick_read_failure env Hh w Hready sid s t (dget_elem_of _ _ _ Hs) Hc Ht Hle k m w' Hr E).
  - intros d Hr.
    exact (tick_read_ok env Hh w Hready sid s t (dget_elem_of _ _ _ Hs) Hc Ht Hle d w' Hr E).
Qed.

(** The scenario of spec section 8 on the demo configuration: the DHT11
    of "th1" times out, "th2" still publishes its reading in the same
    tick, and "th1" is in ERROR with its error payload published. *)
Lemma update_sensors_fault_isolation_witness :
  exists w', update_sensors env_demo w_demo = (inr tt, w') /\
    dget "th1" (w_sensors w') = Some (with_state_of SensorState.ERROR s_th1) /\
    EvPublish "node/th1/errors"
      (JObj [("timestamp", JStr "2024-05-01 12:00:00");
             ("error", JStr "Error during sensor update: ETIMEDOUT")]) ∈ w_trace w' /\
    EvPublish "node/th2/data" (JObj [("temperature", JNum 21); ("humidity", JNum 40)])
      ∈ w_trace w'.
Proof.
  destruct (update_sensors_fault_isolation env_demo w_demo "th1" s_th1 100)
    as (w' & E & H1 & _); [intros ?; reflexivity|reflexivity|reflexivity|reflexivity|reflexivity|simpl; lia|].
  destruct (update_sensors_fault_isolation env_demo w_demo "th2" s_th2 100)
    as (w'' & E' & _ & H2); [intros ?; reflexivity|reflexivity|reflexivity|reflexivity|reflexivity|simpl; lia|].
  rewrite E in E'. injection E' as <-.
  destruct (H1 DriverError "ETIMEDOUT" eq_refl) as [Hst Hpub].
  destruct (H2 _ eq_refl) as [_ Hdata].
  exists w'. split; [done|split; [done|split]].
  - apply (Hpub "node/th1/errors"); reflexivity.
  - apply (Hdata "node/th2/data"); [reflexivity|discriminate|reflexivity|reflexivity].
Defined.

(** C2. Rescheduling (src/sensors/sensor_manager.py, [update_sensors]):
    after a tick, every due sensor's next update time is the tick's time
    plus the report interval read from its editable parameters, whether
    its poll succeeded or failed; a sensor that was not due keeps its
    time. *)
Theorem update_sensors_reschedules env w :
  tick_ready_b w = true ->
  exists w', update_sensors env w = (inr tt, w') /\
    forall sid s t, dget sid (w_sensors w) = Some s -> dget sid (w_next w) = Some t ->
      dget sid (w_next w') =
        Some (if bool_decide (t <= w_now w)%Z
              then (w_now w + interval_secs (interval_of w s))%Z else t).
Proof.
  intros Hb. pose proof (tick_ready_b_spec w Hb) as Hready.
  destruct (update_sensors_total env w Hready) as (w' & E).
  exists w'. split; [done|]. intros sid s t Hs Ht. by eapply tick_timer.
Qed.

Lemma update_sensors_reschedules_witness :
  exists w', update_sensors env_demo w_demo = (inr tt, w') /\
    dget "th1" (w_next w') = Some 105%Z /\ dget "th2" (w_next w') = Some 160%Z.
Proof.
  destruct (update_sensors_reschedules env_demo w_demo) as (w' & E & H); [reflexivity|].
  exists w'. split; [done|split].
  - by rewrite (H "th1" s_th1 100%Z).
  - by rewrite (H "th2" s_th2 100%Z).
Defined.

(** C3. No poll before the next update time (spec section 8): after
    a tick at time [now] that polled a sensor, a later tick at any time
    before [now + report_interval] leaves that sensor's object and timer
    as they are, so it is not polled again until its interval has
    elapsed. *)
Theorem sensor_quiet_until_due env w w1 sid s t t' :
  tick_ready_b w = true -> dget sid (w_sensors w) = Some s ->
  dget sid (w_next w) = Some t -> (t <= w_now w)%Z ->
  update_sensors env w = (inr tt, w1) ->
  (t' < w_now w + interval_secs (interval_of w s))%Z ->
  exists w2, update_sensors env (at_time t' w1) = (inr tt, w2) /\
    dget sid (w_sensors w2) = dget sid (w_sensors w1) /\
    dget sid (w_next w2) = dget sid (w_next w1).
Proof.
  intros Hb Hs Ht Hle E1 Hlt. pose proof (tick_ready_b_spec w Hb) as Hready.
  pose proof (tick_timer env w w1 sid s t Hready Hs Ht E1) as Ht1.
  rewrite bool_decide_true in Ht1 by done.
  assert (tick_ready (at_time t' w1)) as Hready1
    by (pose proof (update_sensors_keeps_ready env w _ w1 Hready E1) as [H1 H2]; by split).
  destruct (update_sensors_shape env w _ w1 E1) as (_ & Hobj & _).
  destruct (Hobj sid s Hs) as (st & Hs1).
  destruct (update_sensors_total env _ Hready1) as (w2 & E2).
  exists w2. split; [done|].
  pattern w2. revert w2 E2.
  apply (tick_establish env (at_time t' w1) sid (with_state_of st s)); [done|by apply dget_elem_of| |].
  - intros sid' w3 w4 Hne Hfr _ [H3 H4].
    destruct Hfr as (_ & Hoth & _). destruct (Hoth sid ltac:(congruence)) as [-> ->]. done.
  - intros w3 w4 (_ & Hnow & _ & Hs3 & Hn3) E. simpl in Hnow, Hn3.
    rewrite (update_one_not_due env t' sid _ w3 (w_now w + interval_secs (interval_of w s)))
      in E; [|by rewrite Hn3|lia].
    injection E as <-. by rewrite Hs3, Hn3.
Qed.

Lemma sensor_quiet_until_due_witness :
  exists w1 w2, update_sensors env_demo w_demo = (inr tt, w1) /\
    update_sensors env_demo (at_time 104 w1) = (inr tt, w2) /\
    dget "th1" (w_next w2) = Some 105%Z.
Proof.
  destruct (update_sensors_total env_demo w_demo (tick_ready_b_spec w_demo eq_refl)) as (w1 & E1).
  destruct (sensor_quiet_until_due env_demo w_demo w1 "th1" s_th1 100 104)
    as (w2 & E2 & _ & Hn); [reflexivity|reflexivity|reflexivity|simpl; lia|done|vm_compute; reflexivity|].
  exists w1, w2. split; [done|split; [done|]]. rewrite Hn.
  by rewrite (tick_timer env_demo w_demo w1 "th1" s_th1 100)
    by (try apply (tick_ready_b_spec w_demo); try reflexivity; done).
Defined.
(** ** The timers: a poll never touches them *)

Section Timers.
Context (env : Env).

Lemma publish_state_next sid : respects next_kept (BaseSensor.publish_state env sid).
Proof. apply publish_state_gen; first [apply _|apply next_kept_emit|apply next_kept_state]. Qed.
Lemma publish_data_next sid d : respects next_kept (BaseSensor.publish_data env sid d).
Proof. apply publish_data_gen; first [apply _|apply next_kept_emit|apply next_kept_state]. Qed.
Lemma publish_error_next sid d : respects next_kept (BaseSensor.publish_error env sid d).
Proof. apply publish_error_gen; first [apply _|apply next_kept_emit|apply next_kept_state]. Qed.
Lemma read_values_next sid : respects next_kept (BaseSensor.read_values env sid).
Proof. apply read_values_gen; first [apply _|apply next_kept_emit|apply next_kept_state]. Qed.
Lemma error_next sid : respects next_kept (BaseSensor.error env sid).
Proof. apply error_gen; first [apply _|apply next_kept_emit|apply next_kept_state]. Qed.
#[local] Hint Resolve publish_state_next publish_data_next publish_error_next
  read_values_next error_next : py.

Lemma error_handler_next sid msg : respects next_kept (error_handler env sid msg).
Proof. unfold error_handler. solve_respects. Qed.
#[local] Hint Resolve error_handler_next : py.
Lemma poll_guarded_next sid msg :
  respects next_kept (ptry (poll env sid) (fun _ m => error_handler env sid (msg ++ m))).
Proof. unfold poll. solve_respects. Qed.
End Timers.

Lemma py_add_num_not_number t v :
  is_number v = false -> py_add_num t v = inl (PyExc TypeError "unsupported operand type(s) for +").
Proof. destruct v; simpl; try discriminate; done. Qed.

(** C7. A report interval that is not a number (for instance the
    string of [{"report_interval": "abc"}], which [update_parameter]
    accepts and persists) makes the iteration of a due sensor raise
    [TypeError] at [current_time + interval], after the poll and outside
    its [try]; the timer is not advanced, so every later tick fails the
    same way. *)
Theorem update_one_bad_interval env now sid s w t :
  is_number (interval_of w s) = false -> dget sid (w_next w) = Some t -> (t <= now)%Z ->
  exists w', update_one env now sid s w =
               (inl (PyExc TypeError "unsupported operand type(s) for +"), w') /\
             dget sid (w_next w') = Some t.
Proof.
  intros Hbad Ht Hle. unfold update_one. rewrite !pbind_pgets, Ht, bool_decide_true by done.
  destruct (poll_guarded_total env sid "Error during sensor update: " w) as (w1 & E1).
  exists w1. rewrite (pbind_inr _ _ _ _ _ E1), py_add_num_not_number by done.
  split; [done|]. by rewrite (poll_guarded_next env sid _ w _ w1 E1).
Qed.

(** The bad value arrives on the config topic; the next due tick raises
    out of [update_sensors]. *)
Lemma update_one_bad_interval_witness :
  let w1 := snd (cb env_demo "th1" "node/th1/config"
                   (Some (JObj [("report_interval", JStr "abc")])) w_demo) in
  (exists w', update_one env_demo 200 "th1" s_th1 w1 =
                (inl (PyExc TypeError "unsupported operand type(s) for +"), w') /\
              dget "th1" (w_next w') = Some 100%Z) /\
  fst (update_sensors env_demo (at_time 200 w1)) =
    inl (PyExc TypeError "unsupported operand type(s) for +").
Proof.
  intros w1. split.
  - apply (update_one_bad_interval env_demo 200 "th1" s_th1 w1 100);
      [vm_compute; reflexivity|vm_compute; reflexivity|lia].
  - vm_compute. reflexivity.
Defined.

(** C4. A config message [{"report_interval": n}] for a registered
    sensor writes [n] into its editable parameters when the key is
    editable (and persists it), and in every case moves the sensor's
    timer to [time.time() + n]: the new interval applies from now, not
    from the last poll.  The timer moves even when the parameter was
    refused as not editable. *)
Theorem cb_config_report_interval env sid s topic n w :
  env_save_ok env = true -> dget sid (w_sensors w) = Some s ->
  s_idx s < length (cd_sensors (cfg_doc (w_cfg w))) ->
  str_contains "commands" topic = false -> str_contains "config" topic = true ->
  exists w', cb env sid topic (Some (JObj [("report_interval", JNum n)])) w = (inr tt, w') /\
    dget sid (w_next w') = Some (w_now w + n)%Z /\
    editable w' s = (if dmem "report_interval" (editable w s)
                     then dset "report_interval" (JNum n) (editable w s) else editable w s).
Proof.
  intros Hsave Hs Hlt Hcmd Hcfg. unfold cb. rewrite pbind_pgets, Hs.
  set (w1 := if dmem "report_interval" (editable w s)
             then write_and_save (s_idx s) "report_interval" (JNum n) w else w).
  assert (w_now w1 = w_now w /\
          editable w1 s = (if dmem "report_interval" (editable w s)
                           then dset "report_interval" (JNum n) (editable w s) else editable w s))
    as [Hnow Hed] by (subst w1; destruct (dmem _ _); [by rewrite write_and_save_editable|done]).
  eexists. split; [apply ptry_inr; cbn [loads]; rewrite pbind_of_sum_inr|].
  - unfold handle_message. rewrite Hcmd, Hcfg. cbn [pfor]. cbv beta iota zeta.
    assert ((BaseSensor.update_parameter env sid "report_interval" (JNum n) ;; pskip) w
            = (inr tt, w1)) as E
      by (by rewrite (pbind_inr _ _ _ _ _ (update_parameter_run env sid s _ _ w Hsave Hs))).
    rewrite (pbind_inr _ _ _ _ _ E). cbn. reflexivity.
  - cbn. rewrite dget_dset_eq, Hnow. split; [done|]. unfold editable, sensor_cfg. exact Hed.
Qed.

(** Spec example: the sensor [th1] polled at [t0 = 100] gets
    [{"report_interval": 5}] at [t0 + 10]; its next poll is due at
    [t0 + 15]. *)
Lemma cb_config_report_interval_witness :
  exists w', cb env_demo "th1" "node/th1/config" (Some (JObj [("report_interval", JNum 5)]))
               (at_time 110 w_demo) = (inr tt, w') /\
    dget "th1" (w_next w') = Some (w_now (at_time 110 w_demo) + 5)%Z /\
    editable w' s_th1 = (if dmem "report_interval" (editable (at_time 110 w_demo) s_th1)
                         then dset "report_interval" (JNum 5) (editable (at_time 110 w_demo) s_th1)
                         else editable (at_time 110 w_demo) s_th1).
Proof.
  apply cb_config_report_interval;
    [reflexivity|reflexivity|simpl; lia|vm_compute; reflexivity|vm_compute; reflexivity].
Defined.

End SensorManager.

