(* ===== verification/App.v ===== *)
(** The application (src/app.py, src/main.py): how the components are
    put together.

    [Application.__init__] builds every object from the configuration;
    what the modelled code keeps of those reads is [AppCfg] (the LED
    states, the state topic, the error policy, the armed watchdog, the
    [wifi] section, the system subscribe topics).  [run] makes the
    [STARTUP] transition, sleeps [3] s, initialises the system (Wi-Fi,
    MQTT, system manager, sensors), makes the [ACTIVE] transition and
    loops: feed the watchdog, check Wi-Fi, deliver one pending MQTT
    message, run the scheduler tick, sleep [10] s.  Any ordinary
    exception of the sequence goes to [ErrorHandler.handle_error].

    The [while True] loop does not terminate; [main_loop] runs a given
    number of iterations.  The network's answers for iteration [k] are
    parameters: [station k j] is the [j]-th [isconnected()] poll of the
    iteration ([j = 0] is [check_connection]'s own test), [link k]
    whether the socket read succeeds and [inbound k] the pending
    message.

    [AppInit.init] is [__init__], composed from the constructors of the
    component files ([Logger.init], [ServiceLED.init], [Power.init],
    [Watchdog.init], [error_handler_init], [MQTTManager.init],
    [SensorManager.init], [StateManager.init], [Lifecycle.init],
    [SystemManager.init]): the first [try] block ends in [sys.exit()] on
    an exception, the second in [handle_error].  When that [handle_error]
    returns, the object lacks the attributes the block had not reached:
    [built] records which ([NoLifecycle], [NoSystemManager]), and
    [AppMain.main] ([main.py]) runs [run] on it, failing with the
    [AttributeError] the missing attribute raises, as [run] does.
    [_handle_critical_error] (never called by the code) is
    [Application.handle_critical_error].  The hardware objects the
    constructors create are not modelled. *)

From Stdlib Require Import ZArith String List.
From stdpp Require Import base list strings sets.
From S2P Require Import Prelude States Defaults World Fixtures Config Mqtt Logger ServiceLed Power Watchdog Wifi ErrorHandler System BaseSensor SensorManager.
Import ListNotations.
Local Open Scope py_scope.

(** What the running application keeps from its configuration. *)
Record AppCfg := {
  ac_state_leds : json;            (** [ServiceLED.state_leds] *)
  ac_state_topic : json;           (** [StateManager.publish_state_topic] *)
  ac_eh : ErrorHandlerCfg;         (** the [ErrorHandler]'s policy *)
  ac_wdt : Watchdog.t;             (** the [Watchdog] *)
  ac_wifi : json;                  (** [WiFiManager.config] *)
  ac_sys_subscribe : json;         (** [SystemManager.subscribe_cfg] *)
}.

Module Application.
Section Ops.
Context (env : Env) (ac : AppCfg).
Context (boot_station : nat -> bool) (station : nat -> nat -> bool)
        (link : nat -> bool) (inbound : nat -> option (string * payload)).

(** The callbacks the MQTT manager holds. *)
Definition dispatch (cb : callback) (topic : string) (msg : payload) : PyM World unit :=
match cb with
| CbSensor sid => SensorManager.cb env sid topic msg
| CbSystem => SystemManager.make_cb env topic msg
end.

Definition transition (st : DeviceState.t) : PyM World unit :=
Lifecycle.transition_to env (ac_state_leds ac) (ac_state_topic ac) st.

(** [_initialize_system()] *)
Definition initialize_system : PyM World unit :=
WiFiManager.connect boot_station (ac_wifi ac) ;;
MQTTManager.connect env ;;
SystemManager.initialize env (ac_sys_subscribe ac) ;;
SensorManager.initialize_sensors env (ac_eh ac).

(** One iteration of [while True:]. *)
Definition iteration (k : nat) : PyM World unit :=
Watchdog.feed (ac_wdt ac) ;;
WiFiManager.check_connection (fun j => station k (S j)) (station k 0) (ac_wifi ac) ;;
MQTTManager.check_messages dispatch (link k) (inbound k) ;;
SensorManager.update_sensors env ;;
sleep (JNum 10).

Fixpoint main_loop (k fuel : nat) : PyM World unit :=
match fuel with
| O => pskip
| S fuel' => iteration k ;; main_loop (S k) fuel'
end.

(** [run()], its loop bounded by [fuel] iterations. *)
Definition run (fuel : nat) : PyM World unit :=
ptry (transition DeviceState.STARTUP ;;
      sleep (JNum Defaults.DEFAULT_WAIT_TIME_AFTER_STARTUP) ;;
      initialize_system ;;
      transition DeviceState.ACTIVE ;;
      main_loop 0 fuel)
     (fun _ m => ErrorHandler.handle_error env (ac_eh ac) ("Error during main loop: " ++ m)).

(** [_handle_critical_error(e)], which nothing calls: [service_led]
    exists on every object [__init__] returns, so the [hasattr] test
    holds; the two [log_error] lines are output only. *)
Definition handle_critical_error : PyM World unit :=
ServiceLED.indicate_state (ac_state_leds ac) DeviceState.GLOBAL_ERROR ;;
sleep (JNum Defaults.DEFAULT_WAIT_TIME_AFTER_GLOBAL_ERROR) ;;
praise SystemExit.
End Ops.
End Application.

(** ** Construction: [Application.__init__] *)

(** The objects' state right after construction: the LED off with no
    animation, the Wi-Fi station active, the MQTT manager disconnected without callbacks, no
    sensors and no timers, both device states [INACTIVE]. *)
Definition boot_world (w : World) : World :=
  set_lifecycle DeviceState.INACTIVE (set_sm_state DeviceState.INACTIVE
    (set_sensors [] (set_next []
      (set_mqtt {| mq_connected := false; mq_callbacks := [] |}
        (emit (EvWlanActive true)
          (emit (EvLed off_color) (set_led {| led_pixel := off_color; led_task := None |} w))))))).

(** What [__init__] leaves: every attribute set ([Built]), or, after the
    second block's [except] clause returned, an object without
    [lifecycle] (the block stopped at [MQTTManager], [SensorManager] or
    [StateManager]) or without [system_manager] (it stopped at
    [SystemManager]; the LED states, the state topic, the error handler
    and the [wifi] section exist). *)
Inductive built :=
  | Built (ac : AppCfg)
  | NoLifecycle (eh : ErrorHandlerCfg)
  | NoSystemManager (state_leds state_topic : json) (eh : ErrorHandlerCfg) (wifi : json).

Module AppInit.
Section Ops.
Context (env : Env).

(** The first [try] block of [__init__]: [Logger], [ServiceLED],
    [Power], [Watchdog] and [ErrorHandler] are built from the document;
    the result is what later code keeps of them. *)
Definition init_core (data : list (string * json))
  : PyM World (json * json * Watchdog.t * ErrorHandlerCfg) :=
  let* _ := of_sum (Logger.init (Config.get_logging_config data)) in
  let* state_leds := ServiceLED.init (Config.get_service_led data) in
  let* power_cfg := of_sum (Config.get_system_power_config data) in
  let* _ := of_sum (Power.init power_cfg) in
  let system := Config.get_system_config data in
  let* wd := match system with
             | JObj sys => of_sum (Watchdog.init sys)
             | _ => pthrow AttributeError "object has no attribute 'get'"
             end in
  let* eh := of_sum (error_handler_init system false) in
  pret (state_leds, system, wd, eh).

(** The second block from [SensorManager] to [Lifecycle], after the MQTT
    manager exists and is attached to the error handler; the result is
    the state topic [StateManager] read. *)
Definition init_managers (system : json) : PyM World json :=
  SensorManager.init ;;
  let* st_topic := StateManager.init system in
  Lifecycle.init ;;
  pret st_topic.

(** [Application.__init__] on what [open] and [ujson.load] give for the
    configuration file.  When [Config()] fails, [self.logger] does not
    exist and the [except] clause itself raises [AttributeError].  An
    exception of the first block is logged and ends in [sys.exit()]; one
    of the second goes to [handle_error], with the MQTT manager attached
    once it exists ([WiFiManager] keeps its section and activates the
    station).  When
    [handle_error] returns, [__init__] returns an object without the
    attributes the block did not reach; the block's one [try] is written
    as two, one per attribute [run] needs first ([lifecycle], then
    [system_manager]), with the same handler. *)
Definition init (file : exn + json) : PyM World built :=
  match Config.load_config file with
  | inl _ => pthrow AttributeError "'Application' object has no attribute 'logger'"
  | inr data =>
      let* core := ptry (init_core data) (fun _ _ => praise SystemExit) in
      let '(state_leds, system, wd, eh) := core in
      let fail eh' m := ErrorHandler.handle_error env eh' ("Error during initialization: " ++ m) in
      let* mqtt := ptry (WiFiManager.init ;; MQTTManager.init (Config.get_mqtt_config data) ;; pret true)
        (fun _ m => fail eh m ;; pret false) in
      if mqtt then
        let* lc := ptry (let* st := init_managers system in pret (Some st))
          (fun _ m => fail (attach_mqtt eh) m ;; pret None) in
        match lc with
        | None => pret (NoLifecycle (attach_mqtt eh))
        | Some st_topic =>
            ptry (let* sub := of_sum (SystemManager.init system) in
                  pret (Built {| ac_state_leds := state_leds; ac_state_topic := st_topic;
                                 ac_eh := attach_mqtt eh; ac_wdt := wd;
                                 ac_wifi := Config.get_wifi_config data; ac_sys_subscribe := sub |}))
              (fun _ m => fail (attach_mqtt eh) m ;;
                 pret (NoSystemManager state_leds st_topic (attach_mqtt eh) (Config.get_wifi_config data)))
        end
      else pret (NoLifecycle eh)
  end.
End Ops.
End AppInit.

(** ** The entry point: src/main.py *)

Module AppMain.
Section Ops.
Context (env : Env).
Context (boot_station : nat -> bool) (station : nat -> nat -> bool)
        (link : nat -> bool) (inbound : nat -> option (string * payload)).

(** [main()]: [app = Application()] then [await app.run()], the loop of
    [run] bounded by [fuel] iterations.  On an object without
    [lifecycle], [run]'s first statement raises [AttributeError]; on one
    without [system_manager], [run] makes the [STARTUP] transition,
    sleeps, connects Wi-Fi and MQTT and raises at
    [self.system_manager]; both go to [run]'s [except] clause. *)
Definition main (file : exn + json) (fuel : nat) : PyM World unit :=
  let* b := AppInit.init env file in
  match b with
  | Built ac => Application.run env ac boot_station station link inbound fuel
  | NoLifecycle eh =>
      ErrorHandler.handle_error env eh
        "Error during main loop: 'Application' object has no attribute 'lifecycle'"
  | NoSystemManager state_leds state_topic eh wifi =>
      ptry (Lifecycle.transition_to env state_leds state_topic DeviceState.STARTUP ;;
            sleep (JNum Defaults.DEFAULT_WAIT_TIME_AFTER_STARTUP) ;;
            WiFiManager.connect boot_station wifi ;;
            MQTTManager.connect env ;;
            pthrow AttributeError "'Application' object has no attribute 'system_manager'")
        (fun _ m => ErrorHandler.handle_error env eh ("Error during main loop: " ++ m))
  end.
End Ops.
End AppMain.

(** ** Properties *)

(** The default error policy ([error_handling] absent): no publish, then
    a reset. *)
Lemma handle_error_default env eh msg w :
  eh_error_handling eh = [] ->
  ErrorHandler.handle_error env eh msg w = (inl MachineReset, w).
Proof.
  intros He. unfold ErrorHandler.handle_error, ErrorHandler.publish_policy,
    ErrorHandler.post_global_errors, ErrorHandler.auto_restart_on_error.
  rewrite He. done.
Qed.

(** C12. A state configuration without colour for [STARTUP], under the
    default error policy, makes [run] reset the device before anything
    is initialised: the [STARTUP] transition raises [TypeError], the run
    loop's handler reboots, and the next boot reads the same
    configuration, so the device never gets past start-up. *)
Theorem run_startup_led_error_reboots env ac bs st lk ib fuel kvs w :
  py_get (ac_state_leds ac) "STARTUP" = inr (Some (JObj kvs)) -> kvs <> [] ->
  dget "color" kvs = None -> eh_error_handling (ac_eh ac) = [] ->
  Application.run env ac bs st lk ib fuel w =
    (inl MachineReset, set_sm_state DeviceState.STARTUP (set_lifecycle DeviceState.STARTUP w)).
Proof.
  intros Hsc Hne Hcol He. unfold Application.run, Application.transition.
  rewrite (ptry_exc _ _ _ _ _ _ (pbind_inl _ _ _ _ _
             (transition_to_no_color env _ _ DeviceState.STARTUP kvs w Hsc Hne Hcol))).
  by apply handle_error_default.
Qed.

Definition ac_demo (leds : json) : AppCfg :=
  {| ac_state_leds := leds; ac_state_topic := JStr "node/state";
     ac_eh := error_handler_cfg [] true;
     ac_wdt := {| Watchdog.wd_timeout := JNum 20000; Watchdog.wd_armed := true |};
     ac_wifi := JObj Wifi.wifi_demo; ac_sys_subscribe := JObj [] |}.

Lemma run_startup_led_error_reboots_witness :
  Application.run env_demo (ac_demo leds_no_color) (fun _ => true) (fun _ _ => true)
    (fun _ => true) (fun _ => None) 5 w_demo =
    (inl MachineReset, set_sm_state DeviceState.STARTUP (set_lifecycle DeviceState.STARTUP w_demo)).
Proof.
  apply (run_startup_led_error_reboots _ _ _ _ _ _ _
           [("blink_pattern", JArr [JNum 1]); ("times", JNum 0)]);
    [reflexivity|discriminate|reflexivity|reflexivity].
Defined.

(** [tick_ready] only reads the sensor table, the timers and the
    configuration. *)
Lemma tick_ready_same w w' :
  w_sensors w' = w_sensors w -> w_next w' = w_next w -> w_cfg w' = w_cfg w ->
  SensorManager.tick_ready w -> SensorManager.tick_ready w'.
Proof.
  intros Hs Hn Hc [Hnd Hall]. split; [by rewrite Hs|].
  intros sid s Hin. rewrite Hn, (SensorManager.interval_of_same_cfg w w' s Hc).
  apply Hall. by rewrite <-Hs.
Qed.

Lemma slept_fields i n w :
  w_sensors (slept i n w) = w_sensors w /\ w_next (slept i n w) = w_next w /\
  w_cfg (slept i n w) = w_cfg w /\ w_mqtt (slept i n w) = w_mqtt w.
Proof. revert w. induction n as [|n IH]; intros w; [done|]. cbn [slept]. by rewrite !(proj1 (IH _)), !(proj1 (proj2 (IH _))), !(proj1 (proj2 (proj2 (IH _)))), !(proj2 (proj2 (proj2 (IH _)))). Qed.

(** With the link up and nothing pending, [check_messages] does nothing. *)
Lemma check_messages_idle d w : MQTTManager.check_messages d true None w = (inr tt, w).
Proof. unfold MQTTManager.check_messages, MQTTManager.connected. py_unfold. by destruct (mq_connected _). Qed.

(** A scheduler tick only appends events. *)
Lemma update_sensors_trace env : respects trace_grows (SensorManager.update_sensors env).
Proof.
  unfold SensorManager.update_sensors. solve_respects.
  eapply respects_sensor_frame_trace. apply SensorManager.update_one_frame.
Qed.

(** C11. The watchdog is fed once per loop iteration, and the next feed
    comes [10] seconds later plus the time Wi-Fi reconnection blocked:
    when the link was lost and the [j]-th reconnect poll succeeds, the
    iteration takes [j * interval_seconds + 10] seconds of the clock, all
    of it between two feeds.  A watchdog timeout shorter than that
    resets the device. *)
Theorem iteration_feed_gap env ac st lk ib k cfg rs ssid pwd n i j w :
  ac_wifi ac = JObj cfg ->
  dget "ssid" cfg = Some (JStr ssid) -> dget "password" cfg = Some (JStr pwd) ->
  ssid <> "" /\ pwd <> "" -> dget "reconnect_strategy" cfg = Some (JObj rs) ->
  dget "max_retries" rs = Some (JNum n) -> dget "interval_seconds" rs = Some (JNum i) ->
  (0 < i)%Z /\ (0 <= n)%Z ->
  st k 0 = false -> (j < Z.to_nat n)%nat -> st k (S j) = true ->
  (forall j', (j' < j)%nat -> st k (S j') = false) ->
  lk k = true -> ib k = None -> SensorManager.tick_ready w ->
  exists w', Application.iteration env ac st lk ib k w = (inr tt, w') /\
    (Watchdog.wd_armed (ac_wdt ac) = true -> EvFeed ∈ w_trace w') /\
    w_now w' = (w_now w + Z.of_nat j * i + 10)%Z.
Proof.
  intros Hw Hs Hp Hne Hr Hm Hi Hpos H0 Hj Hup Hbefore Hlk Hib Hready.
  set (w0 := if Watchdog.wd_armed (ac_wdt ac) then emit EvFeed w else w).
  set (w1 := associating ssid pwd w0).
  assert (Watchdog.feed (ac_wdt ac) w = (inr tt, w0)) as Ef
    by (unfold Watchdog.feed, w0; by destruct (Watchdog.wd_armed _)).
  assert (WiFiManager.check_connection (fun j => st k (S j)) (st k 0) (ac_wifi ac) w0
          = (inr tt, slept i j w1)) as Ew.
  { unfold WiFiManager.check_connection. rewrite H0, Hw.
    rewrite (connect_loop _ cfg rs ssid pwd n i) by done.
    by rewrite (pbind_inr _ _ _ _ _ (attempts_found _ i 0 _ j _ Hj Hup Hbefore)). }
  destruct (slept_fields i j w1) as (Fs & Fn & Fc & Fm).
  assert (SensorManager.tick_ready (slept i j w1)) as Hready'
    by (apply (tick_ready_same w); [..|done]; rewrite ?Fs, ?Fn, ?Fc;
        unfold w1, w0; by destruct (Watchdog.wd_armed _)).
  destruct (SensorManager.update_sensors_total env _ Hready') as (w2 & E2).
  destruct (SensorManager.update_sensors_shape env _ _ _ E2) as (_ & _ & _ & _ & Hnow2 & _).
  exists (emit (EvSleep (JNum 10)) (set_now (w_now w2 + Z.max 0 10) w2)).
  unfold Application.iteration.
  rewrite (pbind_inr _ _ _ _ _ Ef), (pbind_inr _ _ _ _ _ Ew), Hlk, Hib,
    (pbind_inr _ _ _ _ _ (check_messages_idle _ _)), (pbind_inr _ _ _ _ _ E2).
  split; [done|]. split.
  - intros Ha. cbn. apply elem_of_app. left.
    apply (elem_of_prefix (w_trace (slept i j w1))); [|exact (update_sensors_trace env _ _ _ E2)].
    rewrite slept_trace. apply elem_of_app. left. unfold w1, w0. rewrite Ha. cbn.
    apply elem_of_app. left. apply elem_of_app. right. by apply list_elem_of_singleton.
  - cbn. rewrite Hnow2, slept_now. unfold w1, w0. destruct (Watchdog.wd_armed _); cbn; lia.
Qed.

Lemma iteration_feed_gap_witness :
  exists w', Application.iteration env_demo (ac_demo leds_full) (fun _ j => Nat.eqb j 2)
               (fun _ => true) (fun _ => None) 0 w_demo = (inr tt, w') /\
    (Watchdog.wd_armed (ac_wdt (ac_demo leds_full)) = true -> EvFeed ∈ w_trace w') /\
    w_now w' = (w_now w_demo + Z.of_nat 1 * 5 + 10)%Z.
Proof.
  apply (iteration_feed_gap env_demo (ac_demo leds_full) _ _ _ 0 Wifi.wifi_demo
           [("max_retries", JNum 3); ("interval_seconds", JNum 5)] "lab" "secret" 3 5 1);
    try reflexivity; try (split; [discriminate|discriminate]); try lia.
  - intros j' Hj'. apply Nat.eqb_neq. lia.
  - apply SensorManager.tick_ready_b_spec. reflexivity.
Defined.

(** ** Construction *)

Section InitCore.
Context (data led sys : list (string * json)) (lg : Logger.t) (pcfg p : json).
Hypothesis Hlog : Logger.init (Config.get_logging_config data) = inr lg.
Hypothesis Hled : Config.get_service_led data = JObj led.
Hypothesis Hpow : Config.get_system_power_config data = inr pcfg.
Hypothesis Hp : Power.init pcfg = inr p.
Hypothesis Hsys : Config.get_system_config data = JObj sys.

(** The reads of the first block up to the watchdog succeed; what
    follows depends on [Watchdog.init] and on the error handler's reads. *)
Lemma init_core_run w :
  AppInit.init_core data w =
    (match Watchdog.init sys with
     | inl e => (inl e, emit (EvLed off_color) (set_led {| led_pixel := off_color; led_task := None |} w))
     | inr wd =>
         match error_handler_init (JObj sys) false with
         | inl e => (inl e, emit (EvLed off_color) (set_led {| led_pixel := off_color; led_task := None |} w))
         | inr eh => (inr (dget_or "state_leds" JNull led, JObj sys, wd, eh),
                      emit (EvLed off_color) (set_led {| led_pixel := off_color; led_task := None |} w))
         end
     end).
Proof.
  unfold AppInit.init_core. rewrite Hlog, pbind_of_sum_inr, Hled.
  rewrite (pbind_inr _ _ _ _ _ (ServiceLED.init_led_obj led w)).
  rewrite Hpow, pbind_of_sum_inr, Hp, pbind_of_sum_inr, Hsys. cbv beta zeta iota.
  destruct (Watchdog.init sys); [done|]. rewrite pbind_of_sum_inr.
  by destruct (error_handler_init (JObj sys) false).
Qed.
End InitCore.

(** C14. Construction composes the constructors: when every
    configuration read of [Logger], [ServiceLED], [Power], [Watchdog],
    [ErrorHandler], [MQTTManager], [StateManager] and [SystemManager]
    succeeds, [Application.__init__] builds the application with exactly
    the values read (the error policy with the MQTT manager attached, the
    clamped watchdog, the state topic, the subscribe topics) and leaves
    the objects in their boot state: the LED off, the MQTT manager
    disconnected, no sensors, both device states [INACTIVE]. *)
Theorem init_builds_app env data lg led pcfg p sys wd eh mq st sub w :
  Logger.init (Config.get_logging_config data) = inr lg ->
  Config.get_service_led data = JObj led ->
  Config.get_system_power_config data = inr pcfg -> Power.init pcfg = inr p ->
  Config.get_system_config data = JObj sys ->
  Watchdog.init sys = inr wd ->
  error_handler_init (JObj sys) false = inr eh ->
  Config.get_mqtt_config data = JObj mq ->
  py_get_path (JObj sys) ["mqtt"; "publish"; "state"] JNull = inr st ->
  SystemManager.init (JObj sys) = inr sub ->
  AppInit.init env (inr (JObj data)) w =
    (inr (Built {| ac_state_leds := dget_or "state_leds" JNull led; ac_state_topic := st;
                  ac_eh := error_handler_cfg sys true; ac_wdt := wd;
                  ac_wifi := Config.get_wifi_config data; ac_sys_subscribe := sub |}),
     boot_world w).
Proof.
  intros Hlog Hled Hpow Hp Hsys Hwd Heh Hmq Hst Hsub.
  pose proof (init_core_run data led sys lg pcfg p Hlog Hled Hpow Hp Hsys w) as Hc.
  rewrite Hwd, Heh in Hc. apply error_handler_init_cfg in Heh as ->.
  unfold AppInit.init, Config.load_config. cbv beta iota.
  rewrite (pbind_inr _ _ _ _ _ (ptry_inr _ _ _ _ _ Hc)). cbv beta iota.
  rewrite Hmq. unfold AppInit.init_managers, StateManager.init. rewrite Hst, Hsub.
  cbv [ptry pbind pret pmodify of_sum pskip WiFiManager.init MQTTManager.init SensorManager.init Lifecycle.init].
  by rewrite py_get_obj.
Qed.

Definition app_sys_demo : list (string * json) :=
  [("watchdog_timeout", JNum 8000);
   ("mqtt", JObj [("publish", JObj [("state", JStr "node/state"); ("errors", JStr "node/errors")]);
                  ("subscribe", JObj [("commands", JStr "node/cmd")])])].

Definition app_led_demo : list (string * json) := [("pin", JNum 16); ("state_leds", JObj [])].

Definition app_data_demo (sys : list (string * json)) : list (string * json) :=
  [("system", JObj sys); ("service_led", JObj app_led_demo);
   ("mqtt", JObj [("server", JStr "broker")]); ("wifi", JObj [])].

Lemma init_builds_app_witness :
  AppInit.init env_demo (inr (JObj (app_data_demo app_sys_demo))) w_demo =
    (inr (Built {| ac_state_leds := dget_or "state_leds" JNull app_led_demo;
                  ac_state_topic := JStr "node/state";
                  ac_eh := error_handler_cfg app_sys_demo true;
                  ac_wdt := {| Watchdog.wd_timeout := JNum 8000; Watchdog.wd_armed := true |};
                  ac_wifi := Config.get_wifi_config (app_data_demo app_sys_demo);
                  ac_sys_subscribe := JObj [("commands", JStr "node/cmd")] |}),
     boot_world w_demo).
Proof.
  eapply (init_builds_app env_demo (app_data_demo app_sys_demo)); vm_compute; reflexivity.
Defined.

(** A string [watchdog_timeout] makes the [Watchdog] constructor raise
    at [> 0]. *)
Lemma watchdog_init_string sys s :
  dget "watchdog_timeout" sys = Some (JStr s) ->
  Watchdog.init sys = inl (PyExc TypeError "'>' not supported").
Proof. intros H. unfold Watchdog.init. by rewrite (dget_or_Some _ _ _ _ H). Qed.

(** C15. A configuration error met by the first block of
    [Application.__init__] (here a string [watchdog_timeout]) ends the
    program with [sys.exit()]: [SystemExit] escapes, the error handler is
    never called (no error published, no restart), and the only effect
    is the LED turned off by [ServiceLED]'s constructor. *)
Theorem init_watchdog_string_exits env data lg led pcfg p sys s w :
  Logger.init (Config.get_logging_config data) = inr lg ->
  Config.get_service_led data = JObj led ->
  Config.get_system_power_config data = inr pcfg -> Power.init pcfg = inr p ->
  Config.get_system_config data = JObj sys ->
  dget "watchdog_timeout" sys = Some (JStr s) ->
  AppInit.init env (inr (JObj data)) w =
    (inl SystemExit,
     emit (EvLed off_color) (set_led {| led_pixel := off_color; led_task := None |} w)).
Proof.
  intros Hlog Hled Hpow Hp Hsys Hs.
  pose proof (init_core_run data led sys lg pcfg p Hlog Hled Hpow Hp Hsys w) as Hc.
  rewrite (watchdog_init_string sys s Hs) in Hc.
  unfold AppInit.init, Config.load_config. cbv beta iota.
  by rewrite (pbind_inl _ _ _ _ _ (ptry_exc _ _ _ _ _ _ Hc)).
Qed.

Lemma init_watchdog_string_exits_witness :
  AppInit.init env_demo (inr (JObj (app_data_demo [("watchdog_timeout", JStr "30")]))) w_demo =
    (inl SystemExit,
     emit (EvLed off_color) (set_led {| led_pixel := off_color; led_task := None |} w_demo)).
Proof.
  eapply (init_watchdog_string_exits env_demo _ _ app_led_demo _ _ [("watchdog_timeout", JStr "30")] "30");
    vm_compute; reflexivity.
Defined.

Lemma py_get_not_dict v k : (forall kvs, v <> JObj kvs) ->
  py_get v k = inl (PyExc AttributeError "object has no attribute 'get'").
Proof. intros H. destruct v; try done. by destruct (H kvs). Qed.

(** An [mqtt] section that is not a dict makes [MQTTManager]'s
    constructor raise; under an error policy that neither publishes nor
    restarts, [__init__] returns an object without [lifecycle]. *)
Lemma init_broken_mqtt env data lg led pcfg p sys wd eh v w :
  Logger.init (Config.get_logging_config data) = inr lg ->
  Config.get_service_led data = JObj led ->
  Config.get_system_power_config data = inr pcfg -> Power.init pcfg = inr p ->
  Config.get_system_config data = JObj sys ->
  Watchdog.init sys = inr wd -> error_handler_init (JObj sys) false = inr eh ->
  ErrorHandler.post_global_errors eh = false -> ErrorHandler.auto_restart_on_error eh = false ->
  Config.get_mqtt_config data = v -> (forall kvs, v <> JObj kvs) ->
  AppInit.init env (inr (JObj data)) w =
    (inr (NoLifecycle eh),
     emit (EvWlanActive true)
       (emit (EvLed off_color) (set_led {| led_pixel := off_color; led_task := None |} w))).
Proof.
  intros Hlog Hled Hpow Hp Hsys Hwd Heh Hpg Har Hmq Hv.
  pose proof (init_core_run data led sys lg pcfg p Hlog Hled Hpow Hp Hsys w) as Hc.
  rewrite Hwd, Heh in Hc.
  unfold AppInit.init, Config.load_config. cbv beta iota.
  rewrite (pbind_inr _ _ _ _ _ (ptry_inr _ _ _ _ _ Hc)). cbv beta iota zeta.
  rewrite Hmq. unfold WiFiManager.init, MQTTManager.init. rewrite (py_get_not_dict v _ Hv).
  cbv [ptry pbind pret pmodify of_sum]. by rewrite handle_error_quiet.
Qed.

(** C38. With an [mqtt] section that is not a dict and an error policy
    that neither publishes nor restarts, [main()] returns normally:
    [__init__]'s [handle_error] returns, [run] raises [AttributeError]
    at [self.lifecycle] and its [handle_error] returns too.  The main
    loop never runs and the watchdog [__init__] armed is never fed; the
    only effects are the LED turned off and the station activated. *)
Theorem main_broken_mqtt_returns env bs st lk ib data lg led pcfg p sys wd eh v fuel w :
  Logger.init (Config.get_logging_config data) = inr lg ->
  Config.get_service_led data = JObj led ->
  Config.get_system_power_config data = inr pcfg -> Power.init pcfg = inr p ->
  Config.get_system_config data = JObj sys ->
  Watchdog.init sys = inr wd -> error_handler_init (JObj sys) false = inr eh ->
  ErrorHandler.post_global_errors eh = false -> ErrorHandler.auto_restart_on_error eh = false ->
  Config.get_mqtt_config data = v -> (forall kvs, v <> JObj kvs) ->
  AppMain.main env bs st lk ib (inr (JObj data)) fuel w =
    (inr tt, emit (EvWlanActive true)
               (emit (EvLed off_color) (set_led {| led_pixel := off_color; led_task := None |} w))).
Proof.
  intros Hlog Hled Hpow Hp Hsys Hwd Heh Hpg Har Hmq Hv. unfold AppMain.main.
  rewrite (pbind_inr _ _ _ _ _ (init_broken_mqtt env data lg led pcfg p sys wd eh v w
    Hlog Hled Hpow Hp Hsys Hwd Heh Hpg Har Hmq Hv)).
  by apply handle_error_quiet.
Qed.

Definition app_sys_quiet : list (string * json) :=
  app_sys_demo ++ [("error_handling", JObj [("post_global_errors", JBool false);
                                            ("auto_restart_on_error", JBool false)])].

Lemma main_broken_mqtt_returns_witness :
  AppMain.main env_demo (fun _ => true) (fun _ _ => true) (fun _ => true) (fun _ => None)
    (inr (JObj [("system", JObj app_sys_quiet); ("service_led", JObj app_led_demo);
                ("mqtt", JStr "broker"); ("wifi", JObj [])])) 3 w_demo =
    (inr tt, emit (EvWlanActive true)
               (emit (EvLed off_color) (set_led {| led_pixel := off_color; led_task := None |} w_demo))).
Proof.
  eapply (main_broken_mqtt_returns env_demo _ _ _ _ _ _ app_led_demo _ _ app_sys_quiet _ _ (JStr "broker"));
    try (vm_compute; reflexivity). intros kvs; discriminate.
Defined.
