(* ===== verification/SensorTable.v ===== *)
(** The well-formedness of the sensor table (src/sensors/sensor_manager.py).

    [SensorManager] keeps two dicts keyed by sensor id: [self.sensors]
    and [self._next_update_times].  [update_sensors] reads
    [self._next_update_times[sid]] outside its [try] for every registered
    sensor, and a sensor object reaches its parameters through its entry
    of the configuration document.  [table_wf] is the typing of the
    table those reads need: every registered sensor is keyed by its own
    id, its entry exists in the document, and it has a timer.

    [initialize_sensors] registers a sensor before subscribing its
    topics and sets its timer last: a subscription that fails in between leaves a registered
    sensor without a timer, and when [handle_error] returns
    ([auto_restart_on_error] off) the next tick raises [KeyError]. *)

From Stdlib Require Import ZArith String List.
From stdpp Require Import base list strings sets.
From S2P Require Import Prelude States Defaults World Fixtures Config Mqtt ServiceLed Power Watchdog Wifi ErrorHandler System BaseSensor SensorManager App.
Import ListNotations.
Local Open Scope py_scope.

(** The table invariant. *)
Definition table_wf (w : World) : Prop :=
  forall sid s, dget sid (w_sensors w) = Some s ->
    s_id s = sid /\ (s_idx s < length (cd_sensors (cfg_doc (w_cfg w))))%nat /\
    dmem sid (w_next w) = true.

(** ** Properties *)

Lemma init_one_subscribe_fail env eh idx sc cls t w :
  resolve_class (sc_module sc) (sc_class sc) = inr cls ->
  env_init_ok env (sc_id sc) = true ->
  truthy_topic (dget "info" (sc_publish sc)) = None ->
  dget "commands" (sc_subscribe sc) = Some t ->
  mq_connected (w_mqtt w) = true -> env_subscribe_ok env t = false ->
  ErrorHandler.post_global_errors eh = false -> ErrorHandler.auto_restart_on_error eh = false ->
  exists w1, SensorManager.init_one env eh idx sc w = (inr tt, w1) /\
    w_sensors w1 = dset (sc_id sc) {| s_id := sc_id sc; s_idx := idx;
                                      s_state := SensorState.ACTIVE; s_class := cls |} (w_sensors w) /\
    w_next w1 = w_next w /\ w_cfg w1 = w_cfg w /\ w_now w1 = w_now w.
Proof.
  intros Hcls Hinit Hinfo Hcmd Hconn Hsub Hp Ha.
  unfold SensorManager.init_one, SensorManager.construct, BaseSensor.init,
    BaseSensor.setup_driver, BaseSensor.initialize, BaseSensor.publish_info,
    SensorManager.subscribe_if, SensorManager.subscribe, MQTTManager.subscribe, MQTTManager.connected.
  rewrite Hcls, Hinfo, Hcmd.
  destruct cls; rewrite ?Hinit;
    cbv [ptry pbind of_sum pret pskip pmodify pgets praise pthrow]; wsimpl;
    rewrite Hconn, Hsub; cbn [negb];
    rewrite handle_error_quiet by done; eexists; repeat split.
Qed.

(** C16. The timer is set after the subscriptions: when the broker
    refuses a sensor's [commands] subscription during
    [initialize_sensors] and the error policy neither publishes nor
    restarts, the sensor stays registered without a timer, the table is
    no longer well formed, and the next scheduler tick raises [KeyError]
    at [self._next_update_times[sid]], outside the per-sensor [try]. *)
Theorem subscribe_failure_orphans_sensor env eh idx sc cls t w :
  w_sensors w = [] -> w_next w = [] ->
  resolve_class (sc_module sc) (sc_class sc) = inr cls ->
  env_init_ok env (sc_id sc) = true ->
  truthy_topic (dget "info" (sc_publish sc)) = None ->
  dget "commands" (sc_subscribe sc) = Some t ->
  mq_connected (w_mqtt w) = true -> env_subscribe_ok env t = false ->
  ErrorHandler.post_global_errors eh = false -> ErrorHandler.auto_restart_on_error eh = false ->
  exists w1, SensorManager.init_one env eh idx sc w = (inr tt, w1) /\
    dmem (sc_id sc) (w_sensors w1) = true /\ ~ table_wf w1 /\
    SensorManager.update_sensors env w1 = (inl (PyExc KeyError (sc_id sc)), w1).
Proof.
  intros Hs0 Hn0 Hcls Hinit Hinfo Hcmd Hconn Hsub Hp Ha.
  destruct (init_one_subscribe_fail env eh idx sc cls t w Hcls Hinit Hinfo Hcmd Hconn Hsub Hp Ha)
    as (w1 & E & Hs & Hn & _ & _).
  rewrite Hs0 in Hs. rewrite Hn0 in Hn. cbn [dset] in Hs.
  exists w1. split; [exact E|]. split; [|split].
  - unfold dmem. rewrite Hs. cbn. by rewrite decide_True.
  - intros Hwf. destruct (Hwf (sc_id sc) _ ltac:(rewrite Hs; cbn; by rewrite decide_True))
      as (_ & _ & Hm). by rewrite Hn in Hm.
  - unfold SensorManager.update_sensors, SensorManager.update_one.
    cbv [pbind pgets pfor of_sum pret pskip pthrow praise]. rewrite Hs, Hn. done.
Qed.

(** A broker that refuses every subscription, and an error policy that
    neither publishes nor restarts. *)
Definition env_sub_refused : Env :=
  {| env_connect_ok := true; env_publish_ok := fun _ => true;
     env_subscribe_ok := fun _ => false; env_save_ok := true;
     env_factory := Some cd_demo; env_init_ok := fun _ => true;
     env_read := env_read env_demo; env_fmt_time := env_fmt_time env_demo |}.

Definition eh_quiet : ErrorHandlerCfg :=
  error_handler_cfg [("error_handling", JObj [("post_global_errors", JBool false);
                                              ("auto_restart_on_error", JBool false)])] true.

Definition w_boot : World := set_sensors [] (set_next [] w_demo).

Lemma subscribe_failure_orphans_sensor_witness :
  exists w1, SensorManager.init_one env_sub_refused eh_quiet 1 sc_th2 w_boot = (inr tt, w1) /\
    dmem "th2" (w_sensors w1) = true /\ ~ table_wf w1 /\
    SensorManager.update_sensors env_sub_refused w1 = (inl (PyExc KeyError "th2"), w1).
Proof.
  apply (subscribe_failure_orphans_sensor env_sub_refused eh_quiet 1 sc_th2
           TemperatureHumiditySensorClass "node/th2/commands"); vm_compute; reflexivity.
Defined.
