(* ===== verification/LedPrototype.v ===== *)
(** The LED prototype of my/tt.py.

    The script is an early version of the firmware's LED path: a
    [ServiceLED] with [indicate_state] and the [_animate_led] task, a
    [StateManager] and a [Lifecycle] that forward a state to it, and an
    [Application] whose [run] makes the transitions STARTUP (three
    times), INITIALIZING and ACTIVE with a hard-coded LED configuration.

    Its [_animate_led] repeats the blink pattern with
    [for _ in range(times)], where the firmware's loops on
    [while times == 0 or iteration < times]: [animate_led] here and
    [ServiceLED.animate_led] of ServiceLed.v give the same pixel writes
    and sleeps for every [times] other than [0], and at [0] the
    prototype does not blink at all where the firmware blinks forever.
    The prototype has no [except Exception]: an exception in the
    animation leaves the task after the [finally] clause ([Failed]).

    The objects' state is the LED ([Led] of World.v: the pixel and the
    current animation task) and [Lifecycle.current_state].  The
    [MockLogger]'s prints and the [asyncio.sleep] delays of [run] are
    not modelled, nor the float durations of the configuration literal:
    [run] is the sequence of its transitions, [main] runs it on the
    objects [Application()] builds, and the animation a task would
    perform is given by [animate_led]. *)

From Stdlib Require Import ZArith String List Lia.
From stdpp Require Import base list strings.
From S2P Require Import Prelude World ServiceLed Wifi.
Import ListNotations.
Local Open Scope py_scope.

Module LedPrototype.

(** [for _ in range(n): for duration in blink_pattern: ...]. *)
Fixpoint passes (c : color) (pattern : json) (n : nat) : list led_step * anim_end :=
  match n with
  | O => ([], Finished)
  | S n' =>
      match py_iter pattern with
      | inl _ => ([], Failed)
      | inr ds =>
          let '(st, ok) := ServiceLED.blink_pass c ds in
          if ok then let '(st', e) := passes c pattern n' in (st ++ st', e)
          else (st, Failed)
      end
  end.

(** [ServiceLED._animate_led(color, blink_pattern, times)]: [range(None)]
    raises before the loop; the [finally] clause writes the off colour. *)
Definition animate_led (c : color) (pattern : json) (times : option json)
    : list led_step * anim_end :=
  let '(st, e) :=
    match times with
    | None => ([], Failed)
    | Some v =>
        match py_range_len v with
        | inl _ => ([], Failed)
        | inr n => passes c pattern n
        end
    end in
  (st ++ [LWrite off_color], e).

(** [ServiceLED.__init__(config, logger)]: [state_leds] as read with
    [config.get], the pixel off, no task. *)
Definition init (config : json) : exn + (option json * Led) :=
  let? _ := py_get config "pin" in
  let? state_leds := py_get config "state_leds" in
  inr (state_leds, {| led_pixel := off_color; led_task := None |}).

(** [ServiceLED.indicate_state(state)]: [self.state_leds] is [None] when
    the configuration had no [state_leds]. *)
Definition indicate_state (state_leds : option json) (state : string) (l : Led) : exn + Led :=
  let? leds := match state_leds with
               | Some v => inr v
               | None => inl (PyExc AttributeError "'NoneType' object has no attribute 'get'")
               end in
  let? state_config := py_get leds state in
  match state_config with
  | Some sc =>
      if negb (truthy sc) then inr l
      else
        let? blink_pattern := py_get sc "blink_pattern" in
        let? color_v := py_get sc "color" in
        let? c := py_tuple color_v in
        let? times := py_get sc "times" in
        match blink_pattern with
        | Some p =>
            if negb (truthy p) || negb (truthy (JArr c)) then inr l
            else inr {| led_pixel := led_pixel l;
                        led_task := Some {| an_color := c; an_pattern := p; an_times := times |} |}
        | None => inr l
        end
  | None => inr l
  end.

(** The prototype's objects: [Lifecycle.current_state] and the LED. *)
Record proto := {
  current_state : string;
  led : Led;
}.

(** [Lifecycle.transition_to(state)]: the state is recorded, then
    [StateManager.handle_state_change] calls [indicate_state]. *)
Definition transition_to (state_leds : option json) (state : string) : PyM proto unit :=
  pmodify (fun p => {| current_state := state; led := led p |}) ;;
  let* l := pgets led in
  let* l' := of_sum (indicate_state state_leds state l) in
  pmodify (fun p => {| current_state := current_state p; led := l' |}).

(** [Application.__init__]: the service LED built on the configuration
    the script writes (a literal whose STARTUP pattern has float
    durations; here the argument [config]), the lifecycle [OFFLINE].
    The result is [self.state_leds] and the objects. *)
Definition app_init (config : json) : exn + (option json * proto) :=
  let? r := init config in
  let '(state_leds, l) := r in
  inr (state_leds, {| current_state := "OFFLINE"; led := l |}).

(** [Application.run()]'s transitions, in order. *)
Definition run (state_leds : option json) : PyM proto unit :=
  transition_to state_leds "STARTUP" ;;
  transition_to state_leds "STARTUP" ;;
  transition_to state_leds "STARTUP" ;;
  transition_to state_leds "INITIALIZING" ;;
  transition_to state_leds "ACTIVE".

(** [asyncio.run(main())]: [Application()] then [await app.run()]; the
    result is the objects when [run] returns. *)
Definition main (config : json) : exn + proto :=
  let? r := app_init config in
  let '(state_leds, p) := r in
  match run state_leds p with
  | (inl e, _) => inl e
  | (inr _, p') => inr p'
  end.

End LedPrototype.

(** * Properties *)

Lemma passes_not_running c p n : snd (LedPrototype.passes c p n) <> Running.
Proof.
  induction n as [|n IH]; cbn; [done|].
  destruct (py_iter p) as [|ds]; [done|]. destruct (ServiceLED.blink_pass c ds) as [st []]; [|done].
  destruct (LedPrototype.passes c p n) as [st' e]. done.
Qed.

(** The firmware's [while] loop, from iteration [i], makes the passes
    the prototype's [range] has left, for a non-zero [times]. *)
Lemma anim_loop_passes c p n i fuel : n <> 0%Z -> (0 <= i)%Z -> (Z.to_nat (n - i) < fuel)%nat ->
  ServiceLED.anim_loop c p (Some (JNum n)) i fuel = LedPrototype.passes c p (Z.to_nat (n - i)).
Proof.
  intros Hn. revert i. induction fuel as [|fuel IH]; intros i Hi Hf; [lia|].
  cbn [ServiceLED.anim_loop]. assert (py_eq_zero (Some (JNum n)) = false) as ->
    by (destruct n; simpl; lia).
  cbn [py_lt]. destruct (Z.ltb_spec i n) as [Hlt|Hge].
  - replace (Z.to_nat (n - i)) with (S (Z.to_nat (n - (i + 1)))) by lia. cbn [LedPrototype.passes].
    destruct (py_iter p) as [|ds]; [done|]. destruct (ServiceLED.blink_pass c ds) as [st []]; [|done].
    rewrite IH by lia. done.
  - replace (Z.to_nat (n - i)) with O by lia. done.
Qed.

(** C36. The prototype's animation is the firmware's for every [times]
    other than [0]: [for _ in range(times)] and
    [while times == 0 or iteration < times] make the same pixel writes
    and sleeps and end the same way, including a negative [times] (no
    pass) and a pattern or colour that makes a pass fail, once the
    firmware's loop is given one test more than it has passes. *)
Theorem animate_led_matches_firmware c p n fuel : n <> 0%Z -> (Z.to_nat n < fuel)%nat ->
  LedPrototype.animate_led c p (Some (JNum n)) = ServiceLED.animate_led c p (Some (JNum n)) fuel.
Proof.
  intros Hn Hf. unfold LedPrototype.animate_led, ServiceLED.animate_led. cbn [py_range_len].
  rewrite anim_loop_passes by (try lia; by rewrite Z.sub_0_r). rewrite Z.sub_0_r.
  pose proof (passes_not_running c p (Z.to_nat n)) as Hr.
  destruct (LedPrototype.passes c p (Z.to_nat n)) as [st []]; done.
Qed.

(** A state entry [indicate_state] accepts without raising: absent, or
    a dict whose colour is a list. *)
Definition entry_ok (v : option json) : Prop :=
  v = None \/ exists kvs cs, v = Some (JObj kvs) /\ dget "color" kvs = Some (JArr cs).

Lemma indicate_state_ok leds st l : entry_ok (dget st leds) ->
  exists l', LedPrototype.indicate_state (Some (JObj leds)) st l = inr l'.
Proof.
  unfold LedPrototype.indicate_state. cbn [sbind]. rewrite py_get_obj. cbn [sbind].
  intros [->|(kvs & cs & -> & Hc)]; [eauto|].
  destruct (negb (truthy (JObj kvs))); [eauto|].
  rewrite !py_get_obj. cbn [sbind]. rewrite Hc. cbn [sbind py_tuple py_iter].
  destruct (dget "blink_pattern" kvs); [|eauto]. destruct (_ || _); eauto.
Qed.

Lemma transition_to_run leds st p l' :
  LedPrototype.indicate_state leds st (LedPrototype.led p) = inr l' ->
  LedPrototype.transition_to leds st p = (inr tt, {| LedPrototype.current_state := st; LedPrototype.led := l' |}).
Proof. intros H. unfold LedPrototype.transition_to, pbind, pmodify, pgets. cbn. by rewrite H. Qed.

Lemma transition_to_ok leds st p : entry_ok (dget st leds) ->
  exists l', LedPrototype.transition_to (Some (JObj leds)) st p =
    (inr tt, {| LedPrototype.current_state := st; LedPrototype.led := l' |}).
Proof.
  intros H. destruct (indicate_state_ok leds st (LedPrototype.led p) H) as (l' & Hl).
  exists l'. by apply transition_to_run.
Qed.

(** [run] from any LED state ends in ACTIVE with the ACTIVE entry's task. *)
Lemma run_active_task leds kvs c ds led0 :
  entry_ok (dget "STARTUP" leds) -> entry_ok (dget "INITIALIZING" leds) ->
  dget "ACTIVE" leds = Some (JObj kvs) -> dget "color" kvs = Some (JArr c) ->
  dget "blink_pattern" kvs = Some (JArr ds) -> ds <> [] -> dget "times" kvs = Some (JNum 0) ->
  valid_pixel c = true -> Forall (fun d => valid_sleep d = true) ds ->
  exists pr, LedPrototype.run (Some (JObj leds))
      {| LedPrototype.current_state := "OFFLINE"; LedPrototype.led := led0 |} = (inr tt, pr) /\
    LedPrototype.current_state pr = "ACTIVE" /\
    led_task (LedPrototype.led pr) =
      Some {| an_color := c; an_pattern := JArr ds; an_times := Some (JNum 0) |} /\
    LedPrototype.animate_led c (JArr ds) (Some (JNum 0)) = ([LWrite off_color], Finished) /\
    forall fuel, ServiceLED.animate_led c (JArr ds) (Some (JNum 0)) fuel =
      (concat (repeat (ServiceLED.blink_steps c ds) fuel), Running).
Proof.
  intros Hs Hi Ha Hc Hp Hds Ht Hpix Hsl.
  destruct kvs as [|kv kvs]; [done|].
  assert (Hact : forall l, LedPrototype.indicate_state (Some (JObj leds)) "ACTIVE" l =
    inr {| led_pixel := led_pixel l;
           led_task := Some {| an_color := c; an_pattern := JArr ds; an_times := Some (JNum 0) |} |}).
  { intros l. unfold LedPrototype.indicate_state. cbn [sbind]. rewrite py_get_obj, Ha.
    cbn [sbind truthy negb]. rewrite !py_get_obj, Hc, Hp, Ht. cbn [sbind py_tuple py_iter].
    destruct ds; [done|]. destruct c; [done|]. reflexivity. }
  unfold LedPrototype.run.
  destruct (transition_to_ok leds "STARTUP" {| LedPrototype.current_state := "OFFLINE";
    LedPrototype.led := led0 |} Hs) as (l1 & H1). rewrite (pbind_inr _ _ _ _ _ H1).
  destruct (transition_to_ok leds "STARTUP" {| LedPrototype.current_state := "STARTUP";
    LedPrototype.led := l1 |} Hs) as (l2 & H2). rewrite (pbind_inr _ _ _ _ _ H2).
  destruct (transition_to_ok leds "STARTUP" {| LedPrototype.current_state := "STARTUP";
    LedPrototype.led := l2 |} Hs) as (l3 & H3). rewrite (pbind_inr _ _ _ _ _ H3).
  destruct (transition_to_ok leds "INITIALIZING" {| LedPrototype.current_state := "STARTUP";
    LedPrototype.led := l3 |} Hi) as (l4 & H4). rewrite (pbind_inr _ _ _ _ _ H4).
  rewrite (transition_to_run _ _ _ _ (Hact _)).
  eexists. split; [reflexivity|]. split; [done|]. split; [done|]. split; [done|].
  intros fuel. unfold ServiceLED.animate_led. by rewrite ServiceLED.anim_loop_forever.
Qed.

(** C37. In the prototype the ACTIVE state never blinks: with the
    configuration's ACTIVE entry [times: 0] (the script's own
    configuration), [main] ends in ACTIVE with the task of that entry,
    whose [for _ in range(0)] makes no pass and only writes the off
    colour, while the firmware's [_animate_led] on the same entry is
    still blinking after any number of loop tests. *)
Theorem run_active_never_blinks pin leds kvs c ds :
  entry_ok (dget "STARTUP" leds) -> entry_ok (dget "INITIALIZING" leds) ->
  dget "ACTIVE" leds = Some (JObj kvs) -> dget "color" kvs = Some (JArr c) ->
  dget "blink_pattern" kvs = Some (JArr ds) -> ds <> [] -> dget "times" kvs = Some (JNum 0) ->
  valid_pixel c = true -> Forall (fun d => valid_sleep d = true) ds ->
  exists pr, LedPrototype.main (JObj [("pin", pin); ("state_leds", JObj leds)]) = inr pr /\
    LedPrototype.current_state pr = "ACTIVE" /\
    led_task (LedPrototype.led pr) =
      Some {| an_color := c; an_pattern := JArr ds; an_times := Some (JNum 0) |} /\
    LedPrototype.animate_led c (JArr ds) (Some (JNum 0)) = ([LWrite off_color], Finished) /\
    forall fuel, ServiceLED.animate_led c (JArr ds) (Some (JNum 0)) fuel =
      (concat (repeat (ServiceLED.blink_steps c ds) fuel), Running).
Proof.
  intros Hs Hi Ha Hc Hp Hds Ht Hpix Hsl.
  destruct (run_active_task leds kvs c ds {| led_pixel := off_color; led_task := None |}
    Hs Hi Ha Hc Hp Hds Ht Hpix Hsl) as (pr & Hrun & Hrest).
  exists pr. split; [|done].
  assert (LedPrototype.app_init (JObj [("pin", pin); ("state_leds", JObj leds)]) =
    inr (Some (JObj leds), {| LedPrototype.current_state := "OFFLINE";
                              LedPrototype.led := {| led_pixel := off_color; led_task := None |} |}))
    as Happ by reflexivity.
  unfold LedPrototype.main. rewrite Happ. cbn [sbind]. by rewrite Hrun.
Qed.

(** * Witnesses *)

Lemma animate_led_matches_firmware_witness :
  LedPrototype.animate_led red (JArr [JNum 1]) (Some (JNum 2)) =
  ServiceLED.animate_led red (JArr [JNum 1]) (Some (JNum 2)) 3.
Proof. apply animate_led_matches_firmware; [discriminate|cbn; lia]. Defined.

(** The script's INITIALIZING and ACTIVE entries (STARTUP has float
    durations). *)
Definition script_leds : list (string * json) :=
  [("INITIALIZING", JObj [("color", JArr [JNum 0; JNum 0; JNum 255]);
                          ("blink_pattern", JArr [JNum 1; JNum 1]); ("times", JNum 3)]);
   ("ACTIVE", JObj [("color", JArr [JNum 0; JNum 255; JNum 0]);
                    ("blink_pattern", JArr [JNum 2; JNum 2]); ("times", JNum 0)])].

Lemma run_active_never_blinks_witness :
  exists pr, LedPrototype.main (JObj [("pin", JNum 28); ("state_leds", JObj script_leds)]) = inr pr /\
    LedPrototype.current_state pr = "ACTIVE" /\
    led_task (LedPrototype.led pr) = Some {| an_color := [JNum 0; JNum 255; JNum 0];
      an_pattern := JArr [JNum 2; JNum 2]; an_times := Some (JNum 0) |} /\
    LedPrototype.animate_led [JNum 0; JNum 255; JNum 0] (JArr [JNum 2; JNum 2]) (Some (JNum 0)) =
      ([LWrite off_color], Finished) /\
    forall fuel, ServiceLED.animate_led [JNum 0; JNum 255; JNum 0] (JArr [JNum 2; JNum 2])
      (Some (JNum 0)) fuel =
      (concat (repeat (ServiceLED.blink_steps [JNum 0; JNum 255; JNum 0] [JNum 2; JNum 2]) fuel), Running).
Proof.
  apply (run_active_never_blinks (JNum 28) script_leds
    [("color", JArr [JNum 0; JNum 255; JNum 0]); ("blink_pattern", JArr [JNum 2; JNum 2]);
     ("times", JNum 0)]); try reflexivity.
  - left. reflexivity.
  - right. do 2 eexists. split; reflexivity.
  - discriminate.
  - repeat constructor.
Defined.
